(** * ololo-gate: token issuing, validation and invalidation

    A shallow embedding of the authentication core of the Go backend
    (packages [utils], [models], [handlers], [middleware]) together with
    small executable models of the library calls it makes
    ([strings.Split], [regexp], [golang-jwt/jwt/v5], GORM queries).

    Conventions.
    - Go [int] is a 64-bit integer: [TokenVersion++] is written with its
      wrap-around ([int_incr]).
    - A [uuid.UUID] is the number its 16 bytes spell.
    - [time.Now()] is an explicit input [now], in nanoseconds since the
      Unix epoch.  A function that mints or validates takes one reading;
      [handlers.RefreshToken], which validates its token twice with a
      database query in between, takes two.
    - [config.AppConfig] is an explicit value [cfg].
    - The cryptographic and text-encoding primitives of the libraries
      (base64url, JSON text, HMAC, bcrypt, [float64] arithmetic) are
      operations of the class [Lib]; what the code relies on about them is
      the class [LibLaws].
    - Log output is not modelled.  A table is a list of rows kept in
      primary-key order.  Whether the database performs a write is an input
      of the handler ([saveErr] and the like, [None] for a nil error); a
      query that fails for a reason other than a missing row is not
      modelled. *)

From Stdlib Require Import String Ascii List ZArith Bool Lia.
From stdpp Require Import base tactics option list countable strings.
Import ListNotations.
Open Scope Z_scope.

(** ** Go runtime conventions *)

Inductive result (E A : Type) : Type :=
| Ok (a : A)
| Err (e : E).
Arguments Ok {E A} a.
Arguments Err {E A} e.

(** A Go call either returns or panics (nil pointer dereference). *)
Inductive Go (A : Type) : Type :=
| Returns (a : A)
| Panics.
Arguments Returns {A} a.
Arguments Panics {A}.

Definition int_min : Z := - 2 ^ 63.
Definition int_max : Z := 2 ^ 63 - 1.

(** Two's-complement wrap-around of a 64-bit [int]. *)
Definition int_wrap (x : Z) : Z := (x + 2 ^ 63) mod 2 ^ 64 - 2 ^ 63.

(** [x++] on an [int]. *)
Definition int_incr (x : Z) : Z := int_wrap (x + 1).

Definition UUID : Type := N.
Definition uuid_Nil : UUID := 0%N.

(** ** Package strings and regexp *)

(** [strings.Split(s, sep)] for a one-byte separator. *)
Fixpoint strings_Split (s : string) (sep : ascii) : list string :=
  match s with
  | EmptyString => [EmptyString]
  | String c rest =>
      if Ascii.eqb c sep then EmptyString :: strings_Split rest sep
      else match strings_Split rest sep with
           | [] => [String c EmptyString]
           | w :: ws => String c w :: ws
           end
  end.

Definition is_digit (c : ascii) : bool :=
  ((48 <=? nat_of_ascii c) && (nat_of_ascii c <=? 57))%nat.

Definition is_nonzero_digit (c : ascii) : bool :=
  ((49 <=? nat_of_ascii c) && (nat_of_ascii c <=? 57))%nat.

(** [phoneRegex.MatchString] for [^\+[1-9]\d{1,14}$]. *)
Definition phoneRegex_MatchString (s : string) : bool :=
  match s with
  | String "+" (String d rest) =>
      is_nonzero_digit d
      && forallb is_digit (list_ascii_of_string rest)
      && ((1 <=? String.length rest) && (String.length rest <=? 14))%nat
  | _ => false
  end.

(** ** JSON values *)

(** A JSON value as [encoding/json] reads it.  A number keeps the way it
    is written, which decides what it unmarshals into: [JNum n] is a number
    written as an integer, [JFrac lit] a number written with a fraction or
    an exponent, kept as its text. *)
#[warning="-register-all"] Inductive JVal : Type :=
| JNull
| JBool (b : bool)
| JNum (n : Z)
| JFrac (lit : string)
| JStr (s : string)
| JArr (a : list JVal)
| JObj (o : list (string * JVal)).

(** The members of an object, in the order of the text; a key may occur
    more than once. *)
Definition JObject : Type := list (string * JVal).

(** [m[k]] on the [map[string]interface{}] an object unmarshals to (the
    header of a token, a [fiber.Map]): keys are compared exactly and the
    map holds the last binding of a key.  Struct fields are not found this
    way, see [json_Unmarshal]. *)
Fixpoint jmap_get (k : string) (o : JObject) : option JVal :=
  match o with
  | [] => None
  | (k', v) :: o' =>
      match jmap_get k o' with
      | Some w => Some w
      | None => if String.eqb k k' then Some v else None
      end
  end.

(** A field tagged [omitempty] holding a pointer. *)
Definition jomit (k : string) (d : option Z) : JObject :=
  match d with
  | Some n => [(k, JNum n)]
  | None => []
  end.

(** *** Unmarshalling into a struct *)

Definition is_lower (c : ascii) : bool :=
  ((97 <=? nat_of_ascii c) && (nat_of_ascii c <=? 122))%nat.

Definition toUpper (c : ascii) : ascii :=
  if is_lower c then ascii_of_nat (nat_of_ascii c - 32) else c.

(** [foldName] of [encoding/json]: the key under which a name is found
    when no field has exactly that name.  ASCII letters go to upper case;
    of the other runes, two fold to an ASCII letter and are replaced by it:
    the Kelvin sign U+212A (bytes 226 132 170) by K and the long s U+017F
    (bytes 197 191) by S.  The remaining bytes are kept as they are: the
    names of the structs unmarshalled here are ASCII, and no other rune
    folds to an ASCII letter. *)
Fixpoint foldName (s : string) : string :=
  match s with
  | EmptyString => EmptyString
  | String c r =>
      match r with
      | String c1 r1 =>
          if Ascii.eqb c "197" && Ascii.eqb c1 "191"
          then String "S" (foldName r1)
          else
            match r1 with
            | String c2 r2 =>
                if Ascii.eqb c "226" && Ascii.eqb c1 "132" && Ascii.eqb c2 "170"
                then String "K" (foldName r2)
                else String (toUpper c) (foldName r)
            | EmptyString => String (toUpper c) (foldName r)
            end
      | EmptyString => String (toUpper c) (foldName r)
      end
  end.

(** A field of a struct as the decoder sees it: its JSON name and the
    storing of a value into it, [None] for a value the field does not
    take. *)
Record Field (C : Type) : Type := {
  Field_name : string;
  Field_store : JVal -> C -> option C
}.
Arguments Field_name {C} f.
Arguments Field_store {C} f v c.

(** The field a key of the object goes to: the one of exactly that name,
    else the first whose folded name is the folded key; none for a key the
    struct does not know, which is skipped. *)
Definition field_for {C : Type} (fields : list (Field C)) (key : string)
  : option (Field C) :=
  match find (fun f => String.eqb (Field_name f) key) fields with
  | Some f => Some f
  | None =>
      find (fun f => String.eqb (foldName (Field_name f)) (foldName key)) fields
  end.

(** [json.Unmarshal] of an object into a struct: the members are stored
    one after the other, so a later member overwrites an earlier one for
    the same field, and one member that its field does not take makes the
    whole call an error. *)
Fixpoint json_Unmarshal {C : Type} (fields : list (Field C)) (o : JObject) (c : C)
  : option C :=
  match o with
  | [] => Some c
  | (k, v) :: o' =>
      match field_for fields k with
      | None => json_Unmarshal fields o' c
      | Some f =>
          match Field_store f v c with
          | None => None
          | Some c' => json_Unmarshal fields o' c'
          end
      end
  end.

(** Storing into a Go [string]: [null] leaves the field as it is. *)
Definition store_string (v : JVal) (old : string) : option string :=
  match v with
  | JNull => Some old
  | JStr s => Some s
  | _ => None
  end.

(** Storing into a Go [int]: only a number written as an integer and
    within the range of the type. *)
Definition store_int (v : JVal) (old : Z) : option Z :=
  match v with
  | JNull => Some old
  | JNum n => if (int_min <=? n) && (n <=? int_max) then Some n else None
  | _ => None
  end.

Definition is_JStr (v : JVal) : bool :=
  match v with
  | JStr _ => true
  | _ => false
  end.

(** The text of a JSON number written as an integer: an optional minus
    sign, then 0 or digits that do not start with 0. *)
Fixpoint digits_value (s : string) (acc : Z) : option Z :=
  match s with
  | EmptyString => Some acc
  | String c r =>
      if is_digit c
      then digits_value r (10 * acc + Z.of_nat (nat_of_ascii c - 48))
      else None
  end.

Definition nat_literal (s : string) : option Z :=
  match s with
  | EmptyString => None
  | String c r =>
      if Ascii.eqb c "0" then (if String.eqb r "" then Some 0 else None)
      else if is_nonzero_digit c then digits_value s 0
      else None
  end.

Definition int_literal (s : string) : option Z :=
  match s with
  | String "-" r => option_map Z.opp (nat_literal r)
  | _ => nat_literal s
  end.

(** ** Library primitives *)

(** The operations the code takes from its libraries without this
    development looking inside them.
    - [b64json_encode o]: [base64.RawURLEncoding] of [json.Marshal o];
    - [b64json_decode s]: the members of the JSON object that the segment
      [s] decodes to, a [null] counting as the object without members;
      [None] when [s] is not base64url or not the text of an object;
    - [b64_encode], [b64_decode]: [base64.RawURLEncoding] on bytes, the
      decoder being the lenient one [DecodeString] is by default;
    - [hmac alg key s]: the bytes of the HMAC of [s] under [key] for the
      HMAC method named [alg];
    - [float_seconds lit]: for the text of a number, the whole seconds of
      the [jwt.NumericDate] made from its [strconv.ParseFloat], a
      [float64] computation; [None] when [lit] is not the text of a JSON
      number or does not fit a [float64];
    - [bcrypt_GenerateFromPassword salt pw]: the salt is the randomness
      the call draws;
    - [bcrypt_CompareHashAndPassword hash pw]: [true] when it returns nil;
    - [uuid_String], [uuid_Parse]: the text form of a UUID and its parser;
    - [duration_seconds d]: [int64(d.Seconds())], a [float64] computation. *)
Class Lib : Type := {
  uuid_String : UUID -> string;
  uuid_Parse : string -> option UUID;
  duration_seconds : Z -> Z;
  float_seconds : string -> option Z;
  b64json_encode : JObject -> string;
  b64json_decode : string -> option JObject;
  b64_encode : string -> string;
  b64_decode : string -> option string;
  hmac : string -> string -> string -> string;
  bcrypt_GenerateFromPassword : string -> string -> option string;
  bcrypt_CompareHashAndPassword : string -> string -> bool
}.

Definition no_char (c : ascii) (s : string) : Prop :=
  Forall (fun x => x <> c) (list_ascii_of_string s).

(** A token segment holds neither the segment separator nor a space. *)
Definition segment_ok (s : string) : Prop :=
  Forall (fun c => c <> "."%char /\ c <> " "%char) (list_ascii_of_string s).

Class LibLaws (L : Lib) : Prop := {
  uuid_Parse_String : forall u, uuid_Parse (uuid_String u) = Some u;
  b64json_decode_encode :
    forall o, b64json_decode (b64json_encode o) = Some o;
  b64json_segment : forall o, segment_ok (b64json_encode o);
  b64_decode_encode : forall b, b64_decode (b64_encode b) = Some b;
  b64_segment : forall b, segment_ok (b64_encode b);
  bcrypt_compare_generate :
    forall salt pw h,
      bcrypt_GenerateFromPassword salt pw = Some h ->
      bcrypt_CompareHashAndPassword h pw = true
}.

(** Storing into a [uuid.UUID], through its [UnmarshalText], which takes
    the texts [uuid.Parse] takes. *)
Definition store_uuid {L : Lib} (v : JVal) (old : UUID) : option UUID :=
  match v with
  | JNull => Some old
  | JStr s => uuid_Parse s
  | _ => None
  end.

(** Storing into a [*jwt.NumericDate]: [null] makes the pointer nil; a
    number is taken through [json.Number], which also takes a string that
    spells a number.  A number written as an integer is taken as it is,
    [float64] holding the whole seconds of every date the program mints
    exactly; one with a fraction or an exponent goes through
    [float_seconds]. *)
Definition store_date {L : Lib} (v : JVal) : option (option Z) :=
  match v with
  | JNull => Some None
  | JNum n => Some (Some n)
  | JFrac lit => option_map Some (float_seconds lit)
  | JStr s =>
      match int_literal s with
      | Some n => Some (Some n)
      | None => option_map Some (float_seconds s)
      end
  | _ => None
  end.

(** ** Package jwt (golang-jwt/jwt/v5) *)

Module jwt.

Inductive Error : Type :=
| ErrTokenMalformed
| ErrTokenUnverifiable
| ErrTokenSignatureInvalid
| ErrTokenExpired
| ErrTokenNotValidYet
| ErrInvalidKeyType.

Inductive SigningMethod : Type :=
| SigningMethodHMAC (alg : string)
| SigningMethodOther (alg : string).

Definition SigningMethodHS256 : SigningMethod := SigningMethodHMAC "HS256".

Definition Alg (m : SigningMethod) : string :=
  match m with
  | SigningMethodHMAC a => a
  | SigningMethodOther a => a
  end.

(** The registered signing methods. *)
Definition GetSigningMethod (alg : string) : option SigningMethod :=
  if existsb (String.eqb alg) ["HS256"; "HS384"; "HS512"]%string
  then Some (SigningMethodHMAC alg)
  else if existsb (String.eqb alg)
            ["RS256"; "RS384"; "RS512"; "ES256"; "ES384"; "ES512";
             "PS256"; "PS384"; "PS512"; "EdDSA"; "none"]%string
  then Some (SigningMethodOther alg)
  else None.

(** The date fields of [jwt.RegisteredClaims], in whole seconds
    ([jwt.TimePrecision]); the issuer, subject, audience and id fields are
    never set nor read by this program. *)
Record RegisteredClaims : Type := {
  ExpiresAt : option Z;
  NotBefore : option Z;
  IssuedAt : option Z
}.

Definition second : Z := 1000000000.

(** [jwt.NewNumericDate(t)]: truncation to the second. *)
Definition NewNumericDate (t : Z) : option Z := Some (t / second).

Definition RegisteredClaims_json (r : RegisteredClaims) : JObject :=
  jomit "exp" (ExpiresAt r) ++ jomit "nbf" (NotBefore r) ++ jomit "iat" (IssuedAt r).

Definition RegisteredClaims_zero : RegisteredClaims :=
  {| ExpiresAt := None; NotBefore := None; IssuedAt := None |}.

Definition set_ExpiresAt (d : option Z) (r : RegisteredClaims) : RegisteredClaims :=
  {| ExpiresAt := d; NotBefore := NotBefore r; IssuedAt := IssuedAt r |}.

Definition set_NotBefore (d : option Z) (r : RegisteredClaims) : RegisteredClaims :=
  {| ExpiresAt := ExpiresAt r; NotBefore := d; IssuedAt := IssuedAt r |}.

Definition set_IssuedAt (d : option Z) (r : RegisteredClaims) : RegisteredClaims :=
  {| ExpiresAt := ExpiresAt r; NotBefore := NotBefore r; IssuedAt := d |}.

(** Storing into [Issuer], [Subject] or [ID], strings this program never
    reads: the value is checked and dropped. *)
Definition check_string {C : Type} (v : JVal) (c : C) : option C :=
  option_map (fun _ => c) (store_string v EmptyString).

(** Storing into [Audience], through [ClaimStrings.UnmarshalJSON]: a
    string or an array of strings. *)
Definition check_ClaimStrings {C : Type} (v : JVal) (c : C) : option C :=
  match v with
  | JNull => Some c
  | JStr _ => Some c
  | JArr a => if forallb is_JStr a then Some c else None
  | _ => None
  end.


(** The default validator: expiry, then not-before; issued-at is not
    checked and no leeway is configured. *)
Definition expired (r : RegisteredClaims) (now : Z) : bool :=
  match ExpiresAt r with
  | Some e => negb (now <? e * second)
  | None => false
  end.

Definition not_valid_yet (r : RegisteredClaims) (now : Z) : bool :=
  match NotBefore r with
  | Some n => now <? n * second
  | None => false
  end.

Definition Validate (r : RegisteredClaims) (now : Z) : option Error :=
  if expired r now then Some ErrTokenExpired
  else if not_valid_yet r now then Some ErrTokenNotValidYet
  else None.

Section WithLib.
Context {L : Lib}.

(** The fields a struct gets from the [RegisteredClaims] it embeds. *)
Definition RegisteredClaims_fields {C : Type} (get : C -> RegisteredClaims)
    (set : RegisteredClaims -> C -> C) : list (Field C) :=
  let date (upd : option Z -> RegisteredClaims -> RegisteredClaims)
           (v : JVal) (c : C) : option C :=
    option_map (fun d => set (upd d (get c)) c) (store_date v) in
  [ {| Field_name := "iss"; Field_store := check_string |};
    {| Field_name := "sub"; Field_store := check_string |};
    {| Field_name := "aud"; Field_store := check_ClaimStrings |};
    {| Field_name := "exp"; Field_store := date set_ExpiresAt |};
    {| Field_name := "nbf"; Field_store := date set_NotBefore |};
    {| Field_name := "iat"; Field_store := date set_IssuedAt |};
    {| Field_name := "jti"; Field_store := check_string |} ]%string.

(** [method.Verify(signingString, sig, key)] with a [[]byte] key: [sig]
    is the decoded signature, compared with the HMAC as bytes. *)
Definition Verify (m : SigningMethod) (signingString sig key : string) : bool :=
  match m with
  | SigningMethodHMAC alg => String.eqb sig (hmac alg key signingString)
  | SigningMethodOther _ => false
  end.

Definition SigningString (m : SigningMethod) (claims : JObject) : string :=
  b64json_encode [("alg", JStr (Alg m)); ("typ", JStr "JWT")]%string
  +:+ "." +:+ b64json_encode claims.

(** [jwt.NewWithClaims(m, claims).SignedString(key)].  With an HMAC
    method and a [[]byte] key signing cannot fail. *)
Definition SignedString (m : SigningMethod) (claims : JObject) (key : string)
  : result Error string :=
  match m with
  | SigningMethodHMAC alg =>
      let sstr := SigningString m claims in
      Ok (sstr +:+ "." +:+ b64_encode (hmac alg key sstr))
  | SigningMethodOther _ => Err ErrInvalidKeyType
  end.

(** [Parser.ParseUnverified]: the claims object of a token, read without
    checking the signature or the dates. *)
Definition ParseUnverified (tokenString : string) : option JObject :=
  match strings_Split tokenString "." with
  | [h; p; sig] =>
      match b64json_decode h, b64json_decode p with
      | Some header, Some payload => Some payload
      | _, _ => None
      end
  | _ => None
  end.

(** [jwt.ParseWithClaims(tokenString, &C{}, keyFunc)]: split, decode the
    header and the claims, resolve the method, decode the signature, ask
    [keyFunc] for the key, verify the signature, validate the registered
    claims.  (Releases before 5.2 ask for the key before they decode the
    signature; the two differ in which error a token failing both gets,
    which this program does not look at.) *)
Definition ParseWithClaims {C : Type}
    (unmarshal : JObject -> option C) (registered : C -> RegisteredClaims)
    (tokenString : string) (keyFunc : SigningMethod -> option string)
    (now : Z) : result Error C :=
  match strings_Split tokenString "." with
  | [h; p; sig] =>
      match b64json_decode h, b64json_decode p with
      | Some header, Some payload =>
          match unmarshal payload with
          | None => Err ErrTokenMalformed
          | Some claims =>
              match jmap_get "alg" header with
              | Some (JStr alg) =>
                  match GetSigningMethod alg with
                  | None => Err ErrTokenUnverifiable
                  | Some m =>
                      match b64_decode sig with
                      | None => Err ErrTokenMalformed
                      | Some signature =>
                          match keyFunc m with
                          | None => Err ErrTokenUnverifiable
                          | Some key =>
                              if Verify m (h +:+ "." +:+ p) signature key then
                                match Validate (registered claims) now with
                                | Some e => Err e
                                | None => Ok claims
                                end
                              else Err ErrTokenSignatureInvalid
                          end
                      end
                  end
              | _ => Err ErrTokenUnverifiable
              end
          end
      | _, _ => Err ErrTokenMalformed
      end
  | _ => Err ErrTokenMalformed
  end.

End WithLib.

End jwt.

(** ** Package config *)

Module config.

Record JWTConfig : Type := {
  Secret : string;
  AccessExpiry : Z;
  RefreshExpiry : Z
}.

(** The identity of the admin made at startup, as the environment
    configures it; the id is still text. *)
Record InitAdminConfig : Type := {
  InitAdminConfig_UUID : string;
  InitAdminConfig_Username : string;
  InitAdminConfig_Password : string
}.

End config.

(** ** Package utils *)

Module utils.

Definition TokenType : Type := string.
Definition AccessToken : TokenType := "access"%string.
Definition RefreshToken : TokenType := "refresh"%string.
Definition AdminToken : TokenType := "admin"%string.

Record Claims : Type := {
  Claims_UserID : UUID;
  Claims_Phone : string;
  Claims_TokenType : TokenType;
  Claims_TokenVersion : Z;
  Claims_RegisteredClaims : jwt.RegisteredClaims
}.

Record TokenPair : Type := {
  TokenPair_AccessToken : string;
  TokenPair_RefreshToken : string
}.

Record AdminClaims : Type := {
  AdminClaims_AdminID : UUID;
  AdminClaims_Username : string;
  AdminClaims_Role : string;
  AdminClaims_TokenType : TokenType;
  AdminClaims_TokenVersion : Z;
  AdminClaims_RegisteredClaims : jwt.RegisteredClaims
}.

(** The errors of the two validators: one passed on from the parser,
    "invalid token" and "invalid token type". *)
Inductive error : Type :=
| jwt_error (e : jwt.Error)
| invalid_token
| invalid_token_type.

Section WithLib.
Context {L : Lib} (cfg : config.JWTConfig).

(** [json.Marshal] of a [Claims] value, by its field tags. *)
Definition Claims_json (c : Claims) : JObject :=
  [("id", JStr (uuid_String (Claims_UserID c)));
   ("phone", JStr (Claims_Phone c));
   ("token_type", JStr (Claims_TokenType c));
   ("token_version", JNum (Claims_TokenVersion c))]%string
  ++ jwt.RegisteredClaims_json (Claims_RegisteredClaims c).

(** [&Claims{}]. *)
Definition Claims_zero : Claims :=
  {| Claims_UserID := uuid_Nil;
     Claims_Phone := EmptyString;
     Claims_TokenType := EmptyString;
     Claims_TokenVersion := 0;
     Claims_RegisteredClaims := jwt.RegisteredClaims_zero |}.

Definition Claims_set_UserID (i : UUID) (c : Claims) : Claims :=
  {| Claims_UserID := i; Claims_Phone := Claims_Phone c;
     Claims_TokenType := Claims_TokenType c;
     Claims_TokenVersion := Claims_TokenVersion c;
     Claims_RegisteredClaims := Claims_RegisteredClaims c |}.

Definition Claims_set_Phone (p : string) (c : Claims) : Claims :=
  {| Claims_UserID := Claims_UserID c; Claims_Phone := p;
     Claims_TokenType := Claims_TokenType c;
     Claims_TokenVersion := Claims_TokenVersion c;
     Claims_RegisteredClaims := Claims_RegisteredClaims c |}.

Definition Claims_set_TokenType (t : TokenType) (c : Claims) : Claims :=
  {| Claims_UserID := Claims_UserID c; Claims_Phone := Claims_Phone c;
     Claims_TokenType := t;
     Claims_TokenVersion := Claims_TokenVersion c;
     Claims_RegisteredClaims := Claims_RegisteredClaims c |}.

Definition Claims_set_TokenVersion (v : Z) (c : Claims) : Claims :=
  {| Claims_UserID := Claims_UserID c; Claims_Phone := Claims_Phone c;
     Claims_TokenType := Claims_TokenType c;
     Claims_TokenVersion := v;
     Claims_RegisteredClaims := Claims_RegisteredClaims c |}.

Definition Claims_set_RegisteredClaims (r : jwt.RegisteredClaims) (c : Claims)
  : Claims :=
  {| Claims_UserID := Claims_UserID c; Claims_Phone := Claims_Phone c;
     Claims_TokenType := Claims_TokenType c;
     Claims_TokenVersion := Claims_TokenVersion c;
     Claims_RegisteredClaims := r |}.

(** The fields of [Claims] by their tags, those of the embedded
    [jwt.RegisteredClaims] after its own. *)
Definition Claims_fields : list (Field Claims) :=
  [ {| Field_name := "id";
       Field_store := fun v c =>
         option_map (fun i => Claims_set_UserID i c)
           (store_uuid v (Claims_UserID c)) |};
    {| Field_name := "phone";
       Field_store := fun v c =>
         option_map (fun p => Claims_set_Phone p c)
           (store_string v (Claims_Phone c)) |};
    {| Field_name := "token_type";
       Field_store := fun v c =>
         option_map (fun t => Claims_set_TokenType t c)
           (store_string v (Claims_TokenType c)) |};
    {| Field_name := "token_version";
       Field_store := fun v c =>
         option_map (fun n => Claims_set_TokenVersion n c)
           (store_int v (Claims_TokenVersion c)) |} ]%string
  ++ jwt.RegisteredClaims_fields Claims_RegisteredClaims Claims_set_RegisteredClaims.

(** [json.Unmarshal(claimBytes, &claims)] for [claims] a [&Claims{}]. *)
Definition Claims_unmarshal (o : JObject) : option Claims :=
  json_Unmarshal Claims_fields o Claims_zero.

Definition AdminClaims_json (c : AdminClaims) : JObject :=
  [("id", JStr (uuid_String (AdminClaims_AdminID c)));
   ("username", JStr (AdminClaims_Username c));
   ("role", JStr (AdminClaims_Role c));
   ("token_type", JStr (AdminClaims_TokenType c));
   ("token_version", JNum (AdminClaims_TokenVersion c))]%string
  ++ jwt.RegisteredClaims_json (AdminClaims_RegisteredClaims c).

(** [&AdminClaims{}]. *)
Definition AdminClaims_zero : AdminClaims :=
  {| AdminClaims_AdminID := uuid_Nil;
     AdminClaims_Username := EmptyString;
     AdminClaims_Role := EmptyString;
     AdminClaims_TokenType := EmptyString;
     AdminClaims_TokenVersion := 0;
     AdminClaims_RegisteredClaims := jwt.RegisteredClaims_zero |}.

Definition AdminClaims_set_AdminID (i : UUID) (c : AdminClaims) : AdminClaims :=
  {| AdminClaims_AdminID := i; AdminClaims_Username := AdminClaims_Username c;
     AdminClaims_Role := AdminClaims_Role c;
     AdminClaims_TokenType := AdminClaims_TokenType c;
     AdminClaims_TokenVersion := AdminClaims_TokenVersion c;
     AdminClaims_RegisteredClaims := AdminClaims_RegisteredClaims c |}.

Definition AdminClaims_set_Username (u : string) (c : AdminClaims) : AdminClaims :=
  {| AdminClaims_AdminID := AdminClaims_AdminID c; AdminClaims_Username := u;
     AdminClaims_Role := AdminClaims_Role c;
     AdminClaims_TokenType := AdminClaims_TokenType c;
     AdminClaims_TokenVersion := AdminClaims_TokenVersion c;
     AdminClaims_RegisteredClaims := AdminClaims_RegisteredClaims c |}.

Definition AdminClaims_set_Role (r : string) (c : AdminClaims) : AdminClaims :=
  {| AdminClaims_AdminID := AdminClaims_AdminID c;
     AdminClaims_Username := AdminClaims_Username c;
     AdminClaims_Role := r;
     AdminClaims_TokenType := AdminClaims_TokenType c;
     AdminClaims_TokenVersion := AdminClaims_TokenVersion c;
     AdminClaims_RegisteredClaims := AdminClaims_RegisteredClaims c |}.

Definition AdminClaims_set_TokenType (t : TokenType) (c : AdminClaims)
  : AdminClaims :=
  {| AdminClaims_AdminID := AdminClaims_AdminID c;
     AdminClaims_Username := AdminClaims_Username c;
     AdminClaims_Role := AdminClaims_Role c;
     AdminClaims_TokenType := t;
     AdminClaims_TokenVersion := AdminClaims_TokenVersion c;
     AdminClaims_RegisteredClaims := AdminClaims_RegisteredClaims c |}.

Definition AdminClaims_set_TokenVersion (v : Z) (c : AdminClaims) : AdminClaims :=
  {| AdminClaims_AdminID := AdminClaims_AdminID c;
     AdminClaims_Username := AdminClaims_Username c;
     AdminClaims_Role := AdminClaims_Role c;
     AdminClaims_TokenType := AdminClaims_TokenType c;
     AdminClaims_TokenVersion := v;
     AdminClaims_RegisteredClaims := AdminClaims_RegisteredClaims c |}.

Definition AdminClaims_set_RegisteredClaims (r : jwt.RegisteredClaims)
    (c : AdminClaims) : AdminClaims :=
  {| AdminClaims_AdminID := AdminClaims_AdminID c;
     AdminClaims_Username := AdminClaims_Username c;
     AdminClaims_Role := AdminClaims_Role c;
     AdminClaims_TokenType := AdminClaims_TokenType c;
     AdminClaims_TokenVersion := AdminClaims_TokenVersion c;
     AdminClaims_RegisteredClaims := r |}.

Definition AdminClaims_fields : list (Field AdminClaims) :=
  [ {| Field_name := "id";
       Field_store := fun v c =>
         option_map (fun i => AdminClaims_set_AdminID i c)
           (store_uuid v (AdminClaims_AdminID c)) |};
    {| Field_name := "username";
       Field_store := fun v c =>
         option_map (fun u => AdminClaims_set_Username u c)
           (store_string v (AdminClaims_Username c)) |};
    {| Field_name := "role";
       Field_store := fun v c =>
         option_map (fun r => AdminClaims_set_Role r c)
           (store_string v (AdminClaims_Role c)) |};
    {| Field_name := "token_type";
       Field_store := fun v c =>
         option_map (fun t => AdminClaims_set_TokenType t c)
           (store_string v (AdminClaims_TokenType c)) |};
    {| Field_name := "token_version";
       Field_store := fun v c =>
         option_map (fun n => AdminClaims_set_TokenVersion n c)
           (store_int v (AdminClaims_TokenVersion c)) |} ]%string
  ++ jwt.RegisteredClaims_fields AdminClaims_RegisteredClaims
       AdminClaims_set_RegisteredClaims.

Definition AdminClaims_unmarshal (o : JObject) : option AdminClaims :=
  json_Unmarshal AdminClaims_fields o AdminClaims_zero.

(** The key function both validators pass to the parser: only HMAC
    methods are accepted. *)
Definition keyFunc (m : jwt.SigningMethod) : option string :=
  match m with
  | jwt.SigningMethodHMAC _ => Some (config.Secret cfg)
  | jwt.SigningMethodOther _ => None
  end.

Definition generateToken (now : Z) (userID : UUID) (phone : string)
    (tokenVersion : Z) (tokenType : TokenType) (expiry : Z)
  : result jwt.Error string :=
  let expiresAt := now + expiry in
  let claims :=
    {| Claims_UserID := userID;
       Claims_Phone := phone;
       Claims_TokenType := tokenType;
       Claims_TokenVersion := tokenVersion;
       Claims_RegisteredClaims :=
         {| jwt.ExpiresAt := jwt.NewNumericDate expiresAt;
            jwt.IssuedAt := jwt.NewNumericDate now;
            jwt.NotBefore := jwt.NewNumericDate now |} |} in
  jwt.SignedString jwt.SigningMethodHS256 (Claims_json claims) (config.Secret cfg).

Definition GenerateTokens (now : Z) (userID : UUID) (phone : string)
    (tokenVersion : Z) : result jwt.Error TokenPair :=
  match generateToken now userID phone tokenVersion AccessToken
          (config.AccessExpiry cfg) with
  | Err e => Err e
  | Ok accessToken =>
      match generateToken now userID phone tokenVersion RefreshToken
              (config.RefreshExpiry cfg) with
      | Err e => Err e
      | Ok refreshToken =>
          Ok {| TokenPair_AccessToken := accessToken;
                TokenPair_RefreshToken := refreshToken |}
      end
  end.

(** [ValidateToken].  When the parser returns no error the token is valid,
    so the "invalid token" branch is not taken.  After the type check the
    function reads [claims.ExpiresAt.Time] for its log line: a token
    without an expiry claim makes that a nil dereference. *)
Definition ValidateToken (now : Z) (tokenString : string)
    (expectedType : TokenType) : Go (result error Claims) :=
  match jwt.ParseWithClaims Claims_unmarshal Claims_RegisteredClaims
          tokenString keyFunc now with
  | Err e => Returns (Err (jwt_error e))
  | Ok claims =>
      if negb (String.eqb (Claims_TokenType claims) expectedType)
      then Returns (Err invalid_token_type)
      else match jwt.ExpiresAt (Claims_RegisteredClaims claims) with
           | None => Panics
           | Some _ => Returns (Ok claims)
           end
  end.

Definition RefreshAccessToken (now : Z) (refreshTokenString : string)
  : Go (result error string) :=
  match ValidateToken now refreshTokenString RefreshToken with
  | Panics => Panics
  | Returns (Err e) => Returns (Err e)
  | Returns (Ok claims) =>
      match generateToken now (Claims_UserID claims) (Claims_Phone claims)
              (Claims_TokenVersion claims) AccessToken (config.AccessExpiry cfg) with
      | Err e => Returns (Err (jwt_error e))
      | Ok accessToken => Returns (Ok accessToken)
      end
  end.

Definition GenerateAdminToken (now : Z) (adminID : UUID) (username role : string)
    (tokenVersion : Z) : result jwt.Error string :=
  let claims :=
    {| AdminClaims_AdminID := adminID;
       AdminClaims_Username := username;
       AdminClaims_Role := role;
       AdminClaims_TokenType := AdminToken;
       AdminClaims_TokenVersion := tokenVersion;
       AdminClaims_RegisteredClaims :=
         {| jwt.ExpiresAt := None;
            jwt.IssuedAt := jwt.NewNumericDate now;
            jwt.NotBefore := jwt.NewNumericDate now |} |} in
  jwt.SignedString jwt.SigningMethodHS256 (AdminClaims_json claims) (config.Secret cfg).

(** [ValidateAdminToken]; its log line reads [claims.IssuedAt.Time]. *)
Definition ValidateAdminToken (now : Z) (tokenString : string)
  : Go (result error AdminClaims) :=
  match jwt.ParseWithClaims AdminClaims_unmarshal AdminClaims_RegisteredClaims
          tokenString keyFunc now with
  | Err e => Returns (Err (jwt_error e))
  | Ok claims =>
      if negb (String.eqb (AdminClaims_TokenType claims) AdminToken)
      then Returns (Err invalid_token_type)
      else match jwt.IssuedAt (AdminClaims_RegisteredClaims claims) with
           | None => Panics
           | Some _ => Returns (Ok claims)
           end
  end.

End WithLib.

End utils.

(** ** Package models *)

Module models.

Definition RoleSuper : string := "super".
Definition RoleRegular : string := "regular".

(** The [CreatedAt] and [UpdatedAt] bookkeeping columns are left out. *)
Record User : Type := {
  User_ID : UUID;
  User_Phone : string;
  User_Password : string;
  User_TokenVersion : Z;
  User_CurrentDeviceID : string;
  User_DeletedAt : option Z
}.

Record Admin : Type := {
  Admin_ID : UUID;
  Admin_Username : string;
  Admin_Password : string;
  Admin_Role : string;
  Admin_TokenVersion : Z;
  Admin_DeletedAt : option Z
}.

Definition User_set_TokenVersion (v : Z) (u : User) : User :=
  {| User_ID := User_ID u; User_Phone := User_Phone u;
     User_Password := User_Password u; User_TokenVersion := v;
     User_CurrentDeviceID := User_CurrentDeviceID u;
     User_DeletedAt := User_DeletedAt u |}.

Definition User_set_CurrentDeviceID (dev : string) (u : User) : User :=
  {| User_ID := User_ID u; User_Phone := User_Phone u;
     User_Password := User_Password u; User_TokenVersion := User_TokenVersion u;
     User_CurrentDeviceID := dev;
     User_DeletedAt := User_DeletedAt u |}.

Definition User_set_Phone (p : string) (u : User) : User :=
  {| User_ID := User_ID u; User_Phone := p;
     User_Password := User_Password u; User_TokenVersion := User_TokenVersion u;
     User_CurrentDeviceID := User_CurrentDeviceID u;
     User_DeletedAt := User_DeletedAt u |}.

Definition User_set_Password (h : string) (u : User) : User :=
  {| User_ID := User_ID u; User_Phone := User_Phone u;
     User_Password := h; User_TokenVersion := User_TokenVersion u;
     User_CurrentDeviceID := User_CurrentDeviceID u;
     User_DeletedAt := User_DeletedAt u |}.

Definition User_set_ID (i : UUID) (u : User) : User :=
  {| User_ID := i; User_Phone := User_Phone u;
     User_Password := User_Password u; User_TokenVersion := User_TokenVersion u;
     User_CurrentDeviceID := User_CurrentDeviceID u;
     User_DeletedAt := User_DeletedAt u |}.

Definition Admin_set_TokenVersion (v : Z) (a : Admin) : Admin :=
  {| Admin_ID := Admin_ID a; Admin_Username := Admin_Username a;
     Admin_Password := Admin_Password a; Admin_Role := Admin_Role a;
     Admin_TokenVersion := v; Admin_DeletedAt := Admin_DeletedAt a |}.

Definition Admin_set_Password (h : string) (a : Admin) : Admin :=
  {| Admin_ID := Admin_ID a; Admin_Username := Admin_Username a;
     Admin_Password := h; Admin_Role := Admin_Role a;
     Admin_TokenVersion := Admin_TokenVersion a; Admin_DeletedAt := Admin_DeletedAt a |}.

Definition Admin_set_Username (n : string) (a : Admin) : Admin :=
  {| Admin_ID := Admin_ID a; Admin_Username := n;
     Admin_Password := Admin_Password a; Admin_Role := Admin_Role a;
     Admin_TokenVersion := Admin_TokenVersion a; Admin_DeletedAt := Admin_DeletedAt a |}.

Definition Admin_set_Role (r : string) (a : Admin) : Admin :=
  {| Admin_ID := Admin_ID a; Admin_Username := Admin_Username a;
     Admin_Password := Admin_Password a; Admin_Role := r;
     Admin_TokenVersion := Admin_TokenVersion a; Admin_DeletedAt := Admin_DeletedAt a |}.

Section WithLib.
Context {L : Lib}.

(** The GORM hook run by [Create]: a fresh id when none is set, then the
    bcrypt hash of the password. *)
Definition User_BeforeCreate (newID : UUID) (salt : string) (u : User)
  : option User :=
  let u1 := if N.eqb (User_ID u) uuid_Nil then User_set_ID newID u else u in
  match bcrypt_GenerateFromPassword salt (User_Password u1) with
  | None => None
  | Some hashedPassword => Some (User_set_Password hashedPassword u1)
  end.

Definition User_CheckPassword (u : User) (password : string) : bool :=
  bcrypt_CompareHashAndPassword (User_Password u) password.

Definition Admin_CheckPassword (a : Admin) (password : string) : bool :=
  bcrypt_CompareHashAndPassword (Admin_Password a) password.

Definition Admin_set_ID (i : UUID) (a : Admin) : Admin :=
  {| Admin_ID := i; Admin_Username := Admin_Username a;
     Admin_Password := Admin_Password a; Admin_Role := Admin_Role a;
     Admin_TokenVersion := Admin_TokenVersion a; Admin_DeletedAt := Admin_DeletedAt a |}.

(** The hook of the admin model: the same two steps as the user's. *)
Definition Admin_BeforeCreate (newID : UUID) (salt : string) (a : Admin)
  : option Admin :=
  let a1 := if N.eqb (Admin_ID a) uuid_Nil then Admin_set_ID newID a else a in
  match bcrypt_GenerateFromPassword salt (Admin_Password a1) with
  | None => None
  | Some hashedPassword => Some (Admin_set_Password hashedPassword a1)
  end.

End WithLib.

End models.

(** ** Package db: the GORM session over the two principal tables *)

Module db.

(** What GORM reads from a model's tags: the primary key, the soft-delete
    column and the columns of its unique index. *)
Class Model (R : Type) : Type := {
  PrimaryKey : R -> UUID;
  DeletedAt : R -> option Z;
  SetDeletedAt : option Z -> R -> R;
  UniqueKey : R -> string
}.

#[global] Instance User_Model : Model models.User := {
  PrimaryKey := models.User_ID;
  DeletedAt := models.User_DeletedAt;
  SetDeletedAt := fun t u =>
    {| models.User_ID := models.User_ID u; models.User_Phone := models.User_Phone u;
       models.User_Password := models.User_Password u;
       models.User_TokenVersion := models.User_TokenVersion u;
       models.User_CurrentDeviceID := models.User_CurrentDeviceID u;
       models.User_DeletedAt := t |};
  UniqueKey := models.User_Phone
}.

#[global] Instance Admin_Model : Model models.Admin := {
  PrimaryKey := models.Admin_ID;
  DeletedAt := models.Admin_DeletedAt;
  SetDeletedAt := fun t a =>
    {| models.Admin_ID := models.Admin_ID a;
       models.Admin_Username := models.Admin_Username a;
       models.Admin_Password := models.Admin_Password a;
       models.Admin_Role := models.Admin_Role a;
       models.Admin_TokenVersion := models.Admin_TokenVersion a;
       models.Admin_DeletedAt := t |};
  UniqueKey := models.Admin_Username
}.

Record DB : Type := {
  users : list models.User;
  admins : list models.Admin
}.

Definition with_users (us : list models.User) (d : DB) : DB :=
  {| users := us; admins := admins d |}.

Definition with_admins (ads : list models.Admin) (d : DB) : DB :=
  {| users := users d; admins := ads |}.

Section Table.
Context {R : Type} {M : Model R}.

(** The soft-delete scope every query carries: [deleted_at IS NULL]. *)
Definition live (r : R) : bool :=
  match DeletedAt r with
  | None => true
  | Some _ => false
  end.

(** [Where(cond).First(&r)]: the first live row, in primary-key order,
    that satisfies the condition; [None] is [ErrRecordNotFound]. *)
Definition First (cond : R -> bool) (t : list R) : option R :=
  find (fun r => live r && cond r) t.

Definition by_id (id : UUID) (r : R) : bool := N.eqb (PrimaryKey r) id.

(** [Save(&r)] of a loaded row: [UPDATE ... WHERE id = ? AND deleted_at
    IS NULL] writing every column.  The handlers save only rows they have
    just loaded, so the insert GORM falls back to when no row is updated is
    not modelled; nor is the [Create] it turns into for a row whose key is
    [uuid.Nil], a key [BeforeCreate] never leaves in a table: the
    properties below are stated for rows that are [keyed]. *)
Definition keyed (r : R) : Prop := PrimaryKey r <> uuid_Nil.

Definition Save (r : R) (t : list R) : list R :=
  map (fun x => if live x && by_id (PrimaryKey r) x then r else x) t.

(** The composite unique index over the identity column and
    [deleted_at]: SQL treats NULLs as distinct, so two rows collide only
    when both are deleted at the same instant. *)
Definition unique_conflict (x r : R) : bool :=
  String.eqb (UniqueKey x) (UniqueKey r)
  && match DeletedAt x, DeletedAt r with
     | Some a, Some b => a =? b
     | _, _ => false
     end.

Fixpoint insert_row (r : R) (t : list R) : list R :=
  match t with
  | [] => [r]
  | x :: t' =>
      if (PrimaryKey r <? PrimaryKey x)%N then r :: x :: t'
      else x :: insert_row r t'
  end.

(** The [INSERT] behind [Create]: rejected on a duplicate primary key or a
    unique-index collision. *)
Definition Insert (r : R) (t : list R) : option (list R) :=
  if existsb (fun x => by_id (PrimaryKey r) x || unique_conflict x r) t
  then None
  else Some (insert_row r t).

(** [Delete(&r)]: the soft delete, [UPDATE ... SET deleted_at = now]. *)
Definition Delete (now : Z) (r : R) (t : list R) : list R :=
  map (fun x => if live x && by_id (PrimaryKey r) x
                then SetDeletedAt (Some now) x else x) t.

End Table.

(** [Select("id", "token_version")]: the other fields stay zero. *)
Definition Select_id_token_version (u : models.User) : models.User :=
  {| models.User_ID := models.User_ID u;
     models.User_Phone := EmptyString;
     models.User_Password := EmptyString;
     models.User_TokenVersion := models.User_TokenVersion u;
     models.User_CurrentDeviceID := EmptyString;
     models.User_DeletedAt := None |}.

Definition by_phone (phone : string) (u : models.User) : bool :=
  String.eqb (models.User_Phone u) phone.

Definition by_username (username : string) (a : models.Admin) : bool :=
  String.eqb (models.Admin_Username a) username.

Section WithLib.
Context {L : Lib}.

(** [DB.Create(&user)]: the [BeforeCreate] hook, then the insert, which
    the database may refuse ([createErr]). *)
Definition Create_User (newID : UUID) (salt : string) (u : models.User)
    (d : DB) (createErr : option string) : option (models.User * DB) :=
  match models.User_BeforeCreate newID salt u with
  | None => None
  | Some u' =>
      match createErr, Insert u' (users d) with
      | None, Some us => Some (u', with_users us d)
      | _, _ => None
      end
  end.

(** [DB.Create(&admin)]. *)
Definition Create_Admin (newID : UUID) (salt : string) (a : models.Admin)
    (d : DB) (createErr : option string) : option (models.Admin * DB) :=
  match models.Admin_BeforeCreate newID salt a with
  | None => None
  | Some a' =>
      match createErr, Insert a' (admins d) with
      | None, Some ads => Some (a', with_admins ads d)
      | _, _ => None
      end
  end.

(** How a startup step ends: [log.Fatalf] exits the process (the message
    is kept without the error it is formatted with). *)
Inductive Startup : Type :=
| Fatal (message : string)
| Started (d : DB).

(** [CreateInitialAdmin]; [adminConfig] is [config.AppConfig.InitAdmin]. *)
Definition CreateInitialAdmin (adminConfig : config.InitAdminConfig) (d : DB)
    (newID : UUID) (salt : string) (createErr : option string) : Startup :=
  match uuid_Parse (config.InitAdminConfig_UUID adminConfig) with
  | None => Fatal "Invalid INIT_ADMIN_UUID format"
  | Some adminUUID =>
      match First (by_id adminUUID) (admins d) with
      | Some existingAdmin => Started d
      | None =>
          let initialAdmin :=
            {| models.Admin_ID := adminUUID;
               models.Admin_Username := config.InitAdminConfig_Username adminConfig;
               models.Admin_Password := config.InitAdminConfig_Password adminConfig;
               models.Admin_Role := models.RoleSuper;
               models.Admin_TokenVersion := 0;
               models.Admin_DeletedAt := None |} in
          match Create_Admin newID salt initialAdmin d createErr with
          | None => Fatal "Failed to create initial admin"
          | Some (_, d') => Started d'
          end
      end
  end.

End WithLib.

End db.

(** ** Package handlers *)

Module handlers.
Import models.

Record Response : Type := {
  Status : Z;
  Success : bool;
  Message : string;
  Data : JObject;
  Warning : option string
}.

(** [c.Status(status).JSON(APIResponse{...})]. *)
Definition APIResponse (status : Z) (success : bool) (message : string)
    (data : JObject) : Response :=
  {| Status := status; Success := success; Message := message;
     Data := data; Warning := None |}.

Definition StatusOK : Z := 200.
Definition StatusCreated : Z := 201.
Definition StatusBadRequest : Z := 400.
Definition StatusUnauthorized : Z := 401.
Definition StatusForbidden : Z := 403.
Definition StatusNotFound : Z := 404.
Definition StatusConflict : Z := 409.
Definition StatusInternalServerError : Z := 500.

Record RegisterRequest : Type := {
  RegisterRequest_Phone : string;
  RegisterRequest_Password : string
}.

Record LoginRequest : Type := {
  LoginRequest_Phone : string;
  LoginRequest_Password : string
}.

Record RefreshRequest : Type := {
  RefreshRequest_RefreshToken : string
}.

Record AdminLoginRequest : Type := {
  AdminLoginRequest_Username : string;
  AdminLoginRequest_Password : string
}.

Record UpdateAdminRequest : Type := {
  UpdateAdminRequest_Password : option string;
  UpdateAdminRequest_Username : option string;
  UpdateAdminRequest_Role : option string
}.

Record UpdateUserRequest : Type := {
  UpdateUserRequest_Phone : string;
  UpdateUserRequest_Password : string;
  UpdateUserRequest_Locations : list (Z * list Z)
}.

Definition nonempty (s : string) : bool := negb (String.eqb s "").

Record CreateUserRequest : Type := {
  CreateUserRequest_Phone : string;
  CreateUserRequest_Password : string;
  CreateUserRequest_Locations : list (Z * list Z)
}.

Record CreateAdminRequest : Type := {
  CreateAdminRequest_Username : string;
  CreateAdminRequest_Password : string;
  CreateAdminRequest_Role : string
}.

Record PhoneAvailabilityResponse : Type := {
  PhoneAvailabilityResponse_Success : bool;
  PhoneAvailabilityResponse_Message : string;
  PhoneAvailabilityResponse_Available : bool
}.

Section WithLib.
Context {L : Lib} (cfg : config.JWTConfig).

(** A request body is [None] when [c.BodyParser] fails.  [newID] and
    [salt] are what [uuid.New] and bcrypt draw. *)
Definition Register (d : db.DB) (body : option RegisterRequest)
    (newID : UUID) (salt : string) (createErr : option string)
  : Response * db.DB :=
  match body with
  | None => (APIResponse StatusBadRequest false "Invalid request body" [], d)
  | Some req =>
      if negb (phoneRegex_MatchString (RegisterRequest_Phone req)) then
        (APIResponse StatusBadRequest false
           "Invalid phone number format. Use international format (e.g., +77771234567)" [], d)
      else if (String.length (RegisterRequest_Password req) <? 6)%nat then
        (APIResponse StatusBadRequest false
           "Password must be at least 6 characters long" [], d)
      else
        match db.First (db.by_phone (RegisterRequest_Phone req)) (db.users d) with
        | Some existingUser =>
            (APIResponse StatusConflict false
               "User with this phone number already exists" [], d)
        | None =>
            let user :=
              {| User_ID := uuid_Nil;
                 User_Phone := RegisterRequest_Phone req;
                 User_Password := RegisterRequest_Password req;
                 User_TokenVersion := 0;
                 User_CurrentDeviceID := "";
                 User_DeletedAt := None |} in
            match db.Create_User newID salt user d createErr with
            | None =>
                (APIResponse StatusInternalServerError false "Failed to create user" [], d)
            | Some (user', d') =>
                (APIResponse StatusCreated true "User registered successfully"
                   [("id", JStr (uuid_String (User_ID user')));
                    ("phone", JStr (User_Phone user'))]%string, d')
            end
        end
  end.

(** The device policy of [Login]: whether this login bumps the version. *)
Definition deviceChanged (user : User) (deviceID : string) : bool :=
  if String.eqb deviceID "" then true
  else nonempty (User_CurrentDeviceID user)
       && negb (String.eqb (User_CurrentDeviceID user) deviceID).

(** [Login]; [q_deviceId] and [q_device_id] are the two query parameters,
    empty when absent. *)
Definition Login (d : db.DB) (now : Z) (body : option LoginRequest)
    (q_deviceId q_device_id : string) (saveErr : option string)
  : Response * db.DB :=
  match body with
  | None => (APIResponse StatusBadRequest false "Invalid request body" [], d)
  | Some req =>
      if negb (phoneRegex_MatchString (LoginRequest_Phone req)) then
        (APIResponse StatusBadRequest false "Invalid phone number format" [], d)
      else
        match db.First (db.by_phone (LoginRequest_Phone req)) (db.users d) with
        | None => (APIResponse StatusUnauthorized false "Invalid credentials" [], d)
        | Some user =>
            if negb (User_CheckPassword user (LoginRequest_Password req)) then
              (APIResponse StatusUnauthorized false "Invalid credentials" [], d)
            else
              let deviceID :=
                if String.eqb q_deviceId "" then q_device_id else q_deviceId in
              let user1 :=
                if deviceChanged user deviceID
                then User_set_TokenVersion (int_incr (User_TokenVersion user)) user
                else user in
              let user2 :=
                if nonempty deviceID then User_set_CurrentDeviceID deviceID user1
                else user1 in
              match saveErr with
              | Some _ =>
                  (APIResponse StatusInternalServerError false
                     "Failed to update user token version" [], d)
              | None =>
                  let d' := db.with_users (db.Save user2 (db.users d)) d in
                  match utils.GenerateTokens cfg now (User_ID user2)
                          (User_Phone user2) (User_TokenVersion user2) with
                  | Err _ =>
                      (APIResponse StatusInternalServerError false
                         "Failed to generate tokens" [], d')
                  | Ok tokens =>
                      (APIResponse StatusOK true "Login successful"
                         [("id", JStr (uuid_String (User_ID user2)));
                          ("phone", JStr (User_Phone user2));
                          ("access_token",
                            JStr (utils.TokenPair_AccessToken tokens));
                          ("refresh_token",
                            JStr (utils.TokenPair_RefreshToken tokens));
                          ("access_expires_in",
                            JNum (duration_seconds (config.AccessExpiry cfg)));
                          ("refresh_expires_in",
                            JNum (duration_seconds (config.RefreshExpiry cfg)))]%string,
                       d')
                  end
              end
        end
  end.

(** [RefreshToken].  The handler validates the token, looks the user up,
    and then calls [utils.RefreshAccessToken], which validates the token
    once more: [now] is the clock at the first validation, [now'] the clock
    at the second.  A token that passes the first and not the second (it
    expired in between) gets the 500 answer. *)
Definition RefreshToken (d : db.DB) (now now' : Z) (body : option RefreshRequest)
  : Go (Response * db.DB) :=
  match body with
  | None => Returns (APIResponse StatusBadRequest false "Invalid request body" [], d)
  | Some req =>
      match utils.ValidateToken cfg now (RefreshRequest_RefreshToken req)
              utils.RefreshToken with
      | Panics => Panics
      | Returns (Err _) =>
          Returns (APIResponse StatusUnauthorized false
                     "Invalid or expired refresh token" [], d)
      | Returns (Ok claims) =>
          match option_map db.Select_id_token_version
                  (db.First (db.by_id (utils.Claims_UserID claims)) (db.users d)) with
          | None =>
              Returns (APIResponse StatusUnauthorized false "User not found" [], d)
          | Some user =>
              if negb (User_TokenVersion user =? utils.Claims_TokenVersion claims) then
                Returns (APIResponse StatusUnauthorized false
                           "Token has been invalidated. Please login again." [], d)
              else
                match utils.RefreshAccessToken cfg now'
                        (RefreshRequest_RefreshToken req) with
                | Panics => Panics
                | Returns (Err _) =>
                    Returns (APIResponse StatusInternalServerError false
                               "Failed to generate access token" [], d)
                | Returns (Ok accessToken) =>
                    Returns (APIResponse StatusOK true "Token refreshed successfully"
                               [("access_token", JStr accessToken)]%string, d)
                end
          end
      end
  end.

Definition AdminLogin (d : db.DB) (now : Z) (body : option AdminLoginRequest)
    (saveErr : option string) : Response * db.DB :=
  match body with
  | None => (APIResponse StatusBadRequest false "Invalid request body" [], d)
  | Some req =>
      if String.eqb (AdminLoginRequest_Username req) ""
         || String.eqb (AdminLoginRequest_Password req) "" then
        (APIResponse StatusBadRequest false "Username and password are required" [], d)
      else
        match db.First (db.by_username (AdminLoginRequest_Username req))
                (db.admins d) with
        | None => (APIResponse StatusUnauthorized false "Invalid credentials" [], d)
        | Some admin =>
            if negb (Admin_CheckPassword admin (AdminLoginRequest_Password req)) then
              (APIResponse StatusUnauthorized false "Invalid credentials" [], d)
            else
              let admin1 :=
                Admin_set_TokenVersion (int_incr (Admin_TokenVersion admin)) admin in
              match saveErr with
              | Some _ =>
                  (APIResponse StatusInternalServerError false
                     "Failed to update admin token version" [], d)
              | None =>
                  let d' := db.with_admins (db.Save admin1 (db.admins d)) d in
                  match utils.GenerateAdminToken cfg now (Admin_ID admin1)
                          (Admin_Username admin1) (Admin_Role admin1)
                          (Admin_TokenVersion admin1) with
                  | Err _ =>
                      (APIResponse StatusInternalServerError false
                         "Failed to generate token" [], d')
                  | Ok token =>
                      (APIResponse StatusOK true "Login successful"
                         [("id", JStr (uuid_String (Admin_ID admin1)));
                          ("username", JStr (Admin_Username admin1));
                          ("role", JStr (Admin_Role admin1));
                          ("access_token", JStr token)]%string, d')
                  end
              end
        end
  end.

(** [UpdateAdmin].  [requestingAdminRole] and [requestingAdminID] are the
    locals the admin guard attached to the request. *)
Definition UpdateAdmin (d : db.DB) (param_id : string)
    (requestingAdminRole : string) (requestingAdminID : UUID)
    (body : option UpdateAdminRequest) (salt : string)
    (saveErr : option string) : Response * db.DB :=
  match uuid_Parse param_id with
  | None => (APIResponse StatusBadRequest false "Invalid admin ID format" [], d)
  | Some adminID =>
      let isUpdatingDifferentAdmin := negb (N.eqb requestingAdminID adminID) in
      if isUpdatingDifferentAdmin
         && negb (String.eqb requestingAdminRole RoleSuper) then
        (APIResponse StatusForbidden false
           "Regular admins can only update their own record" [], d)
      else
        match body with
        | None => (APIResponse StatusBadRequest false "Invalid request body" [], d)
        | Some req =>
            match UpdateAdminRequest_Password req, UpdateAdminRequest_Username req,
                  UpdateAdminRequest_Role req with
            | None, None, None =>
                (APIResponse StatusBadRequest false
                   "At least one field (password, username, or role) must be provided"
                   [], d)
            | _, _, _ =>
                if bool_decide (UpdateAdminRequest_Role req <> None)
                   && negb (String.eqb requestingAdminRole RoleSuper) then
                  (APIResponse StatusForbidden false
                     "Only super admins can change admin roles" [], d)
                else
                  match db.First (db.by_id adminID) (db.admins d) with
                  | None =>
                      (APIResponse StatusNotFound false "Admin not found" [], d)
                  | Some admin =>
                      (* Update password if provided *)
                      match
                        match UpdateAdminRequest_Password req with
                        | None => Ok admin
                        | Some password =>
                            if (String.length password <? 6)%nat then
                              Err (APIResponse StatusBadRequest false
                                     "Password must be at least 6 characters long" [])
                            else
                              match bcrypt_GenerateFromPassword salt password with
                              | None =>
                                  Err (APIResponse StatusInternalServerError false
                                         "Failed to hash password" [])
                              | Some hashedPassword =>
                                  Ok (Admin_set_Password hashedPassword admin)
                              end
                        end
                      with
                      | Err resp => (resp, d)
                      | Ok admin1 =>
                          (* Update username if provided *)
                          let admin2 :=
                            match UpdateAdminRequest_Username req with
                            | None => admin1
                            | Some username => Admin_set_Username username admin1
                            end in
                          (* Update role if provided *)
                          match
                            match UpdateAdminRequest_Role req with
                            | None => Ok admin2
                            | Some role =>
                                if negb (String.eqb role RoleSuper)
                                   && negb (String.eqb role RoleRegular) then
                                  Err (APIResponse StatusBadRequest false
                                         "Invalid role. Must be 'super' or 'regular'" [])
                                else Ok (Admin_set_Role role admin2)
                            end
                          with
                          | Err resp => (resp, d)
                          | Ok admin3 =>
                              match saveErr with
                              | Some _ =>
                                  (APIResponse StatusInternalServerError false
                                     "Failed to update admin" [], d)
                              | None =>
                                  (APIResponse StatusOK true
                                     "Admin updated successfully"
                                     [("id", JStr (uuid_String (Admin_ID admin3)));
                                      ("username", JStr (Admin_Username admin3));
                                      ("role", JStr (Admin_Role admin3))]%string,
                                   db.with_admins (db.Save admin3 (db.admins d)) d)
                              end
                          end
                      end
                  end
            end
        end
  end.

(** The three mutation blocks of [UpdateUser], in source order. *)

(** "Validate phone number if provided and different from current". *)
Definition UpdateUser_phone (d : db.DB) (req : UpdateUserRequest) (user : User)
  : result Response User :=
  if nonempty (UpdateUserRequest_Phone req)
     && negb (String.eqb (UpdateUserRequest_Phone req) (User_Phone user)) then
    if negb (phoneRegex_MatchString (UpdateUserRequest_Phone req)) then
      Err (APIResponse StatusBadRequest false
             "Invalid phone number format. Use international format (e.g., +77771234567)" [])
    else
      match db.First (db.by_phone (UpdateUserRequest_Phone req)) (db.users d) with
      | Some existingUser =>
          Err (APIResponse StatusConflict false "Phone number is already in use" [])
      | None => Ok (User_set_Phone (UpdateUserRequest_Phone req) user)
      end
  else Ok user.

(** "Update password if provided". *)
Definition UpdateUser_password (req : UpdateUserRequest) (salt : string)
    (user : User) : result Response User :=
  if nonempty (UpdateUserRequest_Password req) then
    match bcrypt_GenerateFromPassword salt (UpdateUserRequest_Password req) with
    | None =>
        Err (APIResponse StatusInternalServerError false "Failed to hash password" [])
    | Some hashedPassword =>
        let user1 := User_set_Password hashedPassword user in
        Ok (User_set_TokenVersion (int_incr (User_TokenVersion user1)) user1)
    end
  else Ok user.

(** The condition of "Increment token version if phone was changed", read
    where the source evaluates it. *)
Definition UpdateUser_phone_changed (req : UpdateUserRequest) (user : User) : bool :=
  nonempty (UpdateUserRequest_Phone req)
  && negb (String.eqb (UpdateUserRequest_Phone req) (User_Phone user)).

Definition UpdateUser_phone_version (req : UpdateUserRequest) (user : User) : User :=
  if UpdateUser_phone_changed req user
  then User_set_TokenVersion (int_incr (User_TokenVersion user)) user
  else user.

(** [UpdateUser].  [assignErr] is what the third-party client returns for
    the location assignment ([None] is a nil error).  [LogAdminAction]
    writes only the audit table, which is outside the modelled store. *)
Definition UpdateUser (d : db.DB) (param_id : string)
    (body : option UpdateUserRequest) (salt : string)
    (saveErr assignErr : option string) : Response * db.DB :=
  match uuid_Parse param_id with
  | None => (APIResponse StatusBadRequest false "Invalid user ID format" [], d)
  | Some userID =>
      match body with
      | None => (APIResponse StatusBadRequest false "Invalid request body" [], d)
      | Some req =>
          if nonempty (UpdateUserRequest_Password req)
             && (String.length (UpdateUserRequest_Password req) <? 6)%nat then
            (APIResponse StatusBadRequest false
               "Password must be at least 6 characters long" [], d)
          else
            match db.First (db.by_id userID) (db.users d) with
            | None => (APIResponse StatusNotFound false "User not found" [], d)
            | Some user =>
                match UpdateUser_phone d req user with
                | Err resp => (resp, d)
                | Ok user1 =>
                    match UpdateUser_password req salt user1 with
                    | Err resp => (resp, d)
                    | Ok user2 =>
                        let user3 := UpdateUser_phone_version req user2 in
                        match saveErr with
                        | Some _ =>
                            (APIResponse StatusInternalServerError false
                               "Failed to update user" [], d)
                        | None =>
                            let d' := db.with_users (db.Save user3 (db.users d)) d in
                            let data :=
                              [("id", JStr (uuid_String (User_ID user3)));
                               ("phone", JStr (User_Phone user3))]%string in
                            match UpdateUserRequest_Locations req, assignErr with
                            | _ :: _, Some err =>
                                ({| Status := StatusOK; Success := true;
                                    Message := "User updated successfully but location assignment failed. Please try to assign locations and gates again.";
                                    Data := data;
                                    Warning :=
                                      Some ("Third-party API assignment error: "
                                            +:+ err) |},
                                 d')
                            | _, _ =>
                                (APIResponse StatusOK true "User updated successfully"
                                   data, d')
                            end
                        end
                    end
                end
            end
      end
  end.

(** [DeleteUser]: the version is bumped and saved, then the row is
    soft-deleted. *)
Definition DeleteUser (d : db.DB) (now : Z) (param_id : string)
    (saveErr deleteErr : option string) : Response * db.DB :=
  match uuid_Parse param_id with
  | None => (APIResponse StatusBadRequest false "Invalid user ID format" [], d)
  | Some userID =>
      match db.First (db.by_id userID) (db.users d) with
      | None => (APIResponse StatusNotFound false "User not found" [], d)
      | Some user =>
          let user1 :=
            User_set_TokenVersion (int_incr (User_TokenVersion user)) user in
          match saveErr with
          | Some _ =>
              (APIResponse StatusInternalServerError false
                 "Failed to invalidate user tokens" [], d)
          | None =>
              let d1 := db.with_users (db.Save user1 (db.users d)) d in
              match deleteErr with
              | Some _ =>
                  (APIResponse StatusInternalServerError false
                     "Failed to delete user" [], d1)
              | None =>
                  let d2 := db.with_users (db.Delete now user1 (db.users d1)) d1 in
                  (APIResponse StatusOK true "User deleted successfully"
                     [("id", JStr (uuid_String (User_ID user1)));
                      ("phone", JStr (User_Phone user1))]%string, d2)
              end
          end
      end
  end.

(** [CheckPhoneAvailability]; [q_phone] is the query parameter, empty when
    absent.  The refusals are [APIResponse]s with status 400, the answer a
    [PhoneAvailabilityResponse] with status 200. *)
Definition CheckPhoneAvailability (d : db.DB) (q_phone : string)
  : result Response PhoneAvailabilityResponse :=
  if String.eqb q_phone "" then
    Err (APIResponse StatusBadRequest false "Phone number is required" [])
  else if negb (phoneRegex_MatchString q_phone) then
    Err (APIResponse StatusBadRequest false
           "Invalid phone number format. Use international format (e.g., +77771234567)" [])
  else
    let isAvailable :=
      match db.First (db.by_phone q_phone) (db.users d) with
      | Some existingUser => false
      | None => true
      end in
    Ok {| PhoneAvailabilityResponse_Success := true;
          PhoneAvailabilityResponse_Message := "Phone availability checked";
          PhoneAvailabilityResponse_Available := isAvailable |}.

(** [CreateUser], the admin's way to make a user.  The audit entries
    [LogAdminAction] writes are outside the modelled store. *)
Definition CreateUser (d : db.DB) (body : option CreateUserRequest)
    (newID : UUID) (salt : string) (createErr assignErr : option string)
  : Response * db.DB :=
  match body with
  | None => (APIResponse StatusBadRequest false "Invalid request body" [], d)
  | Some req =>
      if negb (phoneRegex_MatchString (CreateUserRequest_Phone req)) then
        (APIResponse StatusBadRequest false
           "Invalid phone number format. Use international format (e.g., +77771234567)" [], d)
      else if (String.length (CreateUserRequest_Password req) <? 6)%nat then
        (APIResponse StatusBadRequest false
           "Password must be at least 6 characters long" [], d)
      else
        match db.First (db.by_phone (CreateUserRequest_Phone req)) (db.users d) with
        | Some existingUser =>
            (APIResponse StatusConflict false
               "User with this phone number already exists" [], d)
        | None =>
            let user :=
              {| User_ID := uuid_Nil;
                 User_Phone := CreateUserRequest_Phone req;
                 User_Password := CreateUserRequest_Password req;
                 User_TokenVersion := 0;
                 User_CurrentDeviceID := "";
                 User_DeletedAt := None |} in
            match db.Create_User newID salt user d createErr with
            | None =>
                (APIResponse StatusInternalServerError false "Failed to create user" [], d)
            | Some (user', d') =>
                let data :=
                  [("id", JStr (uuid_String (User_ID user')));
                   ("phone", JStr (User_Phone user'))]%string in
                match CreateUserRequest_Locations req, assignErr with
                | _ :: _, Some err =>
                    ({| Status := StatusCreated; Success := true;
                        Message := "User created successfully but location assignment failed. Please try to assign locations and gates again.";
                        Data := data;
                        Warning :=
                          Some ("Third-party API assignment error: " +:+ err) |},
                     d')
                | _, _ =>
                    (APIResponse StatusCreated true "User created successfully"
                       data, d')
                end
            end
        end
  end.

Definition CreateAdmin (d : db.DB) (body : option CreateAdminRequest)
    (newID : UUID) (salt : string) (createErr : option string)
  : Response * db.DB :=
  match body with
  | None => (APIResponse StatusBadRequest false "Invalid request body" [], d)
  | Some req =>
      if negb (String.eqb (CreateAdminRequest_Role req) RoleSuper)
         && negb (String.eqb (CreateAdminRequest_Role req) RoleRegular) then
        (APIResponse StatusBadRequest false
           "Invalid role. Must be 'super' or 'regular'" [], d)
      else if (String.length (CreateAdminRequest_Password req) <? 6)%nat then
        (APIResponse StatusBadRequest false
           "Password must be at least 6 characters long" [], d)
      else
        match db.First (db.by_username (CreateAdminRequest_Username req))
                (db.admins d) with
        | Some existingAdmin =>
            (APIResponse StatusConflict false
               "Admin with this username already exists" [], d)
        | None =>
            let admin :=
              {| Admin_ID := uuid_Nil;
                 Admin_Username := CreateAdminRequest_Username req;
                 Admin_Password := CreateAdminRequest_Password req;
                 Admin_Role := CreateAdminRequest_Role req;
                 Admin_TokenVersion := 0;
                 Admin_DeletedAt := None |} in
            match db.Create_Admin newID salt admin d createErr with
            | None =>
                (APIResponse StatusInternalServerError false "Failed to create admin" [], d)
            | Some (admin', d') =>
                (APIResponse StatusCreated true "Admin created successfully"
                   [("id", JStr (uuid_String (Admin_ID admin')));
                    ("username", JStr (Admin_Username admin'));
                    ("role", JStr (Admin_Role admin'))]%string, d')
            end
        end
  end.

(** [DeleteAdmin].  [configName] is what [db.DB.Config.Name()] returns: the
    [Name] method [gorm.Config] takes from the dialector it embeds. *)
Definition DeleteAdmin (d : db.DB) (now : Z) (param_id configName : string)
    (deleteErr : option string) : Response * db.DB :=
  match uuid_Parse param_id with
  | None => (APIResponse StatusBadRequest false "Invalid admin ID format" [], d)
  | Some adminID =>
      if match uuid_Parse configName with
         | Some initialAdminUUID => N.eqb adminID initialAdminUUID
         | None => false
         end then
        (APIResponse StatusForbidden false "Cannot delete the initial super admin" [], d)
      else
        match db.First (db.by_id adminID) (db.admins d) with
        | None => (APIResponse StatusNotFound false "Admin not found" [], d)
        | Some admin =>
            match deleteErr with
            | Some _ =>
                (APIResponse StatusInternalServerError false
                   "Failed to delete admin" [], d)
            | None =>
                (APIResponse StatusOK true "Admin deleted successfully"
                   [("id", JStr (uuid_String (Admin_ID admin)));
                    ("username", JStr (Admin_Username admin))]%string,
                 db.with_admins (db.Delete now admin (db.admins d)) d)
            end
        end
  end.

End WithLib.

End handlers.

(** ** Package middleware *)

Module middleware.
Import models.

(** A value stored with [c.Locals]. *)
Inductive Local : Type :=
| LocalUUID (u : UUID)
| LocalString (s : string).

(** A guard either answers the request itself or calls [c.Next()] with
    the locals it attached. *)
Inductive GuardResult : Type :=
| Reject (r : handlers.Response)
| Next (locals : list (string * Local)).

(** [c.Status(fiber.StatusUnauthorized).JSON(fiber.Map{"success": false,
    "message": message})]. *)
Definition Unauthorized (message : string) : GuardResult :=
  Reject (handlers.APIResponse handlers.StatusUnauthorized false message []).

Section WithLib.
Context {L : Lib} (cfg : config.JWTConfig).

(** [JWTProtected]; [authHeader] is [c.Get("Authorization")], empty when
    the header is absent. *)
Definition JWTProtected (d : db.DB) (now : Z) (authHeader : string)
  : Go GuardResult :=
  if String.eqb authHeader "" then
    Returns (Unauthorized "Missing authorization header")
  else
    match strings_Split authHeader " " with
    | [bearer; tokenString] =>
        if negb (String.eqb bearer "Bearer") then
          Returns (Unauthorized
                     "Invalid authorization header format. Use: Bearer <token>")
        else
          match utils.ValidateToken cfg now tokenString utils.AccessToken with
          | Panics => Panics
          | Returns (Err _) => Returns (Unauthorized "Invalid or expired token")
          | Returns (Ok claims) =>
              match option_map db.Select_id_token_version
                      (db.First (db.by_id (utils.Claims_UserID claims))
                         (db.users d)) with
              | None => Returns (Unauthorized "User not found")
              | Some user =>
                  if negb (User_TokenVersion user =? utils.Claims_TokenVersion claims)
                  then Returns (Unauthorized
                                  "Token has been invalidated. Please login again.")
                  else Returns (Next
                         [("id", LocalUUID (utils.Claims_UserID claims));
                          ("phone", LocalString (utils.Claims_Phone claims))]%string)
              end
          end
    | _ =>
        Returns (Unauthorized
                   "Invalid authorization header format. Use: Bearer <token>")
    end.

Definition AdminJWTProtected (d : db.DB) (now : Z) (authHeader : string)
  : Go GuardResult :=
  if String.eqb authHeader "" then
    Returns (Unauthorized "Missing authorization header")
  else
    match strings_Split authHeader " " with
    | [bearer; tokenString] =>
        if negb (String.eqb bearer "Bearer") then
          Returns (Unauthorized
                     "Invalid authorization header format. Use: Bearer <token>")
        else
          match utils.ValidateAdminToken cfg now tokenString with
          | Panics => Panics
          | Returns (Err _) => Returns (Unauthorized "Invalid or expired token")
          | Returns (Ok claims) =>
              match db.First (db.by_id (utils.AdminClaims_AdminID claims))
                      (db.admins d) with
              | None => Returns (Unauthorized "Token has been invalidated")
              | Some admin =>
                  if negb (Admin_TokenVersion admin
                           =? utils.AdminClaims_TokenVersion claims)
                  then Returns (Unauthorized "Token has been invalidated")
                  else Returns (Next
                         [("id", LocalUUID (utils.AdminClaims_AdminID claims));
                          ("admin_username",
                            LocalString (utils.AdminClaims_Username claims));
                          ("admin_role",
                            LocalString (utils.AdminClaims_Role claims))]%string)
              end
          end
    | _ =>
        Returns (Unauthorized
                   "Invalid authorization header format. Use: Bearer <token>")
    end.

End WithLib.

(** [c.Locals(key)]: the value last stored under the key, nil when there
    is none. *)
Fixpoint Locals (key : string) (locals : list (string * Local)) : option Local :=
  match locals with
  | [] => None
  | (k, v) :: rest =>
      match Locals key rest with
      | Some w => Some w
      | None => if String.eqb key k then Some v else None
      end
  end.

(** [SuperAdminOnly].  The role is compared as an interface value: only a
    string equal to [RoleSuper] passes. *)
Definition SuperAdminOnly (locals : list (string * Local)) : GuardResult :=
  match Locals "admin_role" locals with
  | None => Unauthorized "Authentication required"
  | Some role =>
      if match role with
         | LocalString s => negb (String.eqb s RoleSuper)
         | LocalUUID _ => true
         end then
        Reject (handlers.APIResponse handlers.StatusForbidden false
                  "Super admin access required" [])
      else Next locals
  end.

(** Two guards on one route, as [main.go] lists them for the admin
    accounts: the second runs when the first calls [c.Next()]. *)
Definition andThen (first : Go GuardResult)
    (second : list (string * Local) -> GuardResult) : Go GuardResult :=
  match first with
  | Panics => Panics
  | Returns (Reject r) => Returns (Reject r)
  | Returns (Next locals) => Returns (second locals)
  end.

End middleware.

(** ** A reference instance of the library primitives

    An executable stand-in, used to run the handlers on concrete requests:
    every value is written as the bit string of its [Countable] code, the
    MAC of a message is the code of the method, the key and a checksum of
    the message, and a password hash is the code of the salt and the
    password.  The decoder of signatures skips line feeds and carriage
    returns, as the base64 decoder of the library does. *)

Module reference.

Fixpoint pos_bits (p : positive) : string :=
  match p with
  | xH => EmptyString
  | xO q => String "0" (pos_bits q)
  | xI q => String "1" (pos_bits q)
  end.

Fixpoint bits_pos (s : string) : option positive :=
  match s with
  | EmptyString => Some xH
  | String c r =>
      if Ascii.eqb c "0" then option_map xO (bits_pos r)
      else if Ascii.eqb c "1" then option_map xI (bits_pos r)
      else None
  end.

Definition enc {A : Type} `{Countable A} (a : A) : string := pos_bits (encode a).

Definition dec {A : Type} `{Countable A} (s : string) : option A :=
  match bits_pos s with
  | Some p => decode p
  | None => None
  end.

Fixpoint checksum (s : string) (acc : N) : N :=
  match s with
  | EmptyString => acc
  | String c r => checksum r ((acc * 31 + N_of_ascii c) mod 4294967296)%N
  end.

(** JSON values as trees, to number them. *)
Fixpoint JVal_tree (v : JVal) : gen_tree (bool + Z + string) :=
  match v with
  | JNull => GenNode 0 []
  | JBool b => GenLeaf (inl (inl b))
  | JNum n => GenLeaf (inl (inr n))
  | JFrac lit => GenNode 1 [GenLeaf (inr lit)]
  | JStr s => GenLeaf (inr s)
  | JArr a => GenNode 2 (map JVal_tree a)
  | JObj o =>
      GenNode 3
        (map (fun kv => let '(k, w) := kv in
                        GenNode 4 [GenLeaf (inr k); JVal_tree w]) o)
  end.

Fixpoint tree_JVal (t : gen_tree (bool + Z + string)) : option JVal :=
  let fix all (ts : list (gen_tree (bool + Z + string))) : option (list JVal) :=
    match ts with
    | [] => Some []
    | t :: ts' =>
        match tree_JVal t, all ts' with
        | Some v, Some vs => Some (v :: vs)
        | _, _ => None
        end
    end in
  let fix members (ts : list (gen_tree (bool + Z + string)))
    : option (list (string * JVal)) :=
    match ts with
    | [] => Some []
    | GenNode 4 [GenLeaf (inr k); t] :: ts' =>
        match tree_JVal t, members ts' with
        | Some v, Some ms => Some ((k, v) :: ms)
        | _, _ => None
        end
    | _ => None
    end in
  match t with
  | GenLeaf (inl (inl b)) => Some (JBool b)
  | GenLeaf (inl (inr n)) => Some (JNum n)
  | GenLeaf (inr s) => Some (JStr s)
  | GenNode 0 [] => Some JNull
  | GenNode 1 [GenLeaf (inr lit)] => Some (JFrac lit)
  | GenNode 2 ts => option_map JArr (all ts)
  | GenNode 3 ts => option_map JObj (members ts)
  | _ => None
  end.

Definition tree_JVal_tree (v : JVal) : tree_JVal (JVal_tree v) = Some v.
Proof.
  revert v.
  fix IH 1. intros [|b|n|lit|s|a|o]; try reflexivity.
    - change (option_map JArr
                ((fix all (ts : list (gen_tree (bool + Z + string)))
                    : option (list JVal) :=
                    match ts with
                    | [] => Some []
                    | t :: ts' =>
                        match tree_JVal t, all ts' with
                        | Some v, Some vs => Some (v :: vs)
                        | _, _ => None
                        end
                    end) (map JVal_tree a)) = Some (JArr a)).
      induction a as [|v a IHa]; [reflexivity|].
      cbn [map]. rewrite (IH v).
      destruct ((fix all (ts : list (gen_tree (bool + Z + string)))
                   : option (list JVal) :=
                   match ts with
                   | [] => Some []
                   | t :: ts' =>
                       match tree_JVal t, all ts' with
                       | Some v, Some vs => Some (v :: vs)
                       | _, _ => None
                       end
                   end) (map JVal_tree a)) as [vs|]; [|discriminate].
      injection IHa as ->. reflexivity.
    - change (option_map JObj
                ((fix members (ts : list (gen_tree (bool + Z + string)))
                    : option (list (string * JVal)) :=
                    match ts with
                    | [] => Some []
                    | GenNode 4 [GenLeaf (inr k); t] :: ts' =>
                        match tree_JVal t, members ts' with
                        | Some v, Some ms => Some ((k, v) :: ms)
                        | _, _ => None
                        end
                    | _ => None
                    end)
                   (map (fun kv => let '(k, w) := kv in
                                   GenNode 4 [GenLeaf (inr k); JVal_tree w]) o))
              = Some (JObj o)).
      induction o as [|[k v] o IHo]; [reflexivity|].
      cbn [map]. rewrite (IH v).
      destruct ((fix members (ts : list (gen_tree (bool + Z + string)))
                   : option (list (string * JVal)) :=
                   match ts with
                   | [] => Some []
                   | GenNode 4 [GenLeaf (inr k); t] :: ts' =>
                       match tree_JVal t, members ts' with
                       | Some v, Some ms => Some ((k, v) :: ms)
                       | _, _ => None
                       end
                   | _ => None
                   end)
                  (map (fun kv => let '(k, w) := kv in
                                  GenNode 4 [GenLeaf (inr k); JVal_tree w]) o))
        as [ms|]; [|discriminate].
      injection IHo as ->. reflexivity.
Defined.

#[global] Instance JVal_eq_dec : EqDecision JVal.
Proof.
  intros x y. destruct (decide (JVal_tree x = JVal_tree y)) as [E|E].
  - left. apply (f_equal tree_JVal) in E. rewrite !tree_JVal_tree in E.
    injection E as ->. reflexivity.
  - right. intros ->. exact (E eq_refl).
Defined.

#[global] Instance JVal_countable : Countable JVal :=
  inj_countable JVal_tree tree_JVal tree_JVal_tree.

(** Carriage returns and line feeds, which the base64 decoder skips. *)
Fixpoint skip_newlines (s : string) : string :=
  match s with
  | EmptyString => EmptyString
  | String c r =>
      if Ascii.eqb c "010" || Ascii.eqb c "013" then skip_newlines r
      else String c (skip_newlines r)
  end.

(** A number text made of an integer, a point and digits, not negative:
    its whole part.  Other texts are left undecoded. *)
Definition whole_part (lit : string) : option Z :=
  match strings_Split lit "." with
  | [w; f] =>
      match nat_literal w, digits_value f 0 with
      | Some n, Some _ => if String.eqb f "" then None else Some n
      | _, _ => None
      end
  | _ => None
  end.

Definition lib : Lib := {|
  uuid_String := fun u => enc u;
  uuid_Parse := fun s => dec s;
  duration_seconds := fun d => Z.quot d jwt.second;
  float_seconds := whole_part;
  b64json_encode := fun o => enc o;
  b64json_decode := fun s => dec s;
  b64_encode := fun b => enc b;
  b64_decode := fun s => dec (skip_newlines s);
  hmac := fun alg key s => enc (alg, key, checksum s 0%N);
  bcrypt_GenerateFromPassword := fun salt pw => Some (enc (salt, pw));
  bcrypt_CompareHashAndPassword := fun h pw =>
    match dec (A := string * string) h with
    | Some (_, pw') => String.eqb pw pw'
    | None => false
    end
|}.

Definition cfg : config.JWTConfig := {|
  config.Secret := "test-secret-key";
  config.AccessExpiry := 900000000000;
  config.RefreshExpiry := 2592000000000000
|}.

End reference.

(** ** A concrete store and its requests

    One user and one admin, both at version 0, the user with no stored
    device, in the style of the repository's tests. *)

Module scenario.

Definition now : Z := 1700000000000000000.

Definition phone : string := "+77771234567".
Definition password : string := "password123".

Definition user0 : models.User := {|
  models.User_ID := 7%N;
  models.User_Phone := phone;
  models.User_Password := reference.enc ("salt"%string, password);
  models.User_TokenVersion := 0;
  models.User_CurrentDeviceID := "";
  models.User_DeletedAt := None
|}.

Definition admin0 : models.Admin := {|
  models.Admin_ID := 1%N;
  models.Admin_Username := "admin";
  models.Admin_Password := reference.enc ("salt"%string, "oldpassword"%string);
  models.Admin_Role := models.RoleSuper;
  models.Admin_TokenVersion := 0;
  models.Admin_DeletedAt := None
|}.

Definition d0 : db.DB := {| db.users := [user0]; db.admins := [admin0] |}.

Definition login : option handlers.LoginRequest :=
  Some {| handlers.LoginRequest_Phone := phone;
          handlers.LoginRequest_Password := password |}.

(** A login whose save the database performs. *)
Definition Login (d : db.DB) (now : Z) (body : option handlers.LoginRequest)
    (q_deviceId q_device_id : string) : handlers.Response * db.DB :=
  handlers.Login (L := reference.lib) reference.cfg d now body
    q_deviceId q_device_id None.

(** The administrative password reset of [user0]. *)
Definition reset : handlers.Response * db.DB :=
  handlers.UpdateUser (L := reference.lib) d0 (reference.enc 7%N)
    (Some {| handlers.UpdateUserRequest_Phone := "";
             handlers.UpdateUserRequest_Password := "newpassword123";
             handlers.UpdateUserRequest_Locations := [] |})
    "salt2" None None.

Definition relogin : option handlers.LoginRequest :=
  Some {| handlers.LoginRequest_Phone := phone;
          handlers.LoginRequest_Password := "newpassword123" |}.

(** A store whose only user is soft-deleted. *)
Definition gone : models.User := {|
  models.User_ID := 7%N;
  models.User_Phone := phone;
  models.User_Password := reference.enc ("salt"%string, password);
  models.User_TokenVersion := 4;
  models.User_CurrentDeviceID := "";
  models.User_DeletedAt := Some 1690000000000000000
|}.

Definition d_gone : db.DB := {| db.users := [gone]; db.admins := [admin0] |}.

Definition admin_password : handlers.UpdateAdminRequest := {|
  handlers.UpdateAdminRequest_Password := Some "newpassword123"%string;
  handlers.UpdateAdminRequest_Username := None;
  handlers.UpdateAdminRequest_Role := None
|}.

Definition user_password : handlers.UpdateUserRequest := {|
  handlers.UpdateUserRequest_Phone := "";
  handlers.UpdateUserRequest_Password := "newpassword123";
  handlers.UpdateUserRequest_Locations := []
|}.

Definition user_phone : handlers.UpdateUserRequest := {|
  handlers.UpdateUserRequest_Phone := "+77770000000";
  handlers.UpdateUserRequest_Password := "";
  handlers.UpdateUserRequest_Locations := []
|}.

Definition refresh_token (id : UUID) (phone : string) (v : Z) : string :=
  match utils.generateToken (L := reference.lib) reference.cfg now id phone v
          utils.RefreshToken (config.RefreshExpiry reference.cfg) with
  | Ok tok => tok
  | Err _ => EmptyString
  end.

(** A token for admin [id] at version [v]; signing does not fail. *)
Definition admin_token (id : UUID) (username role : string) (v : Z) : string :=
  match utils.GenerateAdminToken (L := reference.lib) reference.cfg now id
          username role v with
  | Ok tok => tok
  | Err _ => EmptyString
  end.

Definition user_token (id : UUID) (phone : string) (v : Z) : string :=
  match utils.generateToken (L := reference.lib) reference.cfg now id phone v
          utils.AccessToken (config.AccessExpiry reference.cfg) with
  | Ok tok => tok
  | Err _ => EmptyString
  end.

(** The startup configuration under which [admin0] is the initial admin. *)
Definition init_admin : config.InitAdminConfig := {|
  config.InitAdminConfig_UUID := reference.enc 1%N;
  config.InitAdminConfig_Username := "admin";
  config.InitAdminConfig_Password := "oldpassword"
|}.

(** The name of the dialector of the deployed database. *)
Definition dialector : string := "postgres".

(** A store with no admin yet. *)
Definition d_empty : db.DB := {| db.users := []; db.admins := [] |}.

End scenario.

(** ** Vocabulary of the specification

    Readings of tokens, responses and stores in which the properties are
    stated. *)

Module spec.

Definition is_int (v : Z) : Prop := int_min <= v <= int_max.

Section WithLib.
Context {L : Lib} (cfg : config.JWTConfig).

(** The version a token is stamped with. *)
Definition stamp (tokenString : string) : option Z :=
  match jwt.ParseUnverified tokenString with
  | Some o =>
      match jmap_get "token_version" o with
      | Some (JNum v) => Some v
      | _ => None
      end
  | None => None
  end.

(** The kind a token is tagged with. *)
Definition kind (tokenString : string) : option string :=
  match jwt.ParseUnverified tokenString with
  | Some o =>
      match jmap_get "token_type" o with
      | Some (JStr k) => Some k
      | _ => None
      end
  | None => None
  end.

(** The expiry claim of a token: [Some None] when the token carries none. *)
Definition expiry (tokenString : string) : option (option JVal) :=
  match jwt.ParseUnverified tokenString with
  | Some o => Some (jmap_get "exp" o)
  | None => None
  end.

(** A string field of a response's data. *)
Definition field (k : string) (r : handlers.Response) : option string :=
  match jmap_get k (handlers.Data r) with
  | Some (JStr s) => Some s
  | _ => None
  end.

(** The live principal rows of a store, by id. *)
Definition user_by_id (d : db.DB) (id : UUID) : option models.User :=
  db.First (db.by_id id) (db.users d).

Definition admin_by_id (d : db.DB) (id : UUID) : option models.Admin :=
  db.First (db.by_id id) (db.admins d).

(** The claims [generateToken] signs. *)
Definition minted_Claims (now : Z) (id : UUID) (phone : string) (v : Z)
    (ty : utils.TokenType) (ttl : Z) : utils.Claims :=
  {| utils.Claims_UserID := id;
     utils.Claims_Phone := phone;
     utils.Claims_TokenType := ty;
     utils.Claims_TokenVersion := v;
     utils.Claims_RegisteredClaims :=
       {| jwt.ExpiresAt := jwt.NewNumericDate (now + ttl);
          jwt.IssuedAt := jwt.NewNumericDate now;
          jwt.NotBefore := jwt.NewNumericDate now |} |}.

(** The claims [GenerateAdminToken] signs. *)
Definition minted_AdminClaims (now : Z) (id : UUID) (username rl : string)
    (v : Z) : utils.AdminClaims :=
  {| utils.AdminClaims_AdminID := id;
     utils.AdminClaims_Username := username;
     utils.AdminClaims_Role := rl;
     utils.AdminClaims_TokenType := utils.AdminToken;
     utils.AdminClaims_TokenVersion := v;
     utils.AdminClaims_RegisteredClaims :=
       {| jwt.ExpiresAt := None;
          jwt.IssuedAt := jwt.NewNumericDate now;
          jwt.NotBefore := jwt.NewNumericDate now |} |}.

(** The query parameter [Login] reads the device id from. *)
Definition deviceID_of (q_deviceId q_device_id : string) : string :=
  if String.eqb q_deviceId "" then q_device_id else q_deviceId.

(** The row [Login] saves for [user] when the request names [deviceID]. *)
Definition logged_in (user : models.User) (deviceID : string) : models.User :=
  let user1 :=
    if handlers.deviceChanged user deviceID
    then models.User_set_TokenVersion (int_incr (models.User_TokenVersion user)) user
    else user in
  if handlers.nonempty deviceID
  then models.User_set_CurrentDeviceID deviceID user1
  else user1.

(** The version the token in field [k] of a response is stamped with. *)
Definition stamp_of (k : string) (r : handlers.Response) : option Z :=
  match field k r with
  | Some tok => stamp tok
  | None => None
  end.

(** The stored version of a user. *)
Definition user_version (d : db.DB) (id : UUID) : option Z :=
  option_map models.User_TokenVersion (user_by_id d id).

Definition admin_version (d : db.DB) (id : UUID) : option Z :=
  option_map models.Admin_TokenVersion (admin_by_id d id).

(** The three kinds of token and the codec entry points the program uses
    for each: [generateToken] and [ValidateToken] with the access or the
    refresh tag for users, [GenerateAdminToken] and [ValidateAdminToken]
    for admins. *)
Inductive Kind : Type :=
| UserAccess
| UserRefresh
| AdminKind.

Definition tag (k : Kind) : utils.TokenType :=
  match k with
  | UserAccess => utils.AccessToken
  | UserRefresh => utils.RefreshToken
  | AdminKind => utils.AdminToken
  end.

(** What verified claims say about the principal; [role] is empty for
    user tokens. *)
Record Stamped : Type := {
  principal : UUID;
  attribute : string;
  role : string;
  tagged : utils.TokenType;
  version : Z
}.

Definition of_Claims (c : utils.Claims) : Stamped :=
  {| principal := utils.Claims_UserID c;
     attribute := utils.Claims_Phone c;
     role := "";
     tagged := utils.Claims_TokenType c;
     version := utils.Claims_TokenVersion c |}.

Definition of_AdminClaims (c : utils.AdminClaims) : Stamped :=
  {| principal := utils.AdminClaims_AdminID c;
     attribute := utils.AdminClaims_Username c;
     role := utils.AdminClaims_Role c;
     tagged := utils.AdminClaims_TokenType c;
     version := utils.AdminClaims_TokenVersion c |}.

Definition Go_map {E A B : Type} (f : A -> B) (g : Go (result E A))
  : Go (result E B) :=
  match g with
  | Panics => Panics
  | Returns (Err e) => Returns (Err e)
  | Returns (Ok a) => Returns (Ok (f a))
  end.

Definition mint (now : Z) (k : Kind) (id : UUID) (attr rl : string) (v : Z)
  : result jwt.Error string :=
  match k with
  | UserAccess =>
      utils.generateToken cfg now id attr v utils.AccessToken (config.AccessExpiry cfg)
  | UserRefresh =>
      utils.generateToken cfg now id attr v utils.RefreshToken (config.RefreshExpiry cfg)
  | AdminKind => utils.GenerateAdminToken cfg now id attr rl v
  end.

Definition verify (now : Z) (k : Kind) (tokenString : string)
  : Go (result utils.error Stamped) :=
  match k with
  | UserAccess =>
      Go_map of_Claims (utils.ValidateToken cfg now tokenString utils.AccessToken)
  | UserRefresh =>
      Go_map of_Claims (utils.ValidateToken cfg now tokenString utils.RefreshToken)
  | AdminKind => Go_map of_AdminClaims (utils.ValidateAdminToken cfg now tokenString)
  end.

(** The Access Guard as the specification words it: a decision list over
    the header, the codec's verdict, the live principal and its version. *)
Inductive Outcome (C : Type) : Type :=
| MissingHeader
| BadFormat
| InvalidOrExpired
| PrincipalNotFound
| Invalidated
| Authorized (claims : C).
Arguments MissingHeader {C}.
Arguments BadFormat {C}.
Arguments InvalidOrExpired {C}.
Arguments PrincipalNotFound {C}.
Arguments Invalidated {C}.
Arguments Authorized {C} claims.

Definition AccessGuard {C : Type}
    (codec : string -> Go (result utils.error C))
    (live_version : C -> option Z) (claimed_version : C -> Z)
    (authHeader : string) : Go (Outcome C) :=
  if String.eqb authHeader "" then Returns MissingHeader
  else
    match strings_Split authHeader " " with
    | [scheme; tokenString] =>
        if String.eqb scheme "Bearer" then
          match codec tokenString with
          | Panics => Panics
          | Returns (Err _) => Returns InvalidOrExpired
          | Returns (Ok claims) =>
              match live_version claims with
              | None => Returns PrincipalNotFound
              | Some v =>
                  if v =? claimed_version claims
                  then Returns (Authorized claims)
                  else Returns Invalidated
              end
          end
        else Returns BadFormat
    | _ => Returns BadFormat
    end.

Definition UserGuard (d : db.DB) (now : Z) : string -> Go (Outcome utils.Claims) :=
  AccessGuard (fun tok => utils.ValidateToken cfg now tok utils.AccessToken)
    (fun c => user_version d (utils.Claims_UserID c)) utils.Claims_TokenVersion.

Definition AdminGuard (d : db.DB) (now : Z)
  : string -> Go (Outcome utils.AdminClaims) :=
  AccessGuard (fun tok => utils.ValidateAdminToken cfg now tok)
    (fun c => admin_version d (utils.AdminClaims_AdminID c))
    utils.AdminClaims_TokenVersion.

Definition user_locals (c : utils.Claims) : list (string * middleware.Local) :=
  [("id", middleware.LocalUUID (utils.Claims_UserID c));
   ("phone", middleware.LocalString (utils.Claims_Phone c))]%string.

Definition admin_locals (c : utils.AdminClaims) : list (string * middleware.Local) :=
  [("id", middleware.LocalUUID (utils.AdminClaims_AdminID c));
   ("admin_username", middleware.LocalString (utils.AdminClaims_Username c));
   ("admin_role", middleware.LocalString (utils.AdminClaims_Role c))]%string.

(** The answers the specification gives to the outcomes; [not_found] is
    the message for a principal without a live row. *)
Definition stated_answer {C : Type} (not_found : string)
    (locals : C -> list (string * middleware.Local)) (o : Outcome C)
  : middleware.GuardResult :=
  match o with
  | MissingHeader => middleware.Unauthorized "Missing authorization header"
  | BadFormat =>
      middleware.Unauthorized
        "Invalid authorization header format. Use: Bearer <token>"
  | InvalidOrExpired => middleware.Unauthorized "Invalid or expired token"
  | PrincipalNotFound => middleware.Unauthorized not_found
  | Invalidated =>
      middleware.Unauthorized "Token has been invalidated. Please login again."
  | Authorized c => middleware.Next (locals c)
  end.

(** The answers of the admin guard in the code: one message for a missing
    admin and for a stale version. *)
Definition admin_answer (o : Outcome utils.AdminClaims) : middleware.GuardResult :=
  match o with
  | MissingHeader => middleware.Unauthorized "Missing authorization header"
  | BadFormat =>
      middleware.Unauthorized
        "Invalid authorization header format. Use: Bearer <token>"
  | InvalidOrExpired => middleware.Unauthorized "Invalid or expired token"
  | PrincipalNotFound => middleware.Unauthorized "Token has been invalidated"
  | Invalidated => middleware.Unauthorized "Token has been invalidated"
  | Authorized c => middleware.Next (admin_locals c)
  end.

Definition Go_fmap {A B : Type} (f : A -> B) (g : Go A) : Go B :=
  match g with
  | Panics => Panics
  | Returns a => Returns (f a)
  end.

(** The instant a token of kind [k] minted at [now] expires, if any. *)
Definition expires (now : Z) (k : Kind) : option Z :=
  match k with
  | UserAccess => Some ((now + config.AccessExpiry cfg) / jwt.second * jwt.second)
  | UserRefresh => Some ((now + config.RefreshExpiry cfg) / jwt.second * jwt.second)
  | AdminKind => None
  end.

(** [now'] lies between the minting instant and the expiry. *)
Definition in_window (now : Z) (k : Kind) (now' : Z) : Prop :=
  now <= now' /\ match expires now k with
                 | Some e => now' < e
                 | None => True
                 end.

End WithLib.

Arguments MissingHeader {C}.
Arguments BadFormat {C}.
Arguments InvalidOrExpired {C}.
Arguments PrincipalNotFound {C}.
Arguments Invalidated {C}.
Arguments Authorized {C} claims.

End spec.

(** ** Invariants of the store *)

Module inv.

(** The role of an admin row is one of the two the program knows. *)
Definition role_ok (a : models.Admin) : bool :=
  String.eqb (models.Admin_Role a) models.RoleSuper
  || String.eqb (models.Admin_Role a) models.RoleRegular.

Definition roles_ok (d : db.DB) : bool := forallb role_ok (db.admins d).

(** No two live user rows hold the same phone. *)
Definition unique (t : list models.User) : Prop :=
  forall u1 u2,
    In u1 t -> In u2 t ->
    db.live u1 = true -> db.live u2 = true ->
    models.User_Phone u1 = models.User_Phone u2 -> u1 = u2.

Definition phones_unique (d : db.DB) : Prop := unique (db.users d).

(** A row as the program makes them: a key other than the nil UUID, a
    version that is an [int] and, for a user, a well-formed phone. *)
Definition user_ok (u : models.User) : bool :=
  phoneRegex_MatchString (models.User_Phone u)
  && ((int_min <=? models.User_TokenVersion u)
      && (models.User_TokenVersion u <=? int_max))
  && negb (N.eqb (models.User_ID u) uuid_Nil).

Definition admin_ok (a : models.Admin) : bool :=
  ((int_min <=? models.Admin_TokenVersion a)
   && (models.Admin_TokenVersion a <=? int_max))
  && negb (N.eqb (models.Admin_ID a) uuid_Nil).

Definition rows_ok (d : db.DB) : bool :=
  forallb user_ok (db.users d) && forallb admin_ok (db.admins d).

End inv.

(** * Properties *)

(** ** The executable models on small inputs *)

Example strings_Split_two : strings_Split "Bearer abc" " " = ["Bearer"; "abc"]%string.
Proof. reflexivity. Qed.

Example strings_Split_empty : strings_Split "" " " = [EmptyString].
Proof. reflexivity. Qed.

Example strings_Split_double_space :
  strings_Split "Bearer  abc" " " = ["Bearer"; ""; "abc"]%string.
Proof. reflexivity. Qed.

Example strings_Split_trailing : strings_Split "a.b." "." = ["a"; "b"; ""]%string.
Proof. reflexivity. Qed.

Example phoneRegex_accepts : phoneRegex_MatchString "+77771234567" = true.
Proof. reflexivity. Qed.

Example phoneRegex_shortest : phoneRegex_MatchString "+12" = true.
Proof. reflexivity. Qed.

Example phoneRegex_longest : phoneRegex_MatchString "+123456789012345" = true.
Proof. reflexivity. Qed.

Example phoneRegex_too_long : phoneRegex_MatchString "+1234567890123456" = false.
Proof. reflexivity. Qed.

Example phoneRegex_too_short : phoneRegex_MatchString "+1" = false.
Proof. reflexivity. Qed.

Example phoneRegex_leading_zero : phoneRegex_MatchString "+07771234567" = false.
Proof. reflexivity. Qed.

Example phoneRegex_no_plus : phoneRegex_MatchString "77771234567" = false.
Proof. reflexivity. Qed.

Example phoneRegex_letter : phoneRegex_MatchString "+7777a234567" = false.
Proof. reflexivity. Qed.

Example int_incr_small : int_incr 41 = 42.
Proof. reflexivity. Qed.

Example int_incr_wraps : int_incr int_max = int_min.
Proof. reflexivity. Qed.

Example jmap_get_last_wins :
  jmap_get "k" [("k", JNum 1); ("j", JNum 2); ("k", JNum 3)]%string = Some (JNum 3).
Proof. reflexivity. Qed.

(** A struct field is found under a key that differs from its name in
    case only, a date may be written as a string, and members are stored in
    the order of the text. *)
Example Claims_unmarshal_lenient :
  utils.Claims_unmarshal (L := reference.lib)
    [("ID", JStr (reference.enc 7%N)); ("Phone", JStr "+77771234567");
     ("TOKEN_TYPE", JStr "access"); ("Token_Version", JNum 3);
     ("exp", JNum 5); ("EXP", JStr "1700000900"); ("nbf", JNull);
     ("aud", JArr [JStr "a"; JStr "b"]); ("other", JObj [("exp", JNum 1)])]%string
  = Some {| utils.Claims_UserID := 7%N;
            utils.Claims_Phone := "+77771234567";
            utils.Claims_TokenType := "access";
            utils.Claims_TokenVersion := 3;
            utils.Claims_RegisteredClaims :=
              {| jwt.ExpiresAt := Some 1700000900;
                 jwt.NotBefore := None;
                 jwt.IssuedAt := None |} |}.
Proof. vm_compute. reflexivity. Qed.

(** One member that its field does not take fails the whole object, also
    when a later member would overwrite it. *)
Example Claims_unmarshal_type_error :
  utils.Claims_unmarshal (L := reference.lib)
    [("phone", JNum 1); ("phone", JStr "+77771234567")]%string = None
  /\ utils.Claims_unmarshal (L := reference.lib)
       [("token_version", JFrac "1.0")]%string = None
  /\ utils.Claims_unmarshal (L := reference.lib)
       [("token_version", JStr "1")]%string = None
  /\ utils.Claims_unmarshal (L := reference.lib)
       [("exp", JStr "soon")]%string = None
  /\ utils.Claims_unmarshal (L := reference.lib)
       [("aud", JArr [JStr "a"; JNum 1])]%string = None.
Proof. vm_compute. repeat split; reflexivity. Qed.

(** The Kelvin sign folds to K and the long s to S. *)
Example foldName_specials :
  foldName (String "226" (String "132" (String "170" "ey"))) = "KEY"%string
  /\ foldName (String "197" (String "191" "ub")) = "SUB"%string
  /\ foldName "token_version" = "TOKEN_VERSION"%string.
Proof. vm_compute. repeat split; reflexivity. Qed.

Example int_literal_forms :
  int_literal "1700000900" = Some 1700000900
  /\ int_literal "-0" = Some 0
  /\ int_literal "-12" = Some (-12)
  /\ int_literal "012" = None
  /\ int_literal "+1" = None
  /\ int_literal "" = None
  /\ int_literal "1.5" = None.
Proof. vm_compute. repeat split; reflexivity. Qed.

Example GetSigningMethod_hmac :
  jwt.GetSigningMethod "HS512" = Some (jwt.SigningMethodHMAC "HS512").
Proof. reflexivity. Qed.

Example GetSigningMethod_none :
  jwt.GetSigningMethod "none" = Some (jwt.SigningMethodOther "none").
Proof. reflexivity. Qed.

Example GetSigningMethod_unknown : jwt.GetSigningMethod "HS257" = None.
Proof. reflexivity. Qed.

(** On the reference instance: a login mints a token the user guard lets
    through; the same token fails once a character is appended, and a
    string that is no token fails too. *)
Example reference_login_then_guard :
  let out := scenario.Login scenario.d0 scenario.now scenario.login "" "" in
  match spec.field "access_token" (fst out) with
  | Some tok =>
      middleware.JWTProtected (L := reference.lib) reference.cfg (snd out)
        scenario.now ("Bearer " +:+ tok)
      = Returns (middleware.Next
                   [("id", middleware.LocalUUID 7%N);
                    ("phone", middleware.LocalString scenario.phone)]%string)
      /\ middleware.JWTProtected (L := reference.lib) reference.cfg (snd out)
           scenario.now ("Bearer " +:+ tok +:+ "x")
         = Returns (middleware.Unauthorized "Invalid or expired token")
  | None => False
  end.
Proof. vm_compute. split; reflexivity. Qed.

Example reference_garbage_token :
  utils.ValidateToken (L := reference.lib) reference.cfg scenario.now
    "invalid.token.string" utils.AccessToken
  = Returns (Err (utils.jwt_error jwt.ErrTokenMalformed)).
Proof. vm_compute. reflexivity. Qed.

(** On the reference instance, whose base64 decoder skips line feeds as
    the library's does: a token with a line feed after its signature is
    still accepted, with the same claims. *)
Example reference_signature_not_canonical :
  let tok := scenario.user_token 7%N scenario.phone 0 in
  utils.ValidateToken (L := reference.lib) reference.cfg scenario.now
    (tok +:+ String "010" "") utils.AccessToken
  = utils.ValidateToken (L := reference.lib) reference.cfg scenario.now
      tok utils.AccessToken
  /\ utils.ValidateToken (L := reference.lib) reference.cfg scenario.now
       tok utils.AccessToken
     = Returns (Ok (spec.minted_Claims scenario.now 7%N scenario.phone 0
                      utils.AccessToken (config.AccessExpiry reference.cfg))).
Proof. vm_compute. split; reflexivity. Qed.

(** A refresh token that runs out between the two validations of the
    refresh handler gets the 500 answer. *)
Example reference_refresh_expires_in_between :
  handlers.RefreshToken (L := reference.lib) reference.cfg scenario.d0
    1702591999500000000 1702592000000000001
    (Some {| handlers.RefreshRequest_RefreshToken :=
               scenario.refresh_token 7%N scenario.phone 0 |})
  = Returns (handlers.APIResponse handlers.StatusInternalServerError false
               "Failed to generate access token" [], scenario.d0).
Proof. vm_compute. reflexivity. Qed.

(** With the one-nanosecond lifetime of the repository's expiry test, a
    token is already expired at the instant it is minted. *)
Example reference_expired_at_once :
  let cfg := {| config.Secret := "test-secret";
                config.AccessExpiry := 1;
                config.RefreshExpiry := 1 |} in
  match utils.generateToken (L := reference.lib) cfg scenario.now 7%N
          scenario.phone 0 utils.AccessToken (config.AccessExpiry cfg) with
  | Ok tok =>
      utils.ValidateToken (L := reference.lib) cfg scenario.now tok utils.AccessToken
      = Returns (Err (utils.jwt_error jwt.ErrTokenExpired))
  | Err _ => False
  end.
Proof. vm_compute. reflexivity. Qed.

(** ** Splitting *)

Lemma strings_Split_nonempty (s : string) (c : ascii) :
  strings_Split s c <> [].
Proof.
  induction s as [|a s IH]; simpl; [discriminate|].
  destruct (Ascii.eqb a c); [discriminate|].
  destruct (strings_Split s c); discriminate.
Qed.

Lemma strings_Split_no_char (s : string) (c : ascii) :
  no_char c s -> strings_Split s c = [s].
Proof.
  unfold no_char. induction s as [|a s IH]; simpl; intros H; [reflexivity|].
  inversion H as [|? ? Ha Hs]; subst.
  destruct (Ascii.eqb_spec a c) as [->|_]; [contradiction|].
  rewrite (IH Hs). reflexivity.
Qed.

Lemma strings_Split_app (s rest : string) (c : ascii) :
  no_char c s ->
  strings_Split (s +:+ String c rest) c = s :: strings_Split rest c.
Proof.
  unfold no_char. induction s as [|a s IH]; simpl; intros H.
  - rewrite Ascii.eqb_refl. reflexivity.
  - inversion H as [|? ? Ha Hs]; subst.
    destruct (Ascii.eqb_spec a c) as [->|_]; [contradiction|].
    rewrite (IH Hs). reflexivity.
Qed.

Lemma no_char_app (c : ascii) (s1 s2 : string) :
  no_char c s1 -> no_char c s2 -> no_char c (s1 +:+ s2).
Proof.
  unfold no_char. induction s1 as [|a s1 IH]; simpl; intros H1 H2; [assumption|].
  inversion H1; subst. constructor; auto.
Qed.

Lemma segment_no_dot (s : string) : segment_ok s -> no_char "." s.
Proof.
  unfold segment_ok, no_char. intros H.
  eapply Forall_impl; [exact H|]. intros a [Ha _]. exact Ha.
Qed.

Lemma segment_no_space (s : string) : segment_ok s -> no_char " " s.
Proof.
  unfold segment_ok, no_char. intros H.
  eapply Forall_impl; [exact H|]. intros a [_ Ha]. exact Ha.
Qed.

(** A signed token splits back into its three segments, and holds no
    space. *)
Lemma strings_Split_token (h p sig : string) :
  segment_ok h -> segment_ok p -> segment_ok sig ->
  strings_Split ((h +:+ "." +:+ p) +:+ "." +:+ sig) "." = [h; p; sig].
Proof.
  intros Hh Hp Hs.
  change ((h +:+ "." +:+ p) +:+ "." +:+ sig)
    with ((h +:+ String "." p) +:+ String "." sig).
  replace ((h +:+ String "." p) +:+ String "." sig)
    with (h +:+ String "." (p +:+ String "." sig)).
  2:{ clear. induction h as [|a h IH]; [reflexivity|].
      change (String a (h +:+ String "." (p +:+ String "." sig))
              = String a ((h +:+ String "." p) +:+ String "." sig)).
      f_equal. exact IH. }
  rewrite strings_Split_app by now apply segment_no_dot.
  rewrite strings_Split_app by now apply segment_no_dot.
  rewrite strings_Split_no_char by now apply segment_no_dot.
  reflexivity.
Qed.

Lemma no_space_token (h p sig : string) :
  segment_ok h -> segment_ok p -> segment_ok sig ->
  no_char " " ((h +:+ "." +:+ p) +:+ "." +:+ sig).
Proof.
  intros Hh Hp Hs.
  repeat apply no_char_app; try (now apply segment_no_space).
  all: repeat constructor; discriminate.
Qed.

Lemma strings_Split_Bearer (tok : string) :
  no_char " " tok ->
  strings_Split ("Bearer " +:+ tok) " " = ["Bearer"%string; tok].
Proof.
  intros H.
  change ("Bearer " +:+ tok) with ("Bearer" +:+ String " " tok).
  rewrite strings_Split_app by (repeat constructor; discriminate).
  rewrite strings_Split_no_char by assumption. reflexivity.
Qed.

(** ** The reference instance satisfies the library laws *)

Lemma bits_pos_bits (p : positive) : reference.bits_pos (reference.pos_bits p) = Some p.
Proof. induction p as [p IH|p IH|]; simpl; [rewrite IH..|]; reflexivity. Qed.

Lemma pos_bits_segment (p : positive) : segment_ok (reference.pos_bits p).
Proof.
  unfold segment_ok.
  induction p as [p IH|p IH|]; simpl; constructor; try assumption; split; discriminate.
Qed.

Lemma reference_dec_enc {A : Type} `{Countable A} (a : A) :
  reference.dec (reference.enc a) = Some a.
Proof.
  unfold reference.dec, reference.enc. rewrite bits_pos_bits. apply decode_encode.
Qed.

Lemma skip_newlines_pos_bits (p : positive) :
  reference.skip_newlines (reference.pos_bits p) = reference.pos_bits p.
Proof. induction p as [p IH|p IH|]; simpl; [rewrite IH..|]; reflexivity. Qed.

Lemma reference_laws : LibLaws reference.lib.
Proof.
  split; simpl.
  - intros u. apply reference_dec_enc.
  - intros o. apply reference_dec_enc.
  - intros o. apply pos_bits_segment.
  - intros b. unfold reference.enc at 1. rewrite skip_newlines_pos_bits.
    apply (reference_dec_enc b).
  - intros b. apply pos_bits_segment.
  - intros salt pw h [= <-]. rewrite reference_dec_enc. apply String.eqb_refl.
Qed.

(** ** The codec *)

Section Codec.
Context {L : Lib} {HL : LibLaws L}.

(** Parsing what [SignedString] produced gets past the split, the two
    decodings, the method lookup and the signature check. *)
Lemma ParseWithClaims_SignedString {C : Type}
    (unmarshal : JObject -> option C) (registered : C -> jwt.RegisteredClaims)
    (o : JObject) (key tok : string)
    (keyFunc : jwt.SigningMethod -> option string) (now : Z) :
  keyFunc jwt.SigningMethodHS256 = Some key ->
  jwt.SignedString jwt.SigningMethodHS256 o key = Ok tok ->
  jwt.ParseWithClaims unmarshal registered tok keyFunc now
  = match unmarshal o with
    | None => Err jwt.ErrTokenMalformed
    | Some claims =>
        match jwt.Validate (registered claims) now with
        | Some e => Err e
        | None => Ok claims
        end
    end.
Proof.
  intros Hkey [= <-]. unfold jwt.ParseWithClaims, jwt.SigningString.
  rewrite strings_Split_token
    by (apply b64json_segment || apply b64_segment).
  rewrite !b64json_decode_encode.
  destruct (unmarshal o) as [claims|]; [|reflexivity].
  change (jmap_get "alg" _) with (Some (JStr "HS256")). cbv beta iota.
  assert (jwt.GetSigningMethod "HS256" = Some jwt.SigningMethodHS256) as ->
    by reflexivity.
  rewrite b64_decode_encode, Hkey. unfold jwt.Verify, jwt.SigningMethodHS256.
  simpl jwt.Alg. rewrite String.eqb_refl. reflexivity.
Qed.

Lemma ParseUnverified_SignedString (o : JObject) (key tok : string) :
  jwt.SignedString jwt.SigningMethodHS256 o key = Ok tok ->
  jwt.ParseUnverified tok = Some o.
Proof.
  intros [= <-]. unfold jwt.ParseUnverified, jwt.SigningString.
  rewrite strings_Split_token
    by (apply b64json_segment || apply b64_segment).
  rewrite !b64json_decode_encode. reflexivity.
Qed.

Lemma SignedString_no_space (o : JObject) (key tok : string) :
  jwt.SignedString jwt.SigningMethodHS256 o key = Ok tok ->
  no_char " " tok.
Proof.
  intros [= <-]. unfold jwt.SigningString.
  apply no_space_token; (apply b64json_segment || apply b64_segment).
Qed.

End Codec.

(** ** Claims and their JSON form *)

Section ClaimsJSON.
Context {L : Lib} {HL : LibLaws L}.

Lemma is_int_check (v : Z) :
  spec.is_int v -> (int_min <=? v) && (v <=? int_max) = true.
Proof. intros [H1 H2]. apply andb_true_iff. split; apply Z.leb_le; assumption. Qed.

(** Unmarshalling what was marshalled, member by member: every key is the
    name of a field or folds to none, the id is parsed back and the version
    is within range. *)
Ltac unmarshal_minted v Hv :=
  unfold utils.Claims_unmarshal, utils.AdminClaims_unmarshal, utils.Claims_json,
    utils.AdminClaims_json, jwt.RegisteredClaims_json;
  cbn -[int_min int_max Z.leb];
  rewrite uuid_Parse_String;
  cbn -[int_min int_max Z.leb];
  rewrite (is_int_check v Hv);
  reflexivity.

Lemma Claims_unmarshal_json (c : utils.Claims) :
  spec.is_int (utils.Claims_TokenVersion c) ->
  utils.Claims_unmarshal (utils.Claims_json c) = Some c.
Proof.
  destruct c as [id ph ty v [[e|] [n|] [i|]]]; simpl utils.Claims_TokenVersion;
    intros Hv;
    unmarshal_minted v Hv.
Qed.

Lemma AdminClaims_unmarshal_json (c : utils.AdminClaims) :
  spec.is_int (utils.AdminClaims_TokenVersion c) ->
  utils.AdminClaims_unmarshal (utils.AdminClaims_json c) = Some c.
Proof.
  destruct c as [id un rl ty v [[e|] [n|] [i|]]]; simpl utils.AdminClaims_TokenVersion;
    intros Hv;
    unmarshal_minted v Hv.
Qed.

(** Read as admin claims, a user token keeps its tag: the phone is
    dropped and the admin fields stay empty. *)
Lemma AdminClaims_unmarshal_Claims_json (c : utils.Claims) :
  spec.is_int (utils.Claims_TokenVersion c) ->
  utils.AdminClaims_unmarshal (utils.Claims_json c)
  = Some {| utils.AdminClaims_AdminID := utils.Claims_UserID c;
            utils.AdminClaims_Username := "";
            utils.AdminClaims_Role := "";
            utils.AdminClaims_TokenType := utils.Claims_TokenType c;
            utils.AdminClaims_TokenVersion := utils.Claims_TokenVersion c;
            utils.AdminClaims_RegisteredClaims := utils.Claims_RegisteredClaims c |}.
Proof.
  destruct c as [id ph ty v [[e|] [n|] [i|]]]; simpl utils.Claims_TokenVersion;
    intros Hv;
    unmarshal_minted v Hv.
Qed.

Lemma Claims_unmarshal_AdminClaims_json (c : utils.AdminClaims) :
  spec.is_int (utils.AdminClaims_TokenVersion c) ->
  utils.Claims_unmarshal (utils.AdminClaims_json c)
  = Some {| utils.Claims_UserID := utils.AdminClaims_AdminID c;
            utils.Claims_Phone := "";
            utils.Claims_TokenType := utils.AdminClaims_TokenType c;
            utils.Claims_TokenVersion := utils.AdminClaims_TokenVersion c;
            utils.Claims_RegisteredClaims := utils.AdminClaims_RegisteredClaims c |}.
Proof.
  destruct c as [id un rl ty v [[e|] [n|] [i|]]]; simpl utils.AdminClaims_TokenVersion;
    intros Hv;
    unmarshal_minted v Hv.
Qed.

End ClaimsJSON.

(** ** Minting and verifying *)

Section MintVerify.
Context {L : Lib} {HL : LibLaws L} (cfg : config.JWTConfig).

Lemma second_pos : 0 < jwt.second.
Proof. reflexivity. Qed.

Lemma Validate_minted (now ttl now' : Z) :
  now <= now' ->
  now' < (now + ttl) / jwt.second * jwt.second ->
  jwt.Validate
    {| jwt.ExpiresAt := jwt.NewNumericDate (now + ttl);
       jwt.IssuedAt := jwt.NewNumericDate now;
       jwt.NotBefore := jwt.NewNumericDate now |} now' = None.
Proof.
  intros Hle Hexp. unfold jwt.Validate, jwt.expired, jwt.not_valid_yet. simpl.
  pose proof (Z.mul_div_le now jwt.second second_pos) as Hnbf.
  destruct (Z.ltb_spec now' ((now + ttl) / jwt.second * jwt.second)); [|lia].
  destruct (Z.ltb_spec now' (now / jwt.second * jwt.second)); [lia|reflexivity].
Qed.

Lemma Validate_minted_admin (now now' : Z) :
  now <= now' ->
  jwt.Validate
    {| jwt.ExpiresAt := None;
       jwt.IssuedAt := jwt.NewNumericDate now;
       jwt.NotBefore := jwt.NewNumericDate now |} now' = None.
Proof.
  intros Hle. unfold jwt.Validate, jwt.expired, jwt.not_valid_yet. simpl.
  pose proof (Z.mul_div_le now jwt.second second_pos) as Hnbf.
  destruct (Z.ltb_spec now' (now / jwt.second * jwt.second)); [lia|reflexivity].
Qed.

Lemma generateToken_signs (now : Z) (id : UUID) (phone : string) (v : Z)
    (ty : utils.TokenType) (ttl : Z) :
  utils.generateToken cfg now id phone v ty ttl
  = jwt.SignedString jwt.SigningMethodHS256
      (utils.Claims_json (spec.minted_Claims now id phone v ty ttl)) (config.Secret cfg).
Proof. reflexivity. Qed.

Lemma GenerateAdminToken_signs (now : Z) (id : UUID) (username rl : string) (v : Z) :
  utils.GenerateAdminToken cfg now id username rl v
  = jwt.SignedString jwt.SigningMethodHS256
      (utils.AdminClaims_json (spec.minted_AdminClaims now id username rl v))
      (config.Secret cfg).
Proof. reflexivity. Qed.

(** Signing with the HMAC method always returns a token. *)
Lemma generateToken_total (now : Z) (id : UUID) (phone : string) (v : Z)
    (ty : utils.TokenType) (ttl : Z) :
  exists tok, utils.generateToken cfg now id phone v ty ttl = Ok tok.
Proof. eexists. reflexivity. Qed.

Lemma GenerateAdminToken_total (now : Z) (id : UUID) (username rl : string) (v : Z) :
  exists tok, utils.GenerateAdminToken cfg now id username rl v = Ok tok.
Proof. eexists. reflexivity. Qed.

Lemma ValidateToken_generateToken (now now' : Z) (id : UUID) (phone : string)
    (v : Z) (ty expected : utils.TokenType) (ttl : Z) (tok : string) :
  spec.is_int v ->
  now <= now' ->
  now' < (now + ttl) / jwt.second * jwt.second ->
  utils.generateToken cfg now id phone v ty ttl = Ok tok ->
  utils.ValidateToken cfg now' tok expected
  = if String.eqb ty expected
    then Returns (Ok (spec.minted_Claims now id phone v ty ttl))
    else Returns (Err utils.invalid_token_type).
Proof.
  intros Hv Hle Hexp Htok. rewrite generateToken_signs in Htok.
  unfold utils.ValidateToken.
  rewrite (ParseWithClaims_SignedString _ _ _ _ _ _ _ eq_refl Htok).
  rewrite Claims_unmarshal_json by exact Hv.
  simpl utils.Claims_RegisteredClaims. rewrite Validate_minted by assumption.
  simpl. destruct (String.eqb ty expected); reflexivity.
Qed.

Lemma ValidateAdminToken_generateToken (now now' : Z) (id : UUID) (phone : string)
    (v : Z) (ty : utils.TokenType) (ttl : Z) (tok : string) :
  spec.is_int v ->
  now <= now' ->
  now' < (now + ttl) / jwt.second * jwt.second ->
  ty <> utils.AdminToken ->
  utils.generateToken cfg now id phone v ty ttl = Ok tok ->
  utils.ValidateAdminToken cfg now' tok = Returns (Err utils.invalid_token_type).
Proof.
  intros Hv Hle Hexp Hty Htok. rewrite generateToken_signs in Htok.
  unfold utils.ValidateAdminToken.
  rewrite (ParseWithClaims_SignedString _ _ _ _ _ _ _ eq_refl Htok).
  rewrite AdminClaims_unmarshal_Claims_json by exact Hv.
  simpl utils.AdminClaims_RegisteredClaims. simpl utils.Claims_RegisteredClaims.
  rewrite Validate_minted by assumption. simpl.
  destruct (String.eqb_spec ty utils.AdminToken); [contradiction|reflexivity].
Qed.

Lemma ValidateAdminToken_GenerateAdminToken (now now' : Z) (id : UUID)
    (username rl : string) (v : Z) (tok : string) :
  spec.is_int v ->
  now <= now' ->
  utils.GenerateAdminToken cfg now id username rl v = Ok tok ->
  utils.ValidateAdminToken cfg now' tok
  = Returns (Ok (spec.minted_AdminClaims now id username rl v)).
Proof.
  intros Hv Hle Htok. rewrite GenerateAdminToken_signs in Htok.
  unfold utils.ValidateAdminToken.
  rewrite (ParseWithClaims_SignedString _ _ _ _ _ _ _ eq_refl Htok).
  rewrite AdminClaims_unmarshal_json by exact Hv.
  simpl utils.AdminClaims_RegisteredClaims.
  rewrite Validate_minted_admin by assumption. reflexivity.
Qed.

(** Under the user validator an admin token fails the tag check when a
    user tag is expected; expecting the admin tag there reaches the read of
    the absent expiry. *)
Lemma ValidateToken_GenerateAdminToken (now now' : Z) (id : UUID)
    (username rl : string) (v : Z) (expected : utils.TokenType) (tok : string) :
  spec.is_int v ->
  now <= now' ->
  utils.GenerateAdminToken cfg now id username rl v = Ok tok ->
  utils.ValidateToken cfg now' tok expected
  = if String.eqb utils.AdminToken expected then Panics
    else Returns (Err utils.invalid_token_type).
Proof.
  intros Hv Hle Htok. rewrite GenerateAdminToken_signs in Htok.
  unfold utils.ValidateToken.
  rewrite (ParseWithClaims_SignedString _ _ _ _ _ _ _ eq_refl Htok).
  rewrite Claims_unmarshal_AdminClaims_json by exact Hv.
  simpl utils.Claims_RegisteredClaims. simpl utils.AdminClaims_RegisteredClaims.
  rewrite Validate_minted_admin by assumption.
  cbn [utils.Claims_TokenType utils.Claims_RegisteredClaims jwt.ExpiresAt
       spec.minted_AdminClaims utils.AdminClaims_TokenType
       utils.AdminClaims_RegisteredClaims].
  destruct (String.eqb utils.AdminToken expected); reflexivity.
Qed.

(** A token is within its window at the instant it is minted when the
    configured lifetime of its kind is at least a second. *)
Lemma in_window_at_once (now : Z) (k : spec.Kind) :
  jwt.second <= config.AccessExpiry cfg ->
  jwt.second <= config.RefreshExpiry cfg ->
  spec.in_window cfg now k now.
Proof.
  intros Ha Hr. split; [lia|].
  assert (Hw : forall ttl, jwt.second <= ttl ->
                 now < (now + ttl) / jwt.second * jwt.second).
  { intros ttl Httl.
    pose proof (Z.div_le_mono (now + jwt.second) (now + ttl) jwt.second
                  second_pos ltac:(lia)) as Hmono.
    replace (now + jwt.second) with (now + 1 * jwt.second) in Hmono by lia.
    rewrite Z.div_add in Hmono by (unfold jwt.second; lia).
    pose proof (Z.mod_pos_bound now jwt.second second_pos) as Hmod.
    pose proof (Z.div_mod now jwt.second ltac:(unfold jwt.second; lia)) as Hdm.
    pose proof second_pos. nia. }
  destruct k; simpl; auto.
Qed.

(** C4.  A token of any kind, minted for any principal id, identity
    attribute and version, verifies under its own kind at any instant from
    the minting on and before its expiry (an admin token has none), giving
    back the id, the attribute, the kind and the version it was minted with;
    under each of the two other kinds the same token is refused with the
    kind-mismatch error. *)
Theorem mint_verify_roundtrip (now now' : Z) (k : spec.Kind) (id : UUID)
    (attr rl : string) (v : Z) :
  spec.is_int v ->
  spec.in_window cfg now k now' ->
  exists tok,
    spec.mint cfg now k id attr rl v = Ok tok
    /\ spec.verify cfg now' k tok
       = Returns (Ok {| spec.principal := id;
                        spec.attribute := attr;
                        spec.role := match k with
                                     | spec.AdminKind => rl
                                     | _ => EmptyString
                                     end;
                        spec.tagged := spec.tag k;
                        spec.version := v |})
    /\ forall k', k' <> k ->
         spec.verify cfg now' k' tok = Returns (Err utils.invalid_token_type).
Proof.
  intros Hv [Hle Hexp].
  destruct k; simpl in Hexp.
  - destruct (generateToken_total now id attr v utils.AccessToken
                (config.AccessExpiry cfg)) as [tok Htok].
    exists tok. split; [exact Htok|]. split.
    + simpl. rewrite (ValidateToken_generateToken _ _ _ _ _ _ _ _ _ Hv Hle Hexp Htok).
      reflexivity.
    + intros [] Hk; [congruence| |]; simpl.
      * rewrite (ValidateToken_generateToken _ _ _ _ _ _ _ _ _ Hv Hle Hexp Htok).
        reflexivity.
      * assert (utils.AccessToken <> utils.AdminToken) as Hty by discriminate.
        rewrite (ValidateAdminToken_generateToken _ _ _ _ _ _ _ _ Hv Hle Hexp Hty Htok).
        reflexivity.
  - destruct (generateToken_total now id attr v utils.RefreshToken
                (config.RefreshExpiry cfg)) as [tok Htok].
    exists tok. split; [exact Htok|]. split.
    + simpl. rewrite (ValidateToken_generateToken _ _ _ _ _ _ _ _ _ Hv Hle Hexp Htok).
      reflexivity.
    + intros [] Hk; [|congruence|]; simpl.
      * rewrite (ValidateToken_generateToken _ _ _ _ _ _ _ _ _ Hv Hle Hexp Htok).
        reflexivity.
      * assert (utils.RefreshToken <> utils.AdminToken) as Hty by discriminate.
        rewrite (ValidateAdminToken_generateToken _ _ _ _ _ _ _ _ Hv Hle Hexp Hty Htok).
        reflexivity.
  - destruct (GenerateAdminToken_total now id attr rl v) as [tok Htok].
    exists tok. split; [exact Htok|]. split.
    + simpl. rewrite (ValidateAdminToken_GenerateAdminToken _ _ _ _ _ _ _ Hv Hle Htok).
      reflexivity.
    + intros [] Hk; [| |congruence]; simpl;
        rewrite (ValidateToken_GenerateAdminToken _ _ _ _ _ _ _ _ Hv Hle Htok);
        reflexivity.
Qed.

End MintVerify.

(** ** Queries after writes *)

Section TableLemmas.
Context {R : Type} {M : db.Model R}.

Lemma First_Some (cond : R -> bool) (t : list R) (r : R) :
  db.First cond t = Some r -> In r t /\ db.live r = true /\ cond r = true.
Proof.
  unfold db.First. intros H. apply find_some in H.
  destruct H as [Hin Hc]. apply andb_true_iff in Hc. tauto.
Qed.

Lemma First_None (cond : R -> bool) (t : list R) (r : R) :
  db.First cond t = None -> In r t -> db.live r = true -> cond r = false.
Proof.
  unfold db.First. intros H Hin Hl.
  pose proof (find_none _ _ H r Hin) as Hc. simpl in Hc.
  rewrite Hl in Hc. exact Hc.
Qed.

(** A soft-deleted row does not resolve. *)
Lemma First_deleted (id : UUID) (t : list R) :
  (forall r, In r t -> db.PrimaryKey r = id -> db.DeletedAt r <> None) ->
  db.First (db.by_id id) t = None.
Proof.
  intros H. unfold db.First.
  induction t as [|x t IH]; [reflexivity|]. simpl.
  destruct (db.live x && db.by_id id x) eqn:E.
  - apply andb_true_iff in E. destruct E as [Hl Hid].
    unfold db.by_id in Hid. apply N.eqb_eq in Hid.
    exfalso. apply (H x (or_introl eq_refl) Hid).
    unfold db.live in Hl. destruct (db.DeletedAt x); [discriminate|reflexivity].
  - apply IH. intros r Hr. apply H. right. exact Hr.
Qed.

(** After [Save r'], a query that found a row with the key of [r'] finds
    [r'], provided [r'] still satisfies the condition. *)
Lemma First_Save_found (cond : R -> bool) (t : list R) (r r' : R) :
  db.First cond t = Some r ->
  db.PrimaryKey r' = db.PrimaryKey r ->
  db.live r' = true ->
  cond r' = true ->
  db.First cond (db.Save r' t) = Some r'.
Proof.
  unfold db.First, db.Save. intros Hf Hk Hl Hc.
  induction t as [|x t IH]; [discriminate|]. simpl in *.
  destruct (db.live x && db.by_id (db.PrimaryKey r') x) eqn:Ex.
  - rewrite Hl, Hc. reflexivity.
  - destruct (db.live x && cond x) eqn:Ec.
    + injection Hf as ->. exfalso.
      apply andb_true_iff in Ec. destruct Ec as [Hlx _].
      rewrite Hlx in Ex. unfold db.by_id in Ex. rewrite Hk, N.eqb_refl in Ex.
      discriminate.
    + apply IH. exact Hf.
Qed.

(** After [Save r'], a condition no live row satisfied and [r'] does is
    answered by [r'], provided a live row had its key. *)
Lemma First_Save_fresh (cond : R -> bool) (t : list R) (r r' : R) :
  db.First cond t = None ->
  In r t -> db.live r = true ->
  db.PrimaryKey r' = db.PrimaryKey r ->
  db.live r' = true ->
  cond r' = true ->
  db.First cond (db.Save r' t) = Some r'.
Proof.
  unfold db.First, db.Save. intros Hf Hin Hlr Hk Hl Hc.
  induction t as [|x t IH]; [contradiction|]. simpl in *.
  destruct (db.live x && cond x) eqn:Ec; [discriminate|].
  destruct (db.live x && db.by_id (db.PrimaryKey r') x) eqn:Ex.
  - rewrite Hl, Hc. reflexivity.
  - rewrite Ec. destruct Hin as [->|Hin].
    + rewrite Hlr in Ex. unfold db.by_id in Ex. rewrite Hk, N.eqb_refl in Ex.
      discriminate.
    + apply IH; assumption.
Qed.

Lemma First_Save_id (t : list R) (r r' : R) :
  In r t -> db.live r = true ->
  db.PrimaryKey r' = db.PrimaryKey r ->
  db.live r' = true ->
  db.First (db.by_id (db.PrimaryKey r')) (db.Save r' t) = Some r'.
Proof.
  unfold db.First, db.Save. intros Hin Hlr Hk Hl.
  induction t as [|x t IH]; [contradiction|]. simpl in *.
  destruct (db.live x && db.by_id (db.PrimaryKey r') x) eqn:Ex.
  - rewrite Hl. unfold db.by_id. rewrite N.eqb_refl. reflexivity.
  - rewrite Ex. destruct Hin as [->|Hin].
    + rewrite Hlr in Ex. unfold db.by_id in Ex. rewrite Hk, N.eqb_refl in Ex.
      discriminate.
    + apply IH; assumption.
Qed.

(** [Save] leaves the rows of other keys where they are. *)
Lemma In_Save_other (t : list R) (r r' : R) :
  In r t -> db.PrimaryKey r <> db.PrimaryKey r' -> In r (db.Save r' t).
Proof.
  unfold db.Save. intros Hin Hk. apply in_map_iff. exists r. split; [|exact Hin].
  destruct (db.live r); [|reflexivity]. simpl.
  unfold db.by_id. destruct (N.eqb_spec (db.PrimaryKey r) (db.PrimaryKey r'));
    [contradiction|reflexivity].
Qed.

Lemma In_insert_row (r x : R) (t : list R) :
  In x (db.insert_row r t) <-> x = r \/ In x t.
Proof.
  induction t as [|y t IH]; simpl; [intuition congruence|].
  destruct (db.PrimaryKey r <? db.PrimaryKey y)%N; simpl; [intuition congruence|].
  rewrite IH. intuition congruence.
Qed.

(** A row inserted under a key no row has is the one its key resolves to. *)
Lemma First_insert_row (r : R) (t : list R) :
  db.live r = true ->
  (forall x, In x t -> db.PrimaryKey x <> db.PrimaryKey r) ->
  db.First (db.by_id (db.PrimaryKey r)) (db.insert_row r t) = Some r.
Proof.
  unfold db.First. intros Hl Hfresh.
  induction t as [|y t IH]; simpl.
  - rewrite Hl. unfold db.by_id. rewrite N.eqb_refl. reflexivity.
  - destruct (db.PrimaryKey r <? db.PrimaryKey y)%N; simpl.
    + rewrite Hl. unfold db.by_id. rewrite N.eqb_refl. reflexivity.
    + unfold db.by_id at 1.
      destruct (N.eqb_spec (db.PrimaryKey y) (db.PrimaryKey r)) as [E|_].
      * exfalso. exact (Hfresh y (or_introl eq_refl) E).
      * rewrite andb_false_r. apply IH. intros x Hx. apply Hfresh. right. exact Hx.
Qed.

Lemma Insert_fresh (r : R) (t : list R) :
  db.DeletedAt r = None ->
  (forall x, In x t -> db.PrimaryKey x <> db.PrimaryKey r) ->
  db.Insert r t = Some (db.insert_row r t).
Proof.
  intros Hd Hfresh. unfold db.Insert.
  replace (existsb _ t) with false; [reflexivity|].
  symmetry. apply not_true_is_false. intros H.
  apply existsb_exists in H. destruct H as [x [Hx Hc]].
  apply orb_true_iff in Hc. destruct Hc as [Hc|Hc].
  - unfold db.by_id in Hc. apply N.eqb_eq in Hc. exact (Hfresh x Hx Hc).
  - unfold db.unique_conflict in Hc. rewrite Hd in Hc.
    destruct (db.DeletedAt x); rewrite andb_false_r in Hc; discriminate.
Qed.

End TableLemmas.

(** ** What a minted token is stamped with *)

Section Stamps.
Context {L : Lib} {HL : LibLaws L} (cfg : config.JWTConfig).

Lemma stamp_generateToken (now : Z) (id : UUID) (phone : string) (v : Z)
    (ty : utils.TokenType) (ttl : Z) (tok : string) :
  utils.generateToken cfg now id phone v ty ttl = Ok tok ->
  spec.stamp tok = Some v /\ spec.kind tok = Some ty.
Proof.
  intros Htok. rewrite generateToken_signs in Htok.
  unfold spec.stamp, spec.kind.
  rewrite (ParseUnverified_SignedString _ _ _ Htok). split; reflexivity.
Qed.

Lemma stamp_GenerateAdminToken (now : Z) (id : UUID) (username rl : string)
    (v : Z) (tok : string) :
  utils.GenerateAdminToken cfg now id username rl v = Ok tok ->
  spec.stamp tok = Some v /\ spec.kind tok = Some utils.AdminToken
  /\ spec.expiry tok = Some None.
Proof.
  intros Htok. rewrite GenerateAdminToken_signs in Htok.
  unfold spec.stamp, spec.kind, spec.expiry.
  rewrite (ParseUnverified_SignedString _ _ _ Htok). repeat split; reflexivity.
Qed.

End Stamps.

(** ** User login *)

Section Login.
Context {L : Lib} {HL : LibLaws L} (cfg : config.JWTConfig).

Lemma Data_APIResponse (st : Z) (ok : bool) (msg : string) (data : JObject) :
  handlers.Data (handlers.APIResponse st ok msg data) = data.
Proof. reflexivity. Qed.

Lemma Status_APIResponse (st : Z) (ok : bool) (msg : string) (data : JObject) :
  handlers.Status (handlers.APIResponse st ok msg data) = st.
Proof. reflexivity. Qed.

Lemma int_incr_succ (v : Z) : int_min <= v + 1 <= int_max -> int_incr v = v + 1.
Proof.
  unfold int_incr, int_wrap, int_min, int_max. intros H.
  rewrite Z.mod_small by lia. lia.
Qed.

Lemma logged_in_ID (user : models.User) (dev : string) :
  models.User_ID (spec.logged_in user dev) = models.User_ID user.
Proof.
  unfold spec.logged_in.
  destruct (handlers.deviceChanged user dev), (handlers.nonempty dev); reflexivity.
Qed.

Lemma logged_in_Phone (user : models.User) (dev : string) :
  models.User_Phone (spec.logged_in user dev) = models.User_Phone user.
Proof.
  unfold spec.logged_in.
  destruct (handlers.deviceChanged user dev), (handlers.nonempty dev); reflexivity.
Qed.

Lemma logged_in_Password (user : models.User) (dev : string) :
  models.User_Password (spec.logged_in user dev) = models.User_Password user.
Proof.
  unfold spec.logged_in.
  destruct (handlers.deviceChanged user dev), (handlers.nonempty dev); reflexivity.
Qed.

Lemma logged_in_DeletedAt (user : models.User) (dev : string) :
  models.User_DeletedAt (spec.logged_in user dev) = models.User_DeletedAt user.
Proof.
  unfold spec.logged_in.
  destruct (handlers.deviceChanged user dev), (handlers.nonempty dev); reflexivity.
Qed.

Lemma logged_in_TokenVersion (user : models.User) (dev : string) :
  models.User_TokenVersion (spec.logged_in user dev)
  = if handlers.deviceChanged user dev
    then int_incr (models.User_TokenVersion user)
    else models.User_TokenVersion user.
Proof.
  unfold spec.logged_in.
  destruct (handlers.deviceChanged user dev), (handlers.nonempty dev); reflexivity.
Qed.

Lemma logged_in_CurrentDeviceID (user : models.User) (dev : string) :
  models.User_CurrentDeviceID (spec.logged_in user dev)
  = if handlers.nonempty dev then dev else models.User_CurrentDeviceID user.
Proof.
  unfold spec.logged_in.
  destruct (handlers.deviceChanged user dev), (handlers.nonempty dev); reflexivity.
Qed.

(** A login with a well-formed phone, a resolving user and a matching
    password: what is answered and what is saved. *)
Lemma Login_success (d : db.DB) (now : Z) (phone password q1 q2 : string)
    (user : models.User) :
  phoneRegex_MatchString phone = true ->
  db.First (db.by_phone phone) (db.users d) = Some user ->
  models.User_CheckPassword user password = true ->
  let user' := spec.logged_in user (spec.deviceID_of q1 q2) in
  exists access refresh,
    utils.generateToken cfg now (models.User_ID user) (models.User_Phone user)
      (models.User_TokenVersion user') utils.AccessToken (config.AccessExpiry cfg)
    = Ok access
    /\ utils.generateToken cfg now (models.User_ID user) (models.User_Phone user)
         (models.User_TokenVersion user') utils.RefreshToken (config.RefreshExpiry cfg)
       = Ok refresh
    /\ handlers.Login cfg d now
         (Some {| handlers.LoginRequest_Phone := phone;
                  handlers.LoginRequest_Password := password |}) q1 q2 None
       = (handlers.APIResponse handlers.StatusOK true "Login successful"
            [("id", JStr (uuid_String (models.User_ID user)));
             ("phone", JStr (models.User_Phone user));
             ("access_token", JStr access);
             ("refresh_token", JStr refresh);
             ("access_expires_in", JNum (duration_seconds (config.AccessExpiry cfg)));
             ("refresh_expires_in", JNum (duration_seconds (config.RefreshExpiry cfg)))]%string,
          db.with_users (db.Save user' (db.users d)) d).
Proof.
  intros Hphone Hfind Hpw user'. subst user'.
  set (dev := spec.deviceID_of q1 q2).
  destruct (generateToken_total cfg now (models.User_ID user) (models.User_Phone user)
              (models.User_TokenVersion (spec.logged_in user dev)) utils.AccessToken
              (config.AccessExpiry cfg)) as [access Ha].
  destruct (generateToken_total cfg now (models.User_ID user) (models.User_Phone user)
              (models.User_TokenVersion (spec.logged_in user dev)) utils.RefreshToken
              (config.RefreshExpiry cfg)) as [refresh Hr].
  exists access, refresh. split; [exact Ha|]. split; [exact Hr|].
  unfold handlers.Login. cbn [handlers.LoginRequest_Phone handlers.LoginRequest_Password].
  rewrite Hphone, Hfind, Hpw. cbn [negb].
  fold (spec.deviceID_of q1 q2). fold dev.
  change (if handlers.nonempty dev
          then models.User_set_CurrentDeviceID dev
                 (if handlers.deviceChanged user dev
                  then models.User_set_TokenVersion
                         (int_incr (models.User_TokenVersion user)) user
                  else user)
          else if handlers.deviceChanged user dev
               then models.User_set_TokenVersion
                      (int_incr (models.User_TokenVersion user)) user
               else user)
    with (spec.logged_in user dev).
  unfold utils.GenerateTokens.
  rewrite (logged_in_ID user), (logged_in_Phone user).
  rewrite Ha, Hr. reflexivity.
Qed.

(** One successful login, as a step from a store to the next: the saved
    row is the one both later queries resolve to, and it is the row the
    tokens are stamped from. *)
Lemma Login_step (d : db.DB) (now : Z) (phone password q1 q2 : string)
    (user : models.User) :
  phoneRegex_MatchString phone = true ->
  db.First (db.by_phone phone) (db.users d) = Some user ->
  models.User_CheckPassword user password = true ->
  let user' := spec.logged_in user (spec.deviceID_of q1 q2) in
  let out := handlers.Login cfg d now
               (Some {| handlers.LoginRequest_Phone := phone;
                        handlers.LoginRequest_Password := password |}) q1 q2 None in
  handlers.Status (fst out) = handlers.StatusOK
  /\ db.First (db.by_phone phone) (db.users (snd out)) = Some user'
  /\ spec.user_by_id (snd out) (models.User_ID user) = Some user'
  /\ models.User_CheckPassword user' password = true
  /\ spec.stamp_of "access_token" (fst out) = Some (models.User_TokenVersion user')
  /\ spec.stamp_of "refresh_token" (fst out) = Some (models.User_TokenVersion user').
Proof.
  intros Hphone Hfind Hpw user' out.
  destruct (Login_success d now phone password q1 q2 user Hphone Hfind Hpw)
    as (access & refresh & Ha & Hr & Hlogin).
  fold user' in Ha, Hr, Hlogin. subst out. rewrite Hlogin.
  cbn [fst snd handlers.Status handlers.APIResponse db.users db.with_users].
  destruct (First_Some _ _ _ Hfind) as (Hin & Hlive & Hcond).
  assert (Hlive' : db.live user' = true).
  { unfold db.live in *. cbn [db.DeletedAt db.User_Model] in *.
    unfold user'. rewrite logged_in_DeletedAt. exact Hlive. }
  assert (Hkey : db.PrimaryKey user' = db.PrimaryKey user).
  { cbn [db.PrimaryKey db.User_Model]. apply logged_in_ID. }
  split; [reflexivity|]. split.
  { apply (First_Save_found _ _ user); try assumption.
    unfold db.by_phone in *. unfold user'. rewrite logged_in_Phone. exact Hcond. }
  split.
  { unfold spec.user_by_id. cbn [db.users].
    replace (models.User_ID user) with (db.PrimaryKey user')
      by (rewrite Hkey; reflexivity).
    apply (First_Save_id _ user); assumption. }
  split.
  { unfold models.User_CheckPassword in *. unfold user'.
    rewrite logged_in_Password. exact Hpw. }
  unfold spec.stamp_of, spec.field. rewrite !Data_APIResponse.
  assert (jmap_get "access_token"
            [("id", JStr (uuid_String (models.User_ID user)));
             ("phone", JStr (models.User_Phone user));
             ("access_token", JStr access);
             ("refresh_token", JStr refresh);
             ("access_expires_in", JNum (duration_seconds (config.AccessExpiry cfg)));
             ("refresh_expires_in", JNum (duration_seconds (config.RefreshExpiry cfg)))]%string
          = Some (JStr access)) as -> by reflexivity.
  assert (jmap_get "refresh_token"
            [("id", JStr (uuid_String (models.User_ID user)));
             ("phone", JStr (models.User_Phone user));
             ("access_token", JStr access);
             ("refresh_token", JStr refresh);
             ("access_expires_in", JNum (duration_seconds (config.AccessExpiry cfg)));
             ("refresh_expires_in", JNum (duration_seconds (config.RefreshExpiry cfg)))]%string
          = Some (JStr refresh)) as -> by reflexivity.
  split.
  - exact (proj1 (stamp_generateToken cfg _ _ _ _ _ _ _ Ha)).
  - exact (proj1 (stamp_generateToken cfg _ _ _ _ _ _ _ Hr)).
Qed.

Lemma deviceChanged_no_device (user : models.User) :
  handlers.deviceChanged user "" = true.
Proof. reflexivity. Qed.

Lemma deviceChanged_other (user : models.User) (dev : string) :
  dev <> EmptyString ->
  models.User_CurrentDeviceID user <> EmptyString ->
  models.User_CurrentDeviceID user <> dev ->
  handlers.deviceChanged user dev = true.
Proof.
  intros H1 H2 H3. unfold handlers.deviceChanged, handlers.nonempty.
  destruct (String.eqb_spec dev ""); [contradiction|].
  destruct (String.eqb_spec (models.User_CurrentDeviceID user) ""); [contradiction|].
  destruct (String.eqb_spec (models.User_CurrentDeviceID user) dev); [contradiction|].
  reflexivity.
Qed.

Lemma deviceChanged_same (user : models.User) (dev : string) :
  dev <> EmptyString ->
  models.User_CurrentDeviceID user = dev ->
  handlers.deviceChanged user dev = false.
Proof.
  intros H1 H2. unfold handlers.deviceChanged, handlers.nonempty.
  destruct (String.eqb_spec dev ""); [contradiction|].
  rewrite H2, String.eqb_refl. apply andb_false_r.
Qed.

(** With no stored device a login naming a device does not bump. *)
Lemma deviceChanged_first (user : models.User) (dev : string) :
  dev <> EmptyString ->
  models.User_CurrentDeviceID user = EmptyString ->
  handlers.deviceChanged user dev = false.
Proof.
  intros H1 H2. unfold handlers.deviceChanged, handlers.nonempty.
  destruct (String.eqb_spec dev ""); [contradiction|].
  rewrite H2. reflexivity.
Qed.

(** C1.  A login with correct credentials whose save the database
    performs, for a user whose version is below the largest [int]: with no
    device id the stored version grows by
    one; with a device id that differs from a stored, non-empty device it
    grows by one; with the stored device id it is unchanged.  The resulting
    row, with the device id when one was given, is the one stored, and both
    tokens of the answer carry its version.  Starting from version 0, three
    such logins without a device id store and stamp 1, then 2, then 3. *)
Theorem Login_version_policy (d : db.DB) (phone password : string)
    (user : models.User) :
  phoneRegex_MatchString phone = true ->
  db.First (db.by_phone phone) (db.users d) = Some user ->
  db.keyed user ->
  models.User_CheckPassword user password = true ->
  int_min <= models.User_TokenVersion user < int_max ->
  let req := Some {| handlers.LoginRequest_Phone := phone;
                     handlers.LoginRequest_Password := password |} in
  let v := models.User_TokenVersion user in
  let id := models.User_ID user in
  (forall (now : Z) (q1 q2 : string),
     let dev := spec.deviceID_of q1 q2 in
     let out := handlers.Login cfg d now req q1 q2 None in
     exists user',
       handlers.Status (fst out) = handlers.StatusOK
       /\ spec.user_by_id (snd out) id = Some user'
       /\ (dev = EmptyString -> models.User_TokenVersion user' = v + 1)
       /\ (dev <> EmptyString ->
           models.User_CurrentDeviceID user <> EmptyString ->
           models.User_CurrentDeviceID user <> dev ->
           models.User_TokenVersion user' = v + 1)
       /\ (dev <> EmptyString ->
           models.User_CurrentDeviceID user = dev ->
           models.User_TokenVersion user' = v)
       /\ (dev <> EmptyString -> models.User_CurrentDeviceID user' = dev)
       /\ spec.stamp_of "access_token" (fst out) = Some (models.User_TokenVersion user')
       /\ spec.stamp_of "refresh_token" (fst out) = Some (models.User_TokenVersion user'))
  /\ (v = 0 ->
      forall now1 now2 now3 : Z,
        let out1 := handlers.Login cfg d now1 req "" "" None in
        let out2 := handlers.Login cfg (snd out1) now2 req "" "" None in
        let out3 := handlers.Login cfg (snd out2) now3 req "" "" None in
        (spec.user_version (snd out1) id = Some 1
         /\ spec.stamp_of "access_token" (fst out1) = Some 1
         /\ spec.stamp_of "refresh_token" (fst out1) = Some 1)
        /\ (spec.user_version (snd out2) id = Some 2
            /\ spec.stamp_of "access_token" (fst out2) = Some 2
            /\ spec.stamp_of "refresh_token" (fst out2) = Some 2)
        /\ (spec.user_version (snd out3) id = Some 3
            /\ spec.stamp_of "access_token" (fst out3) = Some 3
            /\ spec.stamp_of "refresh_token" (fst out3) = Some 3)).
Proof.
  intros Hphone Hfind _ Hpw Hv req v id. split.
  - intros now q1 q2 dev out.
    destruct (Login_step d now phone password q1 q2 user Hphone Hfind Hpw)
      as (Hst & _ & Hid & _ & Hsa & Hsr).
    fold req out dev in Hst, Hid, Hsa, Hsr.
    exists (spec.logged_in user dev).
    split; [exact Hst|]. split; [exact Hid|].
    rewrite logged_in_TokenVersion, logged_in_CurrentDeviceID.
    split; [|split; [|split; [|split; [|split]]]].
    + intros ->. rewrite deviceChanged_no_device. apply int_incr_succ. fold v. lia.
    + intros H1 H2 H3. rewrite deviceChanged_other by assumption.
      apply int_incr_succ. fold v. lia.
    + intros H1 H2. rewrite deviceChanged_same by assumption. reflexivity.
    + intros H1. unfold handlers.nonempty.
      destruct (String.eqb_spec dev ""); [contradiction|reflexivity].
    + rewrite <- logged_in_TokenVersion. exact Hsa.
    + rewrite <- logged_in_TokenVersion. exact Hsr.
  - intros Hv0 now1 now2 now3 out1 out2 out3.
    destruct (Login_step d now1 phone password "" "" user Hphone Hfind Hpw)
      as (_ & Hf1 & Hid1 & Hpw1 & Hsa1 & Hsr1).
    fold req out1 in Hf1, Hid1, Hsa1, Hsr1.
    set (u1 := spec.logged_in user (spec.deviceID_of "" "")) in *.
    destruct (Login_step (snd out1) now2 phone password "" "" u1 Hphone Hf1 Hpw1)
      as (_ & Hf2 & Hid2 & Hpw2 & Hsa2 & Hsr2).
    fold req out2 in Hf2, Hid2, Hsa2, Hsr2.
    set (u2 := spec.logged_in u1 (spec.deviceID_of "" "")) in *.
    destruct (Login_step (snd out2) now3 phone password "" "" u2 Hphone Hf2 Hpw2)
      as (_ & Hf3 & Hid3 & Hpw3 & Hsa3 & Hsr3).
    fold req out3 in Hf3, Hid3, Hsa3, Hsr3.
    set (u3 := spec.logged_in u2 (spec.deviceID_of "" "")) in *.
    assert (Hv1 : models.User_TokenVersion u1 = 1).
    { unfold u1. rewrite logged_in_TokenVersion.
      change (spec.deviceID_of "" "") with EmptyString.
      rewrite deviceChanged_no_device. fold v. rewrite Hv0. reflexivity. }
    assert (Hv2 : models.User_TokenVersion u2 = 2).
    { unfold u2. rewrite logged_in_TokenVersion.
      change (spec.deviceID_of "" "") with EmptyString.
      rewrite deviceChanged_no_device, Hv1. reflexivity. }
    assert (Hv3 : models.User_TokenVersion u3 = 3).
    { unfold u3. rewrite logged_in_TokenVersion.
      change (spec.deviceID_of "" "") with EmptyString.
      rewrite deviceChanged_no_device, Hv2. reflexivity. }
    assert (Hi1 : models.User_ID u1 = id) by apply logged_in_ID.
    assert (Hi2 : models.User_ID u2 = id)
      by (unfold u2; rewrite logged_in_ID; exact Hi1).
    rewrite Hi1 in Hid2. rewrite Hi2 in Hid3.
    unfold spec.user_version. fold id in Hid1.
    rewrite Hid1, Hid2, Hid3, Hsa1, Hsr1, Hsa2, Hsr2, Hsa3, Hsr3.
    cbn [option_map]. rewrite Hv1, Hv2, Hv3. repeat split; reflexivity.
Qed.

(** C2, as the code has it.  For a user at version 0 with no stored
    device, a first successful login naming device "A" leaves the stored
    version at 0 and stores device "A"; a second successful login naming
    "A" leaves the version at 0. *)
Theorem Login_first_device_keeps_version (d : db.DB) (phone password : string)
    (user : models.User) (now1 now2 : Z) (q1 q2 : string) :
  phoneRegex_MatchString phone = true ->
  db.First (db.by_phone phone) (db.users d) = Some user ->
  db.keyed user ->
  models.User_CheckPassword user password = true ->
  models.User_TokenVersion user = 0 ->
  models.User_CurrentDeviceID user = EmptyString ->
  spec.deviceID_of q1 q2 = "A"%string ->
  let req := Some {| handlers.LoginRequest_Phone := phone;
                     handlers.LoginRequest_Password := password |} in
  let id := models.User_ID user in
  let out1 := handlers.Login cfg d now1 req q1 q2 None in
  let out2 := handlers.Login cfg (snd out1) now2 req q1 q2 None in
  (handlers.Status (fst out1) = handlers.StatusOK
   /\ spec.user_version (snd out1) id = Some 0
   /\ option_map models.User_CurrentDeviceID (spec.user_by_id (snd out1) id)
      = Some "A"%string)
  /\ (handlers.Status (fst out2) = handlers.StatusOK
      /\ spec.user_version (snd out2) id = Some 0).
Proof.
  intros Hphone Hfind _ Hpw Hv Hdev Hq req id out1 out2.
  assert (HA : "A"%string <> EmptyString) by discriminate.
  destruct (Login_step d now1 phone password q1 q2 user Hphone Hfind Hpw)
    as (Hst1 & Hf1 & Hid1 & Hpw1 & _ & _).
  fold req out1 in Hst1, Hf1, Hid1. rewrite Hq in Hf1, Hid1, Hpw1.
  set (u1 := spec.logged_in user "A") in *.
  destruct (Login_step (snd out1) now2 phone password q1 q2 u1 Hphone Hf1 Hpw1)
    as (Hst2 & _ & Hid2 & _ & _ & _).
  fold req out2 in Hst2, Hid2. rewrite Hq in Hid2.
  assert (Hv1 : models.User_TokenVersion u1 = 0).
  { unfold u1. rewrite logged_in_TokenVersion.
    rewrite (deviceChanged_first user "A" HA Hdev). exact Hv. }
  assert (Hd1 : models.User_CurrentDeviceID u1 = "A"%string).
  { unfold u1. rewrite logged_in_CurrentDeviceID. reflexivity. }
  assert (Hi1 : models.User_ID u1 = id) by apply logged_in_ID.
  rewrite Hi1 in Hid2.
  unfold spec.user_version. fold id in Hid1. rewrite Hid1, Hid2. cbn [option_map].
  rewrite Hv1, Hd1, logged_in_TokenVersion.
  rewrite (deviceChanged_same u1 "A" HA Hd1), Hv1.
  repeat split; assumption.
Qed.

End Login.

(** C2, as stated, fails: the first login naming device "A" for a user at
    version 0 with no stored device succeeds and stores device "A", and the
    stored version is 0, not 1. *)
Lemma Login_first_device_not_bumped :
  let out := scenario.Login scenario.d0 scenario.now scenario.login "A" "" in
  handlers.Status (fst out) = handlers.StatusOK
  /\ option_map models.User_CurrentDeviceID (spec.user_by_id (snd out) 7%N)
     = Some "A"%string
  /\ spec.user_version (snd out) 7%N = Some 0
  /\ spec.user_version (snd out) 7%N <> Some 1.
Proof. vm_compute. repeat split; discriminate. Qed.

(** ** Admin login *)

Section AdminLogin.
Context {L : Lib} {HL : LibLaws L} (cfg : config.JWTConfig).

(** C3.  A successful admin login (correct credentials, and the database
    performs the save), for an admin whose version is below the largest
    [int], stores the version grown by one, whatever else the
    request holds, and answers with a token tagged admin, stamped with the
    new version and carrying no expiry claim. *)
Theorem AdminLogin_bumps_version (d : db.DB) (now : Z) (username password : string)
    (admin : models.Admin) :
  username <> EmptyString ->
  password <> EmptyString ->
  db.First (db.by_username username) (db.admins d) = Some admin ->
  db.keyed admin ->
  models.Admin_CheckPassword admin password = true ->
  int_min <= models.Admin_TokenVersion admin < int_max ->
  let v := models.Admin_TokenVersion admin in
  let out := handlers.AdminLogin cfg d now
               (Some {| handlers.AdminLoginRequest_Username := username;
                        handlers.AdminLoginRequest_Password := password |}) None in
  exists tok,
    handlers.Status (fst out) = handlers.StatusOK
    /\ spec.field "access_token" (fst out) = Some tok
    /\ spec.admin_by_id (snd out) (models.Admin_ID admin)
       = Some (models.Admin_set_TokenVersion (v + 1) admin)
    /\ spec.stamp tok = Some (v + 1)
    /\ spec.kind tok = Some utils.AdminToken
    /\ spec.expiry tok = Some None.
Proof.
  intros Hu Hp Hfind _ Hpw Hv v out.
  set (admin1 := models.Admin_set_TokenVersion (v + 1) admin).
  destruct (GenerateAdminToken_total cfg now (models.Admin_ID admin1)
              (models.Admin_Username admin1) (models.Admin_Role admin1)
              (models.Admin_TokenVersion admin1)) as [tok Htok].
  exists tok.
  assert (Hout : out
    = (handlers.APIResponse handlers.StatusOK true "Login successful"
         [("id", JStr (uuid_String (models.Admin_ID admin1)));
          ("username", JStr (models.Admin_Username admin1));
          ("role", JStr (models.Admin_Role admin1));
          ("access_token", JStr tok)]%string,
       db.with_admins (db.Save admin1 (db.admins d)) d)).
  { subst out. unfold handlers.AdminLogin.
    cbn [handlers.AdminLoginRequest_Username handlers.AdminLoginRequest_Password].
    destruct (String.eqb_spec username ""); [contradiction|].
    destruct (String.eqb_spec password ""); [contradiction|].
    cbn [orb]. rewrite Hfind, Hpw. cbn [negb].
    rewrite (int_incr_succ (models.Admin_TokenVersion admin)) by (fold v; lia).
    fold v. fold admin1. rewrite Htok. reflexivity. }
  rewrite Hout. cbn [fst snd].
  destruct (First_Some _ _ _ Hfind) as (Hin & Hlive & _).
  destruct (stamp_GenerateAdminToken cfg _ _ _ _ _ _ Htok) as (Hs & Hk & He).
  split; [reflexivity|]. split; [reflexivity|]. split.
  { unfold spec.admin_by_id. cbn [db.admins db.with_admins].
    change (models.Admin_ID admin) with (db.PrimaryKey admin1).
    apply (First_Save_id _ admin); [exact Hin|exact Hlive|reflexivity|exact Hlive]. }
  split; [exact Hs|]. split; [exact Hk|exact He].
Qed.

End AdminLogin.

(** ** Refreshing *)

Section Refresh.
Context {L : Lib} {HL : LibLaws L} (cfg : config.JWTConfig).

(** The refusals of the codec are what the handler reports as invalid or
    expired: an error of the parser, or a tag other than refresh. *)
Lemma ValidateToken_refusals (now : Z) (tok : string) (expected : utils.TokenType) :
  (forall e,
     jwt.ParseWithClaims utils.Claims_unmarshal utils.Claims_RegisteredClaims tok
       (utils.keyFunc cfg) now = Err e ->
     utils.ValidateToken cfg now tok expected = Returns (Err (utils.jwt_error e)))
  /\ (forall claims,
        jwt.ParseWithClaims utils.Claims_unmarshal utils.Claims_RegisteredClaims tok
          (utils.keyFunc cfg) now = Ok claims ->
        utils.Claims_TokenType claims <> expected ->
        utils.ValidateToken cfg now tok expected
        = Returns (Err utils.invalid_token_type)).
Proof.
  unfold utils.ValidateToken. split.
  - intros e ->. reflexivity.
  - intros claims -> Hne.
    destruct (String.eqb_spec (utils.Claims_TokenType claims) expected);
      [contradiction|reflexivity].
Qed.

(** A token accepted at one instant is, at another, judged on its dates
    alone: the split, the decodings, the signature and the tag do not
    depend on the clock. *)
Lemma ValidateToken_again (now now' : Z) (tok : string)
    (expected : utils.TokenType) (claims : utils.Claims) :
  utils.ValidateToken cfg now tok expected = Returns (Ok claims) ->
  utils.ValidateToken cfg now' tok expected
  = match jwt.Validate (utils.Claims_RegisteredClaims claims) now' with
    | Some e => Returns (Err (utils.jwt_error e))
    | None => Returns (Ok claims)
    end.
Proof.
  unfold utils.ValidateToken, jwt.ParseWithClaims.
  destruct (strings_Split tok ".") as [|h [|p [|sig [|? ?]]]]; try discriminate.
  destruct (b64json_decode h) as [header|]; [|discriminate].
  destruct (b64json_decode p) as [payload|]; [|discriminate].
  destruct (utils.Claims_unmarshal payload) as [c|]; [|discriminate].
  destruct (jmap_get "alg" header) as [[| | | |alg| |]|]; try discriminate.
  destruct (jwt.GetSigningMethod alg) as [m|]; [|discriminate].
  destruct (b64_decode sig) as [signature|]; [|discriminate].
  destruct (utils.keyFunc cfg m) as [key|]; [|discriminate].
  destruct (jwt.Verify m (h +:+ "." +:+ p) signature key); [|discriminate].
  destruct (jwt.Validate (utils.Claims_RegisteredClaims c) now); [discriminate|].
  destruct (negb (String.eqb (utils.Claims_TokenType c) expected)) eqn:Hty;
    [discriminate|].
  destruct (jwt.ExpiresAt (utils.Claims_RegisteredClaims c)) as [e|] eqn:He;
    [|discriminate].
  intros [= <-].
  destruct (jwt.Validate (utils.Claims_RegisteredClaims c) now'); [reflexivity|].
  rewrite Hty, He. reflexivity.
Qed.

(** An access token of the program, within its lifetime, is refused when
    presented for refreshing. *)
Lemma RefreshToken_refuses_access_token (d : db.DB) (minted now now' : Z) (id : UUID)
    (phone : string) (v : Z) (tok : string) :
  spec.is_int v ->
  spec.in_window cfg minted spec.UserAccess now ->
  utils.generateToken cfg minted id phone v utils.AccessToken
    (config.AccessExpiry cfg) = Ok tok ->
  handlers.RefreshToken cfg d now now'
    (Some {| handlers.RefreshRequest_RefreshToken := tok |})
  = Returns (handlers.APIResponse handlers.StatusUnauthorized false
               "Invalid or expired refresh token" [], d).
Proof.
  intros Hv [Hle Hexp] Htok. unfold handlers.RefreshToken.
  cbn [handlers.RefreshRequest_RefreshToken].
  rewrite (ValidateToken_generateToken cfg _ _ _ _ _ _ _ _ _ Hv Hle Hexp Htok).
  reflexivity.
Qed.


End Refresh.

(** ** The access guards *)

Section Guards.
Context {L : Lib} {HL : LibLaws L} (cfg : config.JWTConfig).

Lemma JWTProtected_refines (d : db.DB) (now : Z) (authHeader : string) :
  middleware.JWTProtected cfg d now authHeader
  = spec.Go_fmap (spec.stated_answer "User not found" spec.user_locals)
      (spec.UserGuard cfg d now authHeader).
Proof.
  unfold middleware.JWTProtected, spec.UserGuard, spec.AccessGuard.
  destruct (String.eqb authHeader ""); [reflexivity|].
  destruct (strings_Split authHeader " ") as [|scheme [|tokenString [|? ?]]];
    try reflexivity.
  destruct (String.eqb scheme "Bearer"); [|reflexivity]. cbn [negb].
  destruct (utils.ValidateToken cfg now tokenString utils.AccessToken)
    as [[claims|e]|]; try reflexivity.
  unfold spec.user_version, spec.user_by_id.
  destruct (db.First (db.by_id (utils.Claims_UserID claims)) (db.users d))
    as [user|]; [|reflexivity].
  cbn [option_map db.Select_id_token_version models.User_TokenVersion].
  destruct (models.User_TokenVersion user =? utils.Claims_TokenVersion claims);
    reflexivity.
Qed.

Lemma AdminJWTProtected_refines (d : db.DB) (now : Z) (authHeader : string) :
  middleware.AdminJWTProtected cfg d now authHeader
  = spec.Go_fmap spec.admin_answer (spec.AdminGuard cfg d now authHeader).
Proof.
  unfold middleware.AdminJWTProtected, spec.AdminGuard, spec.AccessGuard.
  destruct (String.eqb authHeader ""); [reflexivity|].
  destruct (strings_Split authHeader " ") as [|scheme [|tokenString [|? ?]]];
    try reflexivity.
  destruct (String.eqb scheme "Bearer"); [|reflexivity]. cbn [negb].
  destruct (utils.ValidateAdminToken cfg now tokenString)
    as [[claims|e]|]; try reflexivity.
  unfold spec.admin_version, spec.admin_by_id.
  destruct (db.First (db.by_id (utils.AdminClaims_AdminID claims)) (db.admins d))
    as [admin|]; [|reflexivity].
  cbn [option_map].
  destruct (models.Admin_TokenVersion admin =? utils.AdminClaims_TokenVersion claims);
    reflexivity.
Qed.

(** A principal all of whose rows are soft-deleted has no live version. *)
Lemma user_version_deleted (d : db.DB) (id : UUID) :
  (forall u, In u (db.users d) -> models.User_ID u = id ->
             models.User_DeletedAt u <> None) ->
  spec.user_version d id = None.
Proof.
  intros H. unfold spec.user_version, spec.user_by_id.
  rewrite First_deleted; [reflexivity|]. exact H.
Qed.

Lemma admin_version_deleted (d : db.DB) (id : UUID) :
  (forall a, In a (db.admins d) -> models.Admin_ID a = id ->
             models.Admin_DeletedAt a <> None) ->
  spec.admin_version d id = None.
Proof.
  intros H. unfold spec.admin_version, spec.admin_by_id.
  rewrite First_deleted; [reflexivity|]. exact H.
Qed.

(** After [Delete], no live row has the key of the deleted row. *)
Lemma First_Delete (now' : Z) (u : models.User) (t : list models.User) :
  db.First (db.by_id (models.User_ID u)) (db.Delete now' u t) = None.
Proof.
  unfold db.First, db.Delete.
  induction t as [|x t IH]; [reflexivity|]. simpl.
  destruct (db.live x && db.by_id (models.User_ID u) x) eqn:E.
  - cbn [db.live db.DeletedAt db.SetDeletedAt db.User_Model models.User_DeletedAt andb].
    exact IH.
  - rewrite E. exact IH.
Qed.

(** A user deleted through [DeleteUser] no longer resolves: the guard
    answers a token of theirs, whatever its stamp, with "User not found". *)
Lemma DeleteUser_unresolves (d : db.DB) (now' : Z) (param_id : string) (id : UUID) :
  uuid_Parse param_id = Some id ->
  spec.user_version (snd (handlers.DeleteUser d now' param_id None None)) id = None.
Proof.
  intros Hparse. unfold handlers.DeleteUser. rewrite Hparse.
  unfold spec.user_version, spec.user_by_id.
  destruct (db.First (db.by_id id) (db.users d)) as [user|] eqn:Hfind.
  - destruct (First_Some _ _ _ Hfind) as (_ & _ & Hcond).
    unfold db.by_id in Hcond. apply N.eqb_eq in Hcond.
    cbn [db.PrimaryKey db.User_Model] in Hcond.
    cbn [snd db.users db.with_users]. rewrite <- Hcond.
    change (models.User_ID user)
      with (models.User_ID
              (models.User_set_TokenVersion
                 (int_incr (models.User_TokenVersion user)) user)) at 1.
    rewrite First_Delete. reflexivity.
  - cbn [snd]. rewrite Hfind. reflexivity.
Qed.

Example reference_deleted_user_not_found :
  let out := handlers.DeleteUser (L := reference.lib) scenario.d0 scenario.now
               (reference.enc 7%N) None None in
  handlers.Status (fst out) = handlers.StatusOK
  /\ middleware.JWTProtected (L := reference.lib) reference.cfg (snd out)
       scenario.now ("Bearer " +:+ scenario.user_token 7%N scenario.phone 0)
     = Returns (middleware.Unauthorized "User not found")
  /\ middleware.JWTProtected (L := reference.lib) reference.cfg (snd out)
       scenario.now ("Bearer " +:+ scenario.user_token 7%N scenario.phone 1)
     = Returns (middleware.Unauthorized "User not found").
Proof. vm_compute. repeat split; reflexivity. Qed.

(** C6, as the code has it.  Both guards decide in the stated order:
    header missing, header malformed, codec refusal, principal without a
    live row (soft-deleted rows included), version mismatch, success.  The
    user guard answers each outcome as stated and attaches the id and the
    phone; the admin guard answers a missing admin with the message of a
    version mismatch, "Token has been invalidated", and attaches the id,
    the username and the role. *)
Theorem guards_decision_order (d : db.DB) (now : Z) (authHeader : string) :
  middleware.JWTProtected cfg d now authHeader
  = spec.Go_fmap (spec.stated_answer "User not found" spec.user_locals)
      (spec.UserGuard cfg d now authHeader)
  /\ middleware.AdminJWTProtected cfg d now authHeader
     = spec.Go_fmap spec.admin_answer (spec.AdminGuard cfg d now authHeader)
  /\ (forall id,
        (forall u, In u (db.users d) -> models.User_ID u = id ->
                   models.User_DeletedAt u <> None) ->
        spec.user_version d id = None)
  /\ (forall id,
        (forall a, In a (db.admins d) -> models.Admin_ID a = id ->
                   models.Admin_DeletedAt a <> None) ->
        spec.admin_version d id = None).
Proof.
  split; [apply JWTProtected_refines|].
  split; [apply AdminJWTProtected_refines|].
  split; [apply user_version_deleted|apply admin_version_deleted].
Qed.

End Guards.

(** C6, as stated, fails for the admin guard: a validly signed admin token
    whose admin has no row in the store is a not-found outcome of the
    decision list, and the guard answers it with "Token has been
    invalidated", the answer it gives to a version mismatch, not with a
    not-found message. *)
Lemma AdminJWTProtected_not_found_message :
  let hdr := ("Bearer " +:+ scenario.admin_token 9%N "ghost" "regular" 0)%string in
  let stale := ("Bearer " +:+ scenario.admin_token 1%N "admin" "super" 5)%string in
  spec.AdminGuard (L := reference.lib) reference.cfg scenario.d0 scenario.now hdr
  = Returns spec.PrincipalNotFound
  /\ spec.AdminGuard (L := reference.lib) reference.cfg scenario.d0 scenario.now stale
     = Returns spec.Invalidated
  /\ middleware.AdminJWTProtected (L := reference.lib) reference.cfg scenario.d0
       scenario.now hdr
     = Returns (middleware.Unauthorized "Token has been invalidated")
  /\ middleware.AdminJWTProtected (L := reference.lib) reference.cfg scenario.d0
       scenario.now stale
     = Returns (middleware.Unauthorized "Token has been invalidated")
  /\ middleware.AdminJWTProtected (L := reference.lib) reference.cfg scenario.d0
       scenario.now hdr
     <> spec.Go_fmap (spec.stated_answer "Admin not found" spec.admin_locals)
          (spec.AdminGuard (L := reference.lib) reference.cfg scenario.d0
             scenario.now hdr).
Proof. vm_compute. repeat split; discriminate. Qed.

(** ** Admin update *)

Section UpdateAdmin.
Context {L : Lib} {HL : LibLaws L} (cfg : config.JWTConfig).

Lemma Bearer_nonempty (tok : string) : String.eqb ("Bearer " +:+ tok) "" = false.
Proof. reflexivity. Qed.

(** A successful [UpdateAdmin] saves a row with the key, the deletion mark
    and the version of the row it loaded; with a password in the request the
    saved hash is one of that password. *)
Lemma UpdateAdmin_success (d : db.DB) (param_id requestingAdminRole : string)
    (requestingAdminID : UUID) (req : handlers.UpdateAdminRequest)
    (salt : string) (adminID : UUID) (admin : models.Admin) :
  uuid_Parse param_id = Some adminID ->
  spec.admin_by_id d adminID = Some admin ->
  let out := handlers.UpdateAdmin d param_id requestingAdminRole
               requestingAdminID (Some req) salt None in
  handlers.Status (fst out) = handlers.StatusOK ->
  exists admin',
    snd out = db.with_admins (db.Save admin' (db.admins d)) d
    /\ models.Admin_ID admin' = models.Admin_ID admin
    /\ models.Admin_DeletedAt admin' = models.Admin_DeletedAt admin
    /\ models.Admin_TokenVersion admin' = models.Admin_TokenVersion admin
    /\ forall password,
         handlers.UpdateAdminRequest_Password req = Some password ->
         models.Admin_CheckPassword admin' password = true.
Proof.
  intros Hparse Hfind out. subst out. unfold handlers.UpdateAdmin.
  unfold spec.admin_by_id in Hfind. rewrite Hparse.
  destruct (negb (requestingAdminID =? adminID)%N
            && negb (String.eqb requestingAdminRole models.RoleSuper));
    [discriminate|].
  destruct req as [pw un rl]. cbn [handlers.UpdateAdminRequest_Password
    handlers.UpdateAdminRequest_Username handlers.UpdateAdminRequest_Role].
  assert (Hcheck : forall h password salt0,
            bcrypt_GenerateFromPassword salt0 password = Some h ->
            forall a, models.Admin_CheckPassword
                        (models.Admin_set_Password h a) password = true).
  { intros h password salt0 Hh a. unfold models.Admin_CheckPassword.
    cbn [models.Admin_set_Password models.Admin_Password].
    exact (bcrypt_compare_generate _ _ _ Hh). }
  destruct pw as [pw|], un as [un|], rl as [rl|];
    try discriminate;
    repeat match goal with
      | |- context [bool_decide ?P] => destruct (bool_decide P)
      | |- context [String.eqb requestingAdminRole models.RoleSuper] =>
          destruct (String.eqb requestingAdminRole models.RoleSuper)
      end;
    cbn [andb negb]; try discriminate;
    rewrite Hfind;
    try (destruct (String.length pw <? 6)%nat; [discriminate|];
         destruct (bcrypt_GenerateFromPassword salt pw) as [h|] eqn:Hh;
           [|discriminate]);
    try (destruct (negb (String.eqb rl models.RoleSuper)
                   && negb (String.eqb rl models.RoleRegular)); [discriminate|]);
    intros _; eexists; (split; [reflexivity|]);
    repeat split; try reflexivity;
    intros password [= <-] || intros password [=];
    try (unfold models.Admin_CheckPassword;
         cbn [models.Admin_set_Password models.Admin_set_Username
              models.Admin_set_Role models.Admin_Password];
         exact (bcrypt_compare_generate _ _ _ Hh)).
Qed.

(** C7.  An admin update that carries a password and succeeds leaves the
    stored version as it was, and a token minted for that admin before the
    update still passes the admin guard afterwards. *)
Theorem UpdateAdmin_password_keeps_token (d : db.DB)
    (param_id requestingAdminRole : string) (requestingAdminID : UUID)
    (req : handlers.UpdateAdminRequest) (salt password : string)
    (adminID : UUID) (admin : models.Admin) (minted now : Z) (tok : string) :
  uuid_Parse param_id = Some adminID ->
  spec.admin_by_id d adminID = Some admin ->
  db.keyed admin ->
  spec.is_int (models.Admin_TokenVersion admin) ->
  handlers.UpdateAdminRequest_Password req = Some password ->
  utils.GenerateAdminToken cfg minted (models.Admin_ID admin)
    (models.Admin_Username admin) (models.Admin_Role admin)
    (models.Admin_TokenVersion admin) = Ok tok ->
  minted <= now ->
  let out := handlers.UpdateAdmin d param_id requestingAdminRole
               requestingAdminID (Some req) salt None in
  handlers.Status (fst out) = handlers.StatusOK ->
  spec.admin_version (snd out) adminID = Some (models.Admin_TokenVersion admin)
  /\ (exists admin',
        spec.admin_by_id (snd out) adminID = Some admin'
        /\ models.Admin_CheckPassword admin' password = true)
  /\ middleware.AdminJWTProtected cfg (snd out) now ("Bearer " +:+ tok)
     = Returns (middleware.Next
                  [("id", middleware.LocalUUID (models.Admin_ID admin));
                   ("admin_username", middleware.LocalString (models.Admin_Username admin));
                   ("admin_role", middleware.LocalString (models.Admin_Role admin))]%string).
Proof.
  intros Hparse Hfind _ Hv Hpw Htok Hle out Hok.
  destruct (UpdateAdmin_success d param_id requestingAdminRole requestingAdminID
              req salt adminID admin Hparse Hfind Hok)
    as (admin' & Hsnd & Hid & Hdel & Hver & Hcheck).
  fold out in Hsnd.
  destruct (First_Some _ _ _ Hfind) as (Hin & Hlive & Hcond).
  assert (HadminID : models.Admin_ID admin = adminID).
  { unfold db.by_id in Hcond. apply N.eqb_eq in Hcond. exact Hcond. }
  assert (Hfind' : spec.admin_by_id (snd out) adminID = Some admin').
  { rewrite Hsnd. unfold spec.admin_by_id. cbn [db.admins db.with_admins].
    rewrite <- HadminID, <- Hid.
    apply (First_Save_id (M := db.Admin_Model) _ admin);
      [exact Hin|exact Hlive|exact Hid|].
    unfold db.live in *. cbn [db.DeletedAt db.Admin_Model] in *.
    rewrite Hdel. exact Hlive. }
  split. { unfold spec.admin_version. rewrite Hfind'. cbn [option_map]. now rewrite Hver. }
  split. { exists admin'. split; [exact Hfind'|]. apply Hcheck. exact Hpw. }
  rewrite AdminJWTProtected_refines.
  unfold spec.AdminGuard, spec.AccessGuard. rewrite Bearer_nonempty.
  rewrite strings_Split_Bearer.
  2:{ rewrite GenerateAdminToken_signs in Htok.
      exact (SignedString_no_space _ _ _ Htok). }
  rewrite String.eqb_refl.
  rewrite (ValidateAdminToken_GenerateAdminToken cfg _ _ _ _ _ _ _ Hv Hle Htok).
  cbn [spec.minted_AdminClaims utils.AdminClaims_AdminID utils.AdminClaims_TokenVersion].
  rewrite HadminID. unfold spec.admin_version. rewrite Hfind'. cbn [option_map].
  rewrite Hver, Z.eqb_refl. cbn [spec.Go_fmap spec.admin_answer spec.admin_locals
    utils.AdminClaims_AdminID utils.AdminClaims_Username utils.AdminClaims_Role].
  reflexivity.
Qed.

End UpdateAdmin.

(** ** Admin update of a user *)

Section UpdateUser.
Context {L : Lib} {HL : LibLaws L} (cfg : config.JWTConfig).

(** What the phone block leaves: the row as loaded, or the row with the
    requested phone, which then no live row had. *)
Lemma UpdateUser_phone_Ok (d : db.DB) (req : handlers.UpdateUserRequest)
    (user user1 : models.User) :
  handlers.UpdateUser_phone d req user = Ok user1 ->
  (user1 = user
   /\ (handlers.UpdateUserRequest_Phone req = EmptyString
       \/ handlers.UpdateUserRequest_Phone req = models.User_Phone user))
  \/ (user1 = models.User_set_Phone (handlers.UpdateUserRequest_Phone req) user
      /\ db.First (db.by_phone (handlers.UpdateUserRequest_Phone req)) (db.users d)
         = None).
Proof.
  unfold handlers.UpdateUser_phone, handlers.nonempty.
  destruct (String.eqb_spec (handlers.UpdateUserRequest_Phone req) "") as [E|E];
    cbn [negb andb].
  - intros [= <-]. left. split; [reflexivity|left; exact E].
  - destruct (String.eqb_spec (handlers.UpdateUserRequest_Phone req)
                (models.User_Phone user)) as [E'|E']; cbn [negb].
    + intros [= <-]. left. split; [reflexivity|right; exact E'].
    + destruct (phoneRegex_MatchString (handlers.UpdateUserRequest_Phone req));
        cbn [negb]; [|discriminate].
      destruct (db.First _ _) eqn:Hf; [discriminate|].
      intros [= <-]. right. split; reflexivity.
Qed.

(** What the password block leaves. *)
Lemma UpdateUser_password_Ok (req : handlers.UpdateUserRequest) (salt : string)
    (user1 user2 : models.User) :
  handlers.UpdateUser_password req salt user1 = Ok user2 ->
  models.User_ID user2 = models.User_ID user1
  /\ models.User_Phone user2 = models.User_Phone user1
  /\ models.User_DeletedAt user2 = models.User_DeletedAt user1
  /\ models.User_CurrentDeviceID user2 = models.User_CurrentDeviceID user1
  /\ (handlers.UpdateUserRequest_Password req = EmptyString -> user2 = user1)
  /\ (handlers.UpdateUserRequest_Password req <> EmptyString ->
      models.User_TokenVersion user2 = int_incr (models.User_TokenVersion user1)
      /\ models.User_CheckPassword user2 (handlers.UpdateUserRequest_Password req)
         = true).
Proof.
  unfold handlers.UpdateUser_password, handlers.nonempty.
  destruct (String.eqb_spec (handlers.UpdateUserRequest_Password req) "") as [E|E];
    cbn [negb].
  - intros [= <-]. do 4 (split; [reflexivity|]). split; [reflexivity|].
    intros H0. contradiction.
  - destruct (bcrypt_GenerateFromPassword salt _) as [h|] eqn:Hh; [|discriminate].
    intros [= <-]. do 4 (split; [reflexivity|]). split; [intros H0; contradiction|].
    intros _. split; [reflexivity|].
    unfold models.User_CheckPassword.
    cbn [models.User_set_TokenVersion models.User_set_Password models.User_Password].
    exact (bcrypt_compare_generate _ _ _ Hh).
Qed.

(** The version bump guarded by "phone was changed" is never taken: by
    the time the condition is read, the row already holds the requested
    phone. *)
Lemma UpdateUser_phone_branch_dead (d : db.DB) (req : handlers.UpdateUserRequest)
    (salt : string) (user user1 user2 : models.User) :
  handlers.UpdateUser_phone d req user = Ok user1 ->
  handlers.UpdateUser_password req salt user1 = Ok user2 ->
  handlers.UpdateUser_phone_changed req user2 = false.
Proof.
  intros H1 H2.
  destruct (UpdateUser_password_Ok _ _ _ _ H2) as (_ & Hph & _).
  unfold handlers.UpdateUser_phone_changed, handlers.nonempty. rewrite Hph.
  destruct (UpdateUser_phone_Ok _ _ _ _ H1) as [[-> [E|E]]|[-> _]].
  - rewrite E. reflexivity.
  - rewrite E, String.eqb_refl. apply andb_false_r.
  - cbn [models.User_set_Phone models.User_Phone].
    rewrite String.eqb_refl. apply andb_false_r.
Qed.

(** A successful [UpdateUser] went through the blocks and saved what the
    password block left. *)
Lemma UpdateUser_success (d : db.DB) (param_id : string)
    (req : handlers.UpdateUserRequest) (salt : string) (assignErr : option string)
    (userID : UUID) (user : models.User) :
  uuid_Parse param_id = Some userID ->
  spec.user_by_id d userID = Some user ->
  let out := handlers.UpdateUser d param_id (Some req) salt None assignErr in
  handlers.Status (fst out) = handlers.StatusOK ->
  exists user1 user2,
    handlers.UpdateUser_phone d req user = Ok user1
    /\ handlers.UpdateUser_password req salt user1 = Ok user2
    /\ snd out = db.with_users (db.Save user2 (db.users d)) d.
Proof.
  intros Hparse Hfind out. subst out. unfold handlers.UpdateUser.
  unfold spec.user_by_id in Hfind. rewrite Hparse.
  destruct (handlers.nonempty (handlers.UpdateUserRequest_Password req)
            && (String.length (handlers.UpdateUserRequest_Password req) <? 6)%nat);
    [discriminate|].
  rewrite Hfind.
  destruct (handlers.UpdateUser_phone d req user) as [user1|resp] eqn:H1.
  2:{ unfold handlers.UpdateUser_phone in H1.
      repeat match type of H1 with
        | (if ?c then _ else _) = _ => destruct c
        | match ?c with _ => _ end = _ => destruct c
        end; try discriminate; injection H1 as <-; discriminate. }
  destruct (handlers.UpdateUser_password req salt user1) as [user2|resp] eqn:H2.
  2:{ unfold handlers.UpdateUser_password in H2.
      repeat match type of H2 with
        | (if ?c then _ else _) = _ => destruct c
        | match ?c with _ => _ end = _ => destruct c
        end; try discriminate; injection H2 as <-; discriminate. }
  intros _. exists user1, user2.
  split; [first [exact H1|reflexivity]|]. split; [first [exact H2|reflexivity]|].
  unfold handlers.UpdateUser_phone_version.
  rewrite (UpdateUser_phone_branch_dead d req salt user user1 user2 H1 H2).
  destruct (handlers.UpdateUserRequest_Locations req), assignErr; reflexivity.
Qed.

(** An [UpdateUser] that does not succeed leaves the store as it was. *)
Lemma UpdateUser_failure (d : db.DB) (param_id : string)
    (body : option handlers.UpdateUserRequest) (salt : string)
    (saveErr assignErr : option string) :
  let out := handlers.UpdateUser d param_id body salt saveErr assignErr in
  handlers.Status (fst out) <> handlers.StatusOK -> snd out = d.
Proof.
  intros out. subst out. unfold handlers.UpdateUser.
  destruct (uuid_Parse param_id) as [userID|]; [|reflexivity].
  destruct body as [req|]; [|reflexivity].
  destruct (_ && _); [reflexivity|].
  destruct (db.First _ _) as [user|]; [|reflexivity].
  destruct (handlers.UpdateUser_phone d req user) as [user1|]; [|reflexivity].
  destruct (handlers.UpdateUser_password req salt user1) as [user2|]; [|reflexivity].
  destruct saveErr; [reflexivity|].
  destruct (handlers.UpdateUserRequest_Locations req), assignErr;
    intros H; exfalso; apply H; reflexivity.
Qed.

(** After a successful [UpdateUser], the id and the phone of the saved row
    resolve to it, provided the phone of the loaded row resolved to it. *)
Lemma UpdateUser_resolves (d : db.DB) (req : handlers.UpdateUserRequest)
    (salt : string) (userID : UUID) (user user1 user2 : models.User) :
  spec.user_by_id d userID = Some user ->
  handlers.UpdateUser_phone d req user = Ok user1 ->
  handlers.UpdateUser_password req salt user1 = Ok user2 ->
  let d' := db.with_users (db.Save user2 (db.users d)) d in
  spec.user_by_id d' userID = Some user2
  /\ (db.First (db.by_phone (models.User_Phone user)) (db.users d) = Some user ->
      db.First (db.by_phone (models.User_Phone user2)) (db.users d') = Some user2).
Proof.
  intros Hfind H1 H2 d'.
  destruct (First_Some _ _ _ Hfind) as (Hin & Hlive & Hcond).
  unfold db.by_id in Hcond. apply N.eqb_eq in Hcond.
  cbn [db.PrimaryKey db.User_Model] in Hcond.
  destruct (UpdateUser_password_Ok _ _ _ _ H2) as (Hid2 & Hph2 & Hdel2 & _).
  assert (Hid1 : models.User_ID user1 = models.User_ID user
                 /\ models.User_DeletedAt user1 = models.User_DeletedAt user).
  { destruct (UpdateUser_phone_Ok _ _ _ _ H1) as [[-> _]|[-> _]]; split; reflexivity. }
  destruct Hid1 as [Hid1 Hdel1].
  assert (Hkey : db.PrimaryKey user2 = db.PrimaryKey user).
  { cbn [db.PrimaryKey db.User_Model]. congruence. }
  assert (Hlive2 : db.live user2 = true).
  { unfold db.live in *. cbn [db.DeletedAt db.User_Model] in *.
    rewrite Hdel2, Hdel1. exact Hlive. }
  subst d'. cbn [db.users db.with_users]. split.
  - unfold spec.user_by_id. cbn [db.users].
    replace userID with (db.PrimaryKey user2)
      by (rewrite Hkey; exact Hcond).
    apply (First_Save_id _ user); assumption.
  - intros Hphone.
    destruct (UpdateUser_phone_Ok _ _ _ _ H1) as [[-> _]|[E Hnone]].
    + rewrite Hph2. apply (First_Save_found _ _ user); try assumption.
      unfold db.by_phone. rewrite Hph2. apply String.eqb_refl.
    + assert (Hp : models.User_Phone user2 = handlers.UpdateUserRequest_Phone req)
        by (rewrite Hph2, E; reflexivity).
      rewrite Hp. apply (First_Save_fresh _ _ user); try assumption.
      unfold db.by_phone. rewrite Hp. apply String.eqb_refl.
Qed.

(** C8, as the code has it.  A successful admin update of a user that
    carries a password stores the version grown by one; an access token
    minted before it, still within its lifetime, is refused by the user
    guard with the invalidation message; a login with the new password then
    succeeds, and its tokens carry the version that login stores: the
    post-reset version when the login names a device and the stored device is
    empty or the same, one more otherwise (no device id, or a device id
    other than a stored one). *)
Theorem UpdateUser_password_invalidates (d : db.DB) (param_id : string)
    (req : handlers.UpdateUserRequest) (salt : string) (assignErr : option string)
    (userID : UUID) (user : models.User) (minted now : Z) (tok : string) :
  uuid_Parse param_id = Some userID ->
  spec.user_by_id d userID = Some user ->
  db.keyed user ->
  db.First (db.by_phone (models.User_Phone user)) (db.users d) = Some user ->
  handlers.UpdateUserRequest_Password req <> EmptyString ->
  int_min <= models.User_TokenVersion user < int_max ->
  utils.generateToken cfg minted (models.User_ID user) (models.User_Phone user)
    (models.User_TokenVersion user) utils.AccessToken (config.AccessExpiry cfg)
  = Ok tok ->
  spec.in_window cfg minted spec.UserAccess now ->
  let v := models.User_TokenVersion user in
  let out := handlers.UpdateUser d param_id (Some req) salt None assignErr in
  handlers.Status (fst out) = handlers.StatusOK ->
  exists user',
    spec.user_by_id (snd out) userID = Some user'
    /\ models.User_TokenVersion user' = v + 1
    /\ middleware.JWTProtected cfg (snd out) now ("Bearer " +:+ tok)
       = Returns (middleware.Unauthorized
                    "Token has been invalidated. Please login again.")
    /\ forall (now2 : Z) (q1 q2 : string),
         phoneRegex_MatchString (models.User_Phone user') = true ->
         v + 1 < int_max ->
         let out2 :=
           handlers.Login cfg (snd out) now2
             (Some {| handlers.LoginRequest_Phone := models.User_Phone user';
                      handlers.LoginRequest_Password :=
                        handlers.UpdateUserRequest_Password req |}) q1 q2 None in
         let v2 := if handlers.deviceChanged user' (spec.deviceID_of q1 q2)
                   then v + 2 else v + 1 in
         handlers.Status (fst out2) = handlers.StatusOK
         /\ spec.user_version (snd out2) userID = Some v2
         /\ spec.stamp_of "access_token" (fst out2) = Some v2
         /\ spec.stamp_of "refresh_token" (fst out2) = Some v2.
Proof.
  intros Hparse Hfind _ Hphone Hpw Hv Htok [Hle Hexp] v out Hok.
  destruct (UpdateUser_success d param_id req salt assignErr userID user
              Hparse Hfind Hok) as (user1 & user2 & H1 & H2 & Hsnd).
  fold out in Hsnd.
  destruct (UpdateUser_resolves d req salt userID user user1 user2 Hfind H1 H2)
    as [Hid Hph].
  specialize (Hph Hphone). rewrite <- Hsnd in Hid, Hph.
  destruct (UpdateUser_password_Ok _ _ _ _ H2) as (Hid2 & _ & _ & _ & _ & Hbump).
  destruct (Hbump Hpw) as [Hver Hcheck].
  assert (Hv1 : models.User_TokenVersion user1 = v).
  { destruct (UpdateUser_phone_Ok _ _ _ _ H1) as [[-> _]|[-> _]]; reflexivity. }
  assert (Hid1 : models.User_ID user1 = models.User_ID user).
  { destruct (UpdateUser_phone_Ok _ _ _ _ H1) as [[-> _]|[-> _]]; reflexivity. }
  rewrite Hv1, int_incr_succ in Hver by lia.
  destruct (First_Some _ _ _ Hfind) as (_ & _ & Hcond).
  unfold db.by_id in Hcond. apply N.eqb_eq in Hcond.
  cbn [db.PrimaryKey db.User_Model] in Hcond.
  exists user2. split; [exact Hid|]. split; [exact Hver|]. split.
  - rewrite JWTProtected_refines.
    unfold spec.UserGuard, spec.AccessGuard. rewrite Bearer_nonempty.
    rewrite strings_Split_Bearer.
    2:{ rewrite generateToken_signs in Htok.
        exact (SignedString_no_space _ _ _ Htok). }
    rewrite String.eqb_refl.
    assert (Hint : spec.is_int (models.User_TokenVersion user))
      by (unfold spec.is_int; lia).
    rewrite (ValidateToken_generateToken cfg _ _ _ _ _ _ _ _ _ Hint Hle Hexp Htok).
    rewrite String.eqb_refl.
    cbn [spec.minted_Claims utils.Claims_UserID utils.Claims_TokenVersion].
    rewrite Hcond. unfold spec.user_version. rewrite Hid. cbn [option_map].
    rewrite Hver. fold v.
    destruct (Z.eqb_spec (v + 1) v); [lia|reflexivity].
  - intros now2 q1 q2 Hre Hv2 out2 v2.
    destruct (Login_step cfg (snd out) now2 (models.User_Phone user2)
                (handlers.UpdateUserRequest_Password req) q1 q2 user2 Hre Hph Hcheck)
      as (Hst & _ & Hid' & _ & Hsa & Hsr).
    fold out2 in Hst, Hid', Hsa, Hsr.
    assert (Hv2' : models.User_TokenVersion
                     (spec.logged_in user2 (spec.deviceID_of q1 q2)) = v2).
    { rewrite logged_in_TokenVersion, Hver. subst v2.
      destruct (handlers.deviceChanged user2 (spec.deviceID_of q1 q2));
        [|reflexivity].
      rewrite int_incr_succ by lia. lia. }
    rewrite Hv2' in Hsa, Hsr.
    split; [exact Hst|]. split; [|split; [exact Hsa|exact Hsr]].
    unfold spec.user_version.
    replace userID with (models.User_ID user2) by congruence.
    rewrite Hid'. cbn [option_map]. rewrite Hv2'. reflexivity.
Qed.

(** C9.  An admin update of a user that carries no password leaves the
    stored version as it was, whether it succeeds (also when it changes the
    phone) or not; the bump guarded by "phone was changed" cannot be taken,
    because the row holds the requested phone before the guard is read. *)
Theorem UpdateUser_phone_only_keeps_version (d : db.DB) (param_id : string)
    (req : handlers.UpdateUserRequest) (salt : string)
    (saveErr assignErr : option string) (userID : UUID) (user : models.User) :
  uuid_Parse param_id = Some userID ->
  spec.user_by_id d userID = Some user ->
  db.keyed user ->
  handlers.UpdateUserRequest_Password req = EmptyString ->
  let out := handlers.UpdateUser d param_id (Some req) salt saveErr assignErr in
  spec.user_version (snd out) userID = Some (models.User_TokenVersion user)
  /\ (handlers.Status (fst out) = handlers.StatusOK ->
      handlers.UpdateUserRequest_Phone req <> EmptyString ->
      option_map models.User_Phone (spec.user_by_id (snd out) userID)
      = Some (handlers.UpdateUserRequest_Phone req))
  /\ (forall user1 user2 salt',
        handlers.UpdateUser_phone d req user = Ok user1 ->
        handlers.UpdateUser_password req salt' user1 = Ok user2 ->
        handlers.UpdateUser_phone_changed req user2 = false).
Proof.
  intros Hparse Hfind _ Hpw out.
  assert (Hcases : handlers.Status (fst out) <> handlers.StatusOK
                   \/ handlers.Status (fst out) = handlers.StatusOK).
  { destruct (Z.eq_dec (handlers.Status (fst out)) handlers.StatusOK); auto. }
  assert (Hsaved : handlers.Status (fst out) = handlers.StatusOK ->
                   exists user',
                     spec.user_by_id (snd out) userID = Some user'
                     /\ models.User_TokenVersion user' = models.User_TokenVersion user
                     /\ (handlers.UpdateUserRequest_Phone req <> EmptyString ->
                         models.User_Phone user'
                         = handlers.UpdateUserRequest_Phone req)).
  { intros Hok. unfold out in *.
    destruct saveErr as [e|].
    { exfalso. revert Hok. unfold handlers.UpdateUser. rewrite Hparse.
      destruct (_ && _); [discriminate|].
      destruct (db.First _ _) as [u|]; [|discriminate].
      destruct (handlers.UpdateUser_phone d req u) as [u1|r1] eqn:E1.
      2:{ unfold handlers.UpdateUser_phone in E1.
          repeat match type of E1 with
            | (if ?c then _ else _) = _ => destruct c
            | match ?c with _ => _ end = _ => destruct c
            end; try discriminate; injection E1 as <-; discriminate. }
      destruct (handlers.UpdateUser_password req salt u1) as [u2|r2] eqn:E2.
      2:{ unfold handlers.UpdateUser_password in E2.
          repeat match type of E2 with
            | (if ?c then _ else _) = _ => destruct c
            | match ?c with _ => _ end = _ => destruct c
            end; try discriminate; injection E2 as <-; discriminate. }
      discriminate. }
    destruct (UpdateUser_success d param_id req salt assignErr userID user
                Hparse Hfind Hok) as (user1 & user2 & H1 & H2 & Hsnd).
    destruct (UpdateUser_resolves d req salt userID user user1 user2 Hfind H1 H2)
      as [Hid _].
    rewrite <- Hsnd in Hid. exists user2. split; [exact Hid|].
    destruct (UpdateUser_password_Ok _ _ _ _ H2) as (_ & _ & _ & _ & Hsame & _).
    rewrite (Hsame Hpw).
    destruct (UpdateUser_phone_Ok _ _ _ _ H1) as [[-> [E|E]]|[-> _]].
    - split; [reflexivity|]. intros Hne. contradiction.
    - split; [reflexivity|]. intros _. symmetry. exact E.
    - split; reflexivity. }
  split; [|split].
  - destruct Hcases as [Hfail|Hok].
    + unfold out in *.
      rewrite (UpdateUser_failure d param_id (Some req) salt saveErr assignErr Hfail).
      unfold spec.user_version. rewrite Hfind. reflexivity.
    + destruct (Hsaved Hok) as (user' & Hid & Hver & _).
      unfold spec.user_version. rewrite Hid. cbn [option_map]. now rewrite Hver.
  - intros Hok Hne.
    destruct (Hsaved Hok) as (user' & Hid & _ & Hph).
    rewrite Hid. cbn [option_map]. now rewrite (Hph Hne).
  - intros user1 user2 salt' H1 H2.
    exact (UpdateUser_phone_branch_dead d req salt' user user1 user2 H1 H2).
Qed.

End UpdateUser.

(** C8, as stated, fails in its last part: after the reset has taken the
    version of the user from 0 to 1, a fresh login without a device id
    succeeds, and its tokens and the store carry version 2, not the
    post-reset version 1. *)
Lemma relogin_after_reset_bumps_again :
  let out := scenario.Login (snd scenario.reset) scenario.now scenario.relogin "" "" in
  handlers.Status (fst scenario.reset) = handlers.StatusOK
  /\ spec.user_version (snd scenario.reset) 7%N = Some 1
  /\ handlers.Status (fst out) = handlers.StatusOK
  /\ spec.user_version (snd out) 7%N = Some 2
  /\ spec.stamp_of (L := reference.lib) "access_token" (fst out) = Some 2
  /\ spec.stamp_of (L := reference.lib) "refresh_token" (fst out) = Some 2
  /\ spec.stamp_of (L := reference.lib) "access_token" (fst out) <> Some 1.
Proof. vm_compute. repeat split; discriminate. Qed.

(** ** Registration *)

Section Register.
Context {L : Lib}.

Lemma First_all_deleted {R : Type} {M : db.Model R} (cond : R -> bool) (t : list R) :
  (forall r, In r t -> cond r = true -> db.DeletedAt r <> None) ->
  db.First cond t = None.
Proof.
  intros H. unfold db.First.
  induction t as [|x t IH]; [reflexivity|]. simpl.
  destruct (db.live x && cond x) eqn:E.
  - apply andb_true_iff in E. destruct E as [Hl Hc]. exfalso.
    apply (H x (or_introl eq_refl) Hc).
    unfold db.live in Hl. destruct (db.DeletedAt x); [discriminate|reflexivity].
  - apply IH. intros r Hr. apply H. right. exact Hr.
Qed.

Lemma First_insert_row_cond {R : Type} {M : db.Model R} (cond : R -> bool)
    (r : R) (t : list R) :
  db.First cond t = None ->
  db.live r = true -> cond r = true ->
  db.First cond (db.insert_row r t) = Some r.
Proof.
  unfold db.First. intros Hnone Hl Hc.
  induction t as [|y t IH]; simpl in *.
  - rewrite Hl, Hc. reflexivity.
  - destruct (db.live y && cond y) eqn:E; [discriminate|].
    destruct (db.PrimaryKey r <? db.PrimaryKey y)%N; simpl.
    + rewrite Hl, Hc. reflexivity.
    + rewrite E. apply IH. exact Hnone.
Qed.

(** C10.  When every row holding a phone is soft-deleted, registering with
    that phone (a fresh id, a hash bcrypt delivers, an insert the database
    performs) succeeds: the answer is 201 with the new id, the new row is
    live at version 0 beside the deleted one, and both the id and the phone
    now resolve to it. *)
Theorem Register_reuses_deleted_phone (d : db.DB) (phone password : string)
    (newID : UUID) (salt hashedPassword : string) (deleted : models.User) :
  phoneRegex_MatchString phone = true ->
  (6 <= String.length password)%nat ->
  In deleted (db.users d) ->
  models.User_Phone deleted = phone ->
  (forall u, In u (db.users d) -> models.User_Phone u = phone ->
             models.User_DeletedAt u <> None) ->
  (forall u, In u (db.users d) -> models.User_ID u <> newID) ->
  bcrypt_GenerateFromPassword salt password = Some hashedPassword ->
  let created :=
    {| models.User_ID := newID;
       models.User_Phone := phone;
       models.User_Password := hashedPassword;
       models.User_TokenVersion := 0;
       models.User_CurrentDeviceID := "";
       models.User_DeletedAt := None |} in
  let out := handlers.Register d
               (Some {| handlers.RegisterRequest_Phone := phone;
                        handlers.RegisterRequest_Password := password |})
               newID salt None in
  fst out = handlers.APIResponse handlers.StatusCreated true
              "User registered successfully"
              [("id", JStr (uuid_String newID)); ("phone", JStr phone)]%string
  /\ spec.user_by_id (snd out) newID = Some created
  /\ db.First (db.by_phone phone) (db.users (snd out)) = Some created
  /\ In deleted (db.users (snd out))
  /\ models.User_DeletedAt deleted <> None.
Proof.
  intros Hre Hlen Hin Hph Hdel Hfresh Hhash created out.
  assert (Hnone : db.First (db.by_phone phone) (db.users d) = None).
  { apply First_all_deleted. intros u Hu Hc. apply (Hdel u Hu).
    unfold db.by_phone in Hc. apply String.eqb_eq in Hc. exact Hc. }
  assert (Hout : out
    = (handlers.APIResponse handlers.StatusCreated true
         "User registered successfully"
         [("id", JStr (uuid_String newID)); ("phone", JStr phone)]%string,
       db.with_users (db.insert_row created (db.users d)) d)).
  { subst out. unfold handlers.Register.
    cbn [handlers.RegisterRequest_Phone handlers.RegisterRequest_Password].
    rewrite Hre. cbn [negb].
    destruct (Nat.ltb_spec (String.length password) 6); [lia|].
    rewrite Hnone. unfold db.Create_User, models.User_BeforeCreate.
    cbn [models.User_ID]. rewrite N.eqb_refl.
    cbn [models.User_set_ID models.User_Password models.User_Phone
         models.User_TokenVersion models.User_CurrentDeviceID models.User_DeletedAt
         models.User_ID].
    rewrite Hhash.
    change (models.User_set_Password hashedPassword
              (models.User_set_ID newID
                 {| models.User_ID := uuid_Nil;
                    models.User_Phone := phone;
                    models.User_Password := password;
                    models.User_TokenVersion := 0;
                    models.User_CurrentDeviceID := "";
                    models.User_DeletedAt := None |}))
      with created.
    rewrite (Insert_fresh (M := db.User_Model) created (db.users d) eq_refl Hfresh).
    reflexivity. }
  rewrite Hout. cbn [fst snd db.users db.with_users].
  split; [reflexivity|]. split.
  { unfold spec.user_by_id. cbn [db.users].
    apply (First_insert_row (M := db.User_Model) created); [reflexivity|exact Hfresh]. }
  split.
  { apply First_insert_row_cond; [exact Hnone|reflexivity|].
    unfold db.by_phone. apply String.eqb_refl. }
  split.
  { apply In_insert_row. right. exact Hin. }
  apply (Hdel deleted Hin Hph).
Qed.

End Register.

(** ** The theorems at the concrete store *)

Lemma Login_version_policy_witness :
  let out1 := scenario.Login scenario.d0 scenario.now scenario.login "" "" in
  let out2 := scenario.Login (snd out1) scenario.now scenario.login "" "" in
  let out3 := scenario.Login (snd out2) scenario.now scenario.login "" "" in
  spec.user_version (snd out1) 7%N = Some 1
  /\ spec.user_version (snd out2) 7%N = Some 2
  /\ spec.user_version (snd out3) 7%N = Some 3
  /\ spec.stamp_of (L := reference.lib) "access_token" (fst out3) = Some 3.
Proof.
  assert (H1 : phoneRegex_MatchString scenario.phone = true) by reflexivity.
  assert (H2 : db.First (db.by_phone scenario.phone) (db.users scenario.d0)
               = Some scenario.user0) by reflexivity.
  assert (H3 : models.User_CheckPassword (L := reference.lib) scenario.user0
                 scenario.password = true) by (vm_compute; reflexivity).
  assert (H4 : int_min <= models.User_TokenVersion scenario.user0 < int_max)
    by (vm_compute; split; [discriminate|reflexivity]).
  assert (Hk : db.keyed scenario.user0) by discriminate.
  destruct (Login_version_policy (HL := reference_laws) reference.cfg scenario.d0
              scenario.phone scenario.password scenario.user0 H1 H2 Hk H3 H4)
    as [_ H].
  destruct (H eq_refl scenario.now scenario.now scenario.now)
    as ((Ha & _) & (Hb & _) & (Hc & Hd & _)).
  exact (conj Ha (conj Hb (conj Hc Hd))).
Defined.

Lemma Login_first_device_keeps_version_witness :
  let out1 := scenario.Login scenario.d0 scenario.now scenario.login "A" "" in
  let out2 := scenario.Login (snd out1) scenario.now scenario.login "A" "" in
  spec.user_version (snd out1) 7%N = Some 0
  /\ spec.user_version (snd out2) 7%N = Some 0.
Proof.
  assert (H1 : phoneRegex_MatchString scenario.phone = true) by reflexivity.
  assert (H2 : db.First (db.by_phone scenario.phone) (db.users scenario.d0)
               = Some scenario.user0) by reflexivity.
  assert (H3 : models.User_CheckPassword (L := reference.lib) scenario.user0
                 scenario.password = true) by (vm_compute; reflexivity).
  assert (Hk : db.keyed scenario.user0) by discriminate.
  destruct (Login_first_device_keeps_version (HL := reference_laws) reference.cfg
              scenario.d0 scenario.phone scenario.password scenario.user0
              scenario.now scenario.now "A" "" H1 H2 Hk H3 eq_refl eq_refl eq_refl)
    as ((_ & Ha & _) & (_ & Hb)).
  exact (conj Ha Hb).
Defined.

Lemma AdminLogin_bumps_version_witness :
  let out := handlers.AdminLogin (L := reference.lib) reference.cfg scenario.d0
               scenario.now
               (Some {| handlers.AdminLoginRequest_Username := "admin";
                        handlers.AdminLoginRequest_Password := "oldpassword" |})
               None in
  exists tok,
    handlers.Status (fst out) = handlers.StatusOK
    /\ spec.field "access_token" (fst out) = Some tok
    /\ spec.admin_by_id (snd out) 1%N
       = Some (models.Admin_set_TokenVersion 1 scenario.admin0)
    /\ spec.stamp (L := reference.lib) tok = Some 1
    /\ spec.kind (L := reference.lib) tok = Some utils.AdminToken
    /\ spec.expiry (L := reference.lib) tok = Some None.
Proof.
  assert (H1 : "admin"%string <> EmptyString) by discriminate.
  assert (H2 : "oldpassword"%string <> EmptyString) by discriminate.
  assert (H3 : db.First (db.by_username "admin") (db.admins scenario.d0)
               = Some scenario.admin0) by reflexivity.
  assert (H4 : models.Admin_CheckPassword (L := reference.lib) scenario.admin0
                 "oldpassword" = true) by (vm_compute; reflexivity).
  assert (H5 : int_min <= models.Admin_TokenVersion scenario.admin0 < int_max)
    by (vm_compute; split; [discriminate|reflexivity]).
  assert (Hk : db.keyed scenario.admin0) by discriminate.
  exact (AdminLogin_bumps_version (HL := reference_laws) reference.cfg scenario.d0
           scenario.now "admin" "oldpassword" scenario.admin0 H1 H2 H3 Hk H4 H5).
Defined.

Lemma mint_verify_roundtrip_witness :
  exists tok,
    spec.mint (L := reference.lib) reference.cfg scenario.now spec.UserRefresh
      7%N scenario.phone "" 3 = Ok tok
    /\ spec.verify (L := reference.lib) reference.cfg scenario.now
         spec.UserRefresh tok
       = Returns (Ok {| spec.principal := 7%N;
                        spec.attribute := scenario.phone;
                        spec.role := "";
                        spec.tagged := utils.RefreshToken;
                        spec.version := 3 |})
    /\ forall k', k' <> spec.UserRefresh ->
         spec.verify (L := reference.lib) reference.cfg scenario.now k' tok
         = Returns (Err utils.invalid_token_type).
Proof.
  assert (H1 : spec.is_int 3) by (vm_compute; split; discriminate).
  assert (H2 : spec.in_window reference.cfg scenario.now spec.UserRefresh scenario.now)
    by (vm_compute; split; [discriminate|reflexivity]).
  exact (mint_verify_roundtrip (HL := reference_laws) reference.cfg scenario.now
           scenario.now spec.UserRefresh 7%N scenario.phone "" 3 H1 H2).
Defined.


Lemma UpdateAdmin_password_keeps_token_witness :
  let out := handlers.UpdateAdmin (L := reference.lib) scenario.d0
               (reference.enc 1%N) "super" 1%N (Some scenario.admin_password)
               "salt2" None in
  spec.admin_version (snd out) 1%N = Some 0
  /\ middleware.AdminJWTProtected (L := reference.lib) reference.cfg (snd out)
       scenario.now ("Bearer " +:+ scenario.admin_token 1%N "admin" "super" 0)
     = Returns (middleware.Next
                  [("id", middleware.LocalUUID 1%N);
                   ("admin_username", middleware.LocalString "admin");
                   ("admin_role", middleware.LocalString "super")]%string).
Proof.
  intros out.
  assert (H1 : uuid_Parse (Lib := reference.lib) (reference.enc 1%N) = Some 1%N)
    by (vm_compute; reflexivity).
  assert (H2 : spec.admin_by_id scenario.d0 1%N = Some scenario.admin0)
    by reflexivity.
  assert (H3 : spec.is_int (models.Admin_TokenVersion scenario.admin0))
    by (vm_compute; split; discriminate).
  assert (H4 : utils.GenerateAdminToken (L := reference.lib) reference.cfg
                 scenario.now (models.Admin_ID scenario.admin0)
                 (models.Admin_Username scenario.admin0)
                 (models.Admin_Role scenario.admin0)
                 (models.Admin_TokenVersion scenario.admin0)
               = Ok (scenario.admin_token 1%N "admin" "super" 0))
    by reflexivity.
  assert (H5 : scenario.now <= scenario.now) by (vm_compute; discriminate).
  assert (H6 : handlers.Status (fst out) = handlers.StatusOK)
    by (vm_compute; reflexivity).
  assert (Hk : db.keyed scenario.admin0) by discriminate.
  destruct (UpdateAdmin_password_keeps_token (HL := reference_laws) reference.cfg
              scenario.d0 (reference.enc 1%N) "super" 1%N scenario.admin_password
              "salt2" "newpassword123" 1%N scenario.admin0 scenario.now scenario.now
              (scenario.admin_token 1%N "admin" "super" 0)
              H1 H2 Hk H3 eq_refl H4 H5 H6) as (Ha & _ & Hb).
  exact (conj Ha Hb).
Defined.

Lemma UpdateUser_password_invalidates_witness :
  let out := scenario.reset in
  spec.user_version (snd out) 7%N = Some 1
  /\ middleware.JWTProtected (L := reference.lib) reference.cfg (snd out)
       scenario.now ("Bearer " +:+ scenario.user_token 7%N scenario.phone 0)
     = Returns (middleware.Unauthorized
                  "Token has been invalidated. Please login again.").
Proof.
  intros out.
  assert (H1 : uuid_Parse (Lib := reference.lib) (reference.enc 7%N) = Some 7%N)
    by (vm_compute; reflexivity).
  assert (H2 : spec.user_by_id scenario.d0 7%N = Some scenario.user0) by reflexivity.
  assert (H3 : db.First (db.by_phone (models.User_Phone scenario.user0))
                 (db.users scenario.d0) = Some scenario.user0) by reflexivity.
  assert (H4 : handlers.UpdateUserRequest_Password scenario.user_password
               <> EmptyString) by discriminate.
  assert (H5 : int_min <= models.User_TokenVersion scenario.user0 < int_max)
    by (vm_compute; split; [discriminate|reflexivity]).
  assert (H6 : utils.generateToken (L := reference.lib) reference.cfg scenario.now
                 (models.User_ID scenario.user0) (models.User_Phone scenario.user0)
                 (models.User_TokenVersion scenario.user0) utils.AccessToken
                 (config.AccessExpiry reference.cfg)
               = Ok (scenario.user_token 7%N scenario.phone 0)) by reflexivity.
  assert (H7 : spec.in_window reference.cfg scenario.now spec.UserAccess scenario.now)
    by (vm_compute; split; [discriminate|reflexivity]).
  assert (H8 : handlers.Status (fst out) = handlers.StatusOK)
    by (vm_compute; reflexivity).
  assert (Hk : db.keyed scenario.user0) by discriminate.
  destruct (UpdateUser_password_invalidates (HL := reference_laws) reference.cfg
              scenario.d0 (reference.enc 7%N) scenario.user_password "salt2" None
              7%N scenario.user0 scenario.now scenario.now
              (scenario.user_token 7%N scenario.phone 0)
              H1 H2 Hk H3 H4 H5 H6 H7 H8) as (user' & Hid & Hv & Hg & _).
  split; [|exact Hg].
  unfold spec.user_version.
  change (spec.user_by_id (snd out) 7%N = Some user') in Hid.
  rewrite Hid. cbn [option_map]. rewrite Hv. reflexivity.
Defined.

Lemma UpdateUser_phone_only_keeps_version_witness :
  let out := handlers.UpdateUser (L := reference.lib) scenario.d0
               (reference.enc 7%N) (Some scenario.user_phone) "salt2" None None in
  spec.user_version (snd out) 7%N = Some 0
  /\ option_map models.User_Phone (spec.user_by_id (snd out) 7%N)
     = Some "+77770000000"%string.
Proof.
  intros out.
  assert (H1 : uuid_Parse (Lib := reference.lib) (reference.enc 7%N) = Some 7%N)
    by (vm_compute; reflexivity).
  assert (H2 : spec.user_by_id scenario.d0 7%N = Some scenario.user0) by reflexivity.
  assert (H3 : handlers.Status (fst out) = handlers.StatusOK)
    by (vm_compute; reflexivity).
  assert (H4 : handlers.UpdateUserRequest_Phone scenario.user_phone <> EmptyString)
    by discriminate.
  assert (Hk : db.keyed scenario.user0) by discriminate.
  destruct (UpdateUser_phone_only_keeps_version (HL := reference_laws) scenario.d0
              (reference.enc 7%N) scenario.user_phone "salt2" None None 7%N
              scenario.user0 H1 H2 Hk eq_refl) as (Ha & Hb & _).
  exact (conj Ha (Hb H3 H4)).
Defined.

Lemma Register_reuses_deleted_phone_witness :
  let out := handlers.Register (L := reference.lib) scenario.d_gone
               (Some {| handlers.RegisterRequest_Phone := scenario.phone;
                        handlers.RegisterRequest_Password := scenario.password |})
               8%N "salt3" None in
  handlers.Status (fst out) = handlers.StatusCreated
  /\ spec.user_version (snd out) 8%N = Some 0
  /\ In scenario.gone (db.users (snd out)).
Proof.
  intros out.
  assert (H1 : phoneRegex_MatchString scenario.phone = true) by reflexivity.
  assert (H2 : (6 <= String.length scenario.password)%nat)
    by (vm_compute; repeat constructor).
  assert (H3 : In scenario.gone (db.users scenario.d_gone)) by (left; reflexivity).
  assert (H4 : forall u, In u (db.users scenario.d_gone) ->
                 models.User_Phone u = scenario.phone ->
                 models.User_DeletedAt u <> None).
  { intros u [<-|[]] _. discriminate. }
  assert (H5 : forall u, In u (db.users scenario.d_gone) -> models.User_ID u <> 8%N).
  { intros u [<-|[]]. discriminate. }
  destruct (Register_reuses_deleted_phone (L := reference.lib) scenario.d_gone
              scenario.phone scenario.password 8%N "salt3"
              (reference.enc ("salt3"%string, scenario.password)) scenario.gone
              H1 H2 H3 eq_refl H4 H5 eq_refl) as (Ha & Hb & _ & Hc & _).
  fold out in Ha, Hb, Hc.
  split; [rewrite Ha; reflexivity|]. split; [|exact Hc].
  unfold spec.user_version. rewrite Hb. reflexivity.
Defined.

(** * Further properties of the code *)

(** ** More on queries after writes *)

Section MoreTableLemmas.
Context {R : Type} {M : db.Model R}.

(** [Save] does not change what another key resolves to. *)
Lemma First_Save_other_id (id : UUID) (r : R) (t : list R) :
  db.PrimaryKey r <> id ->
  db.First (db.by_id id) (db.Save r t) = db.First (db.by_id id) t.
Proof.
  intros Hk. unfold db.First, db.Save.
  induction t as [|x t IH]; [reflexivity|]. simpl.
  destruct (db.live x && db.by_id (db.PrimaryKey r) x) eqn:E.
  - apply andb_true_iff in E. destruct E as [Hl Hx].
    unfold db.by_id in Hx. apply N.eqb_eq in Hx.
    assert (db.by_id id r = false) as ->.
    { unfold db.by_id. apply N.eqb_neq. exact Hk. }
    assert (db.by_id id x = false) as ->.
    { unfold db.by_id. apply N.eqb_neq. rewrite Hx. exact Hk. }
    rewrite !andb_false_r. exact IH.
  - destruct (db.live x && db.by_id id x); [reflexivity|exact IH].
Qed.

Lemma length_Save (r : R) (t : list R) : length (db.Save r t) = length t.
Proof. unfold db.Save. apply length_map. Qed.

(** A successful [Insert] met no row with the key of the new one. *)
Lemma Insert_Some (r : R) (t t' : list R) :
  db.Insert r t = Some t' ->
  t' = db.insert_row r t
  /\ forall x, In x t -> db.PrimaryKey x <> db.PrimaryKey r.
Proof.
  unfold db.Insert.
  destruct (existsb _ t) eqn:E; [discriminate|]. intros [= <-].
  split; [reflexivity|]. intros x Hx Hk.
  assert (existsb (fun x0 => db.by_id (db.PrimaryKey r) x0 || db.unique_conflict x0 r) t
          = true) as Habs.
  { apply existsb_exists. exists x. split; [exact Hx|].
    unfold db.by_id. rewrite Hk, N.eqb_refl. reflexivity. }
  rewrite Habs in E. discriminate.
Qed.

(** [Insert] refuses a key the table already holds, deleted or not. *)
Lemma Insert_duplicate_key (r x : R) (t : list R) :
  In x t -> db.PrimaryKey x = db.PrimaryKey r -> db.Insert r t = None.
Proof.
  intros Hx Hk. unfold db.Insert.
  assert (existsb (fun x0 => db.by_id (db.PrimaryKey r) x0 || db.unique_conflict x0 r) t
          = true) as ->; [|reflexivity].
  apply existsb_exists. exists x. split; [exact Hx|].
  unfold db.by_id. rewrite Hk, N.eqb_refl. reflexivity.
Qed.

Lemma First_insert_row_other (id : UUID) (r : R) (t : list R) :
  db.PrimaryKey r <> id ->
  db.First (db.by_id id) (db.insert_row r t) = db.First (db.by_id id) t.
Proof.
  intros Hk. unfold db.First.
  assert (Hr : db.live r && db.by_id id r = false).
  { unfold db.by_id. apply N.eqb_neq in Hk. rewrite Hk. apply andb_false_r. }
  induction t as [|y t IH]; simpl.
  - rewrite Hr. reflexivity.
  - destruct (db.PrimaryKey r <? db.PrimaryKey y)%N; simpl.
    + rewrite Hr. reflexivity.
    + destruct (db.live y && db.by_id id y); [reflexivity|exact IH].
Qed.

End MoreTableLemmas.

Section Deleting.
Context {R : Type} {M : db.Model R}.
Hypothesis SetDeletedAt_mark :
  forall t x, db.DeletedAt (db.SetDeletedAt t x) = t.

Lemma First_Delete_key (now : Z) (r : R) (t : list R) :
  db.First (db.by_id (db.PrimaryKey r)) (db.Delete now r t) = None.
Proof.
  unfold db.First, db.Delete.
  induction t as [|x t IH]; [reflexivity|]. simpl.
  destruct (db.live x && db.by_id (db.PrimaryKey r) x) eqn:E.
  - unfold db.live at 1. rewrite SetDeletedAt_mark. cbn [andb]. exact IH.
  - rewrite E. exact IH.
Qed.

Lemma First_Delete_other (now : Z) (id : UUID) (r : R) (t : list R) :
  db.PrimaryKey r <> id ->
  db.First (db.by_id id) (db.Delete now r t) = db.First (db.by_id id) t.
Proof.
  intros Hk. unfold db.First, db.Delete.
  induction t as [|x t IH]; [reflexivity|]. simpl.
  destruct (db.live x && db.by_id (db.PrimaryKey r) x) eqn:E.
  - apply andb_true_iff in E. destruct E as [Hl Hx].
    unfold db.by_id in Hx. apply N.eqb_eq in Hx.
    unfold db.live at 1. rewrite SetDeletedAt_mark. cbn [andb].
    assert (db.by_id id x = false) as ->.
    { unfold db.by_id. apply N.eqb_neq. rewrite Hx. exact Hk. }
    rewrite andb_false_r. exact IH.
  - destruct (db.live x && db.by_id id x); [reflexivity|exact IH].
Qed.

(** The deleted row stays in the table, marked. *)
Lemma In_Delete (now : Z) (r x : R) (t : list R) :
  In x t -> db.live x = true -> db.PrimaryKey x = db.PrimaryKey r ->
  In (db.SetDeletedAt (Some now) x) (db.Delete now r t).
Proof.
  intros Hin Hl Hk. unfold db.Delete. apply in_map_iff. exists x.
  split; [|exact Hin]. rewrite Hl. unfold db.by_id. rewrite Hk, N.eqb_refl.
  reflexivity.
Qed.

End Deleting.

(** ** The lifetime of a token *)

Section Lifetime.
Context {L : Lib} {HL : LibLaws L} (cfg : config.JWTConfig).

(** A lifetime of a second or more leaves the token valid at the instant
    it is made. *)
Lemma window_opens (now ttl : Z) :
  jwt.second <= ttl -> now < (now + ttl) / jwt.second * jwt.second.
Proof.
  intros Httl.
  pose proof (Z.div_le_mono (now + jwt.second) (now + ttl) jwt.second
                second_pos ltac:(lia)) as Hmono.
  replace (now + jwt.second) with (now + 1 * jwt.second) in Hmono by lia.
  rewrite Z.div_add in Hmono by (unfold jwt.second; lia).
  pose proof (Z.mod_pos_bound now jwt.second second_pos) as Hmod.
  pose proof (Z.div_mod now jwt.second ltac:(unfold jwt.second; lia)) as Hdm.
  pose proof second_pos. nia.
Qed.

(** X1.  [ValidateToken] accepts a token of [generateToken] (with a
    lifetime that is not negative), under the type it was made with,
    exactly from the start of the second it was made in until the start of
    the second it expires in: before that it is not valid yet, from then on
    it is expired. *)
Theorem ValidateToken_lifetime (now now' : Z) (id : UUID) (phone : string)
    (v : Z) (ty : utils.TokenType) (ttl : Z) (tok : string) :
  spec.is_int v ->
  0 <= ttl ->
  utils.generateToken cfg now id phone v ty ttl = Ok tok ->
  utils.ValidateToken cfg now' tok ty
  = if (now + ttl) / jwt.second * jwt.second <=? now'
    then Returns (Err (utils.jwt_error jwt.ErrTokenExpired))
    else if now' <? now / jwt.second * jwt.second
    then Returns (Err (utils.jwt_error jwt.ErrTokenNotValidYet))
    else Returns (Ok (spec.minted_Claims now id phone v ty ttl)).
Proof.
  intros Hv _ Htok. rewrite generateToken_signs in Htok.
  unfold utils.ValidateToken.
  rewrite (ParseWithClaims_SignedString _ _ _ _ _ _ _ eq_refl Htok).
  rewrite Claims_unmarshal_json by exact Hv.
  unfold jwt.Validate, jwt.expired, jwt.not_valid_yet.
  cbn [spec.minted_Claims utils.Claims_RegisteredClaims jwt.ExpiresAt
       jwt.NotBefore jwt.NewNumericDate utils.Claims_TokenType].
  destruct (Z.leb_spec ((now + ttl) / jwt.second * jwt.second) now') as [He|He];
    destruct (Z.ltb_spec now' ((now + ttl) / jwt.second * jwt.second)) as [He'|He'];
    try lia; cbn [negb]; [reflexivity|].
  destruct (now' <? now / jwt.second * jwt.second); [reflexivity|].
  rewrite String.eqb_refl. reflexivity.
Qed.

(** X2.  Whatever string [ValidateToken] accepts has three segments, a
    header naming one of the three HMAC methods, a third segment that
    decodes to the HMAC of the first two under the configured secret,
    claims of the expected type, and an expiry claim that lies in the
    future; a not-before claim, when there is one, has been reached. *)
Theorem ValidateToken_accepts_only_signed (now : Z) (tok : string)
    (expected : utils.TokenType) (claims : utils.Claims) :
  utils.ValidateToken cfg now tok expected = Returns (Ok claims) ->
  exists h p sig alg header payload e,
    strings_Split tok "." = [h; p; sig]
    /\ b64_decode sig = Some (hmac alg (config.Secret cfg) (h +:+ "." +:+ p))
    /\ b64json_decode h = Some header
    /\ jmap_get "alg" header = Some (JStr alg)
    /\ In alg ["HS256"; "HS384"; "HS512"]%string
    /\ b64json_decode p = Some payload
    /\ utils.Claims_unmarshal payload = Some claims
    /\ utils.Claims_TokenType claims = expected
    /\ jwt.ExpiresAt (utils.Claims_RegisteredClaims claims) = Some e
    /\ now < e * jwt.second
    /\ (forall n, jwt.NotBefore (utils.Claims_RegisteredClaims claims) = Some n ->
                  n * jwt.second <= now).
Proof.
  unfold utils.ValidateToken, jwt.ParseWithClaims.
  destruct (strings_Split tok ".") as [|h [|p [|sig [|? ?]]]] eqn:Hsplit;
    try discriminate.
  destruct (b64json_decode h) as [header|] eqn:Hh; [|discriminate].
  destruct (b64json_decode p) as [payload|] eqn:Hp; [|discriminate].
  destruct (utils.Claims_unmarshal payload) as [c|] eqn:Hc; [|discriminate].
  destruct (jmap_get "alg" header) as [[| | | |alg| |]|] eqn:Halg; try discriminate.
  destruct (jwt.GetSigningMethod alg) as [[a|a]|] eqn:Hm; try discriminate.
  2:{ destruct (b64_decode sig); discriminate. }
  destruct (b64_decode sig) as [signature|] eqn:Hsig; [|discriminate].
  cbn [utils.keyFunc jwt.Verify].
  destruct (String.eqb_spec signature (hmac a (config.Secret cfg) (h +:+ "." +:+ p)))
    as [->|]; [|discriminate].
  destruct (jwt.Validate (utils.Claims_RegisteredClaims c) now) eqn:Hval;
    [discriminate|].
  destruct (String.eqb_spec (utils.Claims_TokenType c) expected) as [Hty|];
    [|discriminate]. cbn [negb].
  destruct (jwt.ExpiresAt (utils.Claims_RegisteredClaims c)) as [e|] eqn:He;
    [|discriminate].
  intros [= <-].
  assert (Ha : a = alg /\ In alg ["HS256"; "HS384"; "HS512"]%string).
  { unfold jwt.GetSigningMethod in Hm.
    destruct (existsb (String.eqb alg) ["HS256"; "HS384"; "HS512"]%string) eqn:Ex.
    - injection Hm as <-. split; [reflexivity|].
      apply existsb_exists in Ex. destruct Ex as [x [Hx Hxe]].
      apply String.eqb_eq in Hxe. subst x. exact Hx.
    - revert Hm.
      match goal with |- (if ?b then _ else _) = _ -> _ => destruct b end;
        discriminate. }
  destruct Ha as [-> Hin].
  exists h, p, sig, alg, header, payload, e.
  repeat (split; [first [reflexivity|assumption]|]).
  unfold jwt.Validate, jwt.expired, jwt.not_valid_yet in Hval. rewrite He in Hval.
  destruct (Z.ltb_spec now (e * jwt.second)) as [Hlt|]; [|discriminate].
  split; [exact Hlt|]. intros n Hn. rewrite Hn in Hval. cbn [negb] in Hval.
  destruct (Z.ltb_spec now (n * jwt.second)); [discriminate|lia].
Qed.

(** X3.  [GenerateTokens] always returns a pair; its two tokens are
    different strings, the first tagged access and the second refresh, both
    stamped with the version given. *)
Theorem GenerateTokens_pair (now : Z) (id : UUID) (phone : string) (v : Z) :
  exists pair,
    utils.GenerateTokens cfg now id phone v = Ok pair
    /\ utils.TokenPair_AccessToken pair <> utils.TokenPair_RefreshToken pair
    /\ spec.kind (utils.TokenPair_AccessToken pair) = Some utils.AccessToken
    /\ spec.kind (utils.TokenPair_RefreshToken pair) = Some utils.RefreshToken
    /\ spec.stamp (utils.TokenPair_AccessToken pair) = Some v
    /\ spec.stamp (utils.TokenPair_RefreshToken pair) = Some v.
Proof.
  destruct (generateToken_total cfg now id phone v utils.AccessToken
              (config.AccessExpiry cfg)) as [access Ha].
  destruct (generateToken_total cfg now id phone v utils.RefreshToken
              (config.RefreshExpiry cfg)) as [refresh Hr].
  exists {| utils.TokenPair_AccessToken := access;
            utils.TokenPair_RefreshToken := refresh |}.
  destruct (stamp_generateToken cfg _ _ _ _ _ _ _ Ha) as [Hsa Hka].
  destruct (stamp_generateToken cfg _ _ _ _ _ _ _ Hr) as [Hsr Hkr].
  cbn [utils.TokenPair_AccessToken utils.TokenPair_RefreshToken].
  split; [unfold utils.GenerateTokens; rewrite Ha, Hr; reflexivity|].
  split; [|repeat split; assumption].
  intros Heq. rewrite Heq, Hkr in Hka. discriminate.
Qed.

(** X4.  [RefreshAccessToken], given a refresh token of the program within
    its lifetime, returns an access token that [ValidateToken] accepts at
    once with the id, the phone and the version of the refresh token (the
    access lifetime being at least a second); given that access token in
    turn, it refuses. *)
Theorem RefreshAccessToken_roundtrip (minted now : Z) (id : UUID) (phone : string)
    (v : Z) (tok : string) :
  spec.is_int v ->
  spec.in_window cfg minted spec.UserRefresh now ->
  jwt.second <= config.AccessExpiry cfg ->
  utils.generateToken cfg minted id phone v utils.RefreshToken
    (config.RefreshExpiry cfg) = Ok tok ->
  exists access,
    utils.RefreshAccessToken cfg now tok = Returns (Ok access)
    /\ utils.ValidateToken cfg now access utils.AccessToken
       = Returns (Ok (spec.minted_Claims now id phone v utils.AccessToken
                        (config.AccessExpiry cfg)))
    /\ utils.RefreshAccessToken cfg now access
       = Returns (Err utils.invalid_token_type).
Proof.
  intros Hv [Hle Hexp] Httl Htok. simpl in Hexp.
  destruct (generateToken_total cfg now id phone v utils.AccessToken
              (config.AccessExpiry cfg)) as [access Ha].
  exists access.
  pose proof (window_opens now _ Httl) as Hopen.
  assert (Hacc : forall expected,
            utils.ValidateToken cfg now access expected
            = if String.eqb utils.AccessToken expected
              then Returns (Ok (spec.minted_Claims now id phone v utils.AccessToken
                                  (config.AccessExpiry cfg)))
              else Returns (Err utils.invalid_token_type)).
  { intros expected.
    apply (ValidateToken_generateToken cfg now now id phone v); try assumption. lia. }
  split; [|split].
  - unfold utils.RefreshAccessToken.
    rewrite (ValidateToken_generateToken cfg _ _ _ _ _ _ _ _ _ Hv Hle Hexp Htok).
    rewrite String.eqb_refl.
    cbn [spec.minted_Claims utils.Claims_UserID utils.Claims_Phone
         utils.Claims_TokenVersion].
    rewrite Ha. reflexivity.
  - rewrite Hacc. reflexivity.
  - unfold utils.RefreshAccessToken. rewrite Hacc. reflexivity.
Qed.

End Lifetime.

(** ** The guards and the refresh handler on tokens of the program *)

Section GuardsOnMinted.
Context {L : Lib} {HL : LibLaws L} (cfg : config.JWTConfig).

Lemma Bearer_generateToken (now : Z) (id : UUID) (phone : string) (v : Z)
    (ty : utils.TokenType) (ttl : Z) (tok : string) :
  utils.generateToken cfg now id phone v ty ttl = Ok tok ->
  strings_Split ("Bearer " +:+ tok) " " = ["Bearer"%string; tok].
Proof.
  intros Htok. apply strings_Split_Bearer.
  rewrite generateToken_signs in Htok. exact (SignedString_no_space _ _ _ Htok).
Qed.

Lemma Bearer_GenerateAdminToken (now : Z) (id : UUID) (username rl : string)
    (v : Z) (tok : string) :
  utils.GenerateAdminToken cfg now id username rl v = Ok tok ->
  strings_Split ("Bearer " +:+ tok) " " = ["Bearer"%string; tok].
Proof.
  intros Htok. apply strings_Split_Bearer.
  rewrite GenerateAdminToken_signs in Htok. exact (SignedString_no_space _ _ _ Htok).
Qed.

(** The user guard on a user token within its lifetime: the tag decides
    first, then the stored version alone. *)
Lemma JWTProtected_generateToken (d : db.DB) (minted now : Z) (id : UUID)
    (phone : string) (v : Z) (ty : utils.TokenType) (ttl : Z) (tok : string) :
  spec.is_int v ->
  minted <= now ->
  now < (minted + ttl) / jwt.second * jwt.second ->
  utils.generateToken cfg minted id phone v ty ttl = Ok tok ->
  middleware.JWTProtected cfg d now ("Bearer " +:+ tok)
  = Returns
      (if String.eqb ty utils.AccessToken then
         match spec.user_version d id with
         | None => middleware.Unauthorized "User not found"
         | Some v' =>
             if v' =? v
             then middleware.Next
                    [("id", middleware.LocalUUID id);
                     ("phone", middleware.LocalString phone)]%string
             else middleware.Unauthorized
                    "Token has been invalidated. Please login again."
         end
       else middleware.Unauthorized "Invalid or expired token").
Proof.
  intros Hv Hle Hexp Htok. rewrite JWTProtected_refines.
  unfold spec.UserGuard, spec.AccessGuard. rewrite Bearer_nonempty.
  rewrite (Bearer_generateToken _ _ _ _ _ _ _ Htok), String.eqb_refl.
  rewrite (ValidateToken_generateToken cfg _ _ _ _ _ _ _ _ _ Hv Hle Hexp Htok).
  destruct (String.eqb ty utils.AccessToken); [|reflexivity].
  cbn [spec.minted_Claims utils.Claims_UserID utils.Claims_TokenVersion].
  destruct (spec.user_version d id) as [v'|]; [|reflexivity].
  destruct (v' =? v); reflexivity.
Qed.

Lemma JWTProtected_GenerateAdminToken (d : db.DB) (minted now : Z) (id : UUID)
    (username rl : string) (v : Z) (tok : string) :
  spec.is_int v ->
  minted <= now ->
  utils.GenerateAdminToken cfg minted id username rl v = Ok tok ->
  middleware.JWTProtected cfg d now ("Bearer " +:+ tok)
  = Returns (middleware.Unauthorized "Invalid or expired token").
Proof.
  intros Hv Hle Htok. rewrite JWTProtected_refines.
  unfold spec.UserGuard, spec.AccessGuard. rewrite Bearer_nonempty.
  rewrite (Bearer_GenerateAdminToken _ _ _ _ _ _ Htok), String.eqb_refl.
  rewrite (ValidateToken_GenerateAdminToken cfg _ _ _ _ _ _ _ _ Hv Hle Htok).
  reflexivity.
Qed.

(** The admin guard on a user token within its lifetime. *)
Lemma AdminJWTProtected_generateToken (d : db.DB) (minted now : Z) (id : UUID)
    (phone : string) (v : Z) (ty : utils.TokenType) (ttl : Z) (tok : string) :
  spec.is_int v ->
  minted <= now ->
  now < (minted + ttl) / jwt.second * jwt.second ->
  ty <> utils.AdminToken ->
  utils.generateToken cfg minted id phone v ty ttl = Ok tok ->
  middleware.AdminJWTProtected cfg d now ("Bearer " +:+ tok)
  = Returns (middleware.Unauthorized "Invalid or expired token").
Proof.
  intros Hv Hle Hexp Hty Htok. rewrite AdminJWTProtected_refines.
  unfold spec.AdminGuard, spec.AccessGuard. rewrite Bearer_nonempty.
  rewrite (Bearer_generateToken _ _ _ _ _ _ _ Htok), String.eqb_refl.
  rewrite (ValidateAdminToken_generateToken cfg _ _ _ _ _ _ _ _ Hv Hle Hexp Hty Htok).
  reflexivity.
Qed.

(** The admin guard on an admin token: the stored version alone decides,
    and the locals are the claims of the token. *)
Lemma AdminJWTProtected_GenerateAdminToken (d : db.DB) (minted now : Z) (id : UUID)
    (username rl : string) (v : Z) (tok : string) :
  spec.is_int v ->
  minted <= now ->
  utils.GenerateAdminToken cfg minted id username rl v = Ok tok ->
  middleware.AdminJWTProtected cfg d now ("Bearer " +:+ tok)
  = Returns
      (match spec.admin_version d id with
       | Some v' =>
           if v' =? v
           then middleware.Next
                  [("id", middleware.LocalUUID id);
                   ("admin_username", middleware.LocalString username);
                   ("admin_role", middleware.LocalString rl)]%string
           else middleware.Unauthorized "Token has been invalidated"
       | None => middleware.Unauthorized "Token has been invalidated"
       end).
Proof.
  intros Hv Hle Htok. rewrite AdminJWTProtected_refines.
  unfold spec.AdminGuard, spec.AccessGuard. rewrite Bearer_nonempty.
  rewrite (Bearer_GenerateAdminToken _ _ _ _ _ _ Htok), String.eqb_refl.
  rewrite (ValidateAdminToken_GenerateAdminToken cfg _ _ _ _ _ _ _ Hv Hle Htok).
  cbn [spec.minted_AdminClaims utils.AdminClaims_AdminID
       utils.AdminClaims_TokenVersion].
  destruct (spec.admin_version d id) as [v'|]; [|reflexivity].
  destruct (v' =? v); reflexivity.
Qed.

(** The refresh handler on a user token that is within its lifetime at
    the first reading of the clock. *)
Lemma RefreshToken_generateToken (d : db.DB) (minted now now' : Z) (id : UUID)
    (phone : string) (v : Z) (ty : utils.TokenType) (ttl : Z) (tok : string) :
  spec.is_int v ->
  minted <= now ->
  now < (minted + ttl) / jwt.second * jwt.second ->
  utils.generateToken cfg minted id phone v ty ttl = Ok tok ->
  exists access,
    utils.generateToken cfg now' id phone v utils.AccessToken
      (config.AccessExpiry cfg) = Ok access
    /\ handlers.RefreshToken cfg d now now'
         (Some {| handlers.RefreshRequest_RefreshToken := tok |})
       = Returns
           (if String.eqb ty utils.RefreshToken then
              match spec.user_version d id with
              | None =>
                  handlers.APIResponse handlers.StatusUnauthorized false
                    "User not found" []
              | Some v' =>
                  if v' =? v
                  then
                    match jwt.Validate
                            (utils.Claims_RegisteredClaims
                               (spec.minted_Claims minted id phone v ty ttl))
                            now' with
                    | None =>
                        handlers.APIResponse handlers.StatusOK true
                          "Token refreshed successfully"
                          [("access_token", JStr access)]%string
                    | Some _ =>
                        handlers.APIResponse handlers.StatusInternalServerError
                          false "Failed to generate access token" []
                    end
                  else handlers.APIResponse handlers.StatusUnauthorized false
                         "Token has been invalidated. Please login again." []
              end
            else handlers.APIResponse handlers.StatusUnauthorized false
                   "Invalid or expired refresh token" [], d).
Proof.
  intros Hv Hle Hexp Htok.
  destruct (generateToken_total cfg now' id phone v utils.AccessToken
              (config.AccessExpiry cfg)) as [access Ha].
  exists access. split; [exact Ha|].
  unfold handlers.RefreshToken. cbn [handlers.RefreshRequest_RefreshToken].
  unfold utils.RefreshAccessToken.
  pose proof (ValidateToken_generateToken cfg _ _ _ _ _ _ utils.RefreshToken _ _
                Hv Hle Hexp Htok) as Hfirst.
  rewrite Hfirst.
  destruct (String.eqb ty utils.RefreshToken); [|reflexivity].
  rewrite (ValidateToken_again cfg now now' tok utils.RefreshToken _ Hfirst).
  cbn [spec.minted_Claims utils.Claims_UserID utils.Claims_TokenVersion
       utils.Claims_Phone utils.Claims_RegisteredClaims].
  unfold spec.user_version, spec.user_by_id.
  destruct (db.First (db.by_id id) (db.users d)) as [user|]; [|reflexivity].
  cbn [option_map db.Select_id_token_version models.User_TokenVersion].
  destruct (models.User_TokenVersion user =? v); [|reflexivity].
  cbn [negb].
  destruct (jwt.Validate _ now'); [reflexivity|].
  cbn [spec.minted_Claims utils.Claims_UserID utils.Claims_TokenVersion
       utils.Claims_Phone].
  rewrite Ha. reflexivity.
Qed.

Lemma RefreshToken_GenerateAdminToken (d : db.DB) (minted now now' : Z) (id : UUID)
    (username rl : string) (v : Z) (tok : string) :
  spec.is_int v ->
  minted <= now ->
  utils.GenerateAdminToken cfg minted id username rl v = Ok tok ->
  handlers.RefreshToken cfg d now now'
    (Some {| handlers.RefreshRequest_RefreshToken := tok |})
  = Returns (handlers.APIResponse handlers.StatusUnauthorized false
               "Invalid or expired refresh token" [], d).
Proof.
  intros Hv Hle Htok. unfold handlers.RefreshToken.
  cbn [handlers.RefreshRequest_RefreshToken].
  rewrite (ValidateToken_GenerateAdminToken cfg _ _ _ _ _ _ _ _ Hv Hle Htok).
  reflexivity.
Qed.

(** X5.  Each entry point takes only its own kind of token.  Whatever the
    store holds: the admin guard refuses an access and a refresh token of
    the program, the user guard refuses a refresh and an admin token, and
    the refresh handler refuses an access and an admin token, each with its
    invalid-or-expired answer and without touching the store. *)
Theorem entry_points_refuse_other_kinds (d : db.DB) (minted now now' : Z)
    (id : UUID) (attr rl : string) (v : Z) (access refresh admin : string) :
  spec.is_int v ->
  spec.in_window cfg minted spec.UserAccess now ->
  spec.in_window cfg minted spec.UserRefresh now ->
  utils.generateToken cfg minted id attr v utils.AccessToken
    (config.AccessExpiry cfg) = Ok access ->
  utils.generateToken cfg minted id attr v utils.RefreshToken
    (config.RefreshExpiry cfg) = Ok refresh ->
  utils.GenerateAdminToken cfg minted id attr rl v = Ok admin ->
  let refused := Returns (middleware.Unauthorized "Invalid or expired token") in
  let not_refreshed :=
    Returns (handlers.APIResponse handlers.StatusUnauthorized false
               "Invalid or expired refresh token" [], d) in
  middleware.AdminJWTProtected cfg d now ("Bearer " +:+ access) = refused
  /\ middleware.AdminJWTProtected cfg d now ("Bearer " +:+ refresh) = refused
  /\ middleware.JWTProtected cfg d now ("Bearer " +:+ refresh) = refused
  /\ middleware.JWTProtected cfg d now ("Bearer " +:+ admin) = refused
  /\ handlers.RefreshToken cfg d now now'
       (Some {| handlers.RefreshRequest_RefreshToken := access |}) = not_refreshed
  /\ handlers.RefreshToken cfg d now now'
       (Some {| handlers.RefreshRequest_RefreshToken := admin |}) = not_refreshed.
Proof.
  intros Hv [Hle Ha] [_ Hr] Hacc Href Hadm refused not_refreshed.
  simpl in Ha, Hr.
  assert (H1 : utils.AccessToken <> utils.AdminToken) by discriminate.
  assert (H2 : utils.RefreshToken <> utils.AdminToken) by discriminate.
  split; [exact (AdminJWTProtected_generateToken d _ _ _ _ _ _ _ _ Hv Hle Ha H1 Hacc)|].
  split; [exact (AdminJWTProtected_generateToken d _ _ _ _ _ _ _ _ Hv Hle Hr H2 Href)|].
  split; [exact (JWTProtected_generateToken d _ _ _ _ _ _ _ _ Hv Hle Hr Href)|].
  split; [exact (JWTProtected_GenerateAdminToken d _ _ _ _ _ _ _ Hv Hle Hadm)|].
  split; [|exact (RefreshToken_GenerateAdminToken d _ _ now' _ _ _ _ _ Hv Hle Hadm)].
  destruct (RefreshToken_generateToken d _ _ now' _ _ _ _ _ _ Hv Hle Ha Hacc)
    as (? & _ & H). exact H.
Qed.

(** X6.  On the routes of the admin accounts the role gate runs after the
    admin guard and reads the role the token carries: with a token the
    guard lets through, a role claim "super" passes with the locals of the
    guard and any other role claim is answered 403, whatever role the
    stored row holds. *)
Theorem SuperAdminOnly_reads_token_role (d : db.DB) (minted now : Z) (id : UUID)
    (username rl : string) (v : Z) (tok : string) :
  spec.is_int v ->
  minted <= now ->
  utils.GenerateAdminToken cfg minted id username rl v = Ok tok ->
  spec.admin_version d id = Some v ->
  middleware.andThen
    (middleware.AdminJWTProtected cfg d now ("Bearer " +:+ tok))
    middleware.SuperAdminOnly
  = Returns
      (if String.eqb rl models.RoleSuper
       then middleware.Next
              [("id", middleware.LocalUUID id);
               ("admin_username", middleware.LocalString username);
               ("admin_role", middleware.LocalString rl)]%string
       else middleware.Reject
              (handlers.APIResponse handlers.StatusForbidden false
                 "Super admin access required" [])).
Proof.
  intros Hv Hle Htok Hver.
  rewrite (AdminJWTProtected_GenerateAdminToken d _ _ _ _ _ _ _ Hv Hle Htok).
  rewrite Hver, Z.eqb_refl.
  unfold middleware.andThen, middleware.SuperAdminOnly.
  cbn [middleware.Locals String.eqb Ascii.eqb Bool.eqb andb].
  destruct (String.eqb rl models.RoleSuper); reflexivity.
Qed.

End GuardsOnMinted.

(** ** Logging in, once more *)

(** A bump always yields an [int] other than the one bumped, also when it
    wraps around. *)
Lemma int_incr_is_int (v : Z) :
  spec.is_int v -> spec.is_int (int_incr v) /\ int_incr v <> v.
Proof.
  unfold spec.is_int, int_incr, int_wrap, int_min, int_max. intros H.
  destruct (Z.eq_dec v (2 ^ 63 - 1)) as [->|Hne].
  - vm_compute. split; [split; discriminate|discriminate].
  - rewrite Z.mod_small by lia. lia.
Qed.

Section LoginSessions.
Context {L : Lib} {HL : LibLaws L} (cfg : config.JWTConfig).

(** X7.  [Login] writes at most the row of the user it authenticates: the
    admins are left alone, no user row is added or removed, an answer other
    than 200 leaves the whole store as it was, and what any other id
    resolves to is unchanged. *)
Theorem Login_touches_one_row (d : db.DB) (now : Z)
    (body : option handlers.LoginRequest) (q1 q2 : string)
    (saveErr : option string) :
  let out := handlers.Login cfg d now body q1 q2 saveErr in
  db.admins (snd out) = db.admins d
  /\ length (db.users (snd out)) = length (db.users d)
  /\ (handlers.Status (fst out) <> handlers.StatusOK -> snd out = d)
  /\ (forall id,
        (forall req user,
           body = Some req ->
           db.First (db.by_phone (handlers.LoginRequest_Phone req)) (db.users d)
           = Some user ->
           models.User_ID user <> id) ->
        spec.user_by_id (snd out) id = spec.user_by_id d id).
Proof.
  intros out. subst out. unfold handlers.Login.
  destruct body as [req|]; [|repeat split; reflexivity].
  destruct (phoneRegex_MatchString (handlers.LoginRequest_Phone req));
    cbn [negb]; [|repeat split; reflexivity].
  destruct (db.First (db.by_phone (handlers.LoginRequest_Phone req)) (db.users d))
    as [user|] eqn:Hfind; [|repeat split; reflexivity].
  destruct (models.User_CheckPassword user (handlers.LoginRequest_Password req));
    cbn [negb]; [|repeat split; reflexivity].
  destruct saveErr as [e|]; [repeat split; reflexivity|].
  cbv zeta.
  match goal with
  | |- context [utils.GenerateTokens cfg now ?i ?p ?v] =>
      destruct (generateToken_total cfg now i p v utils.AccessToken
                  (config.AccessExpiry cfg)) as [access Ha];
      destruct (generateToken_total cfg now i p v utils.RefreshToken
                  (config.RefreshExpiry cfg)) as [refresh Hr];
      unfold utils.GenerateTokens; rewrite Ha, Hr
  end.
  cbn [fst snd db.admins db.users db.with_users].
  split; [reflexivity|]. split; [apply length_Save|].
  split; [intros H; exfalso; apply H; reflexivity|].
  intros id Hother. unfold spec.user_by_id. cbn [db.users].
  apply First_Save_other_id. cbn [db.PrimaryKey db.User_Model].
  specialize (Hother req user eq_refl Hfind).
  destruct (handlers.nonempty _), (handlers.deviceChanged user _); exact Hother.
Qed.

(** X8.  After a successful login, the access token of the answer passes
    the user guard.  Tokens made for the user before the login are refused
    as invalidated, by the guard and by the refresh handler, exactly when
    the login bumped the version (no device id, or a device id other than a
    stored one).  When it did not, they keep working: the guard lets the
    old access token through, and the refresh handler, which validates at
    [now2] and again at [now3], answers the old refresh token with a new
    access token if the dates of the token still hold at [now3], and with
    its 500 if they do not. *)
Theorem Login_single_session (d : db.DB) (phone password : string)
    (user : models.User) (minted now now2 now3 : Z) (q1 q2 : string)
    (old_access old_refresh : string) :
  phoneRegex_MatchString phone = true ->
  db.First (db.by_phone phone) (db.users d) = Some user ->
  models.User_CheckPassword user password = true ->
  spec.is_int (models.User_TokenVersion user) ->
  utils.generateToken cfg minted (models.User_ID user) (models.User_Phone user)
    (models.User_TokenVersion user) utils.AccessToken (config.AccessExpiry cfg)
  = Ok old_access ->
  utils.generateToken cfg minted (models.User_ID user) (models.User_Phone user)
    (models.User_TokenVersion user) utils.RefreshToken (config.RefreshExpiry cfg)
  = Ok old_refresh ->
  spec.in_window cfg minted spec.UserAccess now2 ->
  spec.in_window cfg minted spec.UserRefresh now2 ->
  spec.in_window cfg now spec.UserAccess now2 ->
  let out := handlers.Login cfg d now
               (Some {| handlers.LoginRequest_Phone := phone;
                        handlers.LoginRequest_Password := password |})
               q1 q2 None in
  let bumped := handlers.deviceChanged user (spec.deviceID_of q1 q2) in
  let passes :=
    middleware.Next
      [("id", middleware.LocalUUID (models.User_ID user));
       ("phone", middleware.LocalString (models.User_Phone user))]%string in
  exists new_access refreshed,
    spec.field "access_token" (fst out) = Some new_access
    /\ middleware.JWTProtected cfg (snd out) now2 ("Bearer " +:+ new_access)
       = Returns passes
    /\ middleware.JWTProtected cfg (snd out) now2 ("Bearer " +:+ old_access)
       = Returns (if bumped
                  then middleware.Unauthorized
                         "Token has been invalidated. Please login again."
                  else passes)
    /\ handlers.RefreshToken cfg (snd out) now2 now3
         (Some {| handlers.RefreshRequest_RefreshToken := old_refresh |})
       = Returns (if bumped
                  then handlers.APIResponse handlers.StatusUnauthorized false
                         "Token has been invalidated. Please login again." []
                  else
                    match jwt.Validate
                            (utils.Claims_RegisteredClaims
                               (spec.minted_Claims minted (models.User_ID user)
                                  (models.User_Phone user)
                                  (models.User_TokenVersion user)
                                  utils.RefreshToken (config.RefreshExpiry cfg)))
                            now3 with
                    | None =>
                        handlers.APIResponse handlers.StatusOK true
                          "Token refreshed successfully"
                          [("access_token", JStr refreshed)]%string
                    | Some _ =>
                        handlers.APIResponse handlers.StatusInternalServerError
                          false "Failed to generate access token" []
                    end,
                  snd out).
Proof.
  intros Hphone Hfind Hpw Hv Hoa Hor [Hle1 Ha1] [_ Hr1] [Hle2 Ha2] out bumped passes.
  simpl in Ha1, Hr1, Ha2.
  destruct (Login_success cfg d now phone password q1 q2 user Hphone Hfind Hpw)
    as (access & refresh & Ha & Hr & Hlogin).
  destruct (Login_step cfg d now phone password q1 q2 user Hphone Hfind Hpw)
    as (_ & _ & Hid & _ & _ & _).
  fold out in Hlogin, Hid.
  set (user' := spec.logged_in user (spec.deviceID_of q1 q2)) in *.
  destruct (int_incr_is_int _ Hv) as [Hint1 Hne].
  assert (Hver' : models.User_TokenVersion user'
                  = if bumped then int_incr (models.User_TokenVersion user)
                    else models.User_TokenVersion user).
  { unfold user'. rewrite logged_in_TokenVersion. reflexivity. }
  assert (Hint' : spec.is_int (models.User_TokenVersion user')).
  { rewrite Hver'. destruct bumped; assumption. }
  assert (Hint : spec.is_int (models.User_TokenVersion user)) by exact Hv.
  assert (Hstored : spec.user_version (snd out) (models.User_ID user)
                    = Some (models.User_TokenVersion user')).
  { unfold spec.user_version. rewrite Hid. reflexivity. }
  destruct (RefreshToken_generateToken cfg (snd out) minted now2 now3 _ _ _ _ _ _
              Hint Hle1 Hr1 Hor) as (refreshed & _ & Href).
  exists access, refreshed.
  split; [rewrite Hlogin; reflexivity|].
  split.
  { rewrite (JWTProtected_generateToken cfg (snd out) now now2 _ _ _ _ _ _
               Hint' Hle2 Ha2 Ha).
    rewrite Hstored, Z.eqb_refl. reflexivity. }
  split.
  { rewrite (JWTProtected_generateToken cfg (snd out) minted now2 _ _ _ _ _ _
               Hint Hle1 Ha1 Hoa).
    rewrite Hstored, Hver'. cbn [String.eqb Ascii.eqb Bool.eqb andb utils.AccessToken].
    destruct bumped; [|rewrite Z.eqb_refl; reflexivity].
    destruct (Z.eqb_spec (int_incr (models.User_TokenVersion user))
                (models.User_TokenVersion user)); [contradiction|reflexivity]. }
  rewrite Href, Hstored, Hver'.
  cbn [String.eqb Ascii.eqb Bool.eqb andb utils.RefreshToken].
  destruct bumped; [|rewrite Z.eqb_refl; reflexivity].
  destruct (Z.eqb_spec (int_incr (models.User_TokenVersion user))
              (models.User_TokenVersion user)); [contradiction|reflexivity].
Qed.

End LoginSessions.

(** ** Admin sessions *)

Section AdminSessions.
Context {L : Lib} {HL : LibLaws L} (cfg : config.JWTConfig).

(** A successful admin login: the answer, the store, and the row the id
    then resolves to. *)
Lemma AdminLogin_success (d : db.DB) (now : Z) (username password : string)
    (admin : models.Admin) :
  username <> EmptyString ->
  password <> EmptyString ->
  db.First (db.by_username username) (db.admins d) = Some admin ->
  models.Admin_CheckPassword admin password = true ->
  let admin1 :=
    models.Admin_set_TokenVersion (int_incr (models.Admin_TokenVersion admin))
      admin in
  let out := handlers.AdminLogin cfg d now
               (Some {| handlers.AdminLoginRequest_Username := username;
                        handlers.AdminLoginRequest_Password := password |}) None in
  exists tok,
    utils.GenerateAdminToken cfg now (models.Admin_ID admin)
      (models.Admin_Username admin) (models.Admin_Role admin)
      (int_incr (models.Admin_TokenVersion admin)) = Ok tok
    /\ out = (handlers.APIResponse handlers.StatusOK true "Login successful"
                [("id", JStr (uuid_String (models.Admin_ID admin)));
                 ("username", JStr (models.Admin_Username admin));
                 ("role", JStr (models.Admin_Role admin));
                 ("access_token", JStr tok)]%string,
              db.with_admins (db.Save admin1 (db.admins d)) d)
    /\ spec.admin_by_id (snd out) (models.Admin_ID admin) = Some admin1.
Proof.
  intros Hu Hp Hfind Hpw admin1 out.
  destruct (GenerateAdminToken_total cfg now (models.Admin_ID admin)
              (models.Admin_Username admin) (models.Admin_Role admin)
              (int_incr (models.Admin_TokenVersion admin))) as [tok Htok].
  exists tok. split; [exact Htok|].
  assert (Hout : out
    = (handlers.APIResponse handlers.StatusOK true "Login successful"
         [("id", JStr (uuid_String (models.Admin_ID admin)));
          ("username", JStr (models.Admin_Username admin));
          ("role", JStr (models.Admin_Role admin));
          ("access_token", JStr tok)]%string,
       db.with_admins (db.Save admin1 (db.admins d)) d)).
  { subst out. unfold handlers.AdminLogin.
    cbn [handlers.AdminLoginRequest_Username handlers.AdminLoginRequest_Password].
    destruct (String.eqb_spec username ""); [contradiction|].
    destruct (String.eqb_spec password ""); [contradiction|].
    cbn [orb]. rewrite Hfind, Hpw. cbn [negb].
    cbn [models.Admin_set_TokenVersion models.Admin_ID models.Admin_Username
         models.Admin_Role models.Admin_TokenVersion].
    rewrite Htok. reflexivity. }
  split; [exact Hout|]. rewrite Hout. cbn [snd].
  destruct (First_Some _ _ _ Hfind) as (Hin & Hlive & _).
  unfold spec.admin_by_id. cbn [db.admins db.with_admins].
  change (models.Admin_ID admin) with (db.PrimaryKey admin1).
  apply (First_Save_id _ admin); [exact Hin|exact Hlive|reflexivity|exact Hlive].
Qed.

(** X9.  An admin has one session: after a successful login the token of
    the answer passes the admin guard, with the role of the stored row, and
    a token made for the admin before that login is refused as
    invalidated. *)
Theorem AdminLogin_single_session (d : db.DB) (minted now now2 : Z)
    (username password : string) (admin : models.Admin) (old : string) :
  username <> EmptyString ->
  password <> EmptyString ->
  db.First (db.by_username username) (db.admins d) = Some admin ->
  models.Admin_CheckPassword admin password = true ->
  spec.is_int (models.Admin_TokenVersion admin) ->
  utils.GenerateAdminToken cfg minted (models.Admin_ID admin)
    (models.Admin_Username admin) (models.Admin_Role admin)
    (models.Admin_TokenVersion admin) = Ok old ->
  minted <= now2 ->
  now <= now2 ->
  let out := handlers.AdminLogin cfg d now
               (Some {| handlers.AdminLoginRequest_Username := username;
                        handlers.AdminLoginRequest_Password := password |}) None in
  exists new,
    spec.field "access_token" (fst out) = Some new
    /\ middleware.AdminJWTProtected cfg (snd out) now2 ("Bearer " +:+ new)
       = Returns (middleware.Next
                    [("id", middleware.LocalUUID (models.Admin_ID admin));
                     ("admin_username",
                       middleware.LocalString (models.Admin_Username admin));
                     ("admin_role",
                       middleware.LocalString (models.Admin_Role admin))]%string)
    /\ middleware.AdminJWTProtected cfg (snd out) now2 ("Bearer " +:+ old)
       = Returns (middleware.Unauthorized "Token has been invalidated").
Proof.
  intros Hu Hp Hfind Hpw Hv Hold Hle1 Hle2 out.
  destruct (AdminLogin_success d now username password admin Hu Hp Hfind Hpw)
    as (tok & Htok & Hout & Hid).
  fold out in Hout, Hid.
  destruct (int_incr_is_int _ Hv) as [Hint1 Hne].
  assert (Hstored : spec.admin_version (snd out) (models.Admin_ID admin)
                    = Some (int_incr (models.Admin_TokenVersion admin))).
  { unfold spec.admin_version. rewrite Hid. reflexivity. }
  assert (Hint0 : spec.is_int (models.Admin_TokenVersion admin)) by exact Hv.
  exists tok. split; [rewrite Hout; reflexivity|]. split.
  - rewrite (AdminJWTProtected_GenerateAdminToken cfg (snd out) now now2 _ _ _ _ _
               Hint1 Hle2 Htok).
    rewrite Hstored, Z.eqb_refl. reflexivity.
  - rewrite (AdminJWTProtected_GenerateAdminToken cfg (snd out) minted now2 _ _ _ _ _
               Hint0 Hle1 Hold).
    rewrite Hstored.
    destruct (Z.eqb_spec (int_incr (models.Admin_TokenVersion admin))
                (models.Admin_TokenVersion admin)); [contradiction|reflexivity].
Qed.

(** What a [CreateAdmin] answered with 201 has done. *)
Lemma CreateAdmin_Created (d : db.DB) (username password rl : string)
    (newID : UUID) (salt : string) (createErr : option string) :
  let out := handlers.CreateAdmin d
               (Some {| handlers.CreateAdminRequest_Username := username;
                        handlers.CreateAdminRequest_Password := password;
                        handlers.CreateAdminRequest_Role := rl |})
               newID salt createErr in
  handlers.Status (fst out) = handlers.StatusCreated ->
  exists hashedPassword,
    bcrypt_GenerateFromPassword salt password = Some hashedPassword
    /\ (rl = models.RoleSuper \/ rl = models.RoleRegular)
    /\ (6 <= String.length password)%nat
    /\ db.First (db.by_username username) (db.admins d) = None
    /\ (forall x, In x (db.admins d) -> models.Admin_ID x <> newID)
    /\ snd out
       = db.with_admins
           (db.insert_row
              {| models.Admin_ID := newID;
                 models.Admin_Username := username;
                 models.Admin_Password := hashedPassword;
                 models.Admin_Role := rl;
                 models.Admin_TokenVersion := 0;
                 models.Admin_DeletedAt := None |} (db.admins d)) d.
Proof.
  intros out. subst out. unfold handlers.CreateAdmin.
  cbn [handlers.CreateAdminRequest_Username handlers.CreateAdminRequest_Password
       handlers.CreateAdminRequest_Role].
  destruct (String.eqb_spec rl models.RoleSuper) as [Hs|Hs];
    destruct (String.eqb_spec rl models.RoleRegular) as [Hr|Hr];
    cbn [negb andb]; try discriminate.
  all: destruct (Nat.ltb_spec (String.length password) 6) as [|Hlen];
    [discriminate|].
  all: destruct (db.First (db.by_username username) (db.admins d)) eqn:Hfind;
    [discriminate|].
  all: unfold db.Create_Admin, models.Admin_BeforeCreate;
    cbn [models.Admin_ID]; rewrite N.eqb_refl;
    cbn [models.Admin_set_ID models.Admin_Password models.Admin_Username
         models.Admin_Role models.Admin_TokenVersion models.Admin_DeletedAt
         models.Admin_ID models.Admin_set_Password];
    destruct (bcrypt_GenerateFromPassword salt password) as [h|] eqn:Hh;
    [|discriminate];
    destruct createErr; [discriminate|];
    destruct (db.Insert _ (db.admins d)) as [ads|] eqn:Hins; [|discriminate];
    intros _; exists h;
    destruct (Insert_Some _ _ _ Hins) as [-> Hfresh];
    (split; [reflexivity|]); (split; [auto|]); (split; [exact Hlen|]);
    (split; [reflexivity|]); (split; [exact Hfresh|reflexivity]).
Qed.

(** X10.  An admin made by [CreateAdmin] can log in with the username and
    the password of the request (the username not being empty): the login
    stores version 1, and its token passes the admin guard carrying the
    new id and the role of the request, so that the role gate lets it
    through exactly when that role is "super". *)
Theorem CreateAdmin_then_AdminLogin (d : db.DB) (username password rl : string)
    (newID : UUID) (salt : string) (now now2 : Z) :
  username <> EmptyString ->
  now <= now2 ->
  let created := handlers.CreateAdmin d
                   (Some {| handlers.CreateAdminRequest_Username := username;
                            handlers.CreateAdminRequest_Password := password;
                            handlers.CreateAdminRequest_Role := rl |})
                   newID salt None in
  handlers.Status (fst created) = handlers.StatusCreated ->
  let out := handlers.AdminLogin cfg (snd created) now
               (Some {| handlers.AdminLoginRequest_Username := username;
                        handlers.AdminLoginRequest_Password := password |}) None in
  exists tok,
    handlers.Status (fst out) = handlers.StatusOK
    /\ spec.field "access_token" (fst out) = Some tok
    /\ spec.admin_version (snd out) newID = Some 1
    /\ middleware.andThen
         (middleware.AdminJWTProtected cfg (snd out) now2 ("Bearer " +:+ tok))
         middleware.SuperAdminOnly
       = Returns
           (if String.eqb rl models.RoleSuper
            then middleware.Next
                   [("id", middleware.LocalUUID newID);
                    ("admin_username", middleware.LocalString username);
                    ("admin_role", middleware.LocalString rl)]%string
            else middleware.Reject
                   (handlers.APIResponse handlers.StatusForbidden false
                      "Super admin access required" [])).
Proof.
  intros Hu Hle created Hok out.
  destruct (CreateAdmin_Created d username password rl newID salt None Hok)
    as (h & Hh & Hrl & Hlen & Hnone & Hfresh & Hsnd).
  fold created in Hsnd.
  set (admin := {| models.Admin_ID := newID;
                   models.Admin_Username := username;
                   models.Admin_Password := h;
                   models.Admin_Role := rl;
                   models.Admin_TokenVersion := 0;
                   models.Admin_DeletedAt := None |}) in *.
  assert (Hp : password <> EmptyString).
  { intros ->. simpl in Hlen. lia. }
  assert (Hfind : db.First (db.by_username username) (db.admins (snd created))
                  = Some admin).
  { rewrite Hsnd. cbn [db.admins db.with_admins].
    apply First_insert_row_cond; [exact Hnone|reflexivity|].
    unfold db.by_username. apply String.eqb_refl. }
  assert (Hpw : models.Admin_CheckPassword admin password = true).
  { unfold models.Admin_CheckPassword. exact (bcrypt_compare_generate _ _ _ Hh). }
  destruct (AdminLogin_success (snd created) now username password admin
              Hu Hp Hfind Hpw) as (tok & Htok & Hout & Hid).
  fold out in Hout, Hid.
  change (int_incr (models.Admin_TokenVersion admin)) with 1 in Htok, Hid.
  cbn [models.Admin_ID models.Admin_Username models.Admin_Role admin] in Htok, Hid.
  assert (Hstored : spec.admin_version (snd out) newID = Some 1).
  { unfold spec.admin_version. rewrite Hid. reflexivity. }
  exists tok. split; [rewrite Hout; reflexivity|].
  split; [rewrite Hout; reflexivity|]. split; [exact Hstored|].
  assert (Hint1 : spec.is_int 1) by (vm_compute; split; discriminate).
  rewrite (AdminJWTProtected_GenerateAdminToken cfg (snd out) now now2 _ _ _ _ _
             Hint1 Hle Htok).
  rewrite Hstored. cbn [Z.eqb Pos.eqb].
  unfold middleware.andThen, middleware.SuperAdminOnly.
  cbn [middleware.Locals String.eqb Ascii.eqb Bool.eqb andb].
  destruct (String.eqb rl models.RoleSuper); reflexivity.
Qed.

End AdminSessions.

(** ** Making users *)

Section MakingUsers.
Context {L : Lib} {HL : LibLaws L} (cfg : config.JWTConfig).

(** What a [Register] answered with 201 has done. *)
Lemma Register_Created (d : db.DB) (phone password : string)
    (newID : UUID) (salt : string) (createErr : option string) :
  let out := handlers.Register d
               (Some {| handlers.RegisterRequest_Phone := phone;
                        handlers.RegisterRequest_Password := password |})
               newID salt createErr in
  handlers.Status (fst out) = handlers.StatusCreated ->
  exists hashedPassword,
    bcrypt_GenerateFromPassword salt password = Some hashedPassword
    /\ phoneRegex_MatchString phone = true
    /\ db.First (db.by_phone phone) (db.users d) = None
    /\ (forall x, In x (db.users d) -> models.User_ID x <> newID)
    /\ snd out
       = db.with_users
           (db.insert_row
              {| models.User_ID := newID;
                 models.User_Phone := phone;
                 models.User_Password := hashedPassword;
                 models.User_TokenVersion := 0;
                 models.User_CurrentDeviceID := "";
                 models.User_DeletedAt := None |} (db.users d)) d.
Proof.
  intros out. subst out. unfold handlers.Register.
  cbn [handlers.RegisterRequest_Phone handlers.RegisterRequest_Password].
  destruct (phoneRegex_MatchString phone); cbn [negb]; [|discriminate].
  destruct (String.length password <? 6)%nat; [discriminate|].
  destruct (db.First (db.by_phone phone) (db.users d)) eqn:Hfind; [discriminate|].
  unfold db.Create_User, models.User_BeforeCreate.
  cbn [models.User_ID]. rewrite N.eqb_refl.
  cbn [models.User_set_ID models.User_Password models.User_Phone
       models.User_TokenVersion models.User_CurrentDeviceID models.User_DeletedAt
       models.User_ID models.User_set_Password].
  destruct (bcrypt_GenerateFromPassword salt password) as [h|] eqn:Hh;
    [|discriminate].
  destruct createErr; [discriminate|].
  destruct (db.Insert _ (db.users d)) as [us|] eqn:Hins; [|discriminate].
  intros _. exists h. destruct (Insert_Some _ _ _ Hins) as [-> Hfresh].
  split; [reflexivity|]. split; [reflexivity|]. split; [reflexivity|].
  split; [exact Hfresh|reflexivity].
Qed.

(** X11.  A user who registered (201) can log in at once with the same
    phone and password.  That first login stores, and stamps both tokens
    with, version 1 when it names no device and version 0 when it names
    one, and its access token passes the user guard. *)
Theorem Register_then_Login (d : db.DB) (phone password : string)
    (newID : UUID) (salt : string) (now now2 : Z) (q1 q2 : string) :
  spec.in_window cfg now spec.UserAccess now2 ->
  let reg := handlers.Register d
               (Some {| handlers.RegisterRequest_Phone := phone;
                        handlers.RegisterRequest_Password := password |})
               newID salt None in
  handlers.Status (fst reg) = handlers.StatusCreated ->
  let out := handlers.Login cfg (snd reg) now
               (Some {| handlers.LoginRequest_Phone := phone;
                        handlers.LoginRequest_Password := password |})
               q1 q2 None in
  let v := if String.eqb (spec.deviceID_of q1 q2) "" then 1 else 0 in
  exists access,
    handlers.Status (fst out) = handlers.StatusOK
    /\ spec.user_version (snd out) newID = Some v
    /\ spec.field "access_token" (fst out) = Some access
    /\ spec.stamp access = Some v
    /\ spec.stamp_of "refresh_token" (fst out) = Some v
    /\ middleware.JWTProtected cfg (snd out) now2 ("Bearer " +:+ access)
       = Returns (middleware.Next
                    [("id", middleware.LocalUUID newID);
                     ("phone", middleware.LocalString phone)]%string).
Proof.
  intros [Hle Hexp] reg Hok out v. simpl in Hexp.
  destruct (Register_Created d phone password newID salt None Hok)
    as (h & Hh & Hre & Hnone & Hfresh & Hsnd).
  fold reg in Hsnd.
  set (user := {| models.User_ID := newID;
                  models.User_Phone := phone;
                  models.User_Password := h;
                  models.User_TokenVersion := 0;
                  models.User_CurrentDeviceID := "";
                  models.User_DeletedAt := None |}) in *.
  assert (Hfind : db.First (db.by_phone phone) (db.users (snd reg)) = Some user).
  { rewrite Hsnd. cbn [db.users db.with_users].
    apply First_insert_row_cond; [exact Hnone|reflexivity|].
    unfold db.by_phone. apply String.eqb_refl. }
  assert (Hpw : models.User_CheckPassword user password = true).
  { unfold models.User_CheckPassword. exact (bcrypt_compare_generate _ _ _ Hh). }
  destruct (Login_success cfg (snd reg) now phone password q1 q2 user Hre Hfind Hpw)
    as (access & refresh & Ha & Hr & Hlogin).
  destruct (Login_step cfg (snd reg) now phone password q1 q2 user Hre Hfind Hpw)
    as (Hst & _ & Hid & _ & _ & Hsr).
  fold out in Hlogin, Hst, Hid, Hsr.
  set (user' := spec.logged_in user (spec.deviceID_of q1 q2)) in *.
  assert (Hver : models.User_TokenVersion user' = v).
  { unfold user'. rewrite logged_in_TokenVersion.
    unfold handlers.deviceChanged. subst v.
    destruct (String.eqb (spec.deviceID_of q1 q2) ""); reflexivity. }
  assert (Hint : spec.is_int v).
  { subst v. destruct (String.eqb _ ""); vm_compute; split; discriminate. }
  rewrite Hver in Ha, Hr, Hsr.
  cbn [models.User_ID models.User_Phone user] in Ha, Hid.
  assert (Hstored : spec.user_version (snd out) newID = Some v).
  { unfold spec.user_version. rewrite Hid. cbn [option_map]. now rewrite Hver. }
  exists access. split; [exact Hst|]. split; [exact Hstored|].
  split; [rewrite Hlogin; reflexivity|].
  split; [exact (proj1 (stamp_generateToken cfg _ _ _ _ _ _ _ Ha))|].
  split; [exact Hsr|].
  rewrite (JWTProtected_generateToken cfg (snd out) now now2 _ _ _ _ _ _
             Hint Hle Hexp Ha).
  rewrite Hstored, Z.eqb_refl. reflexivity.
Qed.

End MakingUsers.

Section MakingUsersPlain.
Context {L : Lib}.

(** X12.  For a well-formed phone, [CheckPhoneAvailability] answers 200,
    and it reports the phone taken exactly when a registration with that
    phone (and a password long enough) would be answered 409; the phone is
    reported available exactly when every row holding it is soft-deleted. *)
Theorem CheckPhoneAvailability_agrees_with_Register (d : db.DB)
    (phone password : string) (newID : UUID) (salt : string)
    (createErr : option string) :
  phoneRegex_MatchString phone = true ->
  (6 <= String.length password)%nat ->
  let reg := handlers.Register d
               (Some {| handlers.RegisterRequest_Phone := phone;
                        handlers.RegisterRequest_Password := password |})
               newID salt createErr in
  exists available,
    handlers.CheckPhoneAvailability d phone
    = Ok {| handlers.PhoneAvailabilityResponse_Success := true;
            handlers.PhoneAvailabilityResponse_Message := "Phone availability checked";
            handlers.PhoneAvailabilityResponse_Available := available |}
    /\ (available = false <-> handlers.Status (fst reg) = handlers.StatusConflict)
    /\ (available = true <->
        forall u, In u (db.users d) -> models.User_Phone u = phone ->
                  models.User_DeletedAt u <> None).
Proof.
  intros Hre Hlen reg. subst reg.
  unfold handlers.CheckPhoneAvailability, handlers.Register.
  cbn [handlers.RegisterRequest_Phone handlers.RegisterRequest_Password].
  assert (Hne : String.eqb phone "" = false).
  { destruct phone; [discriminate|reflexivity]. }
  rewrite Hne, Hre. cbn [negb].
  destruct (Nat.ltb_spec (String.length password) 6); [lia|].
  destruct (db.First (db.by_phone phone) (db.users d)) as [u|] eqn:Hfind.
  - exists false. split; [reflexivity|]. split; [split; reflexivity|].
    split; [discriminate|]. intros Hall. exfalso.
    destruct (First_Some _ _ _ Hfind) as (Hin & Hlive & Hc).
    unfold db.by_phone in Hc. apply String.eqb_eq in Hc.
    apply (Hall u Hin Hc). unfold db.live in Hlive.
    cbn [db.DeletedAt db.User_Model] in Hlive.
    destruct (models.User_DeletedAt u); [discriminate|reflexivity].
  - exists true. split; [reflexivity|]. split.
    + split; [discriminate|].
      destruct (db.Create_User _ _ _ _ _) as [[u' d']|]; discriminate.
    + split; [|reflexivity]. intros _ u Hin Hph Hdel.
      assert (Hc : db.by_phone phone u = false).
      { apply (First_None _ _ _ Hfind Hin). unfold db.live.
        cbn [db.DeletedAt db.User_Model]. rewrite Hdel. reflexivity. }
      unfold db.by_phone in Hc. rewrite Hph, String.eqb_refl in Hc. discriminate.
Qed.

(** X13.  [CreateUser] leaves the store exactly as [Register] does for
    the same phone and password, with the same status and the same data in
    the answer: a failed location assignment changes the message and adds a
    warning, and the row it reports stays. *)
Theorem CreateUser_stores_as_Register (d : db.DB) (phone password : string)
    (locations : list (Z * list Z)) (newID : UUID) (salt : string)
    (createErr assignErr : option string) :
  let out := handlers.CreateUser d
               (Some {| handlers.CreateUserRequest_Phone := phone;
                        handlers.CreateUserRequest_Password := password;
                        handlers.CreateUserRequest_Locations := locations |})
               newID salt createErr assignErr in
  let reg := handlers.Register d
               (Some {| handlers.RegisterRequest_Phone := phone;
                        handlers.RegisterRequest_Password := password |})
               newID salt createErr in
  snd out = snd reg
  /\ handlers.Status (fst out) = handlers.Status (fst reg)
  /\ handlers.Success (fst out) = handlers.Success (fst reg)
  /\ handlers.Data (fst out) = handlers.Data (fst reg)
  /\ (handlers.Warning (fst out) <> None <->
      handlers.Status (fst reg) = handlers.StatusCreated
      /\ locations <> [] /\ assignErr <> None).
Proof.
  intros out reg. subst out reg. unfold handlers.CreateUser, handlers.Register.
  cbn [handlers.RegisterRequest_Phone handlers.RegisterRequest_Password
       handlers.CreateUserRequest_Phone handlers.CreateUserRequest_Password
       handlers.CreateUserRequest_Locations].
  assert (Hno : forall st ok msg data,
            handlers.Warning (handlers.APIResponse st ok msg data) <> None <-> False).
  { intros. split; [intros H; apply H; reflexivity|contradiction]. }
  destruct (phoneRegex_MatchString phone); cbn [negb].
  2:{ repeat (split; [reflexivity|]). rewrite Hno. split; [contradiction|].
      intros [H _]. discriminate. }
  destruct (String.length password <? 6)%nat.
  { repeat (split; [reflexivity|]). rewrite Hno. split; [contradiction|].
    intros [H _]. discriminate. }
  destruct (db.First (db.by_phone phone) (db.users d)).
  { repeat (split; [reflexivity|]). rewrite Hno. split; [contradiction|].
    intros [H _]. discriminate. }
  destruct (db.Create_User _ _ _ _ _) as [[u' d']|].
  2:{ repeat (split; [reflexivity|]). rewrite Hno. split; [contradiction|].
      intros [H _]. discriminate. }
  destruct locations as [|loc locations], assignErr as [err|];
    repeat (split; [reflexivity|]); cbn [fst handlers.Warning];
    try (rewrite Hno; split; [contradiction|]; intros (_ & H1 & H2); congruence).
  split; [intros _; repeat split; discriminate|discriminate].
Qed.

End MakingUsersPlain.

(** ** Deleting principals *)

Section Deletions.
Context {L : Lib} {HL : LibLaws L} (cfg : config.JWTConfig).

(** [Save] puts the new row where a live row of its key was. *)
Lemma In_Save_same {R : Type} {M : db.Model R} (t : list R) (r r' : R) :
  In r t -> db.live r = true -> db.PrimaryKey r' = db.PrimaryKey r ->
  In r' (db.Save r' t).
Proof.
  unfold db.Save. intros Hin Hl Hk. apply in_map_iff. exists r.
  split; [|exact Hin]. rewrite Hl. unfold db.by_id. rewrite Hk, N.eqb_refl.
  reflexivity.
Qed.

(** X14.  [DeleteUser], when the database performs both writes, answers
    200 and keeps the row, marked deleted and with its version bumped.  The
    user no longer resolves: the guard answers an access token of theirs
    with "User not found", the refresh handler a refresh token likewise,
    and what every other id resolves to is unchanged. *)
Theorem DeleteUser_locks_out (d : db.DB) (now : Z) (param_id : string) (id : UUID)
    (user : models.User) (minted now2 now3 : Z) (access refresh : string) :
  uuid_Parse param_id = Some id ->
  spec.user_by_id d id = Some user ->
  spec.is_int (models.User_TokenVersion user) ->
  utils.generateToken cfg minted (models.User_ID user) (models.User_Phone user)
    (models.User_TokenVersion user) utils.AccessToken (config.AccessExpiry cfg)
  = Ok access ->
  utils.generateToken cfg minted (models.User_ID user) (models.User_Phone user)
    (models.User_TokenVersion user) utils.RefreshToken (config.RefreshExpiry cfg)
  = Ok refresh ->
  spec.in_window cfg minted spec.UserAccess now2 ->
  spec.in_window cfg minted spec.UserRefresh now2 ->
  let out := handlers.DeleteUser d now param_id None None in
  fst out = handlers.APIResponse handlers.StatusOK true "User deleted successfully"
              [("id", JStr (uuid_String id));
               ("phone", JStr (models.User_Phone user))]%string
  /\ In {| models.User_ID := id;
           models.User_Phone := models.User_Phone user;
           models.User_Password := models.User_Password user;
           models.User_TokenVersion := int_incr (models.User_TokenVersion user);
           models.User_CurrentDeviceID := models.User_CurrentDeviceID user;
           models.User_DeletedAt := Some now |} (db.users (snd out))
  /\ middleware.JWTProtected cfg (snd out) now2 ("Bearer " +:+ access)
     = Returns (middleware.Unauthorized "User not found")
  /\ handlers.RefreshToken cfg (snd out) now2 now3
       (Some {| handlers.RefreshRequest_RefreshToken := refresh |})
     = Returns (handlers.APIResponse handlers.StatusUnauthorized false
                  "User not found" [], snd out)
  /\ forall id', id' <> id -> spec.user_by_id (snd out) id' = spec.user_by_id d id'.
Proof.
  intros Hparse Hfind Hv Ha Hr [Hle Hexa] [_ Hexr] out. simpl in Hexa, Hexr.
  pose proof (DeleteUser_unresolves d now param_id id Hparse) as Hgone.
  fold out in Hgone.
  destruct (First_Some _ _ _ Hfind) as (Hin & Hlive & Hcond).
  unfold db.by_id in Hcond. apply N.eqb_eq in Hcond.
  cbn [db.PrimaryKey db.User_Model] in Hcond.
  assert (Hout : out
    = (handlers.APIResponse handlers.StatusOK true "User deleted successfully"
         [("id", JStr (uuid_String id));
          ("phone", JStr (models.User_Phone user))]%string,
       db.with_users
         (db.Delete now
            (models.User_set_TokenVersion
               (int_incr (models.User_TokenVersion user)) user)
            (db.Save
               (models.User_set_TokenVersion
                  (int_incr (models.User_TokenVersion user)) user)
               (db.users d))) d)).
  { subst out. unfold handlers.DeleteUser. rewrite Hparse.
    unfold spec.user_by_id in Hfind. rewrite Hfind.
    cbn [models.User_set_TokenVersion models.User_ID models.User_Phone].
    rewrite Hcond. reflexivity. }
  split; [rewrite Hout; reflexivity|]. split.
  { rewrite Hout. cbn [snd db.users db.with_users].
    set (user1 := models.User_set_TokenVersion
                    (int_incr (models.User_TokenVersion user)) user).
    assert (Hin1 : In user1 (db.Save user1 (db.users d))).
    { apply (In_Save_same _ user); [exact Hin|exact Hlive|reflexivity]. }
    pose proof (In_Delete (M := db.User_Model) now user1 user1 _ Hin1 Hlive eq_refl)
      as Hdel.
    cbn [db.SetDeletedAt db.User_Model user1 models.User_set_TokenVersion
         models.User_ID models.User_Phone models.User_Password
         models.User_TokenVersion models.User_CurrentDeviceID] in Hdel.
    rewrite Hcond in Hdel. exact Hdel. }
  split.
  { rewrite (JWTProtected_generateToken cfg (snd out) minted now2 _ _ _ _ _ _
               Hv Hle Hexa Ha).
    rewrite Hcond, Hgone. reflexivity. }
  split.
  { destruct (RefreshToken_generateToken cfg (snd out) minted now2 now3 _ _ _ _ _ _
                Hv Hle Hexr Hr) as (? & _ & H).
    rewrite H, Hcond, Hgone. reflexivity. }
  intros id' Hne. rewrite Hout. unfold spec.user_by_id. cbn [snd db.users db.with_users].
  rewrite (First_Delete_other (M := db.User_Model)
             (fun _ _ => eq_refl)).
  2:{ cbn [db.PrimaryKey db.User_Model models.User_set_TokenVersion models.User_ID].
      congruence. }
  apply First_Save_other_id.
  cbn [db.PrimaryKey db.User_Model models.User_set_TokenVersion models.User_ID].
  congruence.
Qed.

(** X15.  The two writes of [DeleteUser] are not one transaction: when
    the database performs the save and refuses the delete, the answer is
    500, the user stays live with the version already bumped, and an access
    token from before is refused as invalidated. *)
Theorem DeleteUser_half_done (d : db.DB) (now : Z) (param_id : string) (id : UUID)
    (user : models.User) (minted now2 : Z) (access err : string) :
  uuid_Parse param_id = Some id ->
  spec.user_by_id d id = Some user ->
  spec.is_int (models.User_TokenVersion user) ->
  utils.generateToken cfg minted (models.User_ID user) (models.User_Phone user)
    (models.User_TokenVersion user) utils.AccessToken (config.AccessExpiry cfg)
  = Ok access ->
  spec.in_window cfg minted spec.UserAccess now2 ->
  let out := handlers.DeleteUser d now param_id None (Some err) in
  fst out = handlers.APIResponse handlers.StatusInternalServerError false
              "Failed to delete user" []
  /\ spec.user_by_id (snd out) id
     = Some (models.User_set_TokenVersion
               (int_incr (models.User_TokenVersion user)) user)
  /\ middleware.JWTProtected cfg (snd out) now2 ("Bearer " +:+ access)
     = Returns (middleware.Unauthorized
                  "Token has been invalidated. Please login again.").
Proof.
  intros Hparse Hfind Hv Ha [Hle Hexa] out. simpl in Hexa.
  destruct (First_Some _ _ _ Hfind) as (Hin & Hlive & Hcond).
  unfold db.by_id in Hcond. apply N.eqb_eq in Hcond.
  cbn [db.PrimaryKey db.User_Model] in Hcond.
  set (user1 := models.User_set_TokenVersion
                  (int_incr (models.User_TokenVersion user)) user).
  destruct (int_incr_is_int _ Hv) as [_ Hne].
  assert (Hout : out
    = (handlers.APIResponse handlers.StatusInternalServerError false
         "Failed to delete user" [],
       db.with_users (db.Save user1 (db.users d)) d)).
  { subst out. unfold handlers.DeleteUser. rewrite Hparse.
    unfold spec.user_by_id in Hfind. rewrite Hfind.
    reflexivity. }
  assert (Hid : spec.user_by_id (snd out) id = Some user1).
  { rewrite Hout. unfold spec.user_by_id. cbn [snd db.users db.with_users].
    rewrite <- Hcond. change (models.User_ID user) with (db.PrimaryKey user1).
    apply (First_Save_id _ user); [exact Hin|exact Hlive|reflexivity|exact Hlive]. }
  split; [rewrite Hout; reflexivity|]. split; [exact Hid|].
  assert (Hint : spec.is_int (models.User_TokenVersion user)) by exact Hv.
  rewrite (JWTProtected_generateToken cfg (snd out) minted now2 _ _ _ _ _ _
             Hint Hle Hexa Ha).
  rewrite Hcond. unfold spec.user_version. rewrite Hid.
  cbn [option_map user1 models.User_set_TokenVersion models.User_TokenVersion
       String.eqb Ascii.eqb Bool.eqb andb utils.AccessToken].
  destruct (Z.eqb_spec (int_incr (models.User_TokenVersion user))
              (models.User_TokenVersion user)); [contradiction|reflexivity].
Qed.

(** What a [DeleteAdmin] answered with 200 has done. *)
Lemma DeleteAdmin_OK (d : db.DB) (now : Z) (param_id configName : string)
    (deleteErr : option string) :
  let out := handlers.DeleteAdmin d now param_id configName deleteErr in
  handlers.Status (fst out) = handlers.StatusOK ->
  exists id admin,
    uuid_Parse param_id = Some id
    /\ uuid_Parse configName <> Some id
    /\ spec.admin_by_id d id = Some admin
    /\ out = (handlers.APIResponse handlers.StatusOK true "Admin deleted successfully"
                [("id", JStr (uuid_String (models.Admin_ID admin)));
                 ("username", JStr (models.Admin_Username admin))]%string,
              db.with_admins (db.Delete now admin (db.admins d)) d).
Proof.
  intros out. subst out. unfold handlers.DeleteAdmin.
  destruct (uuid_Parse param_id) as [id|]; [|discriminate].
  destruct (uuid_Parse configName) as [initial|] eqn:Hc.
  - destruct (N.eqb_spec id initial) as [|Hne]; [discriminate|].
    destruct (db.First (db.by_id id) (db.admins d)) as [admin|] eqn:Hfind;
      [|discriminate].
    destruct deleteErr; [discriminate|]. intros _. exists id, admin.
    split; [reflexivity|]. split; [congruence|]. split; [exact Hfind|reflexivity].
  - destruct (db.First (db.by_id id) (db.admins d)) as [admin|] eqn:Hfind;
      [|discriminate].
    destruct deleteErr; [discriminate|]. intros _. exists id, admin.
    split; [reflexivity|]. split; [discriminate|]. split; [exact Hfind|reflexivity].
Qed.

(** X16.  [DeleteAdmin] refuses only the id that [db.DB.Config.Name()]
    spells.  For any other live admin, whatever their role and whoever
    asks, it answers 200 and marks the row deleted without changing its
    version; the admin then no longer resolves, and the admin guard refuses
    a token of theirs as invalidated.  Other admins and the users are as
    before. *)
Theorem DeleteAdmin_revokes (d : db.DB) (now : Z) (param_id configName : string)
    (id : UUID) (admin : models.Admin) (minted now2 : Z) (tok : string) :
  uuid_Parse param_id = Some id ->
  uuid_Parse configName <> Some id ->
  spec.admin_by_id d id = Some admin ->
  spec.is_int (models.Admin_TokenVersion admin) ->
  utils.GenerateAdminToken cfg minted (models.Admin_ID admin)
    (models.Admin_Username admin) (models.Admin_Role admin)
    (models.Admin_TokenVersion admin) = Ok tok ->
  minted <= now2 ->
  let out := handlers.DeleteAdmin d now param_id configName None in
  fst out = handlers.APIResponse handlers.StatusOK true "Admin deleted successfully"
              [("id", JStr (uuid_String id));
               ("username", JStr (models.Admin_Username admin))]%string
  /\ In {| models.Admin_ID := id;
           models.Admin_Username := models.Admin_Username admin;
           models.Admin_Password := models.Admin_Password admin;
           models.Admin_Role := models.Admin_Role admin;
           models.Admin_TokenVersion := models.Admin_TokenVersion admin;
           models.Admin_DeletedAt := Some now |} (db.admins (snd out))
  /\ spec.admin_by_id (snd out) id = None
  /\ middleware.AdminJWTProtected cfg (snd out) now2 ("Bearer " +:+ tok)
     = Returns (middleware.Unauthorized "Token has been invalidated")
  /\ (forall id', id' <> id ->
        spec.admin_by_id (snd out) id' = spec.admin_by_id d id')
  /\ db.users (snd out) = db.users d.
Proof.
  intros Hparse Hguard Hfind Hv Htok Hle out.
  destruct (First_Some _ _ _ Hfind) as (Hin & Hlive & Hcond).
  unfold db.by_id in Hcond. apply N.eqb_eq in Hcond.
  cbn [db.PrimaryKey db.Admin_Model] in Hcond.
  assert (Hout : out
    = (handlers.APIResponse handlers.StatusOK true "Admin deleted successfully"
         [("id", JStr (uuid_String id));
          ("username", JStr (models.Admin_Username admin))]%string,
       db.with_admins (db.Delete now admin (db.admins d)) d)).
  { subst out. unfold handlers.DeleteAdmin. rewrite Hparse.
    unfold spec.admin_by_id in Hfind. rewrite Hfind, Hcond.
    destruct (uuid_Parse configName) as [initial|]; [|reflexivity].
    destruct (N.eqb_spec id initial) as [->|]; [congruence|reflexivity]. }
  assert (Hgone : spec.admin_by_id (snd out) id = None).
  { rewrite Hout. unfold spec.admin_by_id. cbn [snd db.admins db.with_admins].
    rewrite <- Hcond.
    exact (First_Delete_key (M := db.Admin_Model)
             (fun _ _ => eq_refl) now admin (db.admins d)). }
  split; [rewrite Hout; reflexivity|]. split.
  { rewrite Hout. cbn [snd db.admins db.with_admins].
    pose proof (In_Delete (M := db.Admin_Model) now admin admin _ Hin Hlive eq_refl)
      as Hdel.
    cbn [db.SetDeletedAt db.Admin_Model] in Hdel. rewrite Hcond in Hdel. exact Hdel. }
  split; [exact Hgone|]. split.
  { rewrite (AdminJWTProtected_GenerateAdminToken cfg (snd out) minted now2 _ _ _ _ _
               Hv Hle Htok).
    rewrite Hcond. unfold spec.admin_version. rewrite Hgone. reflexivity. }
  split; [|rewrite Hout; reflexivity].
  intros id' Hne. rewrite Hout. unfold spec.admin_by_id.
  cbn [snd db.admins db.with_admins].
  apply (First_Delete_other (M := db.Admin_Model)
           (fun _ _ => eq_refl)).
  cbn [db.PrimaryKey db.Admin_Model]. congruence.
Qed.

End Deletions.

(** ** The admin made at startup *)

Section Startup.
Context {L : Lib} {HL : LibLaws L}.

(** X17.  [CreateInitialAdmin] is idempotent.  For a configured id other
    than the nil UUID, a run that returns leaves the id resolving to a live
    admin, and every later run returns with the store untouched, whatever
    the configuration then says about the username and the password; an
    admin the run had to create is a super admin at version 0 with the
    configured username, whose password check accepts the configured
    password. *)
Theorem CreateInitialAdmin_idempotent (adminConfig : config.InitAdminConfig)
    (d d' : db.DB) (id newID : UUID) (salt : string) (createErr : option string) :
  uuid_Parse (config.InitAdminConfig_UUID adminConfig) = Some id ->
  id <> uuid_Nil ->
  db.CreateInitialAdmin adminConfig d newID salt createErr = db.Started d' ->
  (exists admin,
     spec.admin_by_id d' id = Some admin
     /\ (spec.admin_by_id d id = None ->
         models.Admin_Username admin = config.InitAdminConfig_Username adminConfig
         /\ models.Admin_Role admin = models.RoleSuper
         /\ models.Admin_TokenVersion admin = 0
         /\ models.Admin_CheckPassword admin
              (config.InitAdminConfig_Password adminConfig) = true)
     /\ (spec.admin_by_id d id <> None -> d' = d))
  /\ forall adminConfig' newID' salt' createErr',
       config.InitAdminConfig_UUID adminConfig'
       = config.InitAdminConfig_UUID adminConfig ->
       db.CreateInitialAdmin adminConfig' d' newID' salt' createErr' = db.Started d'.
Proof.
  intros Hparse Hnil Hrun.
  assert (Hres : exists admin,
            spec.admin_by_id d' id = Some admin
            /\ (spec.admin_by_id d id = None ->
                models.Admin_Username admin
                = config.InitAdminConfig_Username adminConfig
                /\ models.Admin_Role admin = models.RoleSuper
                /\ models.Admin_TokenVersion admin = 0
                /\ models.Admin_CheckPassword admin
                     (config.InitAdminConfig_Password adminConfig) = true)
            /\ (spec.admin_by_id d id <> None -> d' = d)).
  { unfold db.CreateInitialAdmin in Hrun. rewrite Hparse in Hrun.
    unfold spec.admin_by_id.
    destruct (db.First (db.by_id id) (db.admins d)) as [existing|] eqn:Hfind.
    - injection Hrun as <-. exists existing. rewrite Hfind.
      split; [reflexivity|]. split; [discriminate|reflexivity].
    - unfold db.Create_Admin, models.Admin_BeforeCreate in Hrun.
      cbn [models.Admin_ID] in Hrun.
      destruct (N.eqb_spec id uuid_Nil) as [|_]; [contradiction|].
      cbn [models.Admin_Password models.Admin_set_Password models.Admin_ID
           models.Admin_Username models.Admin_Role models.Admin_TokenVersion
           models.Admin_DeletedAt] in Hrun.
      destruct (bcrypt_GenerateFromPassword salt
                  (config.InitAdminConfig_Password adminConfig)) as [h|] eqn:Hh;
        [|discriminate].
      destruct createErr; [discriminate|].
      destruct (db.Insert _ (db.admins d)) as [ads|] eqn:Hins; [|discriminate].
      injection Hrun as <-.
      destruct (Insert_Some _ _ _ Hins) as [-> Hfresh].
      eexists. cbn [db.admins db.with_admins]. split.
      + apply (First_insert_row (M := db.Admin_Model)
                 {| models.Admin_ID := id;
                    models.Admin_Username :=
                      config.InitAdminConfig_Username adminConfig;
                    models.Admin_Password := h;
                    models.Admin_Role := models.RoleSuper;
                    models.Admin_TokenVersion := 0;
                    models.Admin_DeletedAt := None |}); [reflexivity|exact Hfresh].
      + split; [|intros H; contradiction].
        intros _. repeat split.
        unfold models.Admin_CheckPassword. cbn [models.Admin_Password].
        exact (bcrypt_compare_generate _ _ _ Hh). }
  split; [exact Hres|].
  destruct Hres as (admin & Hid & _).
  intros adminConfig' newID' salt' createErr' Hsame.
  unfold db.CreateInitialAdmin. rewrite Hsame, Hparse.
  unfold spec.admin_by_id in Hid. rewrite Hid. reflexivity.
Qed.

(** X18.  Once [DeleteAdmin] has deleted the admin whose id the startup
    configuration names (it answers 200: the id it protects is the one
    [db.DB.Config.Name()] spells, not the configured one), the next
    [CreateInitialAdmin] ends the process: the deleted row no longer
    resolves, and creating the admin again collides with its key. *)
Theorem CreateInitialAdmin_fatal_after_delete (adminConfig : config.InitAdminConfig)
    (d : db.DB) (now : Z) (param_id configName : string) (id : UUID) :
  uuid_Parse (config.InitAdminConfig_UUID adminConfig) = Some id ->
  uuid_Parse param_id = Some id ->
  id <> uuid_Nil ->
  let out := handlers.DeleteAdmin d now param_id configName None in
  handlers.Status (fst out) = handlers.StatusOK ->
  forall newID salt createErr,
    db.CreateInitialAdmin adminConfig (snd out) newID salt createErr
    = db.Fatal "Failed to create initial admin".
Proof.
  intros Hcfg Hparse Hnil out Hok newID salt createErr.
  destruct (DeleteAdmin_OK d now param_id configName None Hok)
    as (id0 & admin & Hparse0 & _ & Hfind & Hout).
  fold out in Hout. rewrite Hparse in Hparse0. injection Hparse0 as <-.
  destruct (First_Some _ _ _ Hfind) as (Hin & Hlive & Hcond).
  unfold db.by_id in Hcond. apply N.eqb_eq in Hcond.
  cbn [db.PrimaryKey db.Admin_Model] in Hcond.
  rewrite Hout. cbn [snd].
  unfold db.CreateInitialAdmin. rewrite Hcfg. cbn [db.admins db.with_admins].
  rewrite <- Hcond at 1.
  rewrite (First_Delete_key (M := db.Admin_Model) (fun _ _ => eq_refl) now admin).
  unfold db.Create_Admin, models.Admin_BeforeCreate. cbn [models.Admin_ID].
  destruct (N.eqb_spec id uuid_Nil) as [|_]; [contradiction|].
  cbn [models.Admin_Password models.Admin_set_Password models.Admin_ID
       models.Admin_Username models.Admin_Role models.Admin_TokenVersion
       models.Admin_DeletedAt].
  destruct (bcrypt_GenerateFromPassword salt _) as [h|]; [|reflexivity].
  destruct createErr; [reflexivity|].
  cbn [db.admins db.with_admins].
  rewrite (Insert_duplicate_key (M := db.Admin_Model) _
             (db.SetDeletedAt (Some now) admin)); [reflexivity| |].
  - apply (In_Delete (M := db.Admin_Model) now admin admin);
      [exact Hin|exact Hlive|reflexivity].
  - cbn [db.PrimaryKey db.Admin_Model db.SetDeletedAt models.Admin_ID]. exact Hcond.
Qed.

End Startup.

(** ** Who may update an admin *)

Section UpdatingAdmins.
Context {L : Lib} {HL : LibLaws L} (cfg : config.JWTConfig).

(** [UpdateAdmin] either answers something other than 200 and leaves the
    store alone, or answers 200 having saved one row: that of the id in the
    path, with its key, deletion mark and version, and with the role and
    the username of the request where it names them.  The requester was
    then a super admin or asked for their own row, and a role was named
    only by a super admin and is one of the two roles. *)
Lemma UpdateAdmin_cases (d : db.DB) (param_id requestingAdminRole : string)
    (requestingAdminID : UUID) (body : option handlers.UpdateAdminRequest)
    (salt : string) (saveErr : option string) :
  let out := handlers.UpdateAdmin d param_id requestingAdminRole
               requestingAdminID body salt saveErr in
  (handlers.Status (fst out) <> handlers.StatusOK /\ snd out = d)
  \/ (handlers.Status (fst out) = handlers.StatusOK
      /\ exists adminID admin admin' req,
           uuid_Parse param_id = Some adminID
           /\ body = Some req
           /\ spec.admin_by_id d adminID = Some admin
           /\ (requestingAdminID = adminID \/ requestingAdminRole = models.RoleSuper)
           /\ (handlers.UpdateAdminRequest_Role req = None
               \/ requestingAdminRole = models.RoleSuper)
           /\ snd out = db.with_admins (db.Save admin' (db.admins d)) d
           /\ models.Admin_ID admin' = models.Admin_ID admin
           /\ models.Admin_DeletedAt admin' = models.Admin_DeletedAt admin
           /\ models.Admin_TokenVersion admin' = models.Admin_TokenVersion admin
           /\ models.Admin_Role admin'
              = match handlers.UpdateAdminRequest_Role req with
                | Some r => r
                | None => models.Admin_Role admin
                end
           /\ models.Admin_Username admin'
              = match handlers.UpdateAdminRequest_Username req with
                | Some u => u
                | None => models.Admin_Username admin
                end
           /\ (forall r, handlers.UpdateAdminRequest_Role req = Some r ->
                         r = models.RoleSuper \/ r = models.RoleRegular)).
Proof.
  intros out. subst out. unfold handlers.UpdateAdmin, spec.admin_by_id.
  destruct (uuid_Parse param_id) as [adminID|] eqn:Hparse;
    [|left; split; [discriminate|reflexivity]].
  destruct (N.eqb_spec requestingAdminID adminID) as [Hsame|Hdiff];
    destruct (String.eqb_spec requestingAdminRole models.RoleSuper) as [Hsup|Hreg];
    cbn [negb andb]; try (left; split; [discriminate|reflexivity]).
  all: destruct body as [[pw un rl]|]; [|left; split; [discriminate|reflexivity]].
  all: cbn [handlers.UpdateAdminRequest_Password handlers.UpdateAdminRequest_Username
            handlers.UpdateAdminRequest_Role].
  all: destruct pw as [password|], un as [username|], rl as [role|];
    try (left; split; [discriminate|reflexivity]).
  all: try rewrite bool_decide_eq_true_2 by discriminate.
  all: try rewrite bool_decide_eq_false_2 by (intros H; apply H; reflexivity).
  all: cbn [negb andb]; try (left; split; [discriminate|reflexivity]).
  all: destruct (db.First (db.by_id adminID) (db.admins d)) as [admin|] eqn:Hfind;
    [|left; split; [discriminate|reflexivity]].
  all: try (destruct (String.length password <? 6)%nat;
            [left; split; [discriminate|reflexivity]|];
            destruct (bcrypt_GenerateFromPassword salt password) as [h|];
            [|left; split; [discriminate|reflexivity]]).
  all: try (destruct (String.eqb_spec role models.RoleSuper);
            destruct (String.eqb_spec role models.RoleRegular);
            cbn [negb andb]; try (left; split; [discriminate|reflexivity])).
  all: destruct saveErr; [left; split; [discriminate|reflexivity]|].
  all: right; split; [reflexivity|].
  all: eexists adminID, admin, _, _.
  all: split; [reflexivity|]; split; [reflexivity|]; split; [exact Hfind|].
  all: split; [auto|]; split; [auto|]; split; [reflexivity|].
  all: cbn [handlers.UpdateAdminRequest_Password handlers.UpdateAdminRequest_Username
            handlers.UpdateAdminRequest_Role models.Admin_set_Password
            models.Admin_set_Username models.Admin_set_Role models.Admin_ID
            models.Admin_DeletedAt models.Admin_TokenVersion models.Admin_Role
            models.Admin_Username].
  all: repeat (split; [reflexivity|]).
  all: first [discriminate | intros r [= <-]; auto].
Qed.

End UpdatingAdmins.

Section AdminAccess.
Context {L : Lib} {HL : LibLaws L} (cfg : config.JWTConfig).

(** X19.  What a requester who is not a super admin can do through
    [UpdateAdmin]: nothing to the users, nothing to the row of any other
    admin, and to no row a change of role or of version. *)
Theorem UpdateAdmin_regular_confined (d : db.DB)
    (param_id requestingAdminRole : string) (requestingAdminID : UUID)
    (body : option handlers.UpdateAdminRequest) (salt : string)
    (saveErr : option string) :
  requestingAdminRole <> models.RoleSuper ->
  let out := handlers.UpdateAdmin d param_id requestingAdminRole
               requestingAdminID body salt saveErr in
  db.users (snd out) = db.users d
  /\ (forall id, id <> requestingAdminID ->
        spec.admin_by_id (snd out) id = spec.admin_by_id d id)
  /\ (forall id,
        option_map models.Admin_Role (spec.admin_by_id (snd out) id)
        = option_map models.Admin_Role (spec.admin_by_id d id))
  /\ (forall id, spec.admin_version (snd out) id = spec.admin_version d id).
Proof.
  intros Hreg out.
  destruct (UpdateAdmin_cases d param_id requestingAdminRole requestingAdminID
              body salt saveErr)
    as [[_ Hsame]|[_ (adminID & admin & admin' & req & Hparse & Hbody & Hfind & Hwho
                      & Hrole & Hsnd & Hid & Hdel & Hver & Hrl & _)]];
    fold out in Hsame || fold out in Hsnd.
  { rewrite Hsame. repeat split; reflexivity. }
  destruct Hwho as [Hwho|]; [|contradiction].
  destruct Hrole as [Hrole|]; [|contradiction].
  rewrite Hrole in Hrl.
  destruct (First_Some _ _ _ Hfind) as (Hin & Hlive & Hcond).
  unfold db.by_id in Hcond. apply N.eqb_eq in Hcond.
  cbn [db.PrimaryKey db.Admin_Model] in Hcond.
  assert (Hother : forall id, id <> adminID ->
            spec.admin_by_id (snd out) id = spec.admin_by_id d id).
  { intros id Hne. rewrite Hsnd. unfold spec.admin_by_id.
    cbn [db.admins db.with_admins]. apply First_Save_other_id.
    cbn [db.PrimaryKey db.Admin_Model]. congruence. }
  assert (Hown : spec.admin_by_id (snd out) adminID = Some admin').
  { rewrite Hsnd. unfold spec.admin_by_id. cbn [db.admins db.with_admins].
    rewrite <- Hcond, <- Hid.
    apply (First_Save_id (M := db.Admin_Model) _ admin);
      [exact Hin|exact Hlive|exact Hid|].
    unfold db.live in *. cbn [db.DeletedAt db.Admin_Model] in *.
    rewrite Hdel. exact Hlive. }
  split; [rewrite Hsnd; reflexivity|]. split; [|split].
  - intros id Hne. apply Hother. congruence.
  - intros id. destruct (N.eq_dec id adminID) as [->|Hne].
    + rewrite Hown, Hfind. cbn [option_map]. now rewrite Hrl.
    + now rewrite Hother.
  - intros id. unfold spec.admin_version.
    destruct (N.eq_dec id adminID) as [->|Hne].
    + rewrite Hown, Hfind. cbn [option_map]. now rewrite Hver.
    + now rewrite Hother.
Qed.

(** X20.  A change of role does not reach the tokens already out:
    [UpdateAdmin] leaves the version alone, and the guard attaches the role
    of the token.  After a super admin has been made regular, a token from
    before still passes the admin guard and the role gate, as "super". *)
Theorem UpdateAdmin_demotion_keeps_super_token (d : db.DB)
    (param_id requestingAdminRole : string) (requestingAdminID : UUID)
    (req : handlers.UpdateAdminRequest) (salt : string)
    (adminID : UUID) (admin : models.Admin) (minted now : Z) (tok : string) :
  uuid_Parse param_id = Some adminID ->
  spec.admin_by_id d adminID = Some admin ->
  spec.is_int (models.Admin_TokenVersion admin) ->
  models.Admin_Role admin = models.RoleSuper ->
  handlers.UpdateAdminRequest_Role req = Some models.RoleRegular ->
  utils.GenerateAdminToken cfg minted (models.Admin_ID admin)
    (models.Admin_Username admin) (models.Admin_Role admin)
    (models.Admin_TokenVersion admin) = Ok tok ->
  minted <= now ->
  let out := handlers.UpdateAdmin d param_id requestingAdminRole
               requestingAdminID (Some req) salt None in
  handlers.Status (fst out) = handlers.StatusOK ->
  option_map models.Admin_Role (spec.admin_by_id (snd out) adminID)
  = Some models.RoleRegular
  /\ middleware.andThen
       (middleware.AdminJWTProtected cfg (snd out) now ("Bearer " +:+ tok))
       middleware.SuperAdminOnly
     = Returns (middleware.Next
                  [("id", middleware.LocalUUID adminID);
                   ("admin_username",
                     middleware.LocalString (models.Admin_Username admin));
                   ("admin_role", middleware.LocalString models.RoleSuper)]%string).
Proof.
  intros Hparse Hfind Hv Hsuper Hreq Htok Hle out Hok.
  destruct (UpdateAdmin_cases d param_id requestingAdminRole requestingAdminID
              (Some req) salt None)
    as [[Hno _]|[_ (adminID0 & admin0 & admin' & req0 & Hparse0 & Hbody & Hfind0
                    & _ & _ & Hsnd & Hid & Hdel & Hver & Hrl & _)]];
    fold out in Hno || fold out in Hsnd; [contradiction|].
  rewrite Hparse in Hparse0. injection Hparse0 as <-.
  injection Hbody as <-. rewrite Hfind in Hfind0. injection Hfind0 as <-.
  rewrite Hreq in Hrl.
  destruct (First_Some _ _ _ Hfind) as (Hin & Hlive & Hcond).
  unfold db.by_id in Hcond. apply N.eqb_eq in Hcond.
  cbn [db.PrimaryKey db.Admin_Model] in Hcond.
  assert (Hown : spec.admin_by_id (snd out) adminID = Some admin').
  { rewrite Hsnd. unfold spec.admin_by_id. cbn [db.admins db.with_admins].
    rewrite <- Hcond, <- Hid.
    apply (First_Save_id (M := db.Admin_Model) _ admin);
      [exact Hin|exact Hlive|exact Hid|].
    unfold db.live in *. cbn [db.DeletedAt db.Admin_Model] in *.
    rewrite Hdel. exact Hlive. }
  split; [rewrite Hown; cbn [option_map]; now rewrite Hrl|].
  rewrite (AdminJWTProtected_GenerateAdminToken cfg (snd out) minted now _ _ _ _ _
             Hv Hle Htok).
  rewrite Hcond. unfold spec.admin_version. rewrite Hown. cbn [option_map].
  rewrite Hver, Z.eqb_refl, Hsuper. reflexivity.
Qed.

End AdminAccess.

(** ** Invariants *)

Section RolesInvariant.
Context {L : Lib}.

Lemma roles_ok_Save (r : models.Admin) (t : list models.Admin) :
  inv.role_ok r = true ->
  forallb inv.role_ok t = true ->
  forallb inv.role_ok (db.Save r t) = true.
Proof.
  intros Hr Ht. apply forallb_forall. intros x Hx.
  unfold db.Save in Hx. apply in_map_iff in Hx. destruct Hx as [y [<- Hy]].
  destruct (db.live y && db.by_id (db.PrimaryKey r) y); [exact Hr|].
  exact (proj1 (forallb_forall _ _) Ht y Hy).
Qed.

Lemma roles_ok_insert_row (r : models.Admin) (t : list models.Admin) :
  inv.role_ok r = true ->
  forallb inv.role_ok t = true ->
  forallb inv.role_ok (db.insert_row r t) = true.
Proof.
  intros Hr Ht. apply forallb_forall. intros x Hx.
  apply In_insert_row in Hx. destruct Hx as [->|Hx]; [exact Hr|].
  exact (proj1 (forallb_forall _ _) Ht x Hx).
Qed.

Lemma roles_ok_Delete (now : Z) (r : models.Admin) (t : list models.Admin) :
  forallb inv.role_ok t = true ->
  forallb inv.role_ok (db.Delete now r t) = true.
Proof.
  intros Ht. apply forallb_forall. intros x Hx.
  unfold db.Delete in Hx. apply in_map_iff in Hx. destruct Hx as [y [<- Hy]].
  pose proof (proj1 (forallb_forall _ _) Ht y Hy) as Hy'.
  destruct (db.live y && db.by_id (db.PrimaryKey r) y); exact Hy'.
Qed.

(** X21.  Every admin row holds one of the two roles, and the program
    keeps it so: from a store where this is true, whatever [CreateAdmin],
    [UpdateAdmin], [AdminLogin], [DeleteAdmin] and [CreateInitialAdmin] are
    given, it is true of the store they leave; and the handlers of the
    users do not write the admins at all. *)
Theorem admin_roles_stay_valid (d : db.DB) :
  inv.roles_ok d = true ->
  (forall body newID salt createErr,
     inv.roles_ok (snd (handlers.CreateAdmin d body newID salt createErr)) = true)
  /\ (forall param_id role requester body salt saveErr,
        inv.roles_ok
          (snd (handlers.UpdateAdmin d param_id role requester body salt saveErr))
        = true)
  /\ (forall cfg now body saveErr,
        inv.roles_ok (snd (handlers.AdminLogin cfg d now body saveErr)) = true)
  /\ (forall now param_id configName deleteErr,
        inv.roles_ok (snd (handlers.DeleteAdmin d now param_id configName deleteErr))
        = true)
  /\ (forall adminConfig newID salt createErr d',
        db.CreateInitialAdmin adminConfig d newID salt createErr = db.Started d' ->
        inv.roles_ok d' = true)
  /\ (forall body newID salt createErr,
        db.admins (snd (handlers.Register d body newID salt createErr)) = db.admins d)
  /\ (forall body newID salt createErr assignErr,
        db.admins (snd (handlers.CreateUser d body newID salt createErr assignErr))
        = db.admins d)
  /\ (forall param_id body salt saveErr assignErr,
        db.admins (snd (handlers.UpdateUser d param_id body salt saveErr assignErr))
        = db.admins d)
  /\ (forall now param_id saveErr deleteErr,
        db.admins (snd (handlers.DeleteUser d now param_id saveErr deleteErr))
        = db.admins d).
Proof.
  unfold inv.roles_ok. intros Hd.
  split; [|split; [|split; [|split; [|split; [|split; [|split; [|split]]]]]]].
  - intros body newID salt createErr. unfold handlers.CreateAdmin.
    destruct body as [req|]; [|exact Hd].
    destruct (negb (String.eqb (handlers.CreateAdminRequest_Role req) models.RoleSuper)
              && negb (String.eqb (handlers.CreateAdminRequest_Role req)
                         models.RoleRegular)) eqn:Hrole; [exact Hd|].
    destruct (String.length _ <? 6)%nat; [exact Hd|].
    destruct (db.First _ _); [exact Hd|].
    unfold db.Create_Admin, models.Admin_BeforeCreate.
    destruct (bcrypt_GenerateFromPassword _ _) as [h|]; [|exact Hd].
    destruct createErr; [exact Hd|].
    destruct (db.Insert _ (db.admins d)) as [ads|] eqn:Hins; [|exact Hd].
    destruct (Insert_Some _ _ _ Hins) as [-> _].
    cbn [snd db.admins db.with_admins].
    apply roles_ok_insert_row; [|exact Hd].
    unfold inv.role_ok.
    destruct (N.eqb _ uuid_Nil);
      cbn [models.Admin_Role models.Admin_set_Password models.Admin_set_ID];
      destruct (String.eqb _ models.RoleSuper); [reflexivity| |reflexivity|];
      destruct (String.eqb _ models.RoleRegular); try reflexivity; discriminate.
  - intros param_id role requester body salt saveErr.
    destruct (UpdateAdmin_cases d param_id role requester body salt saveErr)
      as [[_ ->]|[_ (adminID & admin & admin' & req & _ & _ & Hfind & _ & _ & ->
                     & _ & _ & _ & Hrl & _ & Hvalid)]]; [exact Hd|].
    cbn [db.admins db.with_admins]. apply roles_ok_Save; [|exact Hd].
    unfold inv.role_ok. rewrite Hrl.
    destruct (handlers.UpdateAdminRequest_Role req) as [r|].
    + destruct (Hvalid r eq_refl) as [->| ->]; reflexivity.
    + destruct (First_Some _ _ _ Hfind) as (Hin & _ & _).
      exact (proj1 (forallb_forall _ _) Hd admin Hin).
  - intros cfg now body saveErr. unfold handlers.AdminLogin.
    destruct body as [req|]; [|exact Hd].
    destruct (_ || _); [exact Hd|].
    destruct (db.First _ _) as [admin|] eqn:Hfind; [|exact Hd].
    destruct (negb _); [exact Hd|]. destruct saveErr; [exact Hd|].
    assert (Hsaved : forallb inv.role_ok
                       (db.Save
                          (models.Admin_set_TokenVersion
                             (int_incr (models.Admin_TokenVersion admin)) admin)
                          (db.admins d)) = true).
    { apply roles_ok_Save; [|exact Hd].
      destruct (First_Some _ _ _ Hfind) as (Hin & _ & _).
      exact (proj1 (forallb_forall _ _) Hd admin Hin). }
    cbv zeta. destruct (utils.GenerateAdminToken _ _ _ _ _ _); exact Hsaved.
  - intros now param_id configName deleteErr. unfold handlers.DeleteAdmin.
    destruct (uuid_Parse param_id) as [id|]; [|exact Hd].
    destruct (match uuid_Parse configName with
              | Some initial => (id =? initial)%N
              | None => false
              end); [exact Hd|].
    destruct (db.First _ _) as [admin|]; [|exact Hd].
    destruct deleteErr; [exact Hd|].
    cbn [snd db.admins db.with_admins]. apply roles_ok_Delete. exact Hd.
  - intros adminConfig newID salt createErr d'. unfold db.CreateInitialAdmin.
    destruct (uuid_Parse _) as [id|]; [|discriminate].
    destruct (db.First _ _); [intros [= <-]; exact Hd|].
    unfold db.Create_Admin, models.Admin_BeforeCreate.
    destruct (bcrypt_GenerateFromPassword _ _) as [h|]; [|discriminate].
    destruct createErr; [discriminate|].
    destruct (db.Insert _ (db.admins d)) as [ads|] eqn:Hins; [|discriminate].
    intros [= <-]. destruct (Insert_Some _ _ _ Hins) as [-> _].
    cbn [db.admins db.with_admins]. apply roles_ok_insert_row; [|exact Hd].
    unfold inv.role_ok. destruct (N.eqb _ uuid_Nil); reflexivity.
  - intros body newID salt createErr. unfold handlers.Register.
    destruct body as [req|]; [|reflexivity].
    destruct (negb _); [reflexivity|]. destruct (_ <? _)%nat; [reflexivity|].
    destruct (db.First _ _); [reflexivity|].
    unfold db.Create_User. destruct (models.User_BeforeCreate _ _ _); [|reflexivity].
    destruct createErr; [reflexivity|].
    destruct (db.Insert _ _); reflexivity.
  - intros body newID salt createErr assignErr. unfold handlers.CreateUser.
    destruct body as [req|]; [|reflexivity].
    destruct (negb _); [reflexivity|]. destruct (_ <? _)%nat; [reflexivity|].
    destruct (db.First _ _); [reflexivity|].
    unfold db.Create_User. destruct (models.User_BeforeCreate _ _ _); [|reflexivity].
    destruct createErr; [reflexivity|].
    destruct (db.Insert _ _); [|reflexivity].
    destruct (handlers.CreateUserRequest_Locations req), assignErr; reflexivity.
  - intros param_id body salt saveErr assignErr. unfold handlers.UpdateUser.
    destruct (uuid_Parse param_id); [|reflexivity].
    destruct body as [req|]; [|reflexivity].
    destruct (_ && _); [reflexivity|].
    destruct (db.First _ _) as [user|]; [|reflexivity].
    destruct (handlers.UpdateUser_phone d req user); [|reflexivity].
    destruct (handlers.UpdateUser_password req salt _); [|reflexivity].
    destruct saveErr; [reflexivity|].
    destruct (handlers.UpdateUserRequest_Locations req), assignErr; reflexivity.
  - intros now param_id saveErr deleteErr. unfold handlers.DeleteUser.
    destruct (uuid_Parse param_id); [|reflexivity].
    destruct (db.First _ _); [|reflexivity].
    destruct saveErr; [reflexivity|]. destruct deleteErr; reflexivity.
Qed.

End RolesInvariant.

Section PhonesInvariant.
Context {L : Lib}.

Lemma phones_unique_Save (r : models.User) (t : list models.User) :
  inv.unique t ->
  (forall y, In y t -> db.live y = true ->
             models.User_Phone y = models.User_Phone r ->
             models.User_ID y = models.User_ID r) ->
  inv.unique (db.Save r t).
Proof.
  intros Ht Hr u1 u2 H1 H2 Hl1 Hl2 Hph.
  unfold db.Save in H1, H2.
  apply in_map_iff in H1. destruct H1 as [y1 [E1 Hy1]].
  apply in_map_iff in H2. destruct H2 as [y2 [E2 Hy2]].
  assert (Hkey : forall y, In y t -> db.live y = true ->
                   models.User_Phone y = models.User_Phone r ->
                   db.live y && db.by_id (db.PrimaryKey r) y = true).
  { intros y Hy Hl Hp. rewrite Hl. unfold db.by_id.
    cbn [db.PrimaryKey db.User_Model]. rewrite (Hr y Hy Hl Hp). apply N.eqb_refl. }
  destruct (db.live y1 && db.by_id (db.PrimaryKey r) y1) eqn:C1;
    destruct (db.live y2 && db.by_id (db.PrimaryKey r) y2) eqn:C2;
    subst u1 u2.
  - reflexivity.
  - rewrite (Hkey y2 Hy2 Hl2 (eq_sym Hph)) in C2. discriminate.
  - rewrite (Hkey y1 Hy1 Hl1 Hph) in C1. discriminate.
  - exact (Ht y1 y2 Hy1 Hy2 Hl1 Hl2 Hph).
Qed.

Lemma phones_unique_insert_row (r : models.User) (t : list models.User) :
  inv.unique t ->
  db.First (db.by_phone (models.User_Phone r)) t = None ->
  inv.unique (db.insert_row r t).
Proof.
  intros Ht Hnone u1 u2 H1 H2 Hl1 Hl2 Hph.
  assert (Hfree : forall y, In y t -> db.live y = true ->
                    models.User_Phone y <> models.User_Phone r).
  { intros y Hy Hl Hp. pose proof (First_None _ _ _ Hnone Hy Hl) as Hc.
    unfold db.by_phone in Hc. rewrite Hp, String.eqb_refl in Hc. discriminate. }
  apply In_insert_row in H1. apply In_insert_row in H2.
  destruct H1 as [->|H1], H2 as [->|H2].
  - reflexivity.
  - exfalso. exact (Hfree u2 H2 Hl2 (eq_sym Hph)).
  - exfalso. exact (Hfree u1 H1 Hl1 Hph).
  - exact (Ht u1 u2 H1 H2 Hl1 Hl2 Hph).
Qed.

Lemma phones_unique_Delete (now : Z) (r : models.User) (t : list models.User) :
  inv.unique t -> inv.unique (db.Delete now r t).
Proof.
  intros Ht u1 u2 H1 H2 Hl1 Hl2 Hph.
  unfold db.Delete in H1, H2.
  apply in_map_iff in H1. destruct H1 as [y1 [E1 Hy1]].
  apply in_map_iff in H2. destruct H2 as [y2 [E2 Hy2]].
  destruct (db.live y1 && db.by_id (db.PrimaryKey r) y1);
    [subst u1; discriminate|].
  destruct (db.live y2 && db.by_id (db.PrimaryKey r) y2);
    [subst u2; discriminate|].
  subst u1 u2. exact (Ht y1 y2 Hy1 Hy2 Hl1 Hl2 Hph).
Qed.

(** A row found by its phone is, in a store with unique phones, the one
    every live row with that phone has the key of. *)
Lemma phones_unique_key (t : list models.User) (u r : models.User) :
  inv.unique t ->
  In u t -> db.live u = true ->
  models.User_Phone r = models.User_Phone u ->
  models.User_ID r = models.User_ID u ->
  forall y, In y t -> db.live y = true ->
            models.User_Phone y = models.User_Phone r ->
            models.User_ID y = models.User_ID r.
Proof.
  intros Ht Hu Hl Hp Hk y Hy Hly Hpy.
  rewrite (Ht y u Hy Hu Hly Hl ltac:(congruence)). congruence.
Qed.

(** The password block keeps the key and the phone, so that the phone
    the row holds when "phone was changed" is read is the requested one. *)
Lemma UpdateUser_password_keeps (req : handlers.UpdateUserRequest) (salt : string)
    (user1 user2 : models.User) :
  handlers.UpdateUser_password req salt user1 = Ok user2 ->
  models.User_ID user2 = models.User_ID user1
  /\ models.User_Phone user2 = models.User_Phone user1.
Proof.
  unfold handlers.UpdateUser_password.
  destruct (handlers.nonempty _); [|intros [= <-]; split; reflexivity].
  destruct (bcrypt_GenerateFromPassword salt _); [|discriminate].
  intros [= <-]. split; reflexivity.
Qed.

Lemma UpdateUser_phone_changed_false (d : db.DB) (req : handlers.UpdateUserRequest)
    (salt : string) (user user1 user2 : models.User) :
  handlers.UpdateUser_phone d req user = Ok user1 ->
  handlers.UpdateUser_password req salt user1 = Ok user2 ->
  handlers.UpdateUser_phone_changed req user2 = false.
Proof.
  intros H1 H2. destruct (UpdateUser_password_keeps _ _ _ _ H2) as [_ Hph].
  unfold handlers.UpdateUser_phone_changed, handlers.nonempty. rewrite Hph.
  destruct (UpdateUser_phone_Ok _ _ _ _ H1) as [[-> [E|E]]|[-> _]].
  - rewrite E. reflexivity.
  - rewrite E, String.eqb_refl. apply andb_false_r.
  - cbn [models.User_set_Phone models.User_Phone].
    rewrite String.eqb_refl. apply andb_false_r.
Qed.

Lemma created_store (d : db.DB) (user : models.User) (newID : UUID)
    (salt : string) (createErr : option string) (u' : models.User) (d' : db.DB) :
  inv.phones_unique d ->
  db.First (db.by_phone (models.User_Phone user)) (db.users d) = None ->
  db.Create_User newID salt user d createErr = Some (u', d') ->
  inv.phones_unique d'.
Proof.
  intros Hd Hnone. unfold db.Create_User, models.User_BeforeCreate.
  destruct (bcrypt_GenerateFromPassword salt _) as [h|]; [|discriminate].
  destruct createErr; [discriminate|].
  destruct (db.Insert _ (db.users d)) as [us|] eqn:Hins; [|discriminate].
  intros [= <- <-]. destruct (Insert_Some _ _ _ Hins) as [-> _].
  unfold inv.phones_unique. cbn [db.users db.with_users].
  apply phones_unique_insert_row; [exact Hd|].
  destruct (N.eqb _ uuid_Nil); exact Hnone.
Qed.

(** X22.  A phone never comes to name two live accounts: from a store in
    which no two live user rows hold the same phone, whatever [Register],
    [CreateUser], [Login], [UpdateUser] and [DeleteUser] are given, the
    store they leave is such a store again. *)
Theorem phones_stay_unique (d : db.DB) :
  inv.phones_unique d ->
  (forall body newID salt createErr,
     inv.phones_unique (snd (handlers.Register d body newID salt createErr)))
  /\ (forall body newID salt createErr assignErr,
        inv.phones_unique
          (snd (handlers.CreateUser d body newID salt createErr assignErr)))
  /\ (forall cfg now body q1 q2 saveErr,
        inv.phones_unique (snd (handlers.Login cfg d now body q1 q2 saveErr)))
  /\ (forall param_id body salt saveErr assignErr,
        inv.phones_unique
          (snd (handlers.UpdateUser d param_id body salt saveErr assignErr)))
  /\ (forall now param_id saveErr deleteErr,
        inv.phones_unique
          (snd (handlers.DeleteUser d now param_id saveErr deleteErr))).
Proof.
  intros Hd. split; [|split; [|split; [|split]]].
  - intros body newID salt createErr. unfold handlers.Register.
    destruct body as [req|]; [|exact Hd].
    destruct (negb _); [exact Hd|]. destruct (_ <? _)%nat; [exact Hd|].
    destruct (db.First _ _) eqn:Hnone; [exact Hd|].
    destruct (db.Create_User _ _ _ _ _) as [[u' d']|] eqn:Hc; [|exact Hd].
    refine (created_store _ _ _ _ _ _ _ Hd _ Hc). exact Hnone.
  - intros body newID salt createErr assignErr. unfold handlers.CreateUser.
    destruct body as [req|]; [|exact Hd].
    destruct (negb _); [exact Hd|]. destruct (_ <? _)%nat; [exact Hd|].
    destruct (db.First _ _) eqn:Hnone; [exact Hd|].
    destruct (db.Create_User _ _ _ _ _) as [[u' d']|] eqn:Hc; [|exact Hd].
    assert (Hd' : inv.phones_unique d').
    { refine (created_store _ _ _ _ _ _ _ Hd _ Hc). exact Hnone. }
    destruct (handlers.CreateUserRequest_Locations req), assignErr; exact Hd'.
  - intros cfg now body q1 q2 saveErr. unfold handlers.Login.
    destruct body as [req|]; [|exact Hd].
    destruct (negb _); [exact Hd|].
    destruct (db.First _ _) as [user|] eqn:Hfind; [|exact Hd].
    destruct (negb _); [exact Hd|]. destruct saveErr; [exact Hd|].
    destruct (First_Some _ _ _ Hfind) as (Hin & Hlive & _).
    cbv zeta.
    match goal with
    | |- context [db.Save ?r (db.users d)] =>
        assert (Hs : inv.phones_unique (db.with_users (db.Save r (db.users d)) d))
    end.
    { unfold inv.phones_unique. cbn [db.users db.with_users].
      apply phones_unique_Save; [exact Hd|].
      apply (phones_unique_key _ user); [exact Hd|exact Hin|exact Hlive| |];
        destruct (handlers.nonempty _), (handlers.deviceChanged user _); reflexivity. }
    destruct (utils.GenerateTokens _ _ _ _ _); exact Hs.
  - intros param_id body salt saveErr assignErr. unfold handlers.UpdateUser.
    destruct (uuid_Parse param_id) as [userID|]; [|exact Hd].
    destruct body as [req|]; [|exact Hd].
    destruct (_ && _); [exact Hd|].
    destruct (db.First _ _) as [user|] eqn:Hfind; [|exact Hd].
    destruct (handlers.UpdateUser_phone d req user) as [user1|] eqn:H1; [|exact Hd].
    destruct (handlers.UpdateUser_password req salt user1) as [user2|] eqn:H2;
      [|exact Hd].
    destruct saveErr; [exact Hd|].
    unfold handlers.UpdateUser_phone_version.
    rewrite (UpdateUser_phone_changed_false d req salt user user1 user2 H1 H2).
    assert (Hs : inv.phones_unique (db.with_users (db.Save user2 (db.users d)) d)).
    { unfold inv.phones_unique. cbn [db.users db.with_users].
      destruct (First_Some _ _ _ Hfind) as (Hin & Hlive & _).
      destruct (UpdateUser_password_keeps _ _ _ _ H2) as (Hid2 & Hph2).
      apply phones_unique_Save; [exact Hd|].
      destruct (UpdateUser_phone_Ok _ _ _ _ H1) as [[-> _]|[-> Hnone]].
      - apply (phones_unique_key _ user); [exact Hd|exact Hin|exact Hlive| |];
          assumption.
      - intros y Hy Hl Hp. exfalso.
        pose proof (First_None _ _ _ Hnone Hy Hl) as Hc. unfold db.by_phone in Hc.
        rewrite Hp, Hph2 in Hc. cbn [models.User_set_Phone models.User_Phone] in Hc.
        rewrite String.eqb_refl in Hc. discriminate. }
    cbv zeta.
    destruct (handlers.UpdateUserRequest_Locations req), assignErr; exact Hs.
  - intros now param_id saveErr deleteErr. unfold handlers.DeleteUser.
    destruct (uuid_Parse param_id) as [userID|]; [|exact Hd].
    destruct (db.First _ _) as [user|] eqn:Hfind; [|exact Hd].
    destruct saveErr; [exact Hd|].
    destruct (First_Some _ _ _ Hfind) as (Hin & Hlive & _).
    assert (Hs : inv.unique
                   (db.Save
                      (models.User_set_TokenVersion
                         (int_incr (models.User_TokenVersion user)) user)
                      (db.users d))).
    { apply phones_unique_Save; [exact Hd|].
      apply (phones_unique_key _ user); [exact Hd|exact Hin|exact Hlive| |];
        reflexivity. }
    destruct deleteErr; [exact Hs|].
    unfold inv.phones_unique. cbn [snd db.users db.with_users].
    apply phones_unique_Delete. exact Hs.
Qed.

End PhonesInvariant.

(** ** A deleted phone is free again *)

Section FreedPhone.
Context {L : Lib}.

Lemma In_Save_inv {R : Type} {M : db.Model R} (x r : R) (t : list R) :
  In x (db.Save r t) ->
  x = r \/ (In x t /\ db.live x && db.by_id (db.PrimaryKey r) x = false).
Proof.
  unfold db.Save. intros H. apply in_map_iff in H. destruct H as [y [E Hy]].
  destruct (db.live y && db.by_id (db.PrimaryKey r) y) eqn:C.
  - left. symmetry. exact E.
  - right. subst x. split; assumption.
Qed.

Lemma In_Delete_inv (now : Z) (x r : models.User) (t : list models.User) :
  In x (db.Delete now r t) ->
  (exists y, In y t /\ x = db.SetDeletedAt (Some now) y)
  \/ (In x t /\ db.live x && db.by_id (db.PrimaryKey r) x = false).
Proof.
  unfold db.Delete. intros H. apply in_map_iff in H. destruct H as [y [E Hy]].
  destruct (db.live y && db.by_id (db.PrimaryKey r) y) eqn:C.
  - left. exists y. split; [exact Hy|]. symmetry. exact E.
  - right. subst x. split; assumption.
Qed.

(** The rows [DeleteUser] leaves, when both writes are performed. *)
Lemma DeleteUser_rows (d : db.DB) (now : Z) (param_id : string) (id : UUID)
    (user : models.User) :
  uuid_Parse param_id = Some id ->
  spec.user_by_id d id = Some user ->
  let out := handlers.DeleteUser d now param_id None None in
  spec.user_by_id (snd out) id = None
  /\ forall x, In x (db.users (snd out)) ->
       (db.live x = true ->
        In x (db.users d) /\ models.User_ID x <> id)
       /\ exists y, In y (db.users d) /\ models.User_ID x = models.User_ID y.
Proof.
  intros Hparse Hfind out.
  destruct (First_Some _ _ _ Hfind) as (Hin & Hlive & Hcond).
  unfold db.by_id in Hcond. apply N.eqb_eq in Hcond.
  cbn [db.PrimaryKey db.User_Model] in Hcond.
  set (user1 := models.User_set_TokenVersion
                  (int_incr (models.User_TokenVersion user)) user).
  assert (Hout : db.users (snd out) = db.Delete now user1 (db.Save user1 (db.users d))).
  { subst out. unfold handlers.DeleteUser. rewrite Hparse.
    unfold spec.user_by_id in Hfind. rewrite Hfind. reflexivity. }
  split.
  { unfold spec.user_by_id. rewrite Hout, <- Hcond.
    exact (First_Delete_key (M := db.User_Model) (fun _ _ => eq_refl) now user1 _). }
  intros x Hx. rewrite Hout in Hx.
  assert (Hsaved : forall y, In y (db.Save user1 (db.users d)) ->
            (y = user1 \/ (In y (db.users d)
                           /\ db.live y && db.by_id (db.PrimaryKey user1) y = false))).
  { intros y Hy. exact (In_Save_inv y user1 _ Hy). }
  destruct (In_Delete_inv now x user1 _ Hx) as [[y [Hy ->]]|[Hx' Hc]].
  - split; [discriminate|].
    destruct (Hsaved y Hy) as [->|[Hy' _]].
    + exists user. split; [exact Hin|reflexivity].
    + exists y. split; [exact Hy'|reflexivity].
  - destruct (Hsaved x Hx') as [->|[Hx'' _]].
    + exfalso. unfold db.by_id in Hc. rewrite N.eqb_refl, andb_true_r in Hc.
      unfold db.live in Hc, Hlive. cbn [db.DeletedAt db.User_Model user1
        models.User_set_TokenVersion models.User_DeletedAt] in Hc, Hlive.
      rewrite Hlive in Hc. discriminate.
    + split; [|exists x; split; [exact Hx''|reflexivity]].
      intros Hl. split; [exact Hx''|]. rewrite Hl in Hc. unfold db.by_id in Hc.
      cbn [andb db.PrimaryKey db.User_Model user1 models.User_set_TokenVersion
           models.User_ID] in Hc.
      apply N.eqb_neq in Hc. congruence.
Qed.

(** X23.  In a store with unique phones, deleting a user frees the
    phone.  Afterwards [CheckPhoneAvailability] reports it available, a
    login with it is answered "Invalid credentials" whatever the password,
    and a registration with it (a fresh id, a hash bcrypt delivers) is
    answered 201 and makes a new live account at version 0, while the
    deleted id still does not resolve. *)
Theorem DeleteUser_frees_phone (cfg : config.JWTConfig) (d : db.DB) (now now2 : Z)
    (param_id : string) (id : UUID) (user : models.User)
    (password login_password : string) (newID : UUID) (salt hashedPassword : string)
    (q1 q2 : string) (saveErr : option string) :
  inv.phones_unique d ->
  uuid_Parse param_id = Some id ->
  spec.user_by_id d id = Some user ->
  phoneRegex_MatchString (models.User_Phone user) = true ->
  (6 <= String.length password)%nat ->
  (forall u, In u (db.users d) -> models.User_ID u <> newID) ->
  bcrypt_GenerateFromPassword salt password = Some hashedPassword ->
  let out := handlers.DeleteUser d now param_id None None in
  let phone := models.User_Phone user in
  let reg := handlers.Register (snd out)
               (Some {| handlers.RegisterRequest_Phone := phone;
                        handlers.RegisterRequest_Password := password |})
               newID salt None in
  handlers.CheckPhoneAvailability (snd out) phone
  = Ok {| handlers.PhoneAvailabilityResponse_Success := true;
          handlers.PhoneAvailabilityResponse_Message := "Phone availability checked";
          handlers.PhoneAvailabilityResponse_Available := true |}
  /\ handlers.Login cfg (snd out) now2
       (Some {| handlers.LoginRequest_Phone := phone;
                handlers.LoginRequest_Password := login_password |}) q1 q2 saveErr
     = (handlers.APIResponse handlers.StatusUnauthorized false
          "Invalid credentials" [], snd out)
  /\ fst reg = handlers.APIResponse handlers.StatusCreated true
                 "User registered successfully"
                 [("id", JStr (uuid_String newID)); ("phone", JStr phone)]%string
  /\ spec.user_by_id (snd reg) newID
     = Some {| models.User_ID := newID;
               models.User_Phone := phone;
               models.User_Password := hashedPassword;
               models.User_TokenVersion := 0;
               models.User_CurrentDeviceID := "";
               models.User_DeletedAt := None |}
  /\ spec.user_by_id (snd reg) id = None.
Proof.
  intros Hd Hparse Hfind Hre Hlen Hfresh Hhash out phone reg.
  destruct (DeleteUser_rows d now param_id id user Hparse Hfind) as [Hgone Hrows].
  fold out in Hgone, Hrows.
  destruct (First_Some _ _ _ Hfind) as (Hin & Hlive & Hcond).
  unfold db.by_id in Hcond. apply N.eqb_eq in Hcond.
  cbn [db.PrimaryKey db.User_Model] in Hcond.
  assert (Hnone : db.First (db.by_phone phone) (db.users (snd out)) = None).
  { destruct (db.First (db.by_phone phone) (db.users (snd out))) as [x|] eqn:Hx;
      [|reflexivity]. exfalso.
    destruct (First_Some _ _ _ Hx) as (Hxin & Hxl & Hxc).
    unfold db.by_phone in Hxc. apply String.eqb_eq in Hxc.
    destruct (Hrows x Hxin) as [Hold _]. destruct (Hold Hxl) as [Hxd Hxid].
    apply Hxid. rewrite (Hd x user Hxd Hin Hxl Hlive Hxc). exact Hcond. }
  fold phone in Hre.
  assert (Hne : String.eqb phone "" = false).
  { destruct (String.eqb_spec phone "") as [E|E]; [|reflexivity].
    rewrite E in Hre. discriminate. }
  assert (Hfresh' : forall x, In x (db.users (snd out)) -> models.User_ID x <> newID).
  { intros x Hx. destruct (Hrows x Hx) as [_ (y & Hy & ->)]. exact (Hfresh y Hy). }
  set (created := {| models.User_ID := newID;
                     models.User_Phone := phone;
                     models.User_Password := hashedPassword;
                     models.User_TokenVersion := 0;
                     models.User_CurrentDeviceID := "";
                     models.User_DeletedAt := None |}).
  assert (Hreg : reg
    = (handlers.APIResponse handlers.StatusCreated true
         "User registered successfully"
         [("id", JStr (uuid_String newID)); ("phone", JStr phone)]%string,
       db.with_users (db.insert_row created (db.users (snd out))) (snd out))).
  { subst reg. unfold handlers.Register.
    cbn [handlers.RegisterRequest_Phone handlers.RegisterRequest_Password].
    rewrite Hre. cbn [negb].
    destruct (Nat.ltb_spec (String.length password) 6); [lia|].
    rewrite Hnone. unfold db.Create_User, models.User_BeforeCreate.
    cbn [models.User_ID]. rewrite N.eqb_refl.
    cbn [models.User_set_ID models.User_Password models.User_Phone
         models.User_TokenVersion models.User_CurrentDeviceID models.User_DeletedAt
         models.User_ID].
    rewrite Hhash.
    change (models.User_set_Password hashedPassword
              (models.User_set_ID newID
                 {| models.User_ID := uuid_Nil;
                    models.User_Phone := phone;
                    models.User_Password := password;
                    models.User_TokenVersion := 0;
                    models.User_CurrentDeviceID := "";
                    models.User_DeletedAt := None |}))
      with created.
    rewrite (Insert_fresh (M := db.User_Model) created (db.users (snd out))
               eq_refl Hfresh').
    reflexivity. }
  split.
  { unfold handlers.CheckPhoneAvailability. rewrite Hne, Hre, Hnone. reflexivity. }
  split.
  { unfold handlers.Login. cbn [handlers.LoginRequest_Phone].
    rewrite Hre, Hnone. reflexivity. }
  rewrite Hreg. cbn [fst snd]. split; [reflexivity|].
  unfold spec.user_by_id. cbn [db.users db.with_users]. split.
  - apply (First_insert_row (M := db.User_Model) created); [reflexivity|exact Hfresh'].
  - rewrite First_insert_row_other; [exact Hgone|].
    cbn [db.PrimaryKey db.User_Model created models.User_ID].
    intros E. apply (Hfresh user Hin). congruence.
Qed.

(** X24.  [AdminLogin] writes at most the row of the admin it
    authenticates: the users are left alone, an answer other than 200
    leaves the whole store as it was, an unknown username and a wrong
    password get the same answer, and what any other id resolves to is
    unchanged. *)
Theorem AdminLogin_touches_one_row (cfg : config.JWTConfig) (d : db.DB) (now : Z)
    (body : option handlers.AdminLoginRequest) (saveErr : option string) :
  let out := handlers.AdminLogin cfg d now body saveErr in
  db.users (snd out) = db.users d
  /\ (handlers.Status (fst out) <> handlers.StatusOK -> snd out = d)
  /\ (handlers.Status (fst out) = handlers.StatusUnauthorized ->
      fst out = handlers.APIResponse handlers.StatusUnauthorized false
                  "Invalid credentials" [])
  /\ (forall id,
        (forall req admin,
           body = Some req ->
           db.First (db.by_username (handlers.AdminLoginRequest_Username req))
             (db.admins d) = Some admin ->
           models.Admin_ID admin <> id) ->
        spec.admin_by_id (snd out) id = spec.admin_by_id d id).
Proof.
  intros out. subst out. unfold handlers.AdminLogin.
  destruct body as [req|]; [|repeat split; try reflexivity; discriminate].
  destruct (_ || _); [repeat split; try reflexivity; discriminate|].
  destruct (db.First _ (db.admins d)) as [admin|] eqn:Hfind;
    [|repeat split; reflexivity].
  destruct (models.Admin_CheckPassword admin _); cbn [negb];
    [|repeat split; reflexivity].
  destruct saveErr; [repeat split; try reflexivity; discriminate|].
  cbv zeta.
  match goal with
  | |- context [utils.GenerateAdminToken cfg now ?i ?u ?r ?v] =>
      destruct (GenerateAdminToken_total cfg now i u r v) as [tok Htok]; rewrite Htok
  end.
  cbn [fst snd db.admins db.users db.with_admins].
  split; [reflexivity|]. split; [intros H; exfalso; apply H; reflexivity|].
  split; [discriminate|].
  intros id Hother. unfold spec.admin_by_id. cbn [db.admins].
  apply First_Save_other_id. exact (Hother req admin eq_refl Hfind).
Qed.

End FreedPhone.

(** ** Well-formed rows *)

Section RowsInvariant.
Context {L : Lib}.

Lemma forallb_Save {R : Type} {M : db.Model R} (P : R -> bool) (r : R) (t : list R) :
  P r = true -> forallb P t = true -> forallb P (db.Save r t) = true.
Proof.
  intros Hr Ht. apply forallb_forall. intros x Hx.
  unfold db.Save in Hx. apply in_map_iff in Hx. destruct Hx as [y [<- Hy]].
  destruct (db.live y && db.by_id (db.PrimaryKey r) y); [exact Hr|].
  exact (proj1 (forallb_forall _ _) Ht y Hy).
Qed.

Lemma forallb_insert_row {R : Type} {M : db.Model R} (P : R -> bool) (r : R)
    (t : list R) :
  P r = true -> forallb P t = true -> forallb P (db.insert_row r t) = true.
Proof.
  intros Hr Ht. apply forallb_forall. intros x Hx.
  apply In_insert_row in Hx. destruct Hx as [->|Hx]; [exact Hr|].
  exact (proj1 (forallb_forall _ _) Ht x Hx).
Qed.

Lemma forallb_Delete {R : Type} {M : db.Model R} (P : R -> bool) (now : Z) (r : R)
    (t : list R) :
  (forall x, P (db.SetDeletedAt (Some now) x) = P x) ->
  forallb P t = true -> forallb P (db.Delete now r t) = true.
Proof.
  intros HP Ht. apply forallb_forall. intros x Hx.
  unfold db.Delete in Hx. apply in_map_iff in Hx. destruct Hx as [y [<- Hy]].
  pose proof (proj1 (forallb_forall _ _) Ht y Hy) as Hy'.
  destruct (db.live y && db.by_id (db.PrimaryKey r) y); [rewrite HP|]; exact Hy'.
Qed.

Lemma user_ok_iff (u : models.User) :
  inv.user_ok u = true
  <-> phoneRegex_MatchString (models.User_Phone u) = true
      /\ spec.is_int (models.User_TokenVersion u)
      /\ models.User_ID u <> uuid_Nil.
Proof.
  unfold inv.user_ok, spec.is_int.
  rewrite !andb_true_iff, negb_true_iff, N.eqb_neq, !Z.leb_le. tauto.
Qed.

Lemma admin_ok_iff (a : models.Admin) :
  inv.admin_ok a = true
  <-> spec.is_int (models.Admin_TokenVersion a) /\ models.Admin_ID a <> uuid_Nil.
Proof.
  unfold inv.admin_ok, spec.is_int.
  rewrite !andb_true_iff, negb_true_iff, N.eqb_neq, !Z.leb_le. tauto.
Qed.

Lemma is_int_0 : spec.is_int 0.
Proof. vm_compute. split; discriminate. Qed.

(** What [Create] stores for a row whose key is still nil. *)
Lemma created_user_ok (d d' : db.DB) (phone password : string) (newID : UUID)
    (salt : string) (createErr : option string) (u' : models.User) :
  newID <> uuid_Nil ->
  phoneRegex_MatchString phone = true ->
  forallb inv.user_ok (db.users d) = true ->
  db.Create_User newID salt
    {| models.User_ID := uuid_Nil;
       models.User_Phone := phone;
       models.User_Password := password;
       models.User_TokenVersion := 0;
       models.User_CurrentDeviceID := "";
       models.User_DeletedAt := None |} d createErr = Some (u', d') ->
  forallb inv.user_ok (db.users d') = true /\ db.admins d' = db.admins d.
Proof.
  intros Hid Hre Hd. unfold db.Create_User, models.User_BeforeCreate.
  cbn [models.User_ID]. rewrite N.eqb_refl.
  destruct (bcrypt_GenerateFromPassword salt _) as [h|]; [|discriminate].
  destruct createErr; [discriminate|].
  destruct (db.Insert _ (db.users d)) as [us|] eqn:Hins; [|discriminate].
  intros [= <- <-]. destruct (Insert_Some _ _ _ Hins) as [-> _].
  cbn [db.users db.admins db.with_users]. split; [|reflexivity].
  apply forallb_insert_row; [|exact Hd].
  apply user_ok_iff. cbn. split; [exact Hre|]. split; [exact is_int_0|exact Hid].
Qed.

Lemma created_admin_ok (d d' : db.DB) (a a' : models.Admin) (newID : UUID)
    (salt : string) (createErr : option string) :
  newID <> uuid_Nil ->
  spec.is_int (models.Admin_TokenVersion a) ->
  forallb inv.admin_ok (db.admins d) = true ->
  db.Create_Admin newID salt a d createErr = Some (a', d') ->
  forallb inv.admin_ok (db.admins d') = true /\ db.users d' = db.users d.
Proof.
  intros Hid Hv Hd. unfold db.Create_Admin, models.Admin_BeforeCreate.
  destruct (bcrypt_GenerateFromPassword salt _) as [h|]; [|discriminate].
  destruct createErr; [discriminate|].
  destruct (db.Insert _ (db.admins d)) as [ads|] eqn:Hins; [|discriminate].
  intros [= <- <-]. destruct (Insert_Some _ _ _ Hins) as [-> _].
  cbn [db.users db.admins db.with_admins]. split; [|reflexivity].
  apply forallb_insert_row; [|exact Hd].
  apply admin_ok_iff.
  destruct (N.eqb_spec (models.Admin_ID a) uuid_Nil) as [E|E]; cbn; auto.
Qed.

(** X25.  Rows stay as the program makes them.  From a store in which
    every row has a key other than the nil UUID and a version within the
    64-bit range, and every user row a well-formed phone, all ten writers
    leave such a store, whatever they are given (a drawn id not being the
    nil UUID): [Register], [CreateUser], [Login], [UpdateUser],
    [DeleteUser], [CreateAdmin], [UpdateAdmin], [AdminLogin], [DeleteAdmin]
    and [CreateInitialAdmin]. *)
Theorem rows_stay_ok (d : db.DB) :
  inv.rows_ok d = true ->
  (forall body newID salt createErr,
     newID <> uuid_Nil ->
     inv.rows_ok (snd (handlers.Register d body newID salt createErr)) = true)
  /\ (forall body newID salt createErr assignErr,
        newID <> uuid_Nil ->
        inv.rows_ok
          (snd (handlers.CreateUser d body newID salt createErr assignErr)) = true)
  /\ (forall cfg now body q1 q2 saveErr,
        inv.rows_ok (snd (handlers.Login cfg d now body q1 q2 saveErr)) = true)
  /\ (forall param_id body salt saveErr assignErr,
        inv.rows_ok
          (snd (handlers.UpdateUser d param_id body salt saveErr assignErr)) = true)
  /\ (forall now param_id saveErr deleteErr,
        inv.rows_ok (snd (handlers.DeleteUser d now param_id saveErr deleteErr))
        = true)
  /\ (forall body newID salt createErr,
        newID <> uuid_Nil ->
        inv.rows_ok (snd (handlers.CreateAdmin d body newID salt createErr)) = true)
  /\ (forall param_id role requester body salt saveErr,
        inv.rows_ok
          (snd (handlers.UpdateAdmin d param_id role requester body salt saveErr))
        = true)
  /\ (forall cfg now body saveErr,
        inv.rows_ok (snd (handlers.AdminLogin cfg d now body saveErr)) = true)
  /\ (forall now param_id configName deleteErr,
        inv.rows_ok (snd (handlers.DeleteAdmin d now param_id configName deleteErr))
        = true)
  /\ (forall adminConfig newID salt createErr d',
        newID <> uuid_Nil ->
        db.CreateInitialAdmin adminConfig d newID salt createErr = db.Started d' ->
        inv.rows_ok d' = true).
Proof.
  unfold inv.rows_ok. intros Hd. apply andb_true_iff in Hd. destruct Hd as [Hu Ha].
  assert (Hd : forallb inv.user_ok (db.users d) && forallb inv.admin_ok (db.admins d)
               = true) by (rewrite Hu, Ha; reflexivity).
  assert (Husers : forall us, forallb inv.user_ok us = true ->
            forallb inv.user_ok (db.users (db.with_users us d))
            && forallb inv.admin_ok (db.admins (db.with_users us d)) = true).
  { intros us Hus. cbn [db.users db.admins db.with_users]. rewrite Hus, Ha.
    reflexivity. }
  assert (Hadmins : forall ads, forallb inv.admin_ok ads = true ->
            forallb inv.user_ok (db.users (db.with_admins ads d))
            && forallb inv.admin_ok (db.admins (db.with_admins ads d)) = true).
  { intros ads Hads. cbn [db.users db.admins db.with_admins]. rewrite Hu, Hads.
    reflexivity. }
  assert (Hin_u : forall cond user, db.First cond (db.users d) = Some user ->
            inv.user_ok user = true).
  { intros cond user Hf. destruct (First_Some _ _ _ Hf) as (Hin & _ & _).
    exact (proj1 (forallb_forall _ _) Hu user Hin). }
  assert (Hin_a : forall cond admin, db.First cond (db.admins d) = Some admin ->
            inv.admin_ok admin = true).
  { intros cond admin Hf. destruct (First_Some _ _ _ Hf) as (Hin & _ & _).
    exact (proj1 (forallb_forall _ _) Ha admin Hin). }
  split; [|split; [|split; [|split; [|split; [|split; [|split; [|split; [|split]]]]]]]].
  - intros body newID salt createErr Hid. unfold handlers.Register.
    destruct body as [req|]; [|exact Hd].
    destruct (phoneRegex_MatchString _) eqn:Hre; cbn [negb]; [|exact Hd].
    destruct (_ <? _)%nat; [exact Hd|].
    destruct (db.First _ _); [exact Hd|].
    destruct (db.Create_User _ _ _ _ _) as [[u' d']|] eqn:Hc; [|exact Hd].
    destruct (created_user_ok _ _ _ _ _ _ _ _ Hid Hre Hu Hc) as [Hu' Ha'].
    cbn [snd]. rewrite Hu', Ha'. exact Ha.
  - intros body newID salt createErr assignErr Hid. unfold handlers.CreateUser.
    destruct body as [req|]; [|exact Hd].
    destruct (phoneRegex_MatchString _) eqn:Hre; cbn [negb]; [|exact Hd].
    destruct (_ <? _)%nat; [exact Hd|].
    destruct (db.First _ _); [exact Hd|].
    destruct (db.Create_User _ _ _ _ _) as [[u' d']|] eqn:Hc; [|exact Hd].
    destruct (created_user_ok _ _ _ _ _ _ _ _ Hid Hre Hu Hc) as [Hu' Ha'].
    destruct (handlers.CreateUserRequest_Locations req), assignErr;
      cbn [snd]; rewrite Hu', Ha'; exact Ha.
  - intros cfg now body q1 q2 saveErr. unfold handlers.Login.
    destruct body as [req|]; [|exact Hd].
    destruct (negb _); [exact Hd|].
    destruct (db.First _ _) as [user|] eqn:Hfind; [|exact Hd].
    destruct (negb _); [exact Hd|]. destruct saveErr; [exact Hd|].
    cbv zeta.
    match goal with
    | |- context [db.Save ?r (db.users d)] =>
        assert (Hs : forallb inv.user_ok (db.Save r (db.users d)) = true)
    end.
    { apply forallb_Save; [|exact Hu].
      apply user_ok_iff. apply (Hin_u _ _) in Hfind. apply user_ok_iff in Hfind.
      destruct Hfind as (H1 & H2 & H3).
      destruct (int_incr_is_int _ H2) as [H2' _].
      destruct (handlers.nonempty _), (handlers.deviceChanged user _); cbn; auto. }
    destruct (utils.GenerateTokens _ _ _ _ _); exact (Husers _ Hs).
  - intros param_id body salt saveErr assignErr. unfold handlers.UpdateUser.
    destruct (uuid_Parse param_id) as [userID|]; [|exact Hd].
    destruct body as [req|]; [|exact Hd].
    destruct (handlers.nonempty _ && _); [exact Hd|].
    destruct (db.First _ _) as [user|] eqn:Hfind; [|exact Hd].
    destruct (handlers.UpdateUser_phone d req user) as [user1|] eqn:H1; [|exact Hd].
    destruct (handlers.UpdateUser_password req salt user1) as [user2|] eqn:H2;
      [|exact Hd].
    destruct saveErr; [exact Hd|].
    assert (Hs : forallb inv.user_ok
                   (db.Save (handlers.UpdateUser_phone_version req user2)
                      (db.users d)) = true).
    { apply forallb_Save; [|exact Hu].
      apply (Hin_u _ _) in Hfind. apply user_ok_iff in Hfind.
      destruct Hfind as (E1 & E2 & E3).
      assert (Hok1 : phoneRegex_MatchString (models.User_Phone user1) = true
                     /\ spec.is_int (models.User_TokenVersion user1)
                     /\ models.User_ID user1 <> uuid_Nil).
      { revert H1. unfold handlers.UpdateUser_phone.
        destruct (handlers.nonempty _ && _); [|intros [= <-]; auto].
        destruct (phoneRegex_MatchString (handlers.UpdateUserRequest_Phone req))
          eqn:Hre; cbn [negb]; [|discriminate].
        destruct (db.First _ _); [discriminate|]. intros [= <-]. cbn. auto. }
      destruct Hok1 as (F1 & F2 & F3).
      assert (Hok2 : phoneRegex_MatchString (models.User_Phone user2) = true
                     /\ spec.is_int (models.User_TokenVersion user2)
                     /\ models.User_ID user2 <> uuid_Nil).
      { revert H2. unfold handlers.UpdateUser_password.
        destruct (handlers.nonempty _); [|intros [= <-]; auto].
        destruct (bcrypt_GenerateFromPassword salt _); [|discriminate].
        intros [= <-]. cbn. destruct (int_incr_is_int _ F2). auto. }
      destruct Hok2 as (G1 & G2 & G3).
      apply user_ok_iff. unfold handlers.UpdateUser_phone_version.
      destruct (handlers.UpdateUser_phone_changed req user2); cbn; auto.
      destruct (int_incr_is_int _ G2). auto. }
    cbv zeta.
    destruct (handlers.UpdateUserRequest_Locations req), assignErr;
      exact (Husers _ Hs).
  - intros now param_id saveErr deleteErr. unfold handlers.DeleteUser.
    destruct (uuid_Parse param_id) as [userID|]; [|exact Hd].
    destruct (db.First _ _) as [user|] eqn:Hfind; [|exact Hd].
    destruct saveErr; [exact Hd|].
    assert (Hs : forallb inv.user_ok
                   (db.Save
                      (models.User_set_TokenVersion
                         (int_incr (models.User_TokenVersion user)) user)
                      (db.users d)) = true).
    { apply forallb_Save; [|exact Hu].
      apply (Hin_u _ _) in Hfind. apply user_ok_iff in Hfind.
      destruct Hfind as (E1 & E2 & E3). apply user_ok_iff. cbn.
      destruct (int_incr_is_int _ E2). auto. }
    destruct deleteErr; [exact (Husers _ Hs)|].
    cbn [snd db.users db.admins db.with_users].
    rewrite forallb_Delete; [exact Ha|reflexivity|exact Hs].
  - intros body newID salt createErr Hid. unfold handlers.CreateAdmin.
    destruct body as [req|]; [|exact Hd].
    destruct (negb _ && _); [exact Hd|]. destruct (_ <? _)%nat; [exact Hd|].
    destruct (db.First _ _); [exact Hd|].
    destruct (db.Create_Admin _ _ _ _ _) as [[a' d']|] eqn:Hc; [|exact Hd].
    pose proof (fun Hv => created_admin_ok _ _ _ _ _ _ _ Hid Hv Ha Hc) as Hk.
    destruct (Hk is_int_0) as [Ha' Hu'].
    cbn [snd]. rewrite Ha', Hu', Hu. reflexivity.
  - intros param_id role requester body salt saveErr.
    destruct (UpdateAdmin_cases d param_id role requester body salt saveErr)
      as [[_ ->]|[_ (adminID & admin & admin' & req & _ & _ & Hfind & _ & _ & ->
                     & Hid & _ & Hver & _)]]; [exact Hd|].
    apply Hadmins. apply forallb_Save; [|exact Ha].
    apply (Hin_a _ _) in Hfind. apply admin_ok_iff in Hfind. apply admin_ok_iff.
    rewrite Hid, Hver. exact Hfind.
  - intros cfg now body saveErr. unfold handlers.AdminLogin.
    destruct body as [req|]; [|exact Hd].
    destruct (_ || _); [exact Hd|].
    destruct (db.First _ _) as [admin|] eqn:Hfind; [|exact Hd].
    destruct (negb _); [exact Hd|]. destruct saveErr; [exact Hd|].
    assert (Hs : forallb inv.admin_ok
                   (db.Save
                      (models.Admin_set_TokenVersion
                         (int_incr (models.Admin_TokenVersion admin)) admin)
                      (db.admins d)) = true).
    { apply forallb_Save; [|exact Ha].
      apply (Hin_a _ _) in Hfind. apply admin_ok_iff in Hfind.
      destruct Hfind as (E1 & E2). apply admin_ok_iff. cbn.
      destruct (int_incr_is_int _ E1). auto. }
    cbv zeta. destruct (utils.GenerateAdminToken _ _ _ _ _ _); exact (Hadmins _ Hs).
  - intros now param_id configName deleteErr. unfold handlers.DeleteAdmin.
    destruct (uuid_Parse param_id) as [id|]; [|exact Hd].
    destruct (match uuid_Parse configName with
              | Some initial => (id =? initial)%N
              | None => false
              end); [exact Hd|].
    destruct (db.First _ _) as [admin|]; [|exact Hd].
    destruct deleteErr; [exact Hd|].
    apply Hadmins. apply forallb_Delete; [reflexivity|exact Ha].
  - intros adminConfig newID salt createErr d' Hid. unfold db.CreateInitialAdmin.
    destruct (uuid_Parse _) as [id|]; [|discriminate].
    destruct (db.First _ _); [intros [= <-]; exact Hd|].
    destruct (db.Create_Admin _ _ _ _ _) as [[a' d'']|] eqn:Hc; [|discriminate].
    intros [= <-].
    pose proof (fun Hv => created_admin_ok _ _ _ _ _ _ _ Hid Hv Ha Hc) as Hk.
    destruct (Hk is_int_0) as [Ha' Hu'].
    rewrite Ha', Hu', Hu. reflexivity.
Qed.

End RowsInvariant.

(** ** What a guard lets through *)

Lemma strings_Split_one_inv (s b : string) (c : ascii) :
  strings_Split s c = [b] -> s = b /\ no_char c b.
Proof.
  revert b. induction s as [|x s IH]; simpl; intros b.
  - intros [= <-]. split; [reflexivity|constructor].
  - destruct (Ascii.eqb_spec x c) as [->|Hne].
    + intros [= _ H]. exfalso. exact (strings_Split_nonempty s c H).
    + destruct (strings_Split s c) as [|w ws] eqn:E; [intros [= <-]|].
      * exfalso. exact (strings_Split_nonempty s c E).
      * intros [= <- ->]. destruct (IH w eq_refl) as [-> Hw].
        split; [reflexivity|]. constructor; assumption.
Qed.

(** A string that splits in two is its two parts around one separator. *)
Lemma strings_Split_two_inv (s a b : string) (c : ascii) :
  strings_Split s c = [a; b] ->
  s = a +:+ String c b /\ no_char c a /\ no_char c b.
Proof.
  revert a. induction s as [|x s IH]; simpl; intros a; [discriminate|].
  destruct (Ascii.eqb_spec x c) as [->|Hne].
  - intros [= <- H]. destruct (strings_Split_one_inv _ _ _ H) as [-> Hb].
    split; [reflexivity|]. split; [constructor|exact Hb].
  - destruct (strings_Split s c) as [|w ws] eqn:E; [discriminate|].
    intros [= <- ->]. destruct (IH w eq_refl) as (-> & Hw & Hb).
    split; [reflexivity|]. split; [constructor; assumption|exact Hb].
Qed.

Section GuardsSound.
Context {L : Lib} (cfg : config.JWTConfig).

(** X26.  A guard calls the next handler only for a header that is
    "Bearer", one space and a token without a space, where the validator of
    its kind accepts the token and the live row of the id in the claims
    holds the version of the claims; the locals it attaches are those
    claims. *)
Theorem guards_let_through_only_current_tokens (d : db.DB) (now : Z)
    (authHeader : string) (locals : list (string * middleware.Local)) :
  (middleware.JWTProtected cfg d now authHeader = Returns (middleware.Next locals) ->
   exists tok claims,
     authHeader = ("Bearer " +:+ tok)%string
     /\ no_char " " tok
     /\ utils.ValidateToken cfg now tok utils.AccessToken = Returns (Ok claims)
     /\ spec.user_version d (utils.Claims_UserID claims)
        = Some (utils.Claims_TokenVersion claims)
     /\ locals = spec.user_locals claims)
  /\ (middleware.AdminJWTProtected cfg d now authHeader
      = Returns (middleware.Next locals) ->
      exists tok claims,
        authHeader = ("Bearer " +:+ tok)%string
        /\ no_char " " tok
        /\ utils.ValidateAdminToken cfg now tok = Returns (Ok claims)
        /\ spec.admin_version d (utils.AdminClaims_AdminID claims)
           = Some (utils.AdminClaims_TokenVersion claims)
        /\ locals = spec.admin_locals claims).
Proof.
  split.
  - unfold middleware.JWTProtected, middleware.Unauthorized.
    destruct (String.eqb authHeader ""); [discriminate|].
    destruct (strings_Split authHeader " ") as [|bearer [|tok [|? ?]]] eqn:Hsplit;
      try discriminate.
    destruct (String.eqb_spec bearer "Bearer") as [->|]; cbn [negb]; [|discriminate].
    destruct (utils.ValidateToken cfg now tok utils.AccessToken)
      as [[claims|e]|] eqn:Hval; try discriminate.
    unfold spec.user_version, spec.user_by_id.
    destruct (db.First (db.by_id (utils.Claims_UserID claims)) (db.users d))
      as [user|] eqn:Hfind; [|discriminate].
    cbn [option_map db.Select_id_token_version models.User_TokenVersion].
    destruct (Z.eqb_spec (models.User_TokenVersion user)
                (utils.Claims_TokenVersion claims)) as [Hv|]; cbn [negb];
      [|discriminate].
    intros [= <-]. destruct (strings_Split_two_inv _ _ _ _ Hsplit) as (-> & _ & Htok).
    exists tok, claims. rewrite Hfind. cbn [option_map]. rewrite Hv.
    repeat split; try reflexivity; assumption.
  - unfold middleware.AdminJWTProtected, middleware.Unauthorized.
    destruct (String.eqb authHeader ""); [discriminate|].
    destruct (strings_Split authHeader " ") as [|bearer [|tok [|? ?]]] eqn:Hsplit;
      try discriminate.
    destruct (String.eqb_spec bearer "Bearer") as [->|]; cbn [negb]; [|discriminate].
    destruct (utils.ValidateAdminToken cfg now tok) as [[claims|e]|] eqn:Hval;
      try discriminate.
    unfold spec.admin_version, spec.admin_by_id.
    destruct (db.First (db.by_id (utils.AdminClaims_AdminID claims)) (db.admins d))
      as [admin|] eqn:Hfind; [|discriminate].
    cbn [option_map].
    destruct (Z.eqb_spec (models.Admin_TokenVersion admin)
                (utils.AdminClaims_TokenVersion claims)) as [Hv|]; cbn [negb];
      [|discriminate].
    intros [= <-]. destruct (strings_Split_two_inv _ _ _ _ Hsplit) as (-> & _ & Htok).
    exists tok, claims. rewrite Hfind. cbn [option_map]. rewrite Hv.
    repeat split; try reflexivity; assumption.
Qed.

End GuardsSound.

(** ** What ends a session *)

Section SessionsSurvive.
Context {L : Lib} (cfg : config.JWTConfig).

(** A guard reads the store only at the row of the id in the claims. *)
Lemma JWTProtected_ext (d d' : db.DB) (now : Z) (h : string) :
  (forall tok claims,
     strings_Split h " " = ["Bearer"; tok]%string ->
     utils.ValidateToken cfg now tok utils.AccessToken = Returns (Ok claims) ->
     spec.user_by_id d' (utils.Claims_UserID claims)
     = spec.user_by_id d (utils.Claims_UserID claims)) ->
  middleware.JWTProtected cfg d' now h = middleware.JWTProtected cfg d now h.
Proof.
  intros H. unfold middleware.JWTProtected.
  destruct (String.eqb h ""); [reflexivity|].
  destruct (strings_Split h " ") as [|bearer [|tok [|? ?]]]; try reflexivity.
  destruct (String.eqb_spec bearer "Bearer") as [->|]; cbn [negb]; [|reflexivity].
  destruct (utils.ValidateToken cfg now tok utils.AccessToken)
    as [[claims|e]|] eqn:Hval; try reflexivity.
  specialize (H tok claims eq_refl Hval). unfold spec.user_by_id in H.
  rewrite H. reflexivity.
Qed.

Lemma AdminJWTProtected_ext (d d' : db.DB) (now : Z) (h : string) :
  (forall tok claims,
     strings_Split h " " = ["Bearer"; tok]%string ->
     utils.ValidateAdminToken cfg now tok = Returns (Ok claims) ->
     spec.admin_by_id d' (utils.AdminClaims_AdminID claims)
     = spec.admin_by_id d (utils.AdminClaims_AdminID claims)) ->
  middleware.AdminJWTProtected cfg d' now h
  = middleware.AdminJWTProtected cfg d now h.
Proof.
  intros H. unfold middleware.AdminJWTProtected.
  destruct (String.eqb h ""); [reflexivity|].
  destruct (strings_Split h " ") as [|bearer [|tok [|? ?]]]; try reflexivity.
  destruct (String.eqb_spec bearer "Bearer") as [->|]; cbn [negb]; [|reflexivity].
  destruct (utils.ValidateAdminToken cfg now tok) as [[claims|e]|] eqn:Hval;
    try reflexivity.
  specialize (H tok claims eq_refl Hval). unfold spec.admin_by_id in H.
  rewrite H. reflexivity.
Qed.

(** The id a passing guard attaches is the id in the claims of the token,
    and it has a live row. *)
Lemma JWTProtected_Next_id (d : db.DB) (now : Z) (h : string)
    (locals : list (string * middleware.Local)) (id : UUID) :
  middleware.JWTProtected cfg d now h = Returns (middleware.Next locals) ->
  middleware.Locals "id" locals = Some (middleware.LocalUUID id) ->
  (exists u, In u (db.users d) /\ models.User_ID u = id)
  /\ forall tok claims,
       strings_Split h " " = ["Bearer"; tok]%string ->
       utils.ValidateToken cfg now tok utils.AccessToken = Returns (Ok claims) ->
       utils.Claims_UserID claims = id.
Proof.
  unfold middleware.JWTProtected, middleware.Unauthorized.
  destruct (String.eqb h ""); [discriminate|].
  destruct (strings_Split h " ") as [|bearer [|tok [|? ?]]]; try discriminate.
  destruct (String.eqb_spec bearer "Bearer") as [->|]; cbn [negb]; [|discriminate].
  destruct (utils.ValidateToken cfg now tok utils.AccessToken)
    as [[claims|e]|] eqn:Hval; try discriminate.
  destruct (db.First (db.by_id (utils.Claims_UserID claims)) (db.users d))
    as [user|] eqn:Hfind; [|discriminate].
  cbn [option_map]. destruct (negb _); [discriminate|].
  intros [= <-]. cbn [middleware.Locals String.eqb Ascii.eqb Bool.eqb andb].
  intros [= <-]. destruct (First_Some _ _ _ Hfind) as (Hin & _ & Hkey).
  split; [exists user; split; [exact Hin|apply N.eqb_eq; exact Hkey]|].
  intros tok' claims' [= <-] Hv. rewrite Hval in Hv. injection Hv as <-.
  reflexivity.
Qed.

Lemma AdminJWTProtected_Next_id (d : db.DB) (now : Z) (h : string)
    (locals : list (string * middleware.Local)) (id : UUID) :
  middleware.AdminJWTProtected cfg d now h = Returns (middleware.Next locals) ->
  middleware.Locals "id" locals = Some (middleware.LocalUUID id) ->
  (exists a, In a (db.admins d) /\ models.Admin_ID a = id)
  /\ forall tok claims,
       strings_Split h " " = ["Bearer"; tok]%string ->
       utils.ValidateAdminToken cfg now tok = Returns (Ok claims) ->
       utils.AdminClaims_AdminID claims = id.
Proof.
  unfold middleware.AdminJWTProtected, middleware.Unauthorized.
  destruct (String.eqb h ""); [discriminate|].
  destruct (strings_Split h " ") as [|bearer [|tok [|? ?]]]; try discriminate.
  destruct (String.eqb_spec bearer "Bearer") as [->|]; cbn [negb]; [|discriminate].
  destruct (utils.ValidateAdminToken cfg now tok) as [[claims|e]|] eqn:Hval;
    try discriminate.
  destruct (db.First (db.by_id (utils.AdminClaims_AdminID claims)) (db.admins d))
    as [admin|] eqn:Hfind; [|discriminate].
  destruct (negb _); [discriminate|].
  intros [= <-]. cbn [middleware.Locals String.eqb Ascii.eqb Bool.eqb andb].
  intros [= <-]. destruct (First_Some _ _ _ Hfind) as (Hin & _ & Hkey).
  split; [exists admin; split; [exact Hin|apply N.eqb_eq; exact Hkey]|].
  intros tok' claims' [= <-] Hv. rewrite Hval in Hv. injection Hv as <-.
  reflexivity.
Qed.

(** [Create] cannot take the key of a row that is in the table, so it
    leaves what that key resolves to. *)
Lemma Create_User_keeps (d d' : db.DB) (u u' x : models.User) (newID : UUID)
    (salt : string) (createErr : option string) :
  In x (db.users d) ->
  db.Create_User newID salt u d createErr = Some (u', d') ->
  spec.user_by_id d' (models.User_ID x) = spec.user_by_id d (models.User_ID x)
  /\ db.admins d' = db.admins d.
Proof.
  intros Hin. unfold db.Create_User.
  destruct (models.User_BeforeCreate newID salt u) as [u1|]; [|discriminate].
  destruct createErr; [discriminate|].
  destruct (db.Insert u1 (db.users d)) as [us|] eqn:Hins; [|discriminate].
  intros [= <- <-]. destruct (Insert_Some _ _ _ Hins) as [-> Hkeys].
  split; [|reflexivity]. unfold spec.user_by_id. cbn [db.users db.with_users].
  apply First_insert_row_other. intros E. exact (Hkeys x Hin (eq_sym E)).
Qed.

Lemma Create_Admin_keeps (d d' : db.DB) (a a' x : models.Admin) (newID : UUID)
    (salt : string) (createErr : option string) :
  In x (db.admins d) ->
  db.Create_Admin newID salt a d createErr = Some (a', d') ->
  spec.admin_by_id d' (models.Admin_ID x) = spec.admin_by_id d (models.Admin_ID x)
  /\ db.users d' = db.users d.
Proof.
  intros Hin. unfold db.Create_Admin.
  destruct (models.Admin_BeforeCreate newID salt a) as [a1|]; [|discriminate].
  destruct createErr; [discriminate|].
  destruct (db.Insert a1 (db.admins d)) as [ads|] eqn:Hins; [|discriminate].
  intros [= <- <-]. destruct (Insert_Some _ _ _ Hins) as [-> Hkeys].
  split; [|reflexivity]. unfold spec.admin_by_id. cbn [db.admins db.with_admins].
  apply First_insert_row_other. intros E. exact (Hkeys x Hin (eq_sym E)).
Qed.

(** The handlers of the users' side never write an admin row, those of the
    admins' side never a user row. *)
Lemma user_handlers_leave_admins (d : db.DB) :
  (forall body newID salt createErr,
     db.admins (snd (handlers.Register d body newID salt createErr)) = db.admins d)
  /\ (forall body newID salt createErr assignErr,
        db.admins (snd (handlers.CreateUser d body newID salt createErr assignErr))
        = db.admins d)
  /\ (forall now body q1 q2 saveErr,
        db.admins (snd (handlers.Login cfg d now body q1 q2 saveErr)) = db.admins d)
  /\ (forall param_id body salt saveErr assignErr,
        db.admins (snd (handlers.UpdateUser d param_id body salt saveErr assignErr))
        = db.admins d)
  /\ (forall now param_id saveErr deleteErr,
        db.admins (snd (handlers.DeleteUser d now param_id saveErr deleteErr))
        = db.admins d).
Proof.
  split; [|split; [|split; [|split]]].
  - intros body newID salt createErr. unfold handlers.Register.
    destruct body as [req|]; [|reflexivity].
    destruct (negb _); [reflexivity|]. destruct (_ <? _)%nat; [reflexivity|].
    destruct (db.First _ _); [reflexivity|].
    destruct (db.Create_User _ _ _ _ _) as [[u' d']|] eqn:Hc; [|reflexivity].
    revert Hc. unfold db.Create_User.
    destruct (models.User_BeforeCreate _ _ _); [|discriminate].
    destruct createErr; [discriminate|].
    destruct (db.Insert _ _); [|discriminate]. intros [= <- <-]. reflexivity.
  - intros body newID salt createErr assignErr. unfold handlers.CreateUser.
    destruct body as [req|]; [|reflexivity].
    destruct (negb _); [reflexivity|]. destruct (_ <? _)%nat; [reflexivity|].
    destruct (db.First _ _); [reflexivity|].
    destruct (db.Create_User _ _ _ _ _) as [[u' d']|] eqn:Hc; [|reflexivity].
    assert (E : db.admins d' = db.admins d).
    { revert Hc. unfold db.Create_User.
      destruct (models.User_BeforeCreate _ _ _); [|discriminate].
      destruct createErr; [discriminate|].
      destruct (db.Insert _ _); [|discriminate]. intros [= <- <-]. reflexivity. }
    destruct (handlers.CreateUserRequest_Locations req), assignErr; exact E.
  - intros now body q1 q2 saveErr. unfold handlers.Login.
    destruct body as [req|]; [|reflexivity].
    destruct (negb _); [reflexivity|].
    destruct (db.First _ _) as [user|]; [|reflexivity].
    destruct (negb _); [reflexivity|]. destruct saveErr; [reflexivity|].
    cbv zeta. destruct (utils.GenerateTokens _ _ _ _ _); reflexivity.
  - intros param_id body salt saveErr assignErr. unfold handlers.UpdateUser.
    destruct (uuid_Parse param_id); [|reflexivity].
    destruct body as [req|]; [|reflexivity].
    destruct (handlers.nonempty _ && _); [reflexivity|].
    destruct (db.First _ _) as [user|]; [|reflexivity].
    destruct (handlers.UpdateUser_phone d req user); [|reflexivity].
    destruct (handlers.UpdateUser_password req salt _); [|reflexivity].
    destruct saveErr; [reflexivity|]. cbv zeta.
    destruct (handlers.UpdateUserRequest_Locations req), assignErr; reflexivity.
  - intros now param_id saveErr deleteErr. unfold handlers.DeleteUser.
    destruct (uuid_Parse param_id); [|reflexivity].
    destruct (db.First _ _) as [user|]; [|reflexivity].
    destruct saveErr; [reflexivity|]. destruct deleteErr; reflexivity.
Qed.

Lemma admin_handlers_leave_users (d : db.DB) :
  (forall body newID salt createErr,
     db.users (snd (handlers.CreateAdmin d body newID salt createErr)) = db.users d)
  /\ (forall param_id role requester body salt saveErr,
        db.users
          (snd (handlers.UpdateAdmin d param_id role requester body salt saveErr))
        = db.users d)
  /\ (forall now body saveErr,
        db.users (snd (handlers.AdminLogin cfg d now body saveErr)) = db.users d)
  /\ (forall now param_id configName deleteErr,
        db.users (snd (handlers.DeleteAdmin d now param_id configName deleteErr))
        = db.users d).
Proof.
  split; [|split; [|split]].
  - intros body newID salt createErr. unfold handlers.CreateAdmin.
    destruct body as [req|]; [|reflexivity].
    destruct (negb _ && _); [reflexivity|]. destruct (_ <? _)%nat; [reflexivity|].
    destruct (db.First _ _); [reflexivity|].
    destruct (db.Create_Admin _ _ _ _ _) as [[a' d']|] eqn:Hc; [|reflexivity].
    revert Hc. unfold db.Create_Admin.
    destruct (models.Admin_BeforeCreate _ _ _); [|discriminate].
    destruct createErr; [discriminate|].
    destruct (db.Insert _ _); [|discriminate]. intros [= <- <-]. reflexivity.
  - intros param_id role requester body salt saveErr.
    destruct (UpdateAdmin_cases d param_id role requester body salt saveErr)
      as [[_ ->]|[_ (adminID & admin & admin' & req & _ & _ & _ & _ & _ & -> & _)]];
      reflexivity.
  - intros now body saveErr. unfold handlers.AdminLogin.
    destruct body as [req|]; [|reflexivity].
    destruct (_ || _); [reflexivity|].
    destruct (db.First _ _) as [admin|]; [|reflexivity].
    destruct (negb _); [reflexivity|]. destruct saveErr; [reflexivity|].
    cbv zeta. destruct (utils.GenerateAdminToken _ _ _ _ _ _); reflexivity.
  - intros now param_id configName deleteErr. unfold handlers.DeleteAdmin.
    destruct (uuid_Parse param_id) as [id|]; [|reflexivity].
    destruct (match uuid_Parse configName with
              | Some initial => (id =? initial)%N
              | None => false
              end); [reflexivity|].
    destruct (db.First _ _) as [admin|]; [|reflexivity].
    destruct deleteErr; reflexivity.
Qed.

(** X27.  A user's session ends only by a request on that user.  When a
    header passes the user guard for an id, it still passes, with the same
    locals, on the store left by any admin request, by any [Register] or
    [CreateUser], by a [Login] that does not authenticate that user, and by
    an [UpdateUser] or [DeleteUser] whose path parameter is not that id. *)
Theorem user_session_ends_only_by_own_requests (d : db.DB) (now : Z) (h : string)
    (locals : list (string * middleware.Local)) (id : UUID) :
  middleware.JWTProtected cfg d now h = Returns (middleware.Next locals) ->
  middleware.Locals "id" locals = Some (middleware.LocalUUID id) ->
  (forall body newID salt createErr,
     middleware.JWTProtected cfg
       (snd (handlers.Register d body newID salt createErr)) now h
     = Returns (middleware.Next locals))
  /\ (forall body newID salt createErr assignErr,
        middleware.JWTProtected cfg
          (snd (handlers.CreateUser d body newID salt createErr assignErr)) now h
        = Returns (middleware.Next locals))
  /\ (forall now1 body q1 q2 saveErr,
        (forall req user,
           body = Some req ->
           db.First (db.by_phone (handlers.LoginRequest_Phone req)) (db.users d)
           = Some user ->
           models.User_ID user <> id) ->
        middleware.JWTProtected cfg
          (snd (handlers.Login cfg d now1 body q1 q2 saveErr)) now h
        = Returns (middleware.Next locals))
  /\ (forall param_id body salt saveErr assignErr,
        uuid_Parse param_id <> Some id ->
        middleware.JWTProtected cfg
          (snd (handlers.UpdateUser d param_id body salt saveErr assignErr)) now h
        = Returns (middleware.Next locals))
  /\ (forall now1 param_id saveErr deleteErr,
        uuid_Parse param_id <> Some id ->
        middleware.JWTProtected cfg
          (snd (handlers.DeleteUser d now1 param_id saveErr deleteErr)) now h
        = Returns (middleware.Next locals))
  /\ (forall body newID salt createErr,
        middleware.JWTProtected cfg
          (snd (handlers.CreateAdmin d body newID salt createErr)) now h
        = Returns (middleware.Next locals))
  /\ (forall param_id role requester body salt saveErr,
        middleware.JWTProtected cfg
          (snd (handlers.UpdateAdmin d param_id role requester body salt saveErr))
          now h
        = Returns (middleware.Next locals))
  /\ (forall now1 body saveErr,
        middleware.JWTProtected cfg
          (snd (handlers.AdminLogin cfg d now1 body saveErr)) now h
        = Returns (middleware.Next locals))
  /\ (forall now1 param_id configName deleteErr,
        middleware.JWTProtected cfg
          (snd (handlers.DeleteAdmin d now1 param_id configName deleteErr)) now h
        = Returns (middleware.Next locals)).
Proof.
  intros Hg Hid.
  destruct (JWTProtected_Next_id _ _ _ _ _ Hg Hid) as [[u [Hin Hu]] Hclaims].
  assert (Hkeep : forall d',
            spec.user_by_id d' id = spec.user_by_id d id ->
            middleware.JWTProtected cfg d' now h
            = Returns (middleware.Next locals)).
  { intros d' E. rewrite <- Hg. apply JWTProtected_ext.
    intros tok claims Hs Hv. rewrite (Hclaims tok claims Hs Hv). exact E. }
  assert (Hsame : forall d',
            db.users d' = db.users d ->
            middleware.JWTProtected cfg d' now h
            = Returns (middleware.Next locals)).
  { intros d' E. apply Hkeep. unfold spec.user_by_id. rewrite E. reflexivity. }
  assert (Hparam : forall userID (user : models.User),
            Some userID <> Some id ->
            db.First (db.by_id userID) (db.users d) = Some user ->
            models.User_ID user <> id).
  { intros userID user Hne Hf E. apply Hne. f_equal.
    destruct (First_Some _ _ _ Hf) as (_ & _ & Hk). apply N.eqb_eq in Hk.
    rewrite <- Hk. exact E. }
  destruct (admin_handlers_leave_users d) as (A1 & A2 & A3 & A4).
  split; [|split; [|split; [|split; [|split; [|split; [|split; [|split]]]]]]].
  - intros body newID salt createErr. apply Hkeep. unfold handlers.Register.
    destruct body as [req|]; [|reflexivity].
    destruct (negb _); [reflexivity|]. destruct (_ <? _)%nat; [reflexivity|].
    destruct (db.First _ _); [reflexivity|].
    destruct (db.Create_User _ _ _ _ _) as [[u' d']|] eqn:Hc; [|reflexivity].
    rewrite <- Hu. exact (proj1 (Create_User_keeps _ _ _ _ _ _ _ _ Hin Hc)).
  - intros body newID salt createErr assignErr. apply Hkeep.
    unfold handlers.CreateUser.
    destruct body as [req|]; [|reflexivity].
    destruct (negb _); [reflexivity|]. destruct (_ <? _)%nat; [reflexivity|].
    destruct (db.First _ _); [reflexivity|].
    destruct (db.Create_User _ _ _ _ _) as [[u' d']|] eqn:Hc; [|reflexivity].
    pose proof (proj1 (Create_User_keeps _ _ _ _ _ _ _ _ Hin Hc)) as E.
    rewrite Hu in E.
    destruct (handlers.CreateUserRequest_Locations req), assignErr; exact E.
  - intros now1 body q1 q2 saveErr Hother. apply Hkeep. unfold handlers.Login.
    destruct body as [req|]; [|reflexivity].
    destruct (negb _); [reflexivity|].
    destruct (db.First _ _) as [user|] eqn:Hfind; [|reflexivity].
    destruct (negb _); [reflexivity|]. destruct saveErr; [reflexivity|].
    cbv zeta.
    assert (E : forall r, models.User_ID r = models.User_ID user ->
                spec.user_by_id (db.with_users (db.Save r (db.users d)) d) id
                = spec.user_by_id d id).
    { intros r Hr. unfold spec.user_by_id. cbn [db.users db.with_users].
      apply First_Save_other_id. cbn [db.PrimaryKey db.User_Model]. rewrite Hr.
      exact (Hother req user eq_refl Hfind). }
    destruct (utils.GenerateTokens _ _ _ _ _); cbn [snd]; apply E;
      destruct (handlers.nonempty _), (handlers.deviceChanged user _); reflexivity.
  - intros param_id body salt saveErr assignErr Hne. apply Hkeep.
    unfold handlers.UpdateUser.
    destruct (uuid_Parse param_id) as [userID|] eqn:Hp; [|reflexivity].
    destruct body as [req|]; [|reflexivity].
    destruct (handlers.nonempty _ && _); [reflexivity|].
    destruct (db.First _ _) as [user|] eqn:Hfind; [|reflexivity].
    destruct (handlers.UpdateUser_phone d req user) as [user1|] eqn:H1;
      [|reflexivity].
    destruct (handlers.UpdateUser_password req salt user1) as [user2|] eqn:H2;
      [|reflexivity].
    destruct saveErr; [reflexivity|]. cbv zeta.
    assert (E : spec.user_by_id
                  (db.with_users
                     (db.Save (handlers.UpdateUser_phone_version req user2)
                        (db.users d)) d) id
                = spec.user_by_id d id).
    { unfold spec.user_by_id. cbn [db.users db.with_users].
      apply First_Save_other_id. cbn [db.PrimaryKey db.User_Model].
      assert (K1 : models.User_ID user1 = models.User_ID user).
      { revert H1. unfold handlers.UpdateUser_phone.
        destruct (handlers.nonempty _ && _); [|intros [= <-]; reflexivity].
        destruct (negb _); [intros [=]|].
        destruct (db.First (db.by_phone _) _); [intros [=]|]. intros [= <-].
        reflexivity. }
      assert (K2 : models.User_ID user2 = models.User_ID user1).
      { revert H2. unfold handlers.UpdateUser_password.
        destruct (handlers.nonempty _); [|intros [= <-]; reflexivity].
        destruct (bcrypt_GenerateFromPassword salt _); [|intros [=]].
        intros [= <-]. reflexivity. }
      assert (K3 : models.User_ID (handlers.UpdateUser_phone_version req user2)
                   = models.User_ID user2).
      { unfold handlers.UpdateUser_phone_version.
        destruct (handlers.UpdateUser_phone_changed req user2); reflexivity. }
      rewrite K3, K2, K1. exact (Hparam _ _ Hne Hfind). }
    destruct (handlers.UpdateUserRequest_Locations req), assignErr; exact E.
  - intros now1 param_id saveErr deleteErr Hne. apply Hkeep.
    unfold handlers.DeleteUser.
    destruct (uuid_Parse param_id) as [userID|] eqn:Hp; [|reflexivity].
    destruct (db.First _ _) as [user|] eqn:Hfind; [|reflexivity].
    destruct saveErr; [reflexivity|].
    pose proof (Hparam _ _ Hne Hfind) as Hk.
    destruct deleteErr; cbn [snd]; unfold spec.user_by_id;
      cbn [db.users db.with_users].
    + apply First_Save_other_id. exact Hk.
    + rewrite (First_Delete_other (M := db.User_Model) (fun _ _ => eq_refl));
        [apply First_Save_other_id; exact Hk|exact Hk].
  - intros. apply Hsame. apply A1.
  - intros. apply Hsame. apply A2.
  - intros. apply Hsame. apply A3.
  - intros. apply Hsame. apply A4.
Qed.

(** X28.  An admin's session ends only by a request on that admin.  When a
    header passes the admin guard for an id, it still passes, with the same
    locals, on the store left by any request of the users' side, by any
    [CreateAdmin], by the start-up's [CreateInitialAdmin], by an
    [AdminLogin] that does not authenticate that admin, and by an
    [UpdateAdmin] or [DeleteAdmin] whose path parameter is not that id. *)
Theorem admin_session_ends_only_by_own_requests (d : db.DB) (now : Z) (h : string)
    (locals : list (string * middleware.Local)) (id : UUID) :
  middleware.AdminJWTProtected cfg d now h = Returns (middleware.Next locals) ->
  middleware.Locals "id" locals = Some (middleware.LocalUUID id) ->
  (forall body newID salt createErr,
     middleware.AdminJWTProtected cfg
       (snd (handlers.CreateAdmin d body newID salt createErr)) now h
     = Returns (middleware.Next locals))
  /\ (forall adminConfig newID salt createErr d',
        db.CreateInitialAdmin adminConfig d newID salt createErr = db.Started d' ->
        middleware.AdminJWTProtected cfg d' now h
        = Returns (middleware.Next locals))
  /\ (forall now1 body saveErr,
        (forall req admin,
           body = Some req ->
           db.First (db.by_username (handlers.AdminLoginRequest_Username req))
             (db.admins d) = Some admin ->
           models.Admin_ID admin <> id) ->
        middleware.AdminJWTProtected cfg
          (snd (handlers.AdminLogin cfg d now1 body saveErr)) now h
        = Returns (middleware.Next locals))
  /\ (forall param_id role requester body salt saveErr,
        uuid_Parse param_id <> Some id ->
        middleware.AdminJWTProtected cfg
          (snd (handlers.UpdateAdmin d param_id role requester body salt saveErr))
          now h
        = Returns (middleware.Next locals))
  /\ (forall now1 param_id configName deleteErr,
        uuid_Parse param_id <> Some id ->
        middleware.AdminJWTProtected cfg
          (snd (handlers.DeleteAdmin d now1 param_id configName deleteErr)) now h
        = Returns (middleware.Next locals))
  /\ (forall body newID salt createErr,
        middleware.AdminJWTProtected cfg
          (snd (handlers.Register d body newID salt createErr)) now h
        = Returns (middleware.Next locals))
  /\ (forall body newID salt createErr assignErr,
        middleware.AdminJWTProtected cfg
          (snd (handlers.CreateUser d body newID salt createErr assignErr)) now h
        = Returns (middleware.Next locals))
  /\ (forall now1 body q1 q2 saveErr,
        middleware.AdminJWTProtected cfg
          (snd (handlers.Login cfg d now1 body q1 q2 saveErr)) now h
        = Returns (middleware.Next locals))
  /\ (forall param_id body salt saveErr assignErr,
        middleware.AdminJWTProtected cfg
          (snd (handlers.UpdateUser d param_id body salt saveErr assignErr)) now h
        = Returns (middleware.Next locals))
  /\ (forall now1 param_id saveErr deleteErr,
        middleware.AdminJWTProtected cfg
          (snd (handlers.DeleteUser d now1 param_id saveErr deleteErr)) now h
        = Returns (middleware.Next locals)).
Proof.
  intros Hg Hid.
  destruct (AdminJWTProtected_Next_id _ _ _ _ _ Hg Hid) as [[a [Hin Ha]] Hclaims].
  assert (Hkeep : forall d',
            spec.admin_by_id d' id = spec.admin_by_id d id ->
            middleware.AdminJWTProtected cfg d' now h
            = Returns (middleware.Next locals)).
  { intros d' E. rewrite <- Hg. apply AdminJWTProtected_ext.
    intros tok claims Hs Hv. rewrite (Hclaims tok claims Hs Hv). exact E. }
  assert (Hsame : forall d',
            db.admins d' = db.admins d ->
            middleware.AdminJWTProtected cfg d' now h
            = Returns (middleware.Next locals)).
  { intros d' E. apply Hkeep. unfold spec.admin_by_id. rewrite E. reflexivity. }
  assert (Hparam : forall adminID (admin : models.Admin),
            Some adminID <> Some id ->
            db.First (db.by_id adminID) (db.admins d) = Some admin ->
            models.Admin_ID admin <> id).
  { intros adminID admin Hne Hf E. apply Hne. f_equal.
    destruct (First_Some _ _ _ Hf) as (_ & _ & Hk). apply N.eqb_eq in Hk.
    rewrite <- Hk. exact E. }
  destruct (user_handlers_leave_admins d) as (U1 & U2 & U3 & U4 & U5).
  split; [|split; [|split; [|split; [|split; [|split; [|split; [|split; [|split]]]]]]]].
  - intros body newID salt createErr. apply Hkeep. unfold handlers.CreateAdmin.
    destruct body as [req|]; [|reflexivity].
    destruct (negb _ && _); [reflexivity|]. destruct (_ <? _)%nat; [reflexivity|].
    destruct (db.First _ _); [reflexivity|].
    destruct (db.Create_Admin _ _ _ _ _) as [[a' d']|] eqn:Hc; [|reflexivity].
    rewrite <- Ha. exact (proj1 (Create_Admin_keeps _ _ _ _ _ _ _ _ Hin Hc)).
  - intros adminConfig newID salt createErr d'. unfold db.CreateInitialAdmin.
    destruct (uuid_Parse _) as [adminUUID|]; [|discriminate].
    destruct (db.First _ _); [intros [= <-]; exact Hg|].
    destruct (db.Create_Admin _ _ _ _ _) as [[a' d'']|] eqn:Hc; [|discriminate].
    intros [= <-]. apply Hkeep.
    rewrite <- Ha. exact (proj1 (Create_Admin_keeps _ _ _ _ _ _ _ _ Hin Hc)).
  - intros now1 body saveErr Hother. apply Hkeep. unfold handlers.AdminLogin.
    destruct body as [req|]; [|reflexivity].
    destruct (_ || _); [reflexivity|].
    destruct (db.First _ _) as [admin|] eqn:Hfind; [|reflexivity].
    destruct (negb _); [reflexivity|]. destruct saveErr; [reflexivity|].
    cbv zeta.
    destruct (utils.GenerateAdminToken _ _ _ _ _ _); cbn [snd];
      unfold spec.admin_by_id; cbn [db.admins db.with_admins];
      apply First_Save_other_id; exact (Hother req admin eq_refl Hfind).
  - intros param_id role requester body salt saveErr Hne.
    destruct (UpdateAdmin_cases d param_id role requester body salt saveErr)
      as [[_ ->]|[_ (adminID & admin & admin' & req & Hp & _ & Hfind & _ & _ & ->
                     & Hk & _)]]; [exact Hg|].
    apply Hkeep. unfold spec.admin_by_id. cbn [db.admins db.with_admins].
    apply First_Save_other_id. cbn [db.PrimaryKey db.Admin_Model]. rewrite Hk.
    rewrite Hp in Hne. exact (Hparam _ _ Hne Hfind).
  - intros now1 param_id configName deleteErr Hne. apply Hkeep.
    unfold handlers.DeleteAdmin.
    destruct (uuid_Parse param_id) as [adminID|] eqn:Hp; [|reflexivity].
    destruct (match uuid_Parse configName with
              | Some initial => (adminID =? initial)%N
              | None => false
              end); [reflexivity|].
    destruct (db.First _ _) as [admin|] eqn:Hfind; [|reflexivity].
    destruct deleteErr; [reflexivity|]. cbn [snd]. unfold spec.admin_by_id.
    cbn [db.admins db.with_admins].
    apply (First_Delete_other (M := db.Admin_Model) (fun _ _ => eq_refl)).
    exact (Hparam _ _ Hne Hfind).
  - intros. apply Hsame. apply U1.
  - intros. apply Hsame. apply U2.
  - intros. apply Hsame. apply U3.
  - intros. apply Hsame. apply U4.
  - intros. apply Hsame. apply U5.
Qed.

End SessionsSurvive.

(** ** An admin without a name *)

Section NamelessAdmin.
Context {L : Lib} (cfg : config.JWTConfig).

(** X29.  [CreateAdmin] does not look at the username.  With an empty one
    it answers 201 like for any other and stores the row, which takes the
    empty name: a further such request creates nothing.  Yet nobody can log
    in under it, [AdminLogin] answering 400 to a request with an empty
    username whatever the password. *)
Theorem CreateAdmin_empty_username_cannot_login (d : db.DB)
    (password rl : string) (newID : UUID) (salt : string) :
  let created := handlers.CreateAdmin d
                   (Some {| handlers.CreateAdminRequest_Username := "";
                            handlers.CreateAdminRequest_Password := password;
                            handlers.CreateAdminRequest_Role := rl |})
                   newID salt None in
  handlers.Status (fst created) = handlers.StatusCreated ->
  (exists admin,
     db.First (db.by_username "") (db.admins (snd created)) = Some admin
     /\ models.Admin_ID admin = newID
     /\ models.Admin_Role admin = rl)
  /\ (forall now p saveErr,
        handlers.AdminLogin cfg (snd created) now
          (Some {| handlers.AdminLoginRequest_Username := "";
                   handlers.AdminLoginRequest_Password := p |}) saveErr
        = (handlers.APIResponse handlers.StatusBadRequest false
             "Username and password are required" [], snd created))
  /\ (forall password' rl' newID' salt' createErr',
        let again := handlers.CreateAdmin (snd created)
                       (Some {| handlers.CreateAdminRequest_Username := "";
                                handlers.CreateAdminRequest_Password := password';
                                handlers.CreateAdminRequest_Role := rl' |})
                       newID' salt' createErr' in
        handlers.Status (fst again) <> handlers.StatusCreated
        /\ snd again = snd created).
Proof.
  intros created Hok.
  destruct (CreateAdmin_Created d "" password rl newID salt None Hok)
    as (h & Hh & Hrl & Hlen & Hnone & Hfresh & Hsnd).
  fold created in Hsnd.
  set (admin := {| models.Admin_ID := newID;
                   models.Admin_Username := "";
                   models.Admin_Password := h;
                   models.Admin_Role := rl;
                   models.Admin_TokenVersion := 0;
                   models.Admin_DeletedAt := None |}) in *.
  assert (Hfind : db.First (db.by_username "") (db.admins (snd created))
                  = Some admin).
  { rewrite Hsnd. cbn [db.admins db.with_admins].
    apply First_insert_row_cond; [exact Hnone|reflexivity|reflexivity]. }
  split; [exists admin; split; [exact Hfind|split; reflexivity]|].
  split; [intros now p saveErr; reflexivity|].
  intros password' rl' newID' salt' createErr' again. subst again.
  unfold handlers.CreateAdmin.
  cbn [handlers.CreateAdminRequest_Username handlers.CreateAdminRequest_Password
       handlers.CreateAdminRequest_Role].
  destruct (negb _ && _); [split; [discriminate|reflexivity]|].
  destruct (_ <? _)%nat; [split; [discriminate|reflexivity]|].
  rewrite Hfind. split; [discriminate|reflexivity].
Qed.

End NamelessAdmin.

(** ** The further properties at the concrete store *)

Lemma ValidateToken_lifetime_witness :
  utils.ValidateToken (L := reference.lib) reference.cfg
    (scenario.now + config.AccessExpiry reference.cfg)
    (scenario.user_token 7%N scenario.phone 0) utils.AccessToken
  = Returns (Err (utils.jwt_error jwt.ErrTokenExpired))
  /\ utils.ValidateToken (L := reference.lib) reference.cfg
       (scenario.now + config.AccessExpiry reference.cfg - 1)
       (scenario.user_token 7%N scenario.phone 0) utils.AccessToken
     = Returns (Ok (spec.minted_Claims scenario.now 7%N scenario.phone 0
                      utils.AccessToken (config.AccessExpiry reference.cfg))).
Proof.
  assert (H1 : spec.is_int 0) by (vm_compute; split; discriminate).
  assert (H2 : 0 <= config.AccessExpiry reference.cfg) by (vm_compute; discriminate).
  split.
  - rewrite (ValidateToken_lifetime (HL := reference_laws) reference.cfg scenario.now
               (scenario.now + config.AccessExpiry reference.cfg) 7%N scenario.phone 0
               utils.AccessToken (config.AccessExpiry reference.cfg)
               (scenario.user_token 7%N scenario.phone 0) H1 H2 eq_refl).
    reflexivity.
  - rewrite (ValidateToken_lifetime (HL := reference_laws) reference.cfg scenario.now
               (scenario.now + config.AccessExpiry reference.cfg - 1) 7%N
               scenario.phone 0 utils.AccessToken (config.AccessExpiry reference.cfg)
               (scenario.user_token 7%N scenario.phone 0) H1 H2 eq_refl).
    reflexivity.
Defined.

Lemma ValidateToken_accepts_only_signed_witness :
  exists h p sig alg e,
    strings_Split (scenario.user_token 7%N scenario.phone 0) "." = [h; p; sig]
    /\ b64_decode (Lib := reference.lib) sig
       = Some (hmac (Lib := reference.lib) alg (config.Secret reference.cfg)
                 (h +:+ "." +:+ p))
    /\ In alg ["HS256"; "HS384"; "HS512"]%string
    /\ scenario.now < e * jwt.second.
Proof.
  assert (H : utils.ValidateToken (L := reference.lib) reference.cfg scenario.now
                (scenario.user_token 7%N scenario.phone 0) utils.AccessToken
              = Returns (Ok (spec.minted_Claims scenario.now 7%N scenario.phone 0
                               utils.AccessToken (config.AccessExpiry reference.cfg))))
    by (vm_compute; reflexivity).
  destruct (ValidateToken_accepts_only_signed reference.cfg scenario.now _ _ _ H)
    as (h & p & sig & alg & header & payload & e
        & H1 & H2 & _ & _ & H5 & _ & _ & _ & _ & H10 & _).
  exists h, p, sig, alg, e. exact (conj H1 (conj H2 (conj H5 H10))).
Defined.

Lemma GenerateTokens_pair_witness :
  exists pair,
    utils.GenerateTokens (L := reference.lib) reference.cfg scenario.now 7%N
      scenario.phone 0 = Ok pair
    /\ utils.TokenPair_AccessToken pair <> utils.TokenPair_RefreshToken pair.
Proof.
  destruct (GenerateTokens_pair (HL := reference_laws) reference.cfg scenario.now
              7%N scenario.phone 0) as (pair & H1 & H2 & _).
  exists pair. exact (conj H1 H2).
Defined.

Lemma RefreshAccessToken_roundtrip_witness :
  exists access,
    utils.RefreshAccessToken (L := reference.lib) reference.cfg scenario.now
      (scenario.refresh_token 7%N scenario.phone 0) = Returns (Ok access)
    /\ utils.RefreshAccessToken (L := reference.lib) reference.cfg scenario.now access
       = Returns (Err utils.invalid_token_type).
Proof.
  assert (H1 : spec.is_int 0) by (vm_compute; split; discriminate).
  assert (H2 : spec.in_window reference.cfg scenario.now spec.UserRefresh scenario.now)
    by (vm_compute; split; [discriminate|reflexivity]).
  assert (H3 : jwt.second <= config.AccessExpiry reference.cfg)
    by (vm_compute; discriminate).
  destruct (RefreshAccessToken_roundtrip (HL := reference_laws) reference.cfg
              scenario.now scenario.now 7%N scenario.phone 0
              (scenario.refresh_token 7%N scenario.phone 0) H1 H2 H3 eq_refl)
    as (access & Ha & _ & Hb).
  exists access. exact (conj Ha Hb).
Defined.

Lemma entry_points_refuse_other_kinds_witness :
  middleware.AdminJWTProtected (L := reference.lib) reference.cfg scenario.d0
    scenario.now ("Bearer " +:+ scenario.user_token 7%N scenario.phone 0)
  = Returns (middleware.Unauthorized "Invalid or expired token")
  /\ middleware.JWTProtected (L := reference.lib) reference.cfg scenario.d0
       scenario.now ("Bearer " +:+ scenario.admin_token 7%N scenario.phone "super" 0)
     = Returns (middleware.Unauthorized "Invalid or expired token").
Proof.
  assert (H1 : spec.is_int 0) by (vm_compute; split; discriminate).
  assert (H2 : spec.in_window reference.cfg scenario.now spec.UserAccess scenario.now)
    by (vm_compute; split; [discriminate|reflexivity]).
  assert (H3 : spec.in_window reference.cfg scenario.now spec.UserRefresh scenario.now)
    by (vm_compute; split; [discriminate|reflexivity]).
  destruct (entry_points_refuse_other_kinds (HL := reference_laws) reference.cfg
              scenario.d0 scenario.now scenario.now scenario.now 7%N
              scenario.phone "super" 0
              (scenario.user_token 7%N scenario.phone 0)
              (scenario.refresh_token 7%N scenario.phone 0)
              (scenario.admin_token 7%N scenario.phone "super" 0)
              H1 H2 H3 eq_refl eq_refl eq_refl) as (Ha & _ & _ & Hb & _).
  exact (conj Ha Hb).
Defined.

Lemma SuperAdminOnly_reads_token_role_witness :
  middleware.andThen
    (middleware.AdminJWTProtected (L := reference.lib) reference.cfg scenario.d0
       scenario.now ("Bearer " +:+ scenario.admin_token 1%N "admin" "regular" 0))
    middleware.SuperAdminOnly
  = Returns (middleware.Reject
               (handlers.APIResponse handlers.StatusForbidden false
                  "Super admin access required" [])).
Proof.
  assert (H1 : spec.is_int 0) by (vm_compute; split; discriminate).
  assert (H2 : scenario.now <= scenario.now) by (vm_compute; discriminate).
  exact (SuperAdminOnly_reads_token_role (HL := reference_laws) reference.cfg
           scenario.d0 scenario.now scenario.now 1%N "admin" "regular" 0
           (scenario.admin_token 1%N "admin" "regular" 0) H1 H2 eq_refl eq_refl).
Defined.

Lemma Login_single_session_witness :
  let out := scenario.Login scenario.d0 scenario.now scenario.login "" "" in
  middleware.JWTProtected (L := reference.lib) reference.cfg (snd out) scenario.now
    ("Bearer " +:+ scenario.user_token 7%N scenario.phone 0)
  = Returns (middleware.Unauthorized
               "Token has been invalidated. Please login again.")
  /\ handlers.RefreshToken (L := reference.lib) reference.cfg (snd out) scenario.now
       (scenario.now + 1000000)
       (Some {| handlers.RefreshRequest_RefreshToken :=
                  scenario.refresh_token 7%N scenario.phone 0 |})
     = Returns (handlers.APIResponse handlers.StatusUnauthorized false
                  "Token has been invalidated. Please login again." [], snd out).
Proof.
  intros out.
  assert (H1 : phoneRegex_MatchString scenario.phone = true) by reflexivity.
  assert (H2 : db.First (db.by_phone scenario.phone) (db.users scenario.d0)
               = Some scenario.user0) by reflexivity.
  assert (H3 : models.User_CheckPassword (L := reference.lib) scenario.user0
                 scenario.password = true) by (vm_compute; reflexivity).
  assert (H4 : spec.is_int (models.User_TokenVersion scenario.user0))
    by (vm_compute; split; discriminate).
  assert (H5 : spec.in_window reference.cfg scenario.now spec.UserAccess scenario.now)
    by (vm_compute; split; [discriminate|reflexivity]).
  assert (H6 : spec.in_window reference.cfg scenario.now spec.UserRefresh scenario.now)
    by (vm_compute; split; [discriminate|reflexivity]).
  destruct (Login_single_session (HL := reference_laws) reference.cfg scenario.d0
              scenario.phone scenario.password scenario.user0 scenario.now
              scenario.now scenario.now (scenario.now + 1000000) "" ""
              (scenario.user_token 7%N scenario.phone 0)
              (scenario.refresh_token 7%N scenario.phone 0)
              H1 H2 H3 H4 eq_refl eq_refl H5 H6 H5)
    as (new_access & refreshed & _ & _ & Ha & Hb).
  exact (conj Ha Hb).
Defined.

Lemma AdminLogin_single_session_witness :
  let out := handlers.AdminLogin (L := reference.lib) reference.cfg scenario.d0
               scenario.now
               (Some {| handlers.AdminLoginRequest_Username := "admin";
                        handlers.AdminLoginRequest_Password := "oldpassword" |})
               None in
  middleware.AdminJWTProtected (L := reference.lib) reference.cfg (snd out)
    scenario.now ("Bearer " +:+ scenario.admin_token 1%N "admin" "super" 0)
  = Returns (middleware.Unauthorized "Token has been invalidated").
Proof.
  intros out.
  assert (H1 : "admin"%string <> EmptyString) by discriminate.
  assert (H2 : "oldpassword"%string <> EmptyString) by discriminate.
  assert (H3 : db.First (db.by_username "admin") (db.admins scenario.d0)
               = Some scenario.admin0) by reflexivity.
  assert (H4 : models.Admin_CheckPassword (L := reference.lib) scenario.admin0
                 "oldpassword" = true) by (vm_compute; reflexivity).
  assert (H5 : spec.is_int (models.Admin_TokenVersion scenario.admin0))
    by (vm_compute; split; discriminate).
  assert (H6 : scenario.now <= scenario.now) by (vm_compute; discriminate).
  destruct (AdminLogin_single_session (HL := reference_laws) reference.cfg
              scenario.d0 scenario.now scenario.now scenario.now "admin"
              "oldpassword" scenario.admin0
              (scenario.admin_token 1%N "admin" "super" 0)
              H1 H2 H3 H4 H5 eq_refl H6 H6) as (new & _ & _ & Hb).
  exact Hb.
Defined.

Lemma CreateAdmin_then_AdminLogin_witness :
  let created := handlers.CreateAdmin (L := reference.lib) scenario.d0
                   (Some {| handlers.CreateAdminRequest_Username := "operator";
                            handlers.CreateAdminRequest_Password := "secret123";
                            handlers.CreateAdminRequest_Role := "regular" |})
                   2%N "salt4" None in
  let out := handlers.AdminLogin (L := reference.lib) reference.cfg (snd created)
               scenario.now
               (Some {| handlers.AdminLoginRequest_Username := "operator";
                        handlers.AdminLoginRequest_Password := "secret123" |})
               None in
  handlers.Status (fst out) = handlers.StatusOK
  /\ spec.admin_version (snd out) 2%N = Some 1.
Proof.
  intros created out.
  assert (H1 : "operator"%string <> EmptyString) by discriminate.
  assert (H2 : scenario.now <= scenario.now) by (vm_compute; discriminate).
  assert (H3 : handlers.Status (fst created) = handlers.StatusCreated)
    by (vm_compute; reflexivity).
  destruct (CreateAdmin_then_AdminLogin (HL := reference_laws) reference.cfg
              scenario.d0 "operator" "secret123" "regular" 2%N "salt4"
              scenario.now scenario.now H1 H2 H3) as (tok & Ha & _ & Hb & _).
  exact (conj Ha Hb).
Defined.

Lemma Register_then_Login_witness :
  let reg := handlers.Register (L := reference.lib) scenario.d0
               (Some {| handlers.RegisterRequest_Phone := "+77770000001";
                        handlers.RegisterRequest_Password := "password456" |})
               8%N "salt3" None in
  let out := handlers.Login (L := reference.lib) reference.cfg (snd reg) scenario.now
               (Some {| handlers.LoginRequest_Phone := "+77770000001";
                        handlers.LoginRequest_Password := "password456" |})
               "" "" None in
  handlers.Status (fst out) = handlers.StatusOK
  /\ spec.user_version (snd out) 8%N = Some 1.
Proof.
  intros reg out.
  assert (H1 : spec.in_window reference.cfg scenario.now spec.UserAccess scenario.now)
    by (vm_compute; split; [discriminate|reflexivity]).
  assert (H2 : handlers.Status (fst reg) = handlers.StatusCreated)
    by (vm_compute; reflexivity).
  destruct (Register_then_Login (HL := reference_laws) reference.cfg scenario.d0
              "+77770000001" "password456" 8%N "salt3" scenario.now scenario.now
              "" "" H1 H2) as (access & Ha & Hb & _).
  exact (conj Ha Hb).
Defined.

Lemma CheckPhoneAvailability_agrees_with_Register_witness :
  exists available,
    handlers.CheckPhoneAvailability scenario.d0 scenario.phone
    = Ok {| handlers.PhoneAvailabilityResponse_Success := true;
            handlers.PhoneAvailabilityResponse_Message := "Phone availability checked";
            handlers.PhoneAvailabilityResponse_Available := available |}
    /\ (available = false <->
        handlers.Status
          (fst (handlers.Register (L := reference.lib) scenario.d0
                  (Some {| handlers.RegisterRequest_Phone := scenario.phone;
                           handlers.RegisterRequest_Password := scenario.password |})
                  8%N "salt3" None)) = handlers.StatusConflict).
Proof.
  assert (H1 : phoneRegex_MatchString scenario.phone = true) by reflexivity.
  assert (H2 : (6 <= String.length scenario.password)%nat)
    by (vm_compute; repeat constructor).
  destruct (CheckPhoneAvailability_agrees_with_Register (L := reference.lib)
              scenario.d0 scenario.phone scenario.password 8%N "salt3" None H1 H2)
    as (available & Ha & Hb & _).
  exists available. exact (conj Ha Hb).
Defined.

Lemma DeleteUser_locks_out_witness :
  let out := handlers.DeleteUser (L := reference.lib) scenario.d0 scenario.now
               (reference.enc 7%N) None None in
  middleware.JWTProtected (L := reference.lib) reference.cfg (snd out) scenario.now
    ("Bearer " +:+ scenario.user_token 7%N scenario.phone 0)
  = Returns (middleware.Unauthorized "User not found")
  /\ handlers.RefreshToken (L := reference.lib) reference.cfg (snd out) scenario.now
       (scenario.now + 1000000)
       (Some {| handlers.RefreshRequest_RefreshToken :=
                  scenario.refresh_token 7%N scenario.phone 0 |})
     = Returns (handlers.APIResponse handlers.StatusUnauthorized false
                  "User not found" [], snd out).
Proof.
  intros out.
  assert (H1 : uuid_Parse (Lib := reference.lib) (reference.enc 7%N) = Some 7%N)
    by (vm_compute; reflexivity).
  assert (H2 : spec.user_by_id scenario.d0 7%N = Some scenario.user0) by reflexivity.
  assert (H3 : spec.is_int (models.User_TokenVersion scenario.user0))
    by (vm_compute; split; discriminate).
  assert (H4 : spec.in_window reference.cfg scenario.now spec.UserAccess scenario.now)
    by (vm_compute; split; [discriminate|reflexivity]).
  assert (H5 : spec.in_window reference.cfg scenario.now spec.UserRefresh scenario.now)
    by (vm_compute; split; [discriminate|reflexivity]).
  destruct (DeleteUser_locks_out (HL := reference_laws) reference.cfg scenario.d0
              scenario.now (reference.enc 7%N) 7%N scenario.user0 scenario.now
              scenario.now (scenario.now + 1000000)
              (scenario.user_token 7%N scenario.phone 0)
              (scenario.refresh_token 7%N scenario.phone 0)
              H1 H2 H3 eq_refl eq_refl H4 H5) as (_ & _ & Ha & Hb & _).
  exact (conj Ha Hb).
Defined.

Lemma DeleteUser_half_done_witness :
  let out := handlers.DeleteUser (L := reference.lib) scenario.d0 scenario.now
               (reference.enc 7%N) None (Some "connection lost"%string) in
  handlers.Status (fst out) = handlers.StatusInternalServerError
  /\ spec.user_version (snd out) 7%N = Some 1
  /\ middleware.JWTProtected (L := reference.lib) reference.cfg (snd out) scenario.now
       ("Bearer " +:+ scenario.user_token 7%N scenario.phone 0)
     = Returns (middleware.Unauthorized
                  "Token has been invalidated. Please login again.").
Proof.
  intros out.
  assert (H1 : uuid_Parse (Lib := reference.lib) (reference.enc 7%N) = Some 7%N)
    by (vm_compute; reflexivity).
  assert (H2 : spec.user_by_id scenario.d0 7%N = Some scenario.user0) by reflexivity.
  assert (H3 : spec.is_int (models.User_TokenVersion scenario.user0))
    by (vm_compute; split; discriminate).
  assert (H4 : spec.in_window reference.cfg scenario.now spec.UserAccess scenario.now)
    by (vm_compute; split; [discriminate|reflexivity]).
  destruct (DeleteUser_half_done (HL := reference_laws) reference.cfg scenario.d0
              scenario.now (reference.enc 7%N) 7%N scenario.user0 scenario.now
              scenario.now (scenario.user_token 7%N scenario.phone 0)
              "connection lost" H1 H2 H3 eq_refl H4) as (Ha & Hb & Hc).
  fold out in Ha, Hb, Hc.
  split; [rewrite Ha; reflexivity|]. split; [|exact Hc].
  unfold spec.user_version. rewrite Hb. reflexivity.
Defined.

Lemma DeleteAdmin_revokes_witness :
  let out := handlers.DeleteAdmin (L := reference.lib) scenario.d0 scenario.now
               (reference.enc 1%N) scenario.dialector None in
  handlers.Status (fst out) = handlers.StatusOK
  /\ spec.admin_by_id (snd out) 1%N = None
  /\ middleware.AdminJWTProtected (L := reference.lib) reference.cfg (snd out)
       scenario.now ("Bearer " +:+ scenario.admin_token 1%N "admin" "super" 0)
     = Returns (middleware.Unauthorized "Token has been invalidated").
Proof.
  intros out.
  assert (H1 : uuid_Parse (Lib := reference.lib) (reference.enc 1%N) = Some 1%N)
    by (vm_compute; reflexivity).
  assert (H2 : uuid_Parse (Lib := reference.lib) scenario.dialector <> Some 1%N)
    by (vm_compute; discriminate).
  assert (H3 : spec.admin_by_id scenario.d0 1%N = Some scenario.admin0)
    by reflexivity.
  assert (H4 : spec.is_int (models.Admin_TokenVersion scenario.admin0))
    by (vm_compute; split; discriminate).
  assert (H5 : scenario.now <= scenario.now) by (vm_compute; discriminate).
  destruct (DeleteAdmin_revokes (HL := reference_laws) reference.cfg scenario.d0
              scenario.now (reference.enc 1%N) scenario.dialector 1%N scenario.admin0
              scenario.now scenario.now (scenario.admin_token 1%N "admin" "super" 0)
              H1 H2 H3 H4 eq_refl H5) as (Ha & _ & Hb & Hc & _).
  fold out in Ha, Hb, Hc.
  split; [rewrite Ha; reflexivity|]. exact (conj Hb Hc).
Defined.

Lemma CreateInitialAdmin_idempotent_witness :
  exists d',
    db.CreateInitialAdmin (L := reference.lib) scenario.init_admin scenario.d_empty
      5%N "salt5" None = db.Started d'
    /\ spec.admin_version d' 1%N = Some 0
    /\ forall newID' salt' createErr',
         db.CreateInitialAdmin (L := reference.lib) scenario.init_admin d'
           newID' salt' createErr' = db.Started d'.
Proof.
  set (d' := {| db.users := [];
                db.admins :=
                  [ {| models.Admin_ID := 1%N;
                       models.Admin_Username := "admin";
                       models.Admin_Password :=
                         reference.enc ("salt5"%string, "oldpassword"%string);
                       models.Admin_Role := models.RoleSuper;
                       models.Admin_TokenVersion := 0;
                       models.Admin_DeletedAt := None |} ] |}).
  assert (H1 : uuid_Parse (Lib := reference.lib)
                 (config.InitAdminConfig_UUID scenario.init_admin) = Some 1%N)
    by (vm_compute; reflexivity).
  assert (H2 : 1%N <> uuid_Nil) by discriminate.
  assert (H3 : db.CreateInitialAdmin (L := reference.lib) scenario.init_admin
                 scenario.d_empty 5%N "salt5" None = db.Started d')
    by (vm_compute; reflexivity).
  destruct (CreateInitialAdmin_idempotent (HL := reference_laws) scenario.init_admin
              scenario.d_empty d' 1%N 5%N "salt5" None H1 H2 H3) as [_ Hagain].
  exists d'. split; [exact H3|]. split; [reflexivity|].
  intros newID' salt' createErr'. exact (Hagain scenario.init_admin _ _ _ eq_refl).
Defined.

Lemma CreateInitialAdmin_fatal_after_delete_witness :
  let out := handlers.DeleteAdmin (L := reference.lib) scenario.d0 scenario.now
               (reference.enc 1%N) scenario.dialector None in
  handlers.Status (fst out) = handlers.StatusOK
  /\ db.CreateInitialAdmin (L := reference.lib) scenario.init_admin (snd out)
       5%N "salt5" None
     = db.Fatal "Failed to create initial admin".
Proof.
  intros out.
  assert (H1 : uuid_Parse (Lib := reference.lib)
                 (config.InitAdminConfig_UUID scenario.init_admin) = Some 1%N)
    by (vm_compute; reflexivity).
  assert (H2 : uuid_Parse (Lib := reference.lib) (reference.enc 1%N) = Some 1%N)
    by (vm_compute; reflexivity).
  assert (H3 : 1%N <> uuid_Nil) by discriminate.
  assert (H4 : handlers.Status (fst out) = handlers.StatusOK)
    by (vm_compute; reflexivity).
  split; [exact H4|].
  exact (CreateInitialAdmin_fatal_after_delete (L := reference.lib)
           scenario.init_admin scenario.d0 scenario.now (reference.enc 1%N)
           scenario.dialector 1%N H1 H2 H3 H4 5%N "salt5" None).
Defined.

Lemma UpdateAdmin_regular_confined_witness :
  let out := handlers.UpdateAdmin (L := reference.lib) scenario.d0
               (reference.enc 1%N) "regular" 1%N (Some scenario.admin_password)
               "salt2" None in
  db.users (snd out) = db.users scenario.d0
  /\ option_map models.Admin_Role (spec.admin_by_id (snd out) 1%N)
     = Some models.RoleSuper.
Proof.
  intros out.
  assert (H1 : "regular"%string <> models.RoleSuper) by discriminate.
  destruct (UpdateAdmin_regular_confined (L := reference.lib) scenario.d0
              (reference.enc 1%N) "regular" 1%N (Some scenario.admin_password)
              "salt2" None H1) as (Ha & _ & Hb & _).
  exact (conj Ha (Hb 1%N)).
Defined.

Lemma UpdateAdmin_demotion_keeps_super_token_witness :
  let out := handlers.UpdateAdmin (L := reference.lib) scenario.d0
               (reference.enc 1%N) "super" 1%N
               (Some {| handlers.UpdateAdminRequest_Password := None;
                        handlers.UpdateAdminRequest_Username := None;
                        handlers.UpdateAdminRequest_Role := Some models.RoleRegular |})
               "salt2" None in
  option_map models.Admin_Role (spec.admin_by_id (snd out) 1%N)
  = Some models.RoleRegular
  /\ middleware.andThen
       (middleware.AdminJWTProtected (L := reference.lib) reference.cfg (snd out)
          scenario.now ("Bearer " +:+ scenario.admin_token 1%N "admin" "super" 0))
       middleware.SuperAdminOnly
     = Returns (middleware.Next
                  [("id", middleware.LocalUUID 1%N);
                   ("admin_username", middleware.LocalString "admin");
                   ("admin_role", middleware.LocalString models.RoleSuper)]%string).
Proof.
  intros out.
  assert (H1 : uuid_Parse (Lib := reference.lib) (reference.enc 1%N) = Some 1%N)
    by (vm_compute; reflexivity).
  assert (H2 : spec.admin_by_id scenario.d0 1%N = Some scenario.admin0)
    by reflexivity.
  assert (H3 : spec.is_int (models.Admin_TokenVersion scenario.admin0))
    by (vm_compute; split; discriminate).
  assert (H4 : scenario.now <= scenario.now) by (vm_compute; discriminate).
  assert (H5 : handlers.Status (fst out) = handlers.StatusOK)
    by (vm_compute; reflexivity).
  exact (UpdateAdmin_demotion_keeps_super_token (HL := reference_laws) reference.cfg
           scenario.d0 (reference.enc 1%N) "super" 1%N
           {| handlers.UpdateAdminRequest_Password := None;
              handlers.UpdateAdminRequest_Username := None;
              handlers.UpdateAdminRequest_Role := Some models.RoleRegular |}
           "salt2" 1%N scenario.admin0
           scenario.now scenario.now (scenario.admin_token 1%N "admin" "super" 0)
           H1 H2 H3 eq_refl eq_refl eq_refl H4 H5).
Defined.

Lemma admin_roles_stay_valid_witness :
  inv.roles_ok scenario.d0 = true
  /\ forall body newID salt createErr,
       inv.roles_ok
         (snd (handlers.CreateAdmin (L := reference.lib) scenario.d0 body newID
                 salt createErr)) = true.
Proof.
  assert (H : inv.roles_ok scenario.d0 = true) by reflexivity.
  split; [exact H|].
  exact (proj1 (admin_roles_stay_valid (L := reference.lib) scenario.d0 H)).
Defined.

Lemma phones_stay_unique_witness :
  inv.phones_unique scenario.d0
  /\ forall body newID salt createErr,
       inv.phones_unique
         (snd (handlers.Register (L := reference.lib) scenario.d0 body newID
                 salt createErr)).
Proof.
  assert (H : inv.phones_unique scenario.d0).
  { intros u1 u2 [<-|[]] [<-|[]] _ _ _. reflexivity. }
  split; [exact H|].
  exact (proj1 (phones_stay_unique (L := reference.lib) scenario.d0 H)).
Defined.

Lemma DeleteUser_frees_phone_witness :
  let out := handlers.DeleteUser (L := reference.lib) scenario.d0 scenario.now
               (reference.enc 7%N) None None in
  let reg := handlers.Register (L := reference.lib) (snd out)
               (Some {| handlers.RegisterRequest_Phone := scenario.phone;
                        handlers.RegisterRequest_Password := "password456" |})
               8%N "salt3" None in
  handlers.Status (fst reg) = handlers.StatusCreated
  /\ spec.user_version (snd reg) 8%N = Some 0
  /\ spec.user_by_id (snd reg) 7%N = None.
Proof.
  intros out reg.
  assert (H0 : inv.phones_unique scenario.d0).
  { intros u1 u2 [<-|[]] [<-|[]] _ _ _. reflexivity. }
  assert (H1 : uuid_Parse (Lib := reference.lib) (reference.enc 7%N) = Some 7%N)
    by (vm_compute; reflexivity).
  assert (H2 : spec.user_by_id scenario.d0 7%N = Some scenario.user0) by reflexivity.
  assert (H3 : phoneRegex_MatchString (models.User_Phone scenario.user0) = true)
    by reflexivity.
  assert (H4 : (6 <= String.length "password456")%nat)
    by (vm_compute; repeat constructor).
  assert (H5 : forall u, In u (db.users scenario.d0) -> models.User_ID u <> 8%N).
  { intros u [<-|[]]. discriminate. }
  destruct (DeleteUser_frees_phone (L := reference.lib) reference.cfg scenario.d0
              scenario.now scenario.now (reference.enc 7%N) 7%N scenario.user0
              "password456" "guess" 8%N "salt3"
              (reference.enc ("salt3"%string, "password456"%string)) "" "" None
              H0 H1 H2 H3 H4 H5 eq_refl) as (_ & _ & Ha & Hb & Hc).
  split; [exact (f_equal handlers.Status Ha)|]. split; [|exact Hc].
  exact (f_equal (option_map models.User_TokenVersion) Hb).
Defined.

Lemma rows_stay_ok_witness :
  inv.rows_ok scenario.d0 = true
  /\ forall body newID salt createErr,
       newID <> uuid_Nil ->
       inv.rows_ok
         (snd (handlers.Register (L := reference.lib) scenario.d0 body newID
                 salt createErr)) = true.
Proof.
  assert (H : inv.rows_ok scenario.d0 = true) by (vm_compute; reflexivity).
  split; [exact H|].
  exact (proj1 (rows_stay_ok (L := reference.lib) scenario.d0 H)).
Defined.

Lemma guards_let_through_only_current_tokens_witness :
  exists tok claims,
    ("Bearer " +:+ scenario.user_token 7%N scenario.phone 0)%string
    = ("Bearer " +:+ tok)%string
    /\ no_char " " tok
    /\ utils.ValidateToken (L := reference.lib) reference.cfg scenario.now tok
         utils.AccessToken = Returns (Ok claims)
    /\ spec.user_version scenario.d0 (utils.Claims_UserID claims)
       = Some (utils.Claims_TokenVersion claims)
    /\ [("id", middleware.LocalUUID 7%N);
        ("phone", middleware.LocalString scenario.phone)]%string
       = spec.user_locals claims.
Proof.
  assert (H : middleware.JWTProtected (L := reference.lib) reference.cfg scenario.d0
                scenario.now
                ("Bearer " +:+ scenario.user_token 7%N scenario.phone 0)
              = Returns (middleware.Next
                           [("id", middleware.LocalUUID 7%N);
                            ("phone", middleware.LocalString scenario.phone)]%string))
    by (vm_compute; reflexivity).
  exact (proj1 (guards_let_through_only_current_tokens (L := reference.lib)
                  reference.cfg scenario.d0 scenario.now _ _) H).
Defined.

Lemma user_session_ends_only_by_own_requests_witness :
  middleware.JWTProtected (L := reference.lib) reference.cfg scenario.d0
    scenario.now ("Bearer " +:+ scenario.user_token 7%N scenario.phone 0)
  = Returns (middleware.Next
               [("id", middleware.LocalUUID 7%N);
                ("phone", middleware.LocalString scenario.phone)]%string)
  /\ forall now1 param_id saveErr deleteErr,
       uuid_Parse (Lib := reference.lib) param_id <> Some 7%N ->
       middleware.JWTProtected (L := reference.lib) reference.cfg
         (snd (handlers.DeleteUser (L := reference.lib) scenario.d0 now1 param_id
                 saveErr deleteErr))
         scenario.now ("Bearer " +:+ scenario.user_token 7%N scenario.phone 0)
       = Returns (middleware.Next
                    [("id", middleware.LocalUUID 7%N);
                     ("phone", middleware.LocalString scenario.phone)]%string).
Proof.
  assert (H : middleware.JWTProtected (L := reference.lib) reference.cfg scenario.d0
                scenario.now
                ("Bearer " +:+ scenario.user_token 7%N scenario.phone 0)
              = Returns (middleware.Next
                           [("id", middleware.LocalUUID 7%N);
                            ("phone", middleware.LocalString scenario.phone)]%string))
    by (vm_compute; reflexivity).
  assert (H' : middleware.Locals "id"
                 [("id", middleware.LocalUUID 7%N);
                  ("phone", middleware.LocalString scenario.phone)]%string
               = Some (middleware.LocalUUID 7%N)) by reflexivity.
  destruct (user_session_ends_only_by_own_requests (L := reference.lib)
              reference.cfg scenario.d0 scenario.now _ _ 7%N H H')
    as (_ & _ & _ & _ & Hdel & _).
  exact (conj H Hdel).
Defined.

Lemma admin_session_ends_only_by_own_requests_witness :
  middleware.AdminJWTProtected (L := reference.lib) reference.cfg scenario.d0
    scenario.now ("Bearer " +:+ scenario.admin_token 1%N "admin" "super" 0)
  = Returns (middleware.Next
               [("id", middleware.LocalUUID 1%N);
                ("admin_username", middleware.LocalString "admin");
                ("admin_role", middleware.LocalString "super")]%string)
  /\ forall now1 param_id configName deleteErr,
       uuid_Parse (Lib := reference.lib) param_id <> Some 1%N ->
       middleware.AdminJWTProtected (L := reference.lib) reference.cfg
         (snd (handlers.DeleteAdmin (L := reference.lib) scenario.d0 now1 param_id
                 configName deleteErr))
         scenario.now ("Bearer " +:+ scenario.admin_token 1%N "admin" "super" 0)
       = Returns (middleware.Next
                    [("id", middleware.LocalUUID 1%N);
                     ("admin_username", middleware.LocalString "admin");
                     ("admin_role", middleware.LocalString "super")]%string).
Proof.
  assert (H : middleware.AdminJWTProtected (L := reference.lib) reference.cfg
                scenario.d0 scenario.now
                ("Bearer " +:+ scenario.admin_token 1%N "admin" "super" 0)
              = Returns (middleware.Next
                           [("id", middleware.LocalUUID 1%N);
                            ("admin_username", middleware.LocalString "admin");
                            ("admin_role", middleware.LocalString "super")]%string))
    by (vm_compute; reflexivity).
  assert (H' : middleware.Locals "id"
                 [("id", middleware.LocalUUID 1%N);
                  ("admin_username", middleware.LocalString "admin");
                  ("admin_role", middleware.LocalString "super")]%string
               = Some (middleware.LocalUUID 1%N)) by reflexivity.
  destruct (admin_session_ends_only_by_own_requests (L := reference.lib)
              reference.cfg scenario.d0 scenario.now _ _ 1%N H H')
    as (_ & _ & _ & _ & Hdel & _).
  exact (conj H Hdel).
Defined.

Lemma CreateAdmin_empty_username_cannot_login_witness :
  let created := handlers.CreateAdmin (L := reference.lib) scenario.d0
                   (Some {| handlers.CreateAdminRequest_Username := "";
                            handlers.CreateAdminRequest_Password := "password123";
                            handlers.CreateAdminRequest_Role := "regular" |})
                   9%N "salt9" None in
  handlers.Status (fst created) = handlers.StatusCreated
  /\ forall now p saveErr,
       handlers.AdminLogin (L := reference.lib) reference.cfg (snd created) now
         (Some {| handlers.AdminLoginRequest_Username := "";
                  handlers.AdminLoginRequest_Password := p |}) saveErr
       = (handlers.APIResponse handlers.StatusBadRequest false
            "Username and password are required" [], snd created).
Proof.
  intros created.
  assert (H : handlers.Status (fst created) = handlers.StatusCreated)
    by (vm_compute; reflexivity).
  destruct (CreateAdmin_empty_username_cannot_login (L := reference.lib)
              reference.cfg scenario.d0 "password123" "regular" 9%N "salt9" H)
    as (_ & Hlogin & _).
  exact (conj H Hlogin).
Defined.
